(* ===== verification/_CoqProject ===== *)
-Q . S2P
Prelude.v
Js.v
Model.v
Collaborators.v
Resolve.v
ResolveOrder.v
FilesEnv.v
Cumulative.v
Registry.v
Extends.v
Locations.v
Effects.v
Route.v
Interface.v
Discovery.v
Pass.v
PassFrame.v
Lifecycle.v
AnalyzePage.v
Witnesses.v
PageWitnesses.v
PassWitnesses.v
