(* ===== verification/Prelude.v ===== *)
(** * Vike configuration resolution: a Rocq model of getVikeConfig.ts

    This development models the configuration pass of Vike's V1 design,
    [src/vike/node/plugin/plugins/importUserCode/v1-design/getVikeConfig.ts],
    and proves the properties that make its results well defined.  The
    pass loads the interface files of a project (the [+config.js] files,
    the [+{configName}.js] value files and the configs they extend),
    groups them by location, and for every page and every config computes
    the list of sources of the config's value in priority order, from
    which the final value ([getConfigValues]) is taken: the first source,
    or, for a cumulative config, the merge of all of them.

    ** Parts of the program and how they interact

    - The pass runs with module-level mutable state (the [filesEnv] table
      of getVikeConfig.ts, the warnings it logs) and aborts on the first
      [assert]/[assertUsage] failure.  [Prelude.v] (this file) gives the
      state-and-error monad [st] of the development, its notations
      ([vike_scope]), the hint databases [vike] and [vike_rw], the tactics
      [inv_bind], [solve_indep], [solve_preserves_with],
      [solve_avoids_with], the generic relation [precedes] on lists, and
      the frame [st_frame] (an invariant kept on success, a postcondition
      on the state an error leaves) with its tactic [solve_frame_with].
    - [Js.v] models the JavaScript built-ins the code leans on: objects
      as insertion-ordered association lists ([Module JsObject]: lookup,
      assignment, [Object.keys], [Object.fromEntries]) and the stable
      [Array.prototype.sort] ([Module JsArray]) with the comparators
      [lowerFirst]/[higherFirst] of utils.
    - [Model.v] holds the data of the code: runtime values [value],
      [ConfigEnvInternal], [FilePath], the union [InterfaceFile]
      ([InterfaceConfigFile] | [InterfaceValueFile]) with object identity
      ([IFile], a numeric id standing for the JS object reference),
      [ConfigValueSource], [ConfigDefinitionInternal], the pass state
      [PassState] (the [filesEnv] table and the warnings), the errors of the
      pass ([UsageError], [VikeError]) and [assert]/[assertUsage]/
      [assertWarning].
    - [Collaborators.v] models what the file calls and does not define:
      [path.posix] on normalized absolute paths ([Module Path]),
      [startsWith], the import resolver as an interface
      ([Class ImportResolver]: [parseImportData] and [requireResolve]; every
      theorem of the engine holds for every instance), and the helpers of
      filesystemRouting.ts ([Module FilesystemRouting]), modelled from the
      specification because that file is not among the staged sources.
    - [Resolve.v] is the source resolution engine (Section [Resolve], over
      any [ImportResolver] and [userRootDir]): [resolveImport] and its
      helpers, [assertFileEnv], [getConfigValueSource] with its three
      branches, [makeOrderDeterministic] ([sortDeterministic]),
      [warnOverridenConfigValues], and [resolveConfigValueSources] split
      into [resolveLocation] (one location: winner, overridden files,
      side-effect exports, extended configs, the visited-set asserts) and
      [resolveLocations] (the loop over the locations of a page).
    - [ResolveOrder.v] states what the engine promises: [locationOrder]
      and [resolutionOrder], an abstract specification of the priority
      order as a list of interface files, and proves that the engine refines
      it ([resolveConfigValueSources_refines]), and the priority laws
      derived from it.
    - [FilesEnv.v] proves the invariant of the [filesEnv] table, and
      states the frame of a pass: a [Class FrameInvariant] of the state
      invariants kept by the two operations that write the state,
      [assertFileEnv] and [assertWarning] (with its [onlyOnce] keys,
      Model.v); the engine keeps every such invariant.
    - [Cumulative.v] models [getConfigValues], [getConfigValue] and
      [mergeCumulative] (arrays concatenated, sets unioned, mixing
      rejected), with [getDefinedAt] and the serializability check.
    - [Registry.v] is the definition registry: [getConfigDefinitions]
      spreads the validated [meta] entries of the relevant interface files
      ([assertMetaValue], [spreadMeta]) over the built-in definitions, given
      as an interface ([Class BuiltIns]); [assertConfigExists] and
      [handleUnknownConfig] reject unknown config names, with a suggestion
      from a [Class Similarity] (a Levenshtein instance in Collaborators.v).
    - [Extends.v] is the extends resolver: [loadConfigFile] (run through a
      [Class ModuleLoader] for [transpileAndExecuteFile]), [loadExtendsConfigs]
      and [assertNoInfiniteLoop]; the order in which the loads of
      [Promise.all] settle is a [Class Completion] (a permutation).
    - [Interface.v] loads the interface files: [getConfigName],
      [assertNoUnexpectedPlusSign], [loadValueFile],
      [getInterfaceFileFromConfigFile] and [loadInterfaceFiles], which
      numbers every interface object it creates ([IFile.ifId]).
    - [Discovery.v] is [findPlusFiles]: the ignore patterns, the crawl
      through a [Class Crawler] for fast-glob (its duration an input), the
      slow-crawl warning in development, the two paths of each crawled file
      through [path.posix.join] (modelled after Node's lib/path.js in
      [Module PathPosix], with [normalize]), and the extensions' pre-built
      files with their assertions; [loadInterfaceFilesFromRoot] composes it
      with [loadInterfaceFiles].  It also holds [handleUserFileError] (its
      outcome: rethrow in development, print and exit otherwise), which
      getVikeConfig.ts defines but never calls.
    - [Locations.v]: [getInterfaceFilesRelevant] (the locations a page
      inherits, deepest first), [getInterfaceFileList], [isDefiningPage],
      and [getGlobalConfigs] with its placement check.
    - [Effects.v]: the page config record [PageConfigBuildTime],
      [applyEffectsAll]/[applyEffect] and [applyComputed]; the user's
      [effect] and [_computed] functions are a [Class Host].
    - [Route.v]: [determineRouteFilesystem] with the
      [filesystemRoutingRoot] effect, the route-string helpers of
      filesystemRouting.ts as a [Class RouteStrings].
    - [Pass.v] composes them into [loadVikeConfig]: crawl and interface files,
      global configs, then the page callbacks of [Promise.all], each split
      at its first [await] ([preparePage]: relevant files, definitions, the
      custom [config-only] value files it starts loading) and resumed after
      its loads ([resumePage]: sources, route, values, effects, computed
      values); the order in which loads settle and pages resume is a list
      of events chosen by a [Class PageScheduler], and the interface objects
      the loads write into live in one store shared by the pages.
    - [Lifecycle.v] is the pass across dev-server reloads: the module
      state ([devServerIsCorrupt], [wasConfigInvalid], [vikeConfigPromise],
      [vikeConfigDependencies], the [filesEnv] table, and [isConfigInvalid]
      of isConfigInvalid.ts), the promise of each pass, and a step function
      [lstep] whose events are calls of [getVikeConfig] and
      [reloadVikeConfig] (which clears [vikeConfigDependencies] and
      [filesEnv]), additions to [vikeConfigDependencies] by the module
      loader, and the end of a pass, followed in the same microtask burst
      by the [handleReloadSideEffects] calls awaiting it.  The lifecycle is
      a Section over [runPass n], the [loadVikeConfig] of the [n]-th call:
      at its end the pass runs on the shared module state, and its success
      or failure decides how the promise settles.  [reachable] is the
      closure of [lstep] from the initial state.  PassWitnesses.v
      instantiates [runPass] with passes of Pass.v.
    - [PassFrame.v] extends the frame of FilesEnv.v to every operation of
      a pass, from the crawl to the page phase: whatever its
      collaborators, a whole [loadVikeConfig] keeps the [filesEnv]
      invariant, and when it throws, the table it leaves is described by
      the error.
    - [AnalyzePage.v] is [analyzePage] of the runtime
      (src/vike/node/runtime/renderPage/analyzePage.ts): the client
      dependencies and entries of a page with a config; what it calls is a
      [Class PageAnalysis].
    - [Witnesses.v], [PageWitnesses.v] and [PassWitnesses.v] build concrete
      projects (a resolver, module loaders, interface files in two
      locations, built-in definitions, a host and route strings) and apply
      every theorem with hypotheses to them, the hypotheses discharged by
      evaluation; [PassWitnesses.v] runs whole passes.

    ** What the theorems show

    - Refinement (ResolveOrder.v): for interface files with distinct
      identities, [resolveConfigValueSources] succeeds exactly with the
      sources that [getConfigValueSource] yields for the files of
      [resolutionOrder], in that order, and returns [undefined] exactly when
      no file defines the config.  The priority laws follow: the value
      file of the most specific defining location wins (ties broken by the
      shortest path, as [makeOrderDeterministic] does); a value file
      overrides a [+config.js] of its location; a more specific location
      comes first; a direct [+config.js] comes before the configs it
      extends.
    - Error and bug paths (Resolve.v): an import that resolves into a
      sibling directory whose name extends [userRootDir] ("/home/app2" for
      root "/home/app") passes the [startsWith] check of
      [resolveImportPath_relativeToUserRootDir] and then trips the internal
      assertion of [getVitePathFromAbsolutePath]: a crash of the pass
      instead of the "outside of root" usage error.
    - Invariant (Resolve.v, FilesEnv.v, PassFrame.v): a second environment
      for a file is the usage error naming both configs, and the table the
      error leaves keeps the entry pushed before the throw (line 746); a
      whole pass run on a table where each file has one environment either
      returns such a table, or fails with an environment conflict on a
      file the table now records with both environments, or fails with
      another error on a table that is still consistent.
    - Cumulative configs (Cumulative.v): arrays are concatenated and sets
      unioned in source order, and the first source of the other kind is
      rejected with an error naming it and its predecessor.

    - Registry (Registry.v): a config no meta declares keeps its built-in
      definition; the last declaring file (the least specific location)
      sets the environment; a [meta] entry that sets [env] and no [effect]
      keeps the [effect] of the definition before it, whatever the
      environment, so a definition with an effect and an env other than
      [config-only] passes validation (a divergence from the
      specification); [assertConfigExists] accepts exactly the known names.
    - Extends (Extends.v): [loadConfigFile] terminates within the fuel
      bound below; two files extending each other are the infinite-loop
      usage error; the extended configs are listed in the order
      [completionOrder] gives to their loads, while their paths keep the
      order of [extends] (a timing dependence).
    - Interface files (Interface.v): the objects [loadInterfaceFiles]
      creates are distinct whatever the order in which its loads settle,
      which discharges the identity hypothesis of the refinement; every
      value file has its own config in its config
      map; [getConfigName] gives back the name of a [+{configName}.js]
      file; a file named [+.js] crashes the pass on an internal
      assertion.
    - Discovery (Discovery.v): on a normalized root and crawler output,
      [findPlusFiles] gives each crawled path [p] the relative path [/p] and
      the absolute path [root/p], in crawl order, before the extensions'
      files, and [path.posix.relative] gives [p] back; an extension file
      with a [+] only in a directory name crashes on an internal assertion.
    - Locations, effects, routes (Locations.v, Effects.v, Route.v): the
      relevant locations are exactly the inherited ones, deepest first; a
      global config outside a global location is the usage error; an
      [env] effect rewrites the environment of every source of its target
      and nothing else; computed sources only come last; under a
      [filesystemRoutingRoot] the route of a page is its route string with
      the prefix of the config's location replaced by the config's value,
      on every branch of [determineRouteFilesystem] and its errors.
    - The pass (Pass.v): a successful pass has one page config per
      page-defining location, in order; a value file of a built-in config
      that the relevant [meta] made [config-only] is never loaded eagerly
      and crashes the pass on the internal assertion of line 365.
    - The lifecycle (Lifecycle.v): no reachable state lets an event fail
      (the [assert(false)] of [handleReloadSideEffects] is unreachable); a
      reload whose pass succeeds restores a valid config and a sound server
      with one restart at most; restarts are bounded by the passes that
      failed without tolerating an invalid config; a superseded pass that
      settles last still marks the config invalid; a pass still in flight
      at a reload runs on the table the reload cleared, and the reload's
      pass runs on the table that stale pass left, also when it threw,
      instead of a table of its own (PassWitnesses.v runs it on a valid
      project whose new pass fails on the old pass's entry).
    - Page analysis (AnalyzePage.v): only the server-side config values
      module is loaded for its assets alone, and only in development; Vike's
      client entry is loaded exactly when the page is not HTML-only.

    ** Bounds and fuel

    [loadConfigFile] recurses through [extends] and is written with fuel
    (Extends.v); running out is the internal error [Bug
    "loadConfigFile:fuel"].  [assertNoInfiniteLoop] keeps the stack of
    visited files duplicate-free, so when the resolver only returns paths
    of a finite set [U], a fuel above [length U] is never exhausted
    ([loadConfigFile_enough_fuel]).  Every other definition is a
    structural iteration; [JsArray.sort] is an insertion sort.

    ** What is not modelled, and why

    - The file-system crawl (fast-glob, in [findPlusFiles]) and running
      user code ([transpileAndExecuteFile]) are I/O: they are interfaces
      whose results the model takes as inputs; the clock that times the
      crawl is an input too.
    - [assertWarning] keys a message by its text without the colors of
      [pc.cyan], and reads the set of logged keys from the warning log of
      the pass state: other modules of Vike that log with [onlyOnce] are
      not modelled.
    - [Promise.all]: the order in which callbacks resume is an interface
      ([Class SettleOrder] in [loadInterfaceFiles], [Class Completion] for
      [extendsConfigs], [Class PageScheduler] for the pages); a callback's
      work after its [await] runs whole when it resumes, so the effects of
      loads that overlap in time are taken in that order.
    - When several callbacks of one [Promise.all] fail, the model reports
      the error of the first in its order, where the runtime reports the
      first to settle; both fail the pass.
    - In the lifecycle, a pass's reads and writes of [filesEnv] are taken
      together at its end, on the table of that moment: overlapping passes
      share the table a reload cleared, but the model does not interleave
      the writes of two passes inside one table.  [getViteDevServer] and
      the promise returned by [restart] are not modelled.
    - In [analyzePage], the older design ([analyzePageClientSide]) and
      the helpers of the shared runtime are an interface. *)

From stdpp Require Import base list strings.
From Stdlib Require Import Ascii ZArith Lia.
From Stdlib Require String.

(** ** A state-and-error monad

    The source threads two kinds of effects through the resolution pass:
    exceptions ([assert], [assertUsage] throw and abort the whole pass) and
    module-level mutable state (the [filesEnv] table, the warning log).
    [st S E A] is a computation over state [S] that either returns a value
    with the new state or fails with an error of type [E] together with the
    state reached when it was thrown: the state is module-level, so what a
    computation wrote before throwing outlives the exception. *)

Inductive outcome (A E : Type) : Type :=
| Ok (a : A)
| Err (e : E).
Arguments Ok {A E} a.
Arguments Err {A E} e.

Definition st (S E A : Type) : Type := S -> outcome (A * S) (E * S).

Section Monad.
Context {S E : Type}.

Definition st_ret {A} (a : A) : st S E A := fun s => Ok (a, s).

Definition st_bind {A B} (m : st S E A) (k : A -> st S E B) : st S E B :=
  fun s => match m s with
           | Ok (a, s') => k a s'
           | Err e => Err e
           end.

Definition st_raise {A} (e : E) : st S E A := fun s => Err (e, s).
Definition st_get : st S E S := fun s => Ok (s, s).
Definition st_put (s : S) : st S E unit := fun _ => Ok (tt, s).
Definition st_modify (f : S -> S) : st S E unit := fun s => Ok (tt, f s).

(** [forEach] over a list, in order, stopping at the first error. *)
Fixpoint st_iter {A} (f : A -> st S E unit) (l : list A) : st S E unit :=
  match l with
  | [] => st_ret tt
  | x :: l' => st_bind (f x) (fun _ => st_iter f l')
  end.

(** [Array.prototype.map] with an effectful callback. *)
Fixpoint st_map {A B} (f : A -> st S E B) (l : list A) : st S E (list B) :=
  match l with
  | [] => st_ret []
  | x :: l' => st_bind (f x) (fun b => st_bind (st_map f l') (fun bs => st_ret (b :: bs)))
  end.

(** A [forEach] that updates a local variable ([acc = f(acc, x)]). *)
Fixpoint st_fold {A B} (f : B -> A -> st S E B) (acc : B) (l : list A) : st S E B :=
  match l with
  | [] => st_ret acc
  | x :: l' => st_bind (f acc x) (fun acc' => st_fold f acc' l')
  end.
End Monad.

Declare Scope vike_scope.
Delimit Scope vike_scope with vike.
Notation "'let*' x ':=' m 'in' k" := (st_bind m (fun x => k))
  (at level 10, x name, m at level 100, k at level 200) : vike_scope.
Notation "'let*' ' p ':=' m 'in' k" := (st_bind m (fun x => match x with p => k end))
  (at level 10, p pattern, m at level 100, k at level 200) : vike_scope.
Notation "m '>>' k" := (st_bind m (fun _ => k))
  (at level 100, right associativity) : vike_scope.
Open Scope vike_scope.

Create HintDb vike discriminated.
Create Rewrite HintDb vike_rw.

Section MonadLemmas.
Context {S E : Type}.

Lemma st_bind_Ok {A B} (m : st S E A) (k : A -> st S E B) s b s' :
  st_bind m k s = Ok (b, s') ->
  exists a s1, m s = Ok (a, s1) /\ k a s1 = Ok (b, s').
Proof.
  unfold st_bind. destruct (m s) as [[a s1]|e]; [|discriminate]. eauto.
Qed.

Lemma st_bind_Err {A B} (m : st S E A) (k : A -> st S E B) s e :
  m s = Err e -> st_bind m k s = Err e.
Proof. unfold st_bind. by intros ->. Qed.

Lemma st_bind_step {A B} (m : st S E A) (k : A -> st S E B) s a s1 :
  m s = Ok (a, s1) -> st_bind m k s = k a s1.
Proof. unfold st_bind. by intros ->. Qed.

Lemma st_bind_assoc {A B C} (m : st S E A) (k1 : A -> st S E B) (k2 : B -> st S E C) s :
  st_bind (st_bind m k1) k2 s = st_bind m (fun a => st_bind (k1 a) k2) s.
Proof. unfold st_bind. by destruct (m s) as [[a s1]|e]. Qed.

Lemma st_bind_ret_r {A} (m : st S E A) s : st_bind m st_ret s = m s.
Proof. unfold st_bind. by destruct (m s) as [[a s1]|e]. Qed.

Lemma st_iter_app {A} (f : A -> st S E unit) l1 l2 s :
  st_iter f (l1 ++ l2) s = st_bind (st_iter f l1) (fun _ => st_iter f l2) s.
Proof.
  revert s. induction l1 as [|x l1 IH]; intros s; simpl; [reflexivity|].
  unfold st_bind. destruct (f x s) as [[[] s1]|e]; [|reflexivity].
  apply IH.
Qed.

Lemma st_fold_app {A B} (f : B -> A -> st S E B) acc l1 l2 s :
  st_fold f acc (l1 ++ l2) s = st_bind (st_fold f acc l1) (fun acc' => st_fold f acc' l2) s.
Proof.
  revert acc s. induction l1 as [|x l1 IH]; intros acc s; simpl; [reflexivity|].
  unfold st_bind. destruct (f acc x s) as [[acc1 s1]|e]; [|reflexivity].
  apply IH.
Qed.

Lemma st_fold_concat {A B} (f : B -> A -> st S E B) acc ls s :
  st_fold (fun acc' l => st_fold f acc' l) acc ls s = st_fold f acc (concat ls) s.
Proof.
  revert acc s. induction ls as [|l ls IH]; intros acc s; simpl; [reflexivity|].
  rewrite st_fold_app. unfold st_bind. destruct (st_fold f acc l s) as [[acc1 s1]|e]; [|reflexivity].
  apply IH.
Qed.

(** A map whose callback keeps the state and relates each input to its
    output keeps the state and relates the lists. *)
Lemma st_map_Forall2 {A B} (R : A -> B -> Prop) (f : A -> st S E B) l s bs s' :
  (forall x s0 b s1, f x s0 = Ok (b, s1) -> s1 = s0 /\ R x b) ->
  st_map f l s = Ok (bs, s') -> s' = s /\ Forall2 R l bs.
Proof.
  intros Hf. revert s bs. induction l as [|x l IH]; intros s bs H; simpl in H.
  - injection H as <- <-. auto.
  - apply st_bind_Ok in H as (b & s1 & Hx & H).
    apply st_bind_Ok in H as (bs' & s2 & Hl & H). injection H as <- <-.
    apply Hf in Hx as [-> Hr]. apply IH in Hl as [-> Hrs]. auto.
Qed.

(** A fold that returns ran its step on every element, and that step
    returned. *)
Lemma st_fold_elem_Ok {A B} (f : B -> A -> st S E B) acc l s r s' x :
  st_fold f acc l s = Ok (r, s') -> x ∈ l -> exists acc0 s0 r0 s1, f acc0 x s0 = Ok (r0, s1).
Proof.
  revert acc s. induction l as [|y l IH]; intros acc s H Hin; [by apply not_elem_of_nil in Hin|].
  simpl in H. apply st_bind_Ok in H as (a & s1 & Hy & H).
  apply elem_of_cons in Hin as [->|Hin]; [eauto|exact (IH _ _ H Hin)].
Qed.

(** An invariant of the accumulator that every step keeps holds at the end. *)
Lemma st_fold_inv {A B} (P : B -> Prop) (f : B -> A -> st S E B) acc l s acc' s' :
  (forall acc0 x s0 a s1, P acc0 -> f acc0 x s0 = Ok (a, s1) -> P a) ->
  P acc -> st_fold f acc l s = Ok (acc', s') -> P acc'.
Proof.
  intros Hf. revert acc s. induction l as [|x l IH]; intros acc s HP H; simpl in H.
  - by injection H as <- _.
  - apply st_bind_Ok in H as (a & s1 & Hx & H). eauto.
Qed.

Lemma st_map_length {A B} (f : A -> st S E B) l s bs s' :
  st_map f l s = Ok (bs, s') -> length bs = length l.
Proof.
  revert s bs. induction l as [|x l IH]; intros s bs H; simpl in H.
  - by inversion H.
  - apply st_bind_Ok in H as (b & s1 & _ & H).
    apply st_bind_Ok in H as (bs' & s2 & H & H').
    inversion H'; subst. simpl. f_equal. eauto.
Qed.
(** A [forEach] whose callback returns at once on every element returns. *)
Lemma st_iter_ok {A} (f : A -> st S E unit) l s :
  (forall x, x ∈ l -> f x s = Ok (tt, s)) -> st_iter f l s = Ok (tt, s).
Proof.
  induction l as [|x l IH]; intros Hf; simpl; [reflexivity|].
  rewrite (st_bind_step _ _ _ _ _ (Hf x (list_elem_of_here _ _))). apply IH. intros y Hy. apply Hf. by right.
Qed.

(** A map whose callback relates each input to its output relates the
    lists, whatever it does to the state. *)
Lemma st_map_rel {A B} (R : A -> B -> Prop) (f : A -> st S E B) l s bs s' :
  (forall x s0 b s1, f x s0 = Ok (b, s1) -> R x b) ->
  st_map f l s = Ok (bs, s') -> Forall2 R l bs.
Proof.
  intros Hf. revert s bs s'. induction l as [|x l IH]; intros s bs s' H; simpl in H.
  - injection H as <- _. constructor.
  - apply st_bind_Ok in H as (b & s1 & Hx & H).
    apply st_bind_Ok in H as (bs' & s2 & Hl & [= <- _]). constructor; [exact (Hf _ _ _ _ Hx)|exact (IH _ _ _ Hl)].
Qed.
(** The same, for a callback that relates only the members of [l]. *)
Lemma st_map_rel_elem {A B} (R : A -> B -> Prop) (f : A -> st S E B) l s bs s' :
  (forall x s0 b s1, x ∈ l -> f x s0 = Ok (b, s1) -> R x b) ->
  st_map f l s = Ok (bs, s') -> Forall2 R l bs.
Proof.
  intros Hf. revert s bs s'. induction l as [|x l IH]; intros s bs s' H; simpl in H.
  - injection H as <- _. constructor.
  - apply st_bind_Ok in H as (b & s1 & Hx & H).
    apply st_bind_Ok in H as (bs' & s2 & Hl & [= <- _]). constructor.
    + exact (Hf _ _ _ _ (list_elem_of_here _ _) Hx).
    + refine (IH _ _ _ _ Hl). intros y s0 b' s3 Hy. apply Hf. by right.
Qed.
End MonadLemmas.

(** ** Lists *)

(** A list built index by index from [l] is [l] seen through the maps. *)
Lemma Forall2_seq_fmap {A B C} (l : list A) (bs : list B) (g : B -> C) (h : A -> C) :
  Forall2 (fun i b => exists x, l !! i = Some x /\ g b = h x) (seq 0 (length l)) bs -> g <$> bs = h <$> l.
Proof.
  intros HF. pose proof (Forall2_length _ _ _ HF) as Hlen. rewrite length_seq in Hlen.
  apply list_eq. intros i. rewrite !list_lookup_fmap.
  destruct (l !! i) as [x|] eqn:Hl.
  - assert (Hi : seq 0 (length l) !! i = Some i) by (apply lookup_seq; apply lookup_lt_Some in Hl; lia).
    destruct (Forall2_lookup_l _ _ _ _ _ HF Hi) as (b & -> & x' & Hx' & Hg). simpl. congruence.
  - apply lookup_ge_None in Hl. by rewrite (proj2 (lookup_ge_None bs i)) by lia.
Qed.

Lemma Forall2_elem_of_l {A B} (R : A -> B -> Prop) l l' x :
  Forall2 R l l' -> x ∈ l -> exists y, y ∈ l' /\ R x y.
Proof.
  induction 1 as [|x0 y l0 l0' Hr _ IH]; intros Hx; [by apply not_elem_of_nil in Hx|].
  apply elem_of_cons in Hx as [->|Hx]; [exists y; split; [left|done]|].
  destruct (IH Hx) as (z & Hz & Hrz). exists z. split; [by right|done].
Qed.

(** Membership in [List.filter] with a boolean test. *)
Lemma elem_of_list_filter_bool {A} (f : A -> bool) (l : list A) x :
  x ∈ List.filter f l <-> x ∈ l /\ f x = true.
Proof. rewrite !list_elem_of_In. apply filter_In. Qed.

(** Replacing an element the test rejects adds one to the count of the
    elements it accepts exactly when it accepts the new one. *)
Lemma filter_length_insert {A} (f : A -> bool) (l : list A) i x y :
  l !! i = Some y -> f y = false ->
  length (List.filter f (<[i := x]> l)) = length (List.filter f l) + (if f x then 1 else 0).
Proof.
  revert i. induction l as [|z l IH]; intros [|i] Hy Hf; try discriminate; simpl in *.
  - injection Hy as ->. rewrite Hf. destruct (f x); simpl; lia.
  - destruct (f z); simpl; rewrite (IH i Hy Hf); lia.
Qed.

Lemma NoDup_map_filter {A B} (g : A -> B) (p : A -> bool) (l : list A) :
  NoDup (map g l) -> NoDup (map g (List.filter p l)).
Proof.
  induction l as [|x l IH]; simpl; [done|]. intros [Hx Hnd]%NoDup_cons.
  destruct (p x); simpl; [|auto]. constructor; [|auto].
  intros Hin. apply Hx. apply list_elem_of_In in Hin. apply list_elem_of_In.
  apply in_map_iff in Hin as (y & <- & Hy). apply in_map. apply filter_In in Hy. tauto.
Qed.

(** [inv_bind] splits every successful bind in the hypotheses. *)
Ltac inv_bind :=
  repeat match goal with
  | H : st_bind _ _ _ = Ok _ |- _ =>
      let a := fresh "a" in let s := fresh "s" in let Hm := fresh "Hm" in
      apply st_bind_Ok in H as (a & s & Hm & H)
  | H : st_ret _ _ = Ok _ |- _ => unfold st_ret in H; inversion H; clear H; subst
  | H : Ok _ = Ok _ |- _ => inversion H; clear H; subst
  end.

(** ** Computations whose result does not depend on the incoming state

    The state of a pass only ever makes a computation fail or not; when
    two runs succeed they return the same value.  [st_value_indep m]
    states this, and composes through [st_bind]. *)
Section ValueIndep.
Context {S E : Type}.

Definition st_value_indep {A} (m : st S E A) : Prop :=
  forall s1 s2 a1 a2 s1' s2', m s1 = Ok (a1, s1') -> m s2 = Ok (a2, s2') -> a1 = a2.

Lemma indep_ret {A} (a : A) : st_value_indep (st_ret a : st S E A).
Proof. intros ??????; unfold st_ret; congruence. Qed.

Lemma indep_raise {A} (e : E) : st_value_indep (st_raise e : st S E A).
Proof. intros ??????; unfold st_raise; congruence. Qed.

Lemma indep_unit (m : st S E unit) : st_value_indep m.
Proof. intros ?? [] [] ???; done. Qed.

Lemma indep_bind {A B} (m : st S E A) (k : A -> st S E B) :
  st_value_indep m -> (forall a, st_value_indep (k a)) -> st_value_indep (st_bind m k).
Proof.
  intros Hm Hk s1 s2 b1 b2 s1' s2' H1 H2.
  apply st_bind_Ok in H1 as (a1 & t1 & H1 & K1).
  apply st_bind_Ok in H2 as (a2 & t2 & H2 & K2).
  pose proof (Hm _ _ _ _ _ _ H1 H2); subst. exact (Hk _ _ _ _ _ _ _ K1 K2).
Qed.
End ValueIndep.

#[export] Hint Resolve indep_ret indep_raise indep_unit indep_bind : vike.

(** [solve_indep] proves [st_value_indep] of a computation by walking its
    binds and case splits. *)
Ltac solve_indep :=
  repeat first
    [ apply indep_unit
    | apply indep_ret
    | apply indep_raise
    | apply indep_bind; [|intros ?]
    | progress (match goal with |- st_value_indep (match ?x with _ => _ end) => destruct x end)
    | progress (match goal with |- st_value_indep (if ?x then _ else _) => destruct x end) ].

(** ** Order of elements in a list *)

(** [x] occurs strictly before [y] in [l]. *)
Definition precedes {A} (x y : A) (l : list A) : Prop :=
  exists i j, i < j /\ l !! i = Some x /\ l !! j = Some y.

Lemma precedes_app_l {A} (x y : A) l1 l2 : x ∈ l1 -> y ∈ l2 -> precedes x y (l1 ++ l2).
Proof.
  intros [i Hi]%list_elem_of_lookup [j Hj]%list_elem_of_lookup.
  exists i, (length l1 + j). pose proof (lookup_lt_Some _ _ _ Hi).
  split; [lia|]. split.
  - by rewrite lookup_app_l.
  - rewrite lookup_app_r by lia. by replace (length l1 + j - length l1) with j by lia.
Qed.

Lemma precedes_app_r {A} (x y : A) l1 l2 : precedes x y l2 -> precedes x y (l1 ++ l2).
Proof.
  intros (i & j & Hij & Hi & Hj). exists (length l1 + i), (length l1 + j).
  split; [lia|]. rewrite !lookup_app_r by lia.
  replace (length l1 + i - length l1) with i by lia.
  replace (length l1 + j - length l1) with j by lia. auto.
Qed.

Lemma precedes_app_weaken_l {A} (x y : A) l1 l2 : precedes x y l1 -> precedes x y (l1 ++ l2).
Proof.
  intros (i & j & Hij & Hi & Hj). exists i, j. split; [done|].
  split; by apply lookup_app_l_Some.
Qed.

(** Related lists ([Forall2]) carry the order over. *)
Lemma precedes_Forall2 {A B} (R : A -> B -> Prop) (x y : A) l l' :
  Forall2 R l l' -> precedes x y l ->
  exists i j x' y', i < j /\ l' !! i = Some x' /\ l' !! j = Some y' /\ R x x' /\ R y y'.
Proof.
  intros HR (i & j & Hij & Hi & Hj).
  destruct (Forall2_lookup_l _ _ _ _ _ HR Hi) as (x' & Hx' & Rx).
  destruct (Forall2_lookup_l _ _ _ _ _ HR Hj) as (y' & Hy' & Ry).
  exists i, j, x', y'. auto.
Qed.

(** ** Computations that preserve a state invariant *)
Section Preserves.
Context {S E : Type} (P : S -> Prop).

Definition st_preserves {A} (m : st S E A) : Prop :=
  forall s a s', P s -> m s = Ok (a, s') -> P s'.

Lemma preserves_ret {A} (a : A) : st_preserves (st_ret a).
Proof. intros s ?? HP H. unfold st_ret in H. congruence. Qed.

Lemma preserves_raise {A} (e : E) : st_preserves (st_raise e : st S E A).
Proof. intros s ?? _ H. discriminate. Qed.

Lemma preserves_bind {A B} (m : st S E A) (k : A -> st S E B) :
  st_preserves m -> (forall a, st_preserves (k a)) -> st_preserves (st_bind m k).
Proof.
  intros Hm Hk s b s' HP H. apply st_bind_Ok in H as (a & s1 & H1 & H2).
  exact (Hk a s1 b s' (Hm s a s1 HP H1) H2).
Qed.

Lemma preserves_iter {A} (f : A -> st S E unit) l :
  (forall x, st_preserves (f x)) -> st_preserves (st_iter f l).
Proof.
  intros Hf. induction l as [|x l IH]; simpl; [apply preserves_ret|].
  apply preserves_bind; auto.
Qed.

Lemma preserves_map {A B} (f : A -> st S E B) l :
  (forall x, st_preserves (f x)) -> st_preserves (st_map f l).
Proof.
  intros Hf. induction l as [|x l IH]; simpl; [apply preserves_ret|].
  apply preserves_bind; [auto|intros; apply preserves_bind; [auto|intros; apply preserves_ret]].
Qed.

Lemma preserves_fold {A B} (f : B -> A -> st S E B) acc l :
  (forall acc x, st_preserves (f acc x)) -> st_preserves (st_fold f acc l).
Proof.
  intros Hf. revert acc. induction l as [|x l IH]; intros acc; simpl; [apply preserves_ret|].
  apply preserves_bind; auto.
Qed.
End Preserves.

#[export] Hint Resolve preserves_ret preserves_raise preserves_bind preserves_iter
  preserves_map preserves_fold : vike.

(** [solve_preserves_with leaf] walks binds and case splits, trying the
    lemmas of the primitive state changes ([leaf]) first, so that a
    primitive is not unfolded into its own binds. *)
Ltac solve_preserves_with leaf :=
  repeat first
    [ leaf
    | apply preserves_ret
    | apply preserves_raise
    | apply preserves_iter; intros ?
    | apply preserves_map; intros ?
    | apply preserves_fold; intros ? ?
    | apply preserves_bind; [|intros ?]
    | progress (match goal with |- st_preserves _ (match ?x with _ => _ end) => destruct x end)
    | progress (match goal with |- st_preserves _ (if ?x then _ else _) => destruct x end) ].

(** ** The frame of a computation, errors included

    [st_frame P Q m]: from a state satisfying [P], [m] either returns in
    a state satisfying [P] or throws an error [e] in a state satisfying
    [Q e].  Since an error keeps the state it was thrown in, this is the
    invariant to prove of module-level state that outlives a failure. *)
Section Frame.
Context {S E : Type} (P : S -> Prop) (Q : E -> S -> Prop).

Definition st_frame {A} (m : st S E A) : Prop :=
  forall s, P s -> match m s with Ok (_, s') => P s' | Err (e, s') => Q e s' end.

Lemma frame_ret {A} (a : A) : st_frame (st_ret a).
Proof. intros s Hs. exact Hs. Qed.

Lemma frame_raise {A} (e : E) : (forall s, P s -> Q e s) -> st_frame (st_raise e : st S E A).
Proof. intros He s Hs. exact (He s Hs). Qed.

Lemma frame_bind {A B} (m : st S E A) (k : A -> st S E B) :
  st_frame m -> (forall a, st_frame (k a)) -> st_frame (st_bind m k).
Proof.
  intros Hm Hk s Hs. specialize (Hm s Hs). unfold st_bind.
  destruct (m s) as [[a s1]|[e s1]]; [exact (Hk a s1 Hm)|exact Hm].
Qed.

Lemma frame_iter {A} (f : A -> st S E unit) l : (forall x, st_frame (f x)) -> st_frame (st_iter f l).
Proof. intros Hf. induction l as [|x l IH]; simpl; [apply frame_ret|]. by apply frame_bind. Qed.

Lemma frame_map {A B} (f : A -> st S E B) l : (forall x, st_frame (f x)) -> st_frame (st_map f l).
Proof.
  intros Hf. induction l as [|x l IH]; simpl; [apply frame_ret|].
  apply frame_bind; [auto|intros; apply frame_bind; [auto|intros; apply frame_ret]].
Qed.

Lemma frame_fold {A B} (f : B -> A -> st S E B) acc l :
  (forall acc x, st_frame (f acc x)) -> st_frame (st_fold f acc l).
Proof.
  intros Hf. revert acc. induction l as [|x l IH]; intros acc; simpl; [apply frame_ret|].
  by apply frame_bind.
Qed.

Lemma frame_Ok {A} (m : st S E A) s a s' : st_frame m -> P s -> m s = Ok (a, s') -> P s'.
Proof. intros Hm Hs He. specialize (Hm s Hs). by rewrite He in Hm. Qed.
End Frame.

(** [solve_frame_with leaf] walks binds, loops and case splits; [leaf]
    discharges the primitive computations. *)
Ltac solve_frame_with leaf :=
  repeat first
    [ leaf
    | apply frame_ret
    | apply frame_iter; intros ?
    | apply frame_map; intros ?
    | apply frame_fold; intros ? ?
    | apply frame_bind; [|intros ?]
    | progress (match goal with |- st_frame _ _ (match ?x with _ => _ end) => destruct x end)
    | progress (match goal with |- st_frame _ _ (if ?x then _ else _) => destruct x end) ].

(** ** Computations that never fail with a given error

    [st_avoids bad m]: [m] never fails with [bad] (e.g. the out-of-fuel
    error of a fuel-bounded recursion).  [st_post Q m]: the result of every
    successful run satisfies [Q]. *)
Section Avoids.
Context {S E : Type} (bad : E).

Definition st_avoids {A} (m : st S E A) : Prop := forall s s', m s <> Err (bad, s').
Definition st_post {A} (Q : A -> Prop) (m : st S E A) : Prop :=
  forall s a s', m s = Ok (a, s') -> Q a.

Lemma avoids_ret {A} (a : A) : st_avoids (st_ret a).
Proof. intros s s'. discriminate. Qed.

Lemma avoids_raise {A} (e : E) : e <> bad -> st_avoids (st_raise e : st S E A).
Proof. intros Hne s s' [= He _]. congruence. Qed.

Lemma avoids_modify (f : S -> S) : st_avoids (st_modify f).
Proof. intros s s'. discriminate. Qed.

Lemma avoids_bind_post {A B} (Q : A -> Prop) (m : st S E A) (k : A -> st S E B) :
  st_avoids m -> st_post Q m -> (forall a, Q a -> st_avoids (k a)) -> st_avoids (st_bind m k).
Proof.
  intros Hm HQ Hk s s'. unfold st_bind. destruct (m s) as [[a s1]|[e se]] eqn:E1.
  - exact (Hk a (HQ _ _ _ E1) s1 s').
  - intros [= -> ->]. exact (Hm s s' E1).
Qed.

Lemma avoids_bind {A B} (m : st S E A) (k : A -> st S E B) :
  st_avoids m -> (forall a, st_avoids (k a)) -> st_avoids (st_bind m k).
Proof. intros Hm Hk. apply (avoids_bind_post (fun _ => True)); auto. by intros ???. Qed.

Lemma avoids_map {A B} (f : A -> st S E B) l :
  (forall x, x ∈ l -> st_avoids (f x)) -> st_avoids (st_map f l).
Proof.
  induction l as [|x l IH]; intros Hf; simpl; [apply avoids_ret|].
  apply avoids_bind; [apply Hf; left|intros b].
  apply avoids_bind; [apply IH; intros y Hy; apply Hf; by right|intros; apply avoids_ret].
Qed.

Lemma avoids_fold {A B} (f : B -> A -> st S E B) acc l :
  (forall acc x, x ∈ l -> st_avoids (f acc x)) -> st_avoids (st_fold f acc l).
Proof.
  revert acc. induction l as [|x l IH]; intros acc Hf; simpl; [apply avoids_ret|].
  apply avoids_bind; [apply Hf; left|intros acc'; apply IH; intros ?? Hy; apply Hf; by right].
Qed.

Lemma post_map {A B} (Q : B -> Prop) (f : A -> st S E B) l :
  (forall x, st_post Q (f x)) -> st_post (Forall Q) (st_map f l).
Proof.
  intros Hf. induction l as [|x l IH]; intros s bs s' H; simpl in H.
  - injection H as <- _. constructor.
  - apply st_bind_Ok in H as (b & s1 & Hx & H).
    apply st_bind_Ok in H as (bs' & s2 & Hl & [= <- _]).
    constructor; [exact (Hf _ _ _ _ Hx)|exact (IH _ _ _ Hl)].
Qed.
End Avoids.

#[export] Hint Resolve avoids_ret avoids_modify : vike.

(** [solve_avoids_with leaf] walks binds and case splits; a raise is
    discharged when its error differs from the avoided one. *)
Ltac solve_avoids_with leaf :=
  repeat first
    [ leaf
    | apply avoids_ret
    | apply avoids_modify
    | apply avoids_raise; discriminate
    | apply avoids_map; intros ? ?
    | apply avoids_fold; intros ? ? ?
    | apply avoids_bind; [|intros ?]
    | progress (match goal with |- st_avoids _ (match ?x with _ => _ end) => destruct x end)
    | progress (match goal with |- st_avoids _ (if ?x then _ else _) => destruct x end) ].

(** ** Loops that fail

    [st_ok_or_fails P m]: [m] either succeeds or fails with an error
    satisfying [P], without touching the state; [st_fails P m]: it always
    fails so.  A [forEach] fails as soon as one of its bodies does. *)

Section Fails.
Context {S E : Type} (P : E -> Prop).

Definition st_ok_or_fails (m : st S E unit) : Prop :=
  forall s, m s = Ok (tt, s) \/ exists e, m s = Err (e, s) /\ P e.
Definition st_fails {A} (m : st S E A) : Prop := forall s, exists e, m s = Err (e, s) /\ P e.

Lemma fails_ok_or_fails (m : st S E unit) : st_fails m -> st_ok_or_fails m.
Proof. intros H s. right. apply H. Qed.

Lemma iter_ok_or_fails {A} (f : A -> st S E unit) l :
  (forall x, x ∈ l -> st_ok_or_fails (f x)) -> st_ok_or_fails (st_iter f l).
Proof.
  induction l as [|x l IH]; intros Hf s; simpl; [by left|]. unfold st_bind.
  destruct (Hf x ltac:(by left) s) as [->|(e & -> & He)]; [|eauto].
  apply IH. intros y Hy. apply Hf. by right.
Qed.

Lemma iter_fails {A} (f : A -> st S E unit) l x :
  (forall y, y ∈ l -> st_ok_or_fails (f y)) -> x ∈ l -> st_fails (f x) -> st_fails (st_iter f l).
Proof.
  induction l as [|y l IH]; intros Hf Hx Hfx s; [by apply not_elem_of_nil in Hx|]. simpl. unfold st_bind.
  apply elem_of_cons in Hx as [->|Hx].
  - destruct (Hfx s) as (e & -> & He). eauto.
  - destruct (Hf y ltac:(by left) s) as [->|(e & -> & He)]; [|eauto].
    apply IH; [intros z Hz; apply Hf; by right|done|done].
Qed.

End Fails.
