(* ===== verification/Js.v ===== *)
(** * The JavaScript runtime behaviour the resolution code relies on

    - A plain object used as a dictionary ([Record<string, T>]) keeps its
      keys in insertion order; assigning an existing key updates it in place.
      Every key the code stores (config names, location ids beginning with
      '/') is a non-index string, so the insertion order is the iteration
      order of [Object.keys], [Object.values] and [Object.entries].  We model
      it as an association list without duplicate keys.
    - [Array.prototype.sort] is stable (ECMAScript 2019) and takes a
      comparator; [lowerFirst] and [higherFirst] (vike's utils/sorter.ts)
      build comparators from a numeric key. *)

From stdpp Require Import base list strings.
From Stdlib Require Import Ascii Lia Sorted.
From Stdlib Require String.
From S2P Require Import Prelude.

Module JsObject.
Section Obj.
Context {A : Type}.

Definition t := list (string * A).

Definition empty : t := [].

(** [o[k]] *)
Fixpoint get (k : string) (o : t) : option A :=
  match o with
  | [] => None
  | (k', v) :: o' => if String.eqb k k' then Some v else get k o'
  end.

(** [o[k] = v]: in place when [k] is present, appended otherwise. *)
Fixpoint set (k : string) (v : A) (o : t) : t :=
  match o with
  | [] => [(k, v)]
  | (k', v') :: o' => if String.eqb k k' then (k', v) :: o' else (k', v') :: set k v o'
  end.

Definition keys (o : t) : list string := map fst o.
Definition values (o : t) : list A := map snd o.

(** [Object.fromEntries]: later entries overwrite earlier ones. *)
Definition fromEntries (l : list (string * A)) : t :=
  fold_left (fun o '(k, v) => set k v o) l empty.

Lemma get_set_eq k v o : get k (set k v o) = Some v.
Proof.
  induction o as [|[k' v'] o IH]; simpl; [by rewrite String.eqb_refl|].
  destruct (String.eqb k k') eqn:E; simpl; rewrite ?E; [done|exact IH].
Qed.

(** A second write to a key replaces the first. *)
Lemma set_set k v v' o : set k v (set k v' o) = set k v o.
Proof.
  induction o as [|[k' v''] o IH]; simpl; [by rewrite String.eqb_refl|].
  destruct (String.eqb k k') eqn:E; simpl; rewrite E; [done|by rewrite IH].
Qed.

Lemma get_set_ne k k' v o : k <> k' -> get k' (set k v o) = get k' o.
Proof.
  intros Hne. induction o as [|[k'' v'] o IH]; simpl.
  - destruct (String.eqb_spec k' k); [congruence|done].
  - destruct (String.eqb_spec k k''); simpl.
    + subst. destruct (String.eqb_spec k' k''); [congruence|done].
    + by rewrite IH.
Qed.

Lemma get_None k o : get k o = None <-> k ∉ keys o.
Proof.
  induction o as [|[k' v'] o IH]; simpl; [split; [intros _; apply not_elem_of_nil|done]|].
  unfold keys in *. simpl. rewrite not_elem_of_cons.
  destruct (String.eqb_spec k k'); [subst; split; [discriminate|tauto]|].
  rewrite IH. tauto.
Qed.

Lemma set_fresh k v o : k ∉ keys o -> set k v o = o ++ [(k, v)].
Proof.
  induction o as [|[k' v'] o IH]; simpl; [done|]. unfold keys; simpl.
  rewrite not_elem_of_cons. intros [Hk Hn].
  destruct (String.eqb_spec k k'); [congruence|]. by rewrite IH.
Qed.

Lemma fold_set_fresh o l :
  NoDup (keys (o ++ l)) -> fold_left (fun o '(k, v) => set k v o) l o = o ++ l.
Proof.
  revert o. induction l as [|[k v] l IH]; intros o Hnd; simpl; [by rewrite app_nil_r|].
  unfold keys in Hnd. rewrite map_app in Hnd. simpl in Hnd.
  apply NoDup_app in Hnd as (Ho & Hdisj & Hkl). apply NoDup_cons in Hkl as [Hk Hl].
  rewrite set_fresh by (intros Hin; exact (Hdisj k Hin (list_elem_of_here _ _))).
  rewrite IH; [by rewrite <- app_assoc|].
  unfold keys. rewrite <- app_assoc. simpl. rewrite map_app. simpl.
  apply NoDup_app. split; [done|]. split; [|by constructor].
  intros x Hx Hxl. exact (Hdisj x Hx Hxl).
Qed.

(** [Object.fromEntries] of entries with distinct keys keeps them in order. *)
Lemma fromEntries_NoDup l : NoDup (keys l) -> fromEntries l = l.
Proof. intros Hnd. exact (fold_set_fresh [] l Hnd). Qed.

Lemma keys_set k v o :
  keys (set k v o) = if decide (k ∈ keys o) then keys o else keys o ++ [k].
Proof.
  induction o as [|[k' v'] o IH]; simpl; [done|].
  destruct (String.eqb_spec k k'); simpl.
  - subst. rewrite decide_True; [done|by left].
  - rewrite IH. unfold keys. simpl.
    destruct (decide (k ∈ map fst o)) as [Hin|Hin].
    + rewrite decide_True; [done|]. by right.
    + rewrite decide_False; [done|]. rewrite elem_of_cons. intuition.
Qed.

(** Assignment keeps every key. *)
Lemma keys_set_mono k v o k' : k' ∈ keys o -> k' ∈ keys (set k v o).
Proof. intros H. rewrite keys_set. case_decide; [done|]. apply elem_of_app. by left. Qed.

Lemma set_NoDup k v o : NoDup (keys o) -> NoDup (keys (set k v o)).
Proof.
  rewrite keys_set. case_decide; [done|].
  intros Hnd. apply NoDup_app. split; [done|]. split; [|apply NoDup_singleton].
  intros x Hx Hy. apply list_elem_of_singleton in Hy. by subst.
Qed.

Lemma get_Some_In k v o : get k o = Some v -> In (k, v) o.
Proof.
  induction o as [|[k' v'] o IH]; simpl; [discriminate|].
  destruct (String.eqb_spec k k'); [intros [= ->]; subst; by left|].
  intros H. right. auto.
Qed.
End Obj.

(** Appending to the list stored under a key ([o[k] ??= []; o[k].push(...)])
    appends to the concatenation of all the lists. *)
Lemma values_set_append {B} k (l' : list B) (o : @t (list B)) :
  concat (values (set k (default [] (get k o) ++ l') o)) ≡ₚ concat (values o) ++ l'.
Proof.
  induction o as [|[k' v'] o IH]; simpl; [by rewrite !app_nil_r|].
  destruct (String.eqb_spec k k'); simpl.
  - rewrite <- !app_assoc. apply Permutation_app_head, Permutation_app_comm.
  - rewrite IH. by rewrite app_assoc.
Qed.
Arguments t : clear implicits.
End JsObject.

#[export] Hint Rewrite @JsObject.get_set_eq : vike_rw.

Module JsArray.
Section Sort.
Context {A : Type} (cmp : A -> A -> comparison).

(** Insert [x] before the first element that does not sort strictly
    before it: elements that compare equal keep their relative order. *)
Fixpoint insert (x : A) (l : list A) : list A :=
  match l with
  | [] => [x]
  | y :: l' => match cmp x y with
               | Gt => y :: insert x l'
               | _ => x :: y :: l'
               end
  end.

(** [arr.sort(cmp)], a stable sort. *)
Fixpoint sort (l : list A) : list A :=
  match l with
  | [] => []
  | x :: l' => insert x (sort l')
  end.

Lemma insert_perm x l : Permutation (insert x l) (x :: l).
Proof.
  induction l as [|y l IH]; simpl; [done|].
  destruct (cmp x y); [done|done|].
  rewrite IH. apply perm_swap.
Qed.

Lemma sort_perm l : Permutation (sort l) l.
Proof.
  induction l as [|x l IH]; simpl; [done|].
  by rewrite insert_perm, IH.
Qed.

(** A comparator that agrees with a relation [R] ([R x y] unless [x]
    sorts strictly after [y], [R y x] when it does) sorts into [R] order. *)
Section Sorted.
Context (R : A -> A -> Prop).
Hypothesis cmp_le : forall x y, cmp x y <> Gt -> R x y.
Hypothesis cmp_gt : forall x y, cmp x y = Gt -> R y x.

Lemma insert_sorted x l : Sorted R l -> Sorted R (insert x l).
Proof.
  induction 1 as [|y l Hs IH Hhd]; simpl; [by repeat constructor|].
  destruct (cmp x y) eqn:E.
  1,2: constructor; [by constructor|]; constructor; apply cmp_le; congruence.
  constructor; [done|]. destruct l as [|z l]; simpl; [constructor; by apply cmp_gt|].
  inversion Hhd; subst. destruct (cmp x z) eqn:E'; constructor; auto.
Qed.

Lemma sort_sorted l : Sorted R (sort l).
Proof. induction l as [|x l IH]; simpl; [constructor|]. by apply insert_sorted. Qed.
End Sorted.
End Sort.

Section KeySort.
Context {A : Type} (key : A -> nat).

(** vike's [lowerFirst(getValue)]: smaller keys first. *)
Definition lowerFirst (a b : A) : comparison := Nat.compare (key a) (key b).
(** vike's [higherFirst(getValue)]: larger keys first. *)
Definition higherFirst (a b : A) : comparison := Nat.compare (key b) (key a).

Lemma sort_lowerFirst_sorted l : Sorted (fun a b => key a <= key b) (sort lowerFirst l).
Proof.
  apply sort_sorted; unfold lowerFirst; intros x y E;
    [destruct (Nat.compare_spec (key x) (key y)); congruence || lia
    |apply Nat.compare_gt_iff in E; lia].
Qed.

(** Deepest first: the keys decrease along the sorted list. *)
Lemma sort_higherFirst_sorted l : Sorted (fun a b => key b <= key a) (sort higherFirst l).
Proof.
  apply sort_sorted; unfold higherFirst; intros x y E;
    [destruct (Nat.compare_spec (key y) (key x)); congruence || lia
    |apply Nat.compare_gt_iff in E; lia].
Qed.

(** Stability: among the elements of one key, the order is unchanged. *)
Lemma sort_lowerFirst_stable (k : nat) l :
  List.filter (fun a => Nat.eqb (key a) k) (sort lowerFirst l)
  = List.filter (fun a => Nat.eqb (key a) k) l.
Proof.
  induction l as [|x l IH]; simpl; [done|].
  rewrite <- IH. generalize (sort lowerFirst l) as m. clear IH.
  induction m as [|y m IHm]; simpl; [done|].
  unfold lowerFirst at 1. destruct (Nat.compare_spec (key x) (key y)); simpl; try done.
  rewrite IHm. simpl.
  destruct (Nat.eqb_spec (key x) k), (Nat.eqb_spec (key y) k); simpl; try done; lia.
Qed.

(** The head of the sorted list has the least key. *)
Lemma sort_lowerFirst_head_min l w r :
  sort lowerFirst l = w :: r -> forall x, x ∈ l -> key w <= key x.
Proof.
  intros Hs x Hx.
  assert (Hx' : x ∈ sort lowerFirst l).
  { apply list_elem_of_In. eapply Permutation_in; [symmetry; apply sort_perm|].
    by apply list_elem_of_In. }
  pose proof (sort_lowerFirst_sorted l) as Hsorted. rewrite Hs in Hsorted, Hx'.
  apply Sorted_StronglySorted in Hsorted; [|intros a b c ??; lia].
  apply StronglySorted_inv in Hsorted as [_ Hall].
  apply elem_of_cons in Hx' as [->|Hx']; [lia|].
  rewrite Forall_forall in Hall. exact (Hall x Hx').
Qed.
End KeySort.
End JsArray.
