(* ===== verification/Model.v ===== *)
(** * The data of getVikeConfig.ts

    JavaScript values, environments, file paths, interface files (the
    [InterfaceFile] union of getVikeConfig.ts lines 76-95), value sources,
    config definitions, and the pass monad [M]: errors thrown by [assert]
    and [assertUsage], and the module-level state ([filesEnv], line 112,
    and the log of warnings). *)

From stdpp Require Import base list strings pretty.
From Stdlib Require Import Ascii ZArith Lia.
From Stdlib Require String.
From S2P Require Import Prelude Js.

(** JavaScript values as the code inspects them.  A [Set] is kept as the
    list of its members in insertion order; a function is an opaque
    reference into user code, called through the host (Collaborators.v). *)
Inductive value : Type :=
| VUndefined
| VNull
| VBool (b : bool)
| VNumber (n : Z)
| VString (s : string)
| VArray (xs : list value)
| VSet (xs : list value)
| VObject (fields : list (string * value))
| VFunction (id : nat).

(** JavaScript truthiness ([if (!x)], [??] aside). *)
Definition truthy (v : value) : bool :=
  match v with
  | VUndefined | VNull => false
  | VBool b => b
  | VNumber n => negb (Z.eqb n 0)
  | VString s => negb (String.eqb s "")
  | _ => true
  end.

(** [ConfigEnvInternal] (shared/page-configs/PageConfig.ts). *)
Inductive ConfigEnvInternal : Type :=
| ClientOnly | ServerOnly | ServerAndClient | ConfigOnly
| RoutingEager | RoutingLazy.

#[export] Instance ConfigEnvInternal_eq_dec : EqDecision ConfigEnvInternal.
Proof. solve_decision. Defined.

(** [FilePath] (getFilePathToShowToUser.ts): every field may be [null]. *)
Record FilePath : Type := mkFilePath {
  filePathAbsolute : option string;
  filePathRelativeToUserRootDir : option string;
  importPathAbsolute : option string
}.

(** [DefinedAtFileInfo] = [FilePath & { fileExportPath: string[] }]. *)
Record DefinedAtFileInfo : Type := mkDefinedAtFileInfo {
  dfi_filePath : FilePath;
  fileExportPath : list string
}.

(** A config map entry [{ configValue?: unknown }]: [None] is [{}] (value
    file not loaded yet), [Some v] is [{ configValue: v }]. *)
Definition ConfigMap := JsObject.t (option value).

(** [InterfaceFile] (lines 76-95). *)
Inductive InterfaceFile : Type :=
| InterfaceConfigFile (filePath : FilePath) (configMap : ConfigMap)
    (extendsFilePaths : list string) (isConfigExtend : bool)
| InterfaceValueFile (filePath : FilePath) (configMap : ConfigMap) (configName : string).

Definition if_filePath (f : InterfaceFile) : FilePath :=
  match f with InterfaceConfigFile p _ _ _ | InterfaceValueFile p _ _ => p end.
Definition if_configMap (f : InterfaceFile) : ConfigMap :=
  match f with InterfaceConfigFile _ m _ _ | InterfaceValueFile _ m _ => m end.
Definition isConfigFile (f : InterfaceFile) : bool :=
  match f with InterfaceConfigFile _ _ _ _ => true | _ => false end.
Definition isValueFile (f : InterfaceFile) : bool := negb (isConfigFile f).
Definition isConfigExtend (f : InterfaceFile) : bool :=
  match f with InterfaceConfigFile _ _ _ b => b | _ => false end.
(** [interfaceFile.configName] of a value file ([undefined] for a config file). *)
Definition if_configName (f : InterfaceFile) : option string :=
  match f with InterfaceValueFile _ _ n => Some n | _ => None end.

(** Interface files are JavaScript objects: the code compares them by
    reference ([f !== interfaceFileWinner], the [visited] WeakSet) and
    mutates them in place (loadValueFile).  An [IFile] pairs an object's
    identity with its content. *)
Record IFile : Type := mkIFile { ifId : nat; ifData : InterfaceFile }.

(** [ConfigValueSource] (PageConfig.ts): [cvs_value = None] when the object
    has no [value] key. *)
Record ConfigValueSource : Type := mkConfigValueSource {
  cvs_value : option value;
  valueIsFilePath : bool;
  configEnv : ConfigEnvInternal;
  valueIsImportedAtRuntime : bool;
  isComputed : bool;
  definedAtInfo : option DefinedAtFileInfo
}.

(** [ConfigDefinitionInternal] (configDefinitionsBuiltIn.ts).  [effect] and
    [_computed] hold the functions of the definition ([None] when the key is
    absent); the code only tests [cumulative] and [_valueIsFilePath] for
    truthiness, so they are kept as booleans. *)
Record ConfigDefinitionInternal : Type := mkConfigDef {
  env : ConfigEnvInternal;
  cumulative : bool;
  _computed : option value;
  effect : option value;
  _valueIsFilePath : bool
}.

(** ** Errors and warnings *)

Inductive UsageError : Type :=
| ErrShouldBeAnImport (configName : string) (definedAt : DefinedAtFileInfo)
| ErrFileEnvConflict (file : string) (other : ConfigEnvInternal * string)
    (this : ConfigEnvInternal * string)
| ErrImportNotResolved (importPath : string) (importer : FilePath)
| ErrImportOutsideRoot (importPath : string) (importer : FilePath)
| ErrCumulativeNotInConfigFile (configName : string)
| ErrCumulativeNotArrayOrSet (configName : string)
| ErrCumulativeMixed (configName : string) (definedAt previousDefinedAt : option DefinedAtFileInfo)
| ErrInfiniteExtendsLoop (loop : list string)
| ErrUnknownConfig (configName : string) (definedByFile : string) (suggestion : option string)
| ErrGlobalConfig (file : string) (configName : string) (globalPaths : list string)
| ErrNotSerializable (configName : string)
| ErrMetaNotObject (definedAt : string)
| ErrMetaDefNotObject (definedAt configName : string)
| ErrMetaEnvMissing (definedAt configName : string)
| ErrMetaEnvType (definedAt configName : string)
| ErrMetaEnvValue (definedAt configName env : string)
| ErrMetaEffectType (definedAt configName : string)
| ErrMetaEffectEnv (definedAt configName env : string)
| ErrEffectUnsupported
| ErrConfigFileExports (file : string)
| ErrExtendsInvalid (file : string)
| ErrRoutingRootNotString (configDefinedAt : string)
| ErrRoutingRootNoLeadingSlash (configDefinedAt value : string)
| ErrPlusInDirectory (dirPath : string)
| ErrPlusInFileName (filePath : string)
| ErrValueFileExports (file configName : string)
| ErrOther (tag : string).

Inductive VikeError : Type :=
| Usage (u : UsageError)
| Bug (tag : string)
| LoadFailed (file : string).  (** user code threw while it was bundled or run *)

Inductive Warning : Type :=
| WarnOverridden (configName : string) (loser winner : ConfigValueSource)
| WarnExtendsRename (fileName fileNameCorrect fileDir : string)
| WarnExtendsUserLand (file importPath : string)
| WarnGlobalExperimental (configName file : string)
| WarnEffectNotConfigOnly (configName : string) (env : ConfigEnvInternal)
| WarnSlowCrawl (time : nat).

(** The spelling of an environment in messages ([ConfigEnvInternal] is a
    union of string literals). *)
Definition configEnvName (e : ConfigEnvInternal) : string :=
  match e with
  | ClientOnly => "client-only"
  | ServerOnly => "server-only"
  | ServerAndClient => "server-and-client"
  | ConfigOnly => "config-only"
  | RoutingEager => "_routing-eager"
  | RoutingLazy => "_routing-lazy"
  end.

(** The [onlyOnce] option of each [assertWarning] call, as the key under
    which the warning is logged once per process: the message for
    [onlyOnce: true] (the colors of [pc.cyan] left out), the given string
    for a string, none for [onlyOnce: false]. *)
Definition onlyOnceKey (w : Warning) : option string :=
  match w with
  | WarnOverridden _ _ _ => None
  | WarnExtendsRename fileName fileNameCorrect fileDir =>
      Some ("Rename " +:+ fileName +:+ " to " +:+ fileNameCorrect +:+ " in " +:+ fileDir)%string
  | WarnExtendsUserLand file importPath =>
      Some (file +:+ " uses extends to inherit from " +:+ importPath +:+
            " which is a user-land file: this is experimental and may be remove at any time. Reach out to a maintainer if you need this feature.")%string
  | WarnGlobalExperimental configName file =>
      Some ("Being able to define config " +:+ configName +:+ " in " +:+ file +:+
            " is experimental and will likely be removed. Define the config " +:+ configName +:+
            " in Vike's Vite plugin options instead.")%string
  | WarnEffectNotConfigOnly configName env =>
      Some ("Adding an effect to " +:+ configName +:+ " may not work as expected because " +:+ configName +:+
            " has an env that is different than config-only (its env is " +:+ configEnvName env +:+
            "). Reach out to a maintainer if you want to use this in production.")%string
  | WarnSlowCrawl _ => Some "slow-page-files-search"
  end.

(** The module-level state that one pass reads and writes. *)
Record PassState : Type := mkPassState {
  filesEnv : JsObject.t (list (ConfigEnvInternal * string));
  warnings : list Warning
}.

Definition initPassState : PassState := mkPassState JsObject.empty [].

(** The pass monad. *)
Abbreviation M := (st PassState VikeError).

(** [assert(b)]: an internal invariant; failing it is a Vike bug. *)
Definition assert (b : bool) (tag : string) : M unit :=
  if b then st_ret tt else st_raise (Bug tag).

(** [assertUsage(b, msg)]: a user error that aborts the pass. *)
Definition assertUsage (b : bool) (u : UsageError) : M unit :=
  if b then st_ret tt else st_raise (Usage u).

(** The set [alreadyLogged] of utils/assert.ts: the keys of the warnings
    logged so far with [onlyOnce]. *)
Definition alreadyLogged (s : PassState) : list string := omap onlyOnceKey (warnings s).

(** [assertWarning(b, msg, { onlyOnce })]: logs and continues; a warning
    with a key already logged is skipped. *)
Definition assertWarning (b : bool) (w : Warning) : M unit :=
  if b then st_ret tt
  else st_modify (fun s =>
    match onlyOnceKey w with
    | Some key => if bool_decide (key ∈ alreadyLogged s) then s else mkPassState (filesEnv s) (warnings s ++ [w])
    | None => mkPassState (filesEnv s) (warnings s ++ [w])
    end).

(** Structural equality of values.  JavaScript compares the members of a
    [Set] with SameValueZero: by value for primitives, by reference for
    objects.  The model compares structurally, which agrees on the
    primitive members cumulative configs hold (strings, numbers). *)
Fixpoint value_eqb (v w : value) : bool :=
  let fix list_eqb (xs ys : list value) : bool :=
    match xs, ys with
    | [], [] => true
    | x :: xs', y :: ys' => value_eqb x y && list_eqb xs' ys'
    | _, _ => false
    end in
  let fix fields_eqb (xs ys : list (string * value)) : bool :=
    match xs, ys with
    | [], [] => true
    | (k, x) :: xs', (k', y) :: ys' => String.eqb k k' && value_eqb x y && fields_eqb xs' ys'
    | _, _ => false
    end in
  match v, w with
  | VUndefined, VUndefined | VNull, VNull => true
  | VBool a, VBool b => Bool.eqb a b
  | VNumber a, VNumber b => Z.eqb a b
  | VString a, VString b => String.eqb a b
  | VArray xs, VArray ys | VSet xs, VSet ys => list_eqb xs ys
  | VObject xs, VObject ys => fields_eqb xs ys
  | VFunction a, VFunction b => Nat.eqb a b
  | _, _ => false
  end.

(** [Array.isArray(v)] and [v instanceof Set]. *)
Definition isArray (v : value) : bool := match v with VArray _ => true | _ => false end.
Definition isSet (v : value) : bool := match v with VSet _ => true | _ => false end.

(** [isObject(v)] (utils/isObject.ts): [typeof v === 'object' && v !== null]. *)
Definition isObject (v : value) : bool :=
  match v with VObject _ | VArray _ | VSet _ => true | _ => false end.

(** [Object.entries(v)] of an object: the fields of a plain object, the
    indices of an array; a [Set] has no own enumerable property. *)
Definition objectEntries (v : value) : list (string * value) :=
  match v with
  | VObject fields => fields
  | VArray xs => imap (fun i x => (pretty i, x)) xs
  | _ => []
  end.

(** [v[k]] for an own property of an object, [None] when it is absent. *)
Definition getProp (k : string) (v : value) : option value := JsObject.get k (objectEntries v).

(** [k in v]: no key the code tests ([env], [effect]) is inherited. *)
Definition hasKey (k : string) (v : value) : bool := bool_decide (is_Some (getProp k v)).

(** [getFilePathToShowToUser(filePath)] (getFilePathToShowToUser.ts): the
    path relative to the root for a user file, the import path otherwise. *)
Definition getFilePathToShowToUser (fp : FilePath) : string :=
  match filePathRelativeToUserRootDir fp with
  | Some p => p
  | None => default "" (importPathAbsolute fp)
  end.

(** ** Assertions change no state *)

Lemma assert_preserves_any P b t : st_preserves P (assert b t).
Proof. unfold assert. destruct b; [apply preserves_ret|apply preserves_raise]. Qed.

Lemma assertUsage_preserves_any P b u : st_preserves P (assertUsage b u).
Proof. unfold assertUsage. destruct b; [apply preserves_ret|apply preserves_raise]. Qed.

(** [assertWarning] only appends to the log, and leaves [filesEnv]. *)
Lemma assertWarning_Ok b w s u s' :
  assertWarning b w s = Ok (u, s') -> filesEnv s' = filesEnv s /\ exists ws, warnings s' = warnings s ++ ws.
Proof.
  unfold assertWarning, st_modify. destruct b; intros [= _ <-]; repeat case_match; simpl;
    (split; [done|]); first [by eexists | exists []; by rewrite app_nil_r].
Qed.

Lemma assert_Ok b t s u s' : assert b t s = Ok (u, s') -> b = true /\ s' = s.
Proof. unfold assert. destruct b; [by intros [= _ <-]|discriminate]. Qed.

(** A computation that reads the state but never writes it. *)
Definition st_readonly {A} (m : M A) : Prop := forall s0, st_preserves (eq s0) m.

Lemma readonly_Ok {A} (m : M A) s a s' : st_readonly m -> m s = Ok (a, s') -> s' = s.
Proof. intros Hm H. symmetry. exact (Hm s s a s' eq_refl H). Qed.

(** The leaves of the read-only computations. *)
Ltac solve_readonly_with extra :=
  intros ?s0; solve_preserves_with ltac:(first [ extra s0 | apply assert_preserves_any
                                              | apply assertUsage_preserves_any ]).
Ltac solve_readonly := solve_readonly_with ltac:(fun _ => fail).
