(* ===== verification/Collaborators.v ===== *)
(** * What getVikeConfig.ts calls but does not define

    - String and [path.posix] operations of Node.js on normalized POSIX
      paths ([startsWith], [dirname], [relative]).
    - The import resolver, an interface ([Class ImportResolver]):
      [parseImportData] (replaceImportStatements.ts) and [requireResolve]
      (utils/requireResolve.ts, Node's module resolution).  The theorems
      of the engine hold for every instance.
    - The filesystem-routing helpers of getVikeConfig/filesystemRouting.ts
      ([getLocationId], [isInherited], [sortAfterInheritanceOrder],
      [isGlobalLocation]), which are not among the staged sources: they are
      modelled from the specification (section 4.3). *)

From stdpp Require Import base list strings.
From Stdlib Require Import Ascii Lia.
From Stdlib Require String.
From S2P Require Import Prelude Js Model.

(** ** Strings *)

(** [s.startsWith(p)] *)
Definition startsWith (s p : string) : bool := String.prefix p s.

(** [s.split(c)] for a single-character separator. *)
Fixpoint split_on (c : ascii) (s : string) : list string :=
  match s with
  | EmptyString => [EmptyString]
  | String a s' =>
      if Ascii.eqb a c then EmptyString :: split_on c s'
      else match split_on c s' with
           | [] => [String a EmptyString]
           | w :: ws => String a w :: ws
           end
  end.

(** [s.includes(c)] for a single character. *)
Fixpoint includesChar (c : ascii) (s : string) : bool :=
  match s with
  | EmptyString => false
  | String a s' => Ascii.eqb a c || includesChar c s'
  end.

(** [arr.join(sep)] *)
Fixpoint join (sep : string) (l : list string) : string :=
  match l with
  | [] => ""
  | [w] => w
  | w :: ws => (w +:+ sep +:+ join sep ws)%string
  end.

(** ** [path.posix] on normalized absolute paths *)

Module Path.
(** The non-empty segments of a path. *)
Definition segments (p : string) : list string :=
  List.filter (fun w => negb (String.eqb w "")) (split_on "/" p).

Definition isAbsolute (p : string) : bool := startsWith p "/".

(** [path.posix.dirname(p)] *)
Definition dirname (p : string) : string :=
  match segments p with
  | [] => if isAbsolute p then "/" else "."
  | segs =>
      match removelast segs with
      | [] => if isAbsolute p then "/" else "."
      | d => ((if isAbsolute p then "/" else "") +:+ join "/" d)%string
      end
  end.

(** [path.posix.basename(p)] *)
Definition basename (p : string) : string := default "" (last (segments p)).

Fixpoint common_prefix_length (a b : list string) : nat :=
  match a, b with
  | x :: a', y :: b' => if String.eqb x y then S (common_prefix_length a' b') else 0
  | _, _ => 0
  end.

(** [path.posix.relative(from, to)] for two absolute paths. *)
Definition relative (from to : string) : string :=
  let f := segments from in
  let t := segments to in
  let n := common_prefix_length f t in
  join "/" (repeat ".." (length f - n) ++ drop n t).
End Path.

(** ** The import resolver *)

(** [ImportData] (replaceImportStatements.ts). *)
Record ImportData : Type := mkImportData {
  importPath : string;
  exportName : string;
  importStringWasGenerated : bool;
  importString : string
}.

Class ImportResolver : Type := {
  (** [parseImportData(s)]: [null] when [s] is not a serialized import. *)
  parseImportData : string -> option ImportData;
  (** [requireResolve(importPath, cwd)]: [null] for unresolvable paths
      (e.g. Vite path aliases). *)
  requireResolve : string -> string -> option string
}.

(** ** Filesystem routing (modelled from the specification) *)

Module FilesystemRouting.
(** [getLocationId(filePathRelativeToUserRootDir)]: the directory. *)
Definition getLocationId (filePath : string) : string := Path.dirname filePath.

(** The depth of a location: its number of segments. *)
Definition depth (locationId : string) : nat := length (Path.segments locationId).

(** [isInherited(l1, l2)]: [l2] lies at or below [l1]. *)
Definition isInherited (locationId1 locationId2 : string) : bool :=
  bool_decide (Path.segments locationId1 `prefix_of` Path.segments locationId2).

(** [sortAfterInheritanceOrder(l1, l2, page)]: deeper locations first. *)
Definition sortAfterInheritanceOrder (locationIdPage : string) : string -> string -> comparison :=
  JsArray.higherFirst depth.

(** [isGlobalLocation(l, ls)]: [l] is inherited by every known location. *)
Definition isGlobalLocation (locationId : string) (locationIds : list string) : bool :=
  forallb (isInherited locationId) locationIds.
End FilesystemRouting.

(** ** Suggestions for unknown names *)

(** [getMostSimilar(word, words)] (utils/getMostSimilar.ts): a suggestion
    taken among [words], or none. *)
Class Similarity : Type := {
  getMostSimilar : string -> list string -> option string;
  getMostSimilar_elem w ws x : getMostSimilar w ws = Some x -> x ∈ ws
}.

(** An edit-distance implementation, as the specification describes it
    (section 4.8): the nearest name by Levenshtein distance, compared
    without case, when it is at most 2 edits away. *)
Module Levenshtein.
Definition cost (a b : ascii) : nat := if Ascii.eqb a b then 0 else 1.

(** The next row of the distance table for the character [a] of the
    first word, from the previous row [prev] (without its first cell). *)
Fixpoint nextRow (a : ascii) (t : list ascii) (diag left : nat) (prev : list nat) : list nat :=
  match t, prev with
  | b :: t', up :: prev' =>
      let v := Nat.min (Nat.min (up + 1) (left + 1)) (diag + cost a b) in
      v :: nextRow a t' up v prev'
  | _, _ => []
  end.

Fixpoint lastRow (s t : list ascii) (i : nat) (prev : list nat) : list nat :=
  match s with
  | [] => prev
  | a :: s' => lastRow s' t (S i) (nextRow a t i (S i) prev)
  end.

Definition distance (s t : list ascii) : nat :=
  default (length s) (last (lastRow s t 0 (seq 1 (length t)))).

Definition lower (c : ascii) : ascii :=
  let n := Ascii.nat_of_ascii c in
  if (65 <=? n) && (n <=? 90) then Ascii.ascii_of_nat (n + 32) else c.

Definition key (w : string) : list ascii := map lower (String.list_ascii_of_string w).

(** The first word at the least distance from [w]. *)
Fixpoint bestMatch (w : string) (ws : list string) : option (string * nat) :=
  match ws with
  | [] => None
  | x :: ws' =>
      let d := distance (key w) (key x) in
      match bestMatch w ws' with
      | Some (y, e) => if e <? d then Some (y, e) else Some (x, d)
      | None => Some (x, d)
      end
  end.

Definition mostSimilar (w : string) (ws : list string) : option string :=
  match bestMatch w ws with
  | Some (x, d) => if d <=? 2 then Some x else None
  | None => None
  end.
End Levenshtein.

Definition levenshteinSimilarity : Similarity := {|
  getMostSimilar := Levenshtein.mostSimilar;
  getMostSimilar_elem := ltac:(
    intros w ws x; unfold Levenshtein.mostSimilar;
    destruct (Levenshtein.bestMatch w ws) as [[y d]|] eqn:Hb; [|discriminate];
    destruct (d <=? 2); [intros [= <-]|discriminate];
    revert y d Hb; induction ws as [|z ws IH]; intros y d Hb; [discriminate|];
    simpl in Hb; destruct (Levenshtein.bestMatch w ws) as [[y' e]|];
    [destruct (e <? _); injection Hb as <- <-; [right; eapply IH; reflexivity|left]
    |injection Hb as <- <-; left])
|}.

(** ** Facts about [path.posix.relative] *)

Lemma common_prefix_length_full (a b : list string) :
  Path.common_prefix_length a b = length a -> a `prefix_of` b.
Proof.
  revert b. induction a as [|x a IH]; intros b H; [apply prefix_nil|].
  destruct b as [|y b]; simpl in H; [discriminate|].
  destruct (String.eqb_spec x y); [subst|discriminate].
  apply prefix_cons. apply IH. lia.
Qed.

Lemma common_prefix_length_le (a b : list string) : Path.common_prefix_length a b <= length a.
Proof.
  revert b. induction a as [|x a IH]; intros [|y b]; simpl; try lia.
  destruct (String.eqb x y); [specialize (IH b); lia|lia].
Qed.

Lemma append_cons a (s t : string) : (String a s +:+ t)%string = String a (s +:+ t).
Proof. reflexivity. Qed.

Lemma startsWith_append (s t : string) : startsWith (s +:+ t) s = true.
Proof.
  unfold startsWith. induction s as [|a s IH]; [by destruct t|].
  rewrite append_cons. simpl. destruct (Ascii.ascii_dec a a); [exact IH|done].
Qed.

Lemma append_empty_r (s : string) : (s +:+ "")%string = s.
Proof. induction s as [|a s IH]; [done|]. rewrite append_cons. by f_equal. Qed.

Lemma join_cons_startsWith (w : string) ws : startsWith (join "/" (w :: ws)) w = true.
Proof.
  destruct ws as [|w' ws]; simpl.
  - rewrite <- (append_empty_r w) at 1. apply startsWith_append.
  - apply startsWith_append.
Qed.

(** When [to] is not inside [from] (segment-wise), the relative path
    climbs out with [..]. *)
Lemma relative_outside_startsWith_dotdot (from to : string) :
  ~ Path.segments from `prefix_of` Path.segments to ->
  startsWith (Path.relative from to) ".." = true.
Proof.
  intros Hout. unfold Path.relative.
  pose proof (common_prefix_length_le (Path.segments from) (Path.segments to)) as Hle.
  destruct (decide (Path.common_prefix_length (Path.segments from) (Path.segments to)
                    = length (Path.segments from))) as [E|NE].
  - by apply common_prefix_length_full in E.
  - destruct (length (Path.segments from) - _) as [|k] eqn:Hk; [lia|].
    simpl. apply join_cons_startsWith.
Qed.

(** ** Splitting paths *)

Lemma includesChar_app c (s t : string) : includesChar c (s +:+ t) = includesChar c s || includesChar c t.
Proof. induction s as [|a s IH]; simpl; [done|]. by rewrite IH, orb_assoc. Qed.

Lemma split_on_nonempty c s : split_on c s <> [].
Proof. destruct s as [|a s]; simpl; [done|]. destruct (Ascii.eqb a c); [done|]. by destruct (split_on c s). Qed.

(** Splitting at a separator splits the two sides. *)
Lemma split_on_app_sep c (s t : string) : split_on c (s +:+ String c t) = split_on c s ++ split_on c t.
Proof.
  induction s as [|a s IH]; simpl.
  - by rewrite Ascii.eqb_refl.
  - rewrite IH. destruct (Ascii.eqb a c); [done|].
    destruct (split_on c s) eqn:E; [by apply split_on_nonempty in E|done].
Qed.

Lemma split_on_no c s : includesChar c s = false -> split_on c s = [s].
Proof.
  induction s as [|a s IH]; simpl; [done|]. intros [Ha Hs]%orb_false_iff. by rewrite Ha, IH.
Qed.

(** The pieces of a string without [d] are without [d]. *)
Lemma split_on_includes c d s w : includesChar d s = false -> w ∈ split_on c s -> includesChar d w = false.
Proof.
  revert w. induction s as [|a s IH]; intros w Hs Hw; simpl in *.
  - by apply list_elem_of_singleton in Hw as ->.
  - apply orb_false_iff in Hs as [Ha Hs]. destruct (Ascii.eqb a c).
    + apply elem_of_cons in Hw as [->|Hw]; [done|auto].
    + destruct (split_on c s) as [|w0 ws] eqn:E.
      * by apply split_on_nonempty in E.
      * apply elem_of_cons in Hw as [->|Hw]; simpl; [rewrite Ha; apply IH; [done|left]|apply IH; [done|by right]].
Qed.

Lemma join_includes d sep l :
  includesChar d sep = false -> Forall (fun w => includesChar d w = false) l -> includesChar d (join sep l) = false.
Proof.
  intros Hsep. induction 1 as [|w l Hw Hl IH]; [done|]. destruct l as [|w' l]; [exact Hw|].
  change (join sep (w :: w' :: l)) with (w +:+ sep +:+ join sep (w' :: l))%string.
  by rewrite !includesChar_app, Hw, Hsep, IH.
Qed.

Lemma segments_includes d p : includesChar d p = false -> Forall (fun w => includesChar d w = false) (Path.segments p).
Proof.
  intros Hp. apply Forall_forall. intros w Hw%elem_of_list_filter_bool.
  exact (split_on_includes _ _ _ _ Hp (proj1 Hw)).
Qed.

Lemma segments_app_sep (s t : string) : Path.segments (s +:+ String "/" t) = Path.segments s ++ Path.segments t.
Proof. unfold Path.segments. by rewrite split_on_app_sep, List.filter_app. Qed.

Lemma elem_of_removelast {A} (l : list A) x : x ∈ removelast l -> x ∈ l.
Proof.
  induction l as [|a [|b l] IH]; simpl; [done|by intros ?%elem_of_nil|].
  intros [->|Hx]%elem_of_cons; [left|right; exact (IH Hx)].
Qed.

Lemma segments_file (t : string) : t <> "" -> includesChar "/" t = false -> Path.segments t = [t].
Proof.
  intros Ht Hs. unfold Path.segments. rewrite split_on_no by exact Hs. simpl.
  destruct (String.eqb t "") eqn:E; [by apply String.eqb_eq in E|done].
Qed.

(** [path.posix.dirname] of [dir/file] is without [d] when [dir] is, for
    any [d] other than [/] and [.]. *)
Lemma dirname_includes d (s t : string) :
  Ascii.eqb "/" d = false -> Ascii.eqb "." d = false -> includesChar d s = false ->
  t <> "" -> includesChar "/" t = false ->
  includesChar d (Path.dirname (s +:+ String "/" t)) = false.
Proof.
  intros Hs Hd Hp Ht Hts.
  assert (Hroot : includesChar d "/" = false) by (change (Ascii.eqb "/" d || false = false); by rewrite Hs).
  assert (Hdot : includesChar d "." = false) by (change (Ascii.eqb "." d || false = false); by rewrite Hd).
  unfold Path.dirname. rewrite segments_app_sep, (segments_file t Ht Hts).
  pose proof (segments_includes d s Hp) as Hsegs.
  destruct (Path.segments s ++ [t]) as [|w ws] eqn:E; [by destruct (Path.segments s)|].
  rewrite <- E, removelast_last.
  destruct (Path.segments s) as [|w' ws']; [by destruct (Path.isAbsolute _)|].
  rewrite includesChar_app. apply orb_false_iff. split; [by destruct (Path.isAbsolute _)|].
  by apply join_includes.
Qed.

(** ** Splitting and joining are inverse *)

Lemma split_on_sep_free c s w : w ∈ split_on c s -> includesChar c w = false.
Proof.
  revert w. induction s as [|a s IH]; intros w Hw; simpl in *.
  - by apply list_elem_of_singleton in Hw as ->.
  - destruct (Ascii.eqb a c) eqn:Ha.
    + apply elem_of_cons in Hw as [->|Hw]; [done|auto].
    + destruct (split_on c s) as [|w0 ws] eqn:E; [by apply split_on_nonempty in E|].
      apply elem_of_cons in Hw as [->|Hw]; simpl; [rewrite Ha; apply IH; left|apply IH; by right].
Qed.

Lemma join_cons_string sep a w ws : join sep (String a w :: ws) = String a (join sep (w :: ws)).
Proof. by destruct ws. Qed.

Lemma append_assoc (a b c : string) : ((a +:+ b) +:+ c)%string = (a +:+ (b +:+ c))%string.
Proof. induction a as [|x a IH]; [done|]. by rewrite !append_cons, IH. Qed.

Lemma join_cons_ne sep w ws : ws <> [] -> join sep (w :: ws) = (w +:+ sep +:+ join sep ws)%string.
Proof. by destruct ws. Qed.

Lemma join_app sep l1 l2 : l1 <> [] -> l2 <> [] -> join sep (l1 ++ l2) = (join sep l1 +:+ sep +:+ join sep l2)%string.
Proof.
  intros H1 H2. induction l1 as [|w l1 IH]; [done|]. destruct l1 as [|w' l1].
  - simpl. by destruct l2.
  - rewrite <- app_comm_cons, !(join_cons_ne sep w), IH by done. by rewrite !append_assoc.
Qed.

(** [s.split(c).join(c)] is [s]. *)
Lemma join_split c s : join (String c EmptyString) (split_on c s) = s.
Proof.
  induction s as [|a s IH]; [done|]. simpl. destruct (Ascii.eqb a c) eqn:Ha.
  - apply Ascii.eqb_eq in Ha as ->. destruct (split_on c s) as [|w ws] eqn:E; [by apply split_on_nonempty in E|].
    by rewrite <- IH.
  - destruct (split_on c s) as [|w ws] eqn:E; [by apply split_on_nonempty in E|].
    by rewrite join_cons_string, IH.
Qed.

Lemma common_prefix_length_app (a b : list string) : Path.common_prefix_length a (a ++ b) = length a.
Proof. induction a as [|x a IH]; [done|]. simpl. by rewrite String.eqb_refl, IH. Qed.
