(* ===== verification/Resolve.v ===== *)
(** * The source resolution engine (getVikeConfig.ts lines 521-860, 1387-1415)

    [resolveConfigValueSources] walks the interface files of the locations
    a page inherits from, most specific location first, and turns every
    file that defines a config into a [ConfigValueSource] with
    [getConfigValueSource].  Within one location the order is: primary
    value files, then non-extension config files (the first of these two
    buckets is the winner, the others are reported as overridden), then
    side-effect exports of value files, then extension config files.

    [getConfigValueSource] resolves import strings ([resolveImport]) and
    records in [filesEnv] which environment each imported file is used in
    ([assertFileEnv]); a second environment for a file is a usage error
    ([assertFileEnv_conflict]). *)

From stdpp Require Import base list strings.
From Stdlib Require Import Ascii Lia.
From Stdlib Require String.
From S2P Require Import Prelude Js Model Collaborators.

Section Resolve.
Context `{IR : ImportResolver}.
(** The root directory of the user's project, fixed for the pass. *)
Variable userRootDir : string.

(** [assertFileEnv] (lines 740-760). *)
Definition assertFileEnv (filePathForEnvCheck : string) (configEnv : ConfigEnvInternal)
    (configName : string) : M unit :=
  let* s := st_get in
  let fileEnv := default [] (JsObject.get filePathForEnvCheck (filesEnv s)) ++ [(configEnv, configName)] in
  st_put (mkPassState (JsObject.set filePathForEnvCheck fileEnv (filesEnv s)) (warnings s)) >>
  match List.filter (fun c => bool_decide (c.1 <> configEnv)) fileEnv with
  | c :: _ => st_raise (Usage (ErrFileEnvConflict filePathForEnvCheck c (configEnv, configName)))
  | [] => st_ret tt
  end.

(** [resolveImportPath] (lines 1387-1394). *)
Definition resolveImportPath (importData : ImportData) (importerFilePath : FilePath) : M (option string) :=
  match filePathAbsolute importerFilePath with
  | None => st_raise (Bug "assertPosixPath")
  | Some importerFilePathAbsolute =>
      st_ret (requireResolve (importPath importData) (Path.dirname importerFilePathAbsolute))
  end.

(** [assertImportPath] (lines 1395-1415). *)
Definition assertImportPath (filePathAbsolute : option string) (importData : ImportData)
    (importerFilePath : FilePath) : M string :=
  match filePathAbsolute with
  | Some p => st_ret p
  | None => st_raise (Usage (ErrImportNotResolved (importPath importData) importerFilePath))
  end.

(** [getVitePathFromAbsolutePath] (lines 859-867). *)
Definition getVitePathFromAbsolutePath (filePathAbsolute root : string) : M string :=
  assert (startsWith filePathAbsolute root) "getVitePathFromAbsolutePath:startsWith" >>
  let vitePath := Path.relative root filePathAbsolute in
  assert (negb (startsWith vitePath "/") && negb (startsWith vitePath "."))
    "getVitePathFromAbsolutePath:relative" >>
  st_ret ("/" +:+ vitePath)%string.

(** [resolveImportPath_relativeToUserRootDir] (lines 826-857). *)
Definition resolveImportPath_relativeToUserRootDir (filePathAbsolute : string)
    (importData : ImportData) (configFilePath : FilePath) : M string :=
  let* filePathRelativeToUserRootDir :=
    if startsWith filePathAbsolute userRootDir
    then getVitePathFromAbsolutePath filePathAbsolute userRootDir
    else st_raise (Usage (ErrImportOutsideRoot (importPath importData) configFilePath)) in
  assert (startsWith filePathRelativeToUserRootDir "/") "relativeToUserRootDir:leadingSlash" >>
  st_ret filePathRelativeToUserRootDir.

(** [resolveImport] (lines 775-824). *)
Definition resolveImport (configValue : value) (importerFilePath : FilePath)
    (configEnv : ConfigEnvInternal) (configName : string) : M (option DefinedAtFileInfo) :=
  match configValue with
  | VString s =>
      match parseImportData s with
      | None => st_ret None
      | Some importData =>
          let* filePathAbsolute := resolveImportPath importData importerFilePath in
          assertFileEnv (default (importPath importData) filePathAbsolute) configEnv configName >>
          let fileExportPath :=
            if String.eqb (exportName importData) "default" || String.eqb (exportName importData) configName
            then [] else [exportName importData] in
          if startsWith (importPath importData) "."
          then
            let* abs := assertImportPath filePathAbsolute importData importerFilePath in
            let* rel := resolveImportPath_relativeToUserRootDir abs importData importerFilePath in
            st_ret (Some (mkDefinedAtFileInfo (mkFilePath (Some abs) (Some rel) None) fileExportPath))
          else
            st_ret (Some (mkDefinedAtFileInfo
              (mkFilePath filePathAbsolute None (Some (importPath importData))) fileExportPath))
      end
  | _ => st_ret None
  end.

(** [getConfigValueSource] (lines 649-738). *)
Definition getConfigValueSource (configName : string) (interfaceFile : IFile)
    (configDef : ConfigDefinitionInternal) : M ConfigValueSource :=
  let f := ifData interfaceFile in
  let conf := JsObject.get configName (if_configMap f) in
  assert (bool_decide (is_Some conf)) "getConfigValueSource:conf" >>
  let configEnv := env configDef in
  let definedAtConfigFile := mkDefinedAtFileInfo (if_filePath f) ["default"; configName] in
  if _valueIsFilePath configDef then
    let* '(valueFilePath, definedAtInfo) :=
      match f with
      | InterfaceConfigFile _ _ _ _ =>
          let configValue := default VUndefined (mjoin conf) in
          let* import_ := resolveImport configValue (if_filePath f) configEnv configName in
          match import_ with
          | None => st_raise (Usage (ErrShouldBeAnImport configName definedAtConfigFile))
          | Some i =>
              let p := dfi_filePath i in
              st_ret (match filePathRelativeToUserRootDir p, importPathAbsolute p with
                      | Some r, _ => VString r
                      | None, Some a => VString a
                      | None, None => VNull
                      end, i)
          end
      | InterfaceValueFile fp _ _ =>
          st_ret (match filePathRelativeToUserRootDir fp with Some r => VString r | None => VNull end,
                  mkDefinedAtFileInfo fp [])
      end in
    st_ret (mkConfigValueSource (Some valueFilePath) true configEnv true false (Some definedAtInfo))
  else
    match f with
    | InterfaceConfigFile fp _ _ _ =>
        match conf with
        | Some (Some configValue) =>
            let* import_ := resolveImport configValue fp configEnv configName in
            match import_ with
            | Some i => st_ret (mkConfigValueSource None false configEnv true false (Some i))
            | None => st_ret (mkConfigValueSource (Some configValue) false configEnv false false
                                (Some definedAtConfigFile))
            end
        | _ => st_raise (Bug "getConfigValueSource:configValue")
        end
    | InterfaceValueFile fp _ ownName =>
        let definedAt := mkDefinedAtFileInfo fp
          (if String.eqb configName ownName then [] else [configName]) in
        match conf with
        | Some (Some v) => st_ret (mkConfigValueSource (Some v) false configEnv false false (Some definedAt))
        | _ =>
            assert (bool_decide (configEnv <> ConfigOnly)) "getConfigValueSource:configOnlyLoaded" >>
            st_ret (mkConfigValueSource None false configEnv true false (Some definedAt))
        end
    end.

(** [isInterfaceFileUserLand] (lines 645-647). *)
Definition isInterfaceFileUserLand (f : InterfaceFile) : bool :=
  (isConfigFile f && negb (isConfigExtend f)) || isValueFile f.

(** The key of [makeOrderDeterministic] (lines 607-614). *)
Definition deterministicKey (f : IFile) : nat :=
  String.length (default "" (filePathRelativeToUserRootDir (if_filePath (ifData f)))).

(** [arr.sort(makeOrderDeterministic)]: a stable sort by the length of
    the user-relative path.  The comparator asserts that both files are
    user-land files with a relative path; a sort of two or more elements
    compares every element, a sort of fewer compares none. *)
Definition sortDeterministic (l : list IFile) : M (list IFile) :=
  if decide (length l <= 1) then st_ret l
  else
    st_iter (fun f => assert (isInterfaceFileUserLand (ifData f)) "makeOrderDeterministic:userLand" >>
                      assert (bool_decide (is_Some (filePathRelativeToUserRootDir (if_filePath (ifData f)))))
                        "makeOrderDeterministic:relativePath") l >>
    st_ret (JsArray.sort (JsArray.lowerFirst deterministicKey) l).

(** [warnOverridenConfigValues] (lines 615-643). *)
Definition warnOverridenConfigValues (interfaceFileWinner : IFile) (interfaceFilesOverriden : list IFile)
    (configName : string) (configDef : ConfigDefinitionInternal) : M unit :=
  st_iter (fun interfaceFileLoser =>
    let* configValueSourceWinner := getConfigValueSource configName interfaceFileWinner configDef in
    let* configValueSourceLoser := getConfigValueSource configName interfaceFileLoser configDef in
    assert (negb (isComputed configValueSourceLoser)) "warnOverriden:loser" >>
    assert (negb (isComputed configValueSourceWinner)) "warnOverriden:winner" >>
    assertWarning false (WarnOverridden configName configValueSourceLoser configValueSourceWinner))
    interfaceFilesOverriden.

(** [interfaceFile.configMap[configName]] is set. *)
Definition definesConfig (configName : string) (f : IFile) : bool :=
  bool_decide (is_Some (JsObject.get configName (if_configMap (ifData f)))).

(** The four buckets of lines 544-597. *)
Definition isPrimaryValueFile (configName : string) (f : IFile) : bool :=
  isValueFile (ifData f) && bool_decide (if_configName (ifData f) = Some configName).
Definition isDirectConfigFile (f : IFile) : bool :=
  isConfigFile (ifData f) && negb (isConfigExtend (ifData f)).
Definition isSideEffectValueFile (configName : string) (f : IFile) : bool :=
  isValueFile (ifData f) && negb (bool_decide (if_configName (ifData f) = Some configName)).
Definition isExtendConfigFile (f : IFile) : bool :=
  isConfigFile (ifData f) && isConfigExtend (ifData f).

(** The [add] closure of line 535: the [visited] set of identities is
    threaded with the sources produced so far. *)
Definition addSource (configName : string) (configDef : ConfigDefinitionInternal)
    (acc : list nat * list ConfigValueSource) (interfaceFile : IFile)
    : M (list nat * list ConfigValueSource) :=
  let '(visited, sources) := acc in
  assert (negb (bool_decide (ifId interfaceFile ∈ visited))) "resolveConfigValueSources:visitedOnce" >>
  let* configValueSource := getConfigValueSource configName interfaceFile configDef in
  st_ret (ifId interfaceFile :: visited, sources ++ [configValueSource]).

Fixpoint addSources (configName : string) (configDef : ConfigDefinitionInternal)
    (acc : list nat * list ConfigValueSource) (l : list IFile)
    : M (list nat * list ConfigValueSource) :=
  match l with
  | [] => st_ret acc
  | f :: l' => let* acc' := addSource configName configDef acc f in addSources configName configDef acc' l'
  end.

(** One iteration of the loop of lines 530-602, for the files of one
    location that define the config: returns the sources it appends. *)
Definition resolveLocation (configName : string) (configDef : ConfigDefinitionInternal)
    (interfaceFilesDefiningConfig : list IFile) : M (list ConfigValueSource) :=
  let* interfaceValueFiles :=
    sortDeterministic (List.filter (isPrimaryValueFile configName) interfaceFilesDefiningConfig) in
  let* interfaceConfigFiles :=
    sortDeterministic (List.filter isDirectConfigFile interfaceFilesDefiningConfig) in
  let* acc :=
    match head interfaceValueFiles, head interfaceConfigFiles with
    | None, None => st_ret ([], [])
    | Some w, _ | None, Some w =>
        let interfaceFilesOverriden :=
          List.filter (fun f => negb (Nat.eqb (ifId f) (ifId w))) (interfaceValueFiles ++ interfaceConfigFiles) in
        warnOverridenConfigValues w interfaceFilesOverriden configName configDef >>
        addSources configName configDef ([], []) (w :: interfaceFilesOverriden)
    end in
  let* acc := addSources configName configDef acc
    (List.filter (isSideEffectValueFile configName) interfaceFilesDefiningConfig) in
  let* '(visited, sources) := addSources configName configDef acc
    (List.filter isExtendConfigFile interfaceFilesDefiningConfig) in
  st_iter (fun f => assert (bool_decide (ifId f ∈ visited)) "resolveConfigValueSources:allVisited")
    interfaceFilesDefiningConfig >>
  st_ret sources.

(** The loop of lines 530-602 over [Object.values(interfaceFilesRelevant)]. *)
Fixpoint resolveLocations (configName : string) (configDef : ConfigDefinitionInternal)
    (interfaceFilesRelevant : list (list IFile)) (sources : option (list ConfigValueSource))
    : M (option (list ConfigValueSource)) :=
  match interfaceFilesRelevant with
  | [] => st_ret sources
  | interfaceFiles :: rest =>
      match List.filter (definesConfig configName) interfaceFiles with
      | [] => resolveLocations configName configDef rest sources
      | defining =>
          let* added := resolveLocation configName configDef defining in
          resolveLocations configName configDef rest (Some (default [] sources ++ added))
      end
  end.

(** [resolveConfigValueSources] (lines 521-606).  The relevant interface
    files are given by location, in inheritance order. *)
Definition resolveConfigValueSources (configName : string) (configDef : ConfigDefinitionInternal)
    (interfaceFilesRelevant : list (list IFile)) : M (option (list ConfigValueSource)) :=
  let* sources := resolveLocations configName configDef interfaceFilesRelevant None in
  assert (match sources with None => true | Some l => bool_decide (0 < length l) end)
    "resolveConfigValueSources:nonEmpty" >>
  st_ret sources.
End Resolve.

(** ** One file, one environment *)

(** C6: a file that serves one config in one environment cannot serve
    another config in a different environment: the second registration is
    a usage error that names both configs and both environments, thrown
    after [filesEnv.set] (line 746), so the module-level table keeps both
    entries. *)
Theorem assertFileEnv_conflict p e1 n1 e2 n2 s :
  JsObject.get p (filesEnv s) = None -> e1 <> e2 ->
  (assertFileEnv p e1 n1 >> assertFileEnv p e2 n2) s
    = Err (Usage (ErrFileEnvConflict p (e1, n1) (e2, n2)),
           mkPassState (JsObject.set p [(e1, n1); (e2, n2)] (filesEnv s)) (warnings s)).
Proof.
  intros Hnone Hne. unfold assertFileEnv, st_bind, st_get, st_put. simpl.
  rewrite Hnone. simpl. rewrite bool_decide_false by congruence. unfold st_ret. simpl.
  rewrite JsObject.get_set_eq. simpl. rewrite bool_decide_true by done. unfold st_raise.
  by rewrite JsObject.set_set.
Qed.

(** ** Import paths outside the user root *)

Lemma startsWith_dotdot_dot (s : string) : startsWith s ".." = true -> startsWith s "." = true.
Proof.
  unfold startsWith. destruct s as [|a s]; [discriminate|]. intros H.
  destruct (Ascii.ascii_dec "." a) as [<-|Hne]; [by destruct s|].
  cbn -[Ascii.ascii_dec] in H. destruct (Ascii.ascii_dec "." a); [contradiction|discriminate].
Qed.

(** C5 (finding): a relative import that resolves to a file whose path
    starts with the text of [userRootDir] but lies outside it (e.g. root
    [/home/app], file [/home/app2/x.js]) passes the [startsWith] test of
    line 834, so the usage error of lines 837-841 ("imports from a relative
    path outside of userRootDir which is forbidden") is never reached: the
    pass dies on the internal assertion of line 864 instead. *)
Theorem relativeToUserRootDir_sibling_directory_bug `{ImportResolver} userRootDir abs importData
    importer s :
  startsWith abs userRootDir = true ->
  ~ Path.segments userRootDir `prefix_of` Path.segments abs ->
  resolveImportPath_relativeToUserRootDir userRootDir abs importData importer s
    = Err (Bug "getVitePathFromAbsolutePath:relative", s).
Proof.
  intros Hstart Hout. unfold resolveImportPath_relativeToUserRootDir, getVitePathFromAbsolutePath, assert.
  rewrite Hstart. unfold st_bind, st_ret, st_raise.
  rewrite (startsWith_dotdot_dot _ (relative_outside_startsWith_dotdot _ _ Hout)).
  by rewrite andb_false_r.
Qed.
