(* ===== verification/ResolveOrder.v ===== *)
(** * The order of value sources: specification and refinement

    [locationOrder] states abstractly the order of section 4.4 of the
    specification for the files of one location: the primary value files
    and the direct config files (each bucket sorted by path length), the
    side-effect exports, the extension config files.  [resolutionOrder]
    concatenates it over the locations, most specific first.  The main
    theorem, [resolveConfigValueSources_refines], shows that the sources
    computed by [resolveConfigValueSources] are, one by one, the sources
    [getConfigValueSource] yields for the files of [resolutionOrder]. *)

From stdpp Require Import base list strings.
From Stdlib Require Import Ascii Lia Sorted.
From Stdlib Require String.
From S2P Require Import Prelude Js Model Collaborators Resolve.

(** ** Generic list facts *)

(** Four predicates that partition the elements split a list into four
    filters that are, together, a permutation of it. *)
Lemma filter_partition4_perm {A} (p1 p2 p3 p4 : A -> bool) (l : list A) :
  (forall x, (if p1 x then 1 else 0) + (if p2 x then 1 else 0)
             + (if p3 x then 1 else 0) + (if p4 x then 1 else 0) = 1) ->
  Permutation (List.filter p1 l ++ List.filter p2 l ++ List.filter p3 l ++ List.filter p4 l) l.
Proof.
  intros Hp. induction l as [|x l IH]; simpl; [done|].
  specialize (Hp x).
  destruct (p1 x), (p2 x), (p3 x), (p4 x); simpl in Hp; try lia; simpl.
  - by constructor.
  - rewrite <- Permutation_middle. by constructor.
  - rewrite (app_assoc (List.filter p1 l)), <- Permutation_middle, <- app_assoc. by constructor.
  - rewrite (app_assoc (List.filter p1 l)), (app_assoc (List.filter p1 l ++ _)).
    rewrite <- Permutation_middle, <- !app_assoc. by constructor.
Qed.

Lemma filter_ne_id (w : IFile) (r : list IFile) :
  ifId w ∉ map ifId r -> List.filter (fun f => negb (Nat.eqb (ifId f) (ifId w))) r = r.
Proof.
  induction r as [|x r IHr]; intros Hnin; simpl; [done|].
  simpl in Hnin. rewrite elem_of_cons in Hnin.
  destruct (Nat.eqb_spec (ifId x) (ifId w)) as [E|E].
  - exfalso. apply Hnin. by left.
  - simpl. f_equal. apply IHr. intros H. apply Hnin. by right.
Qed.

Lemma elem_of_List_filter {A} (p : A -> bool) x l : x ∈ List.filter p l <-> x ∈ l /\ p x = true.
Proof. rewrite !list_elem_of_In. apply filter_In. Qed.

Lemma elem_of_Permutation {A} (x : A) l l' : Permutation l l' -> x ∈ l <-> x ∈ l'.
Proof.
  intros P. rewrite !list_elem_of_In. split; apply Permutation_in; [done|by symmetry].
Qed.

Section ResolveOrder.
Context `{IR : ImportResolver}.
Variable userRootDir : string.
Variable configName : string.
Variable configDef : ConfigDefinitionInternal.

(** The files of one location that define the config. *)
Definition definingFiles (interfaceFiles : list IFile) : list IFile :=
  List.filter (definesConfig configName) interfaceFiles.

Definition sortByPath : list IFile -> list IFile :=
  JsArray.sort (JsArray.lowerFirst deterministicKey).

(** The order of section 4.4 of the specification, for one location. *)
Definition locationOrder (defining : list IFile) : list IFile :=
  sortByPath (List.filter (isPrimaryValueFile configName) defining)
  ++ sortByPath (List.filter isDirectConfigFile defining)
  ++ List.filter (isSideEffectValueFile configName) defining
  ++ List.filter isExtendConfigFile defining.

(** The order over all relevant locations, most specific first. *)
Definition resolutionOrder (interfaceFilesRelevant : list (list IFile)) : list IFile :=
  concat (map (fun g => locationOrder (definingFiles g)) interfaceFilesRelevant).

(** [src] is the source [getConfigValueSource] makes of [f]. *)
Definition yields (f : IFile) (src : ConfigValueSource) : Prop :=
  exists s s', getConfigValueSource userRootDir configName f configDef s = Ok (src, s').

(** Interface files are distinct objects. *)
Definition idsUnique (interfaceFilesRelevant : list (list IFile)) : Prop :=
  NoDup (map ifId (concat interfaceFilesRelevant)).

Lemma buckets_partition f :
  (if isPrimaryValueFile configName f then 1 else 0) + (if isDirectConfigFile f then 1 else 0)
  + (if isSideEffectValueFile configName f then 1 else 0) + (if isExtendConfigFile f then 1 else 0) = 1.
Proof.
  unfold isPrimaryValueFile, isDirectConfigFile, isSideEffectValueFile, isExtendConfigFile.
  destruct f as [i [fp m ext b|fp m n]]; simpl; [destruct b; reflexivity|].
  by case_bool_decide.
Qed.

Lemma sortByPath_perm l : Permutation (sortByPath l) l.
Proof. apply JsArray.sort_perm. Qed.

Lemma locationOrder_perm defining : Permutation (locationOrder defining) defining.
Proof.
  unfold locationOrder. rewrite !sortByPath_perm.
  apply filter_partition4_perm, buckets_partition.
Qed.

Lemma getConfigValueSource_indep f : st_value_indep (getConfigValueSource userRootDir configName f configDef).
Proof.
  unfold getConfigValueSource, resolveImport, resolveImportPath, assertImportPath,
    resolveImportPath_relativeToUserRootDir, getVitePathFromAbsolutePath, assert.
  solve_indep.
Qed.

(** A file yields at most one source. *)
Lemma yields_functional f a b : yields f a -> yields f b -> a = b.
Proof.
  intros (s1 & s1' & H1) (s2 & s2' & H2). exact (getConfigValueSource_indep f _ _ _ _ _ _ H1 H2).
Qed.

Lemma sortDeterministic_ok l s l' s' :
  sortDeterministic l s = Ok (l', s') -> l' = sortByPath l.
Proof.
  unfold sortDeterministic. case_decide as Hlen; intros H; inv_bind.
  - match goal with |- ?x = sortByPath ?x => destruct x as [|x [|y r]] end;
      simpl in *; [done|done|lia].
  - done.
Qed.

Lemma addSources_ok l vis acc s vis' acc' s' :
  addSources userRootDir configName configDef (vis, acc) l s = Ok ((vis', acc'), s') ->
  vis' = rev (map ifId l) ++ vis /\
  exists srcs, acc' = acc ++ srcs /\ Forall2 yields l srcs.
Proof.
  revert vis acc s. induction l as [|f l IH]; intros vis acc s H; simpl in H.
  - inv_bind. split; [done|]. exists []. by rewrite app_nil_r.
  - apply st_bind_Ok in H as ([vis1 acc1] & s1 & Hadd & H).
    unfold addSource, assert in Hadd.
    destruct (negb _); [|discriminate].
    apply st_bind_Ok in Hadd as ([] & s2 & _ & Hadd).
    apply st_bind_Ok in Hadd as (src & s3 & Hsrc & Hadd). inv_bind.
    destruct (IH _ _ _ H) as (-> & srcs & -> & Hsrcs). split.
    + simpl. by rewrite <- app_assoc.
    + exists (src :: srcs). rewrite <- app_assoc. split; [done|].
      constructor; [|done]. eexists _, _. exact Hsrc.
Qed.

(** The winner and the overridden files are the two sorted buckets. *)
Lemma winner_overridden (vf cf : list IFile) w :
  NoDup (map ifId (vf ++ cf)) ->
  match head vf with Some w => Some w | None => head cf end = Some w ->
  w :: List.filter (fun f => negb (Nat.eqb (ifId f) (ifId w))) (vf ++ cf) = vf ++ cf.
Proof.
  intros Hnd Hw. assert (Hhd : exists r, vf ++ cf = w :: r).
  { destruct vf as [|x vf]; simpl in *.
    - destruct cf as [|c cf]; simpl in *; [discriminate|]. exists cf. congruence.
    - exists (vf ++ cf). congruence. }
  destruct Hhd as [r Hr]. rewrite Hr in Hnd |- *. simpl.
  rewrite Nat.eqb_refl. simpl. f_equal. apply filter_ne_id.
  by apply NoDup_cons in Hnd as [? _].
Qed.

Lemma locationOrder_NoDup defining :
  NoDup (map ifId defining) -> NoDup (map ifId (locationOrder defining)).
Proof. intros Hnd. by rewrite locationOrder_perm. Qed.

Lemma winner_block_ok (vf cf : list IFile) w s vis srcs s' :
  NoDup (map ifId (vf ++ cf)) ->
  match head vf with Some w => Some w | None => head cf end = Some w ->
  (warnOverridenConfigValues userRootDir w
     (List.filter (fun f => negb (Nat.eqb (ifId f) (ifId w))) (vf ++ cf)) configName configDef >>
   addSources userRootDir configName configDef ([], [])
     (w :: List.filter (fun f => negb (Nat.eqb (ifId f) (ifId w))) (vf ++ cf))) s
  = Ok ((vis, srcs), s') ->
  Forall2 yields (vf ++ cf) srcs.
Proof.
  intros Hnd Hw H. apply st_bind_Ok in H as ([] & s1 & _ & H).
  apply addSources_ok in H as (_ & srcs' & -> & Hsrcs).
  by rewrite (winner_overridden vf cf w Hnd Hw) in Hsrcs.
Qed.

(** One location: the sources appended are those of [locationOrder]. *)
Lemma resolveLocation_ok defining s srcs s' :
  NoDup (map ifId defining) ->
  resolveLocation userRootDir configName configDef defining s = Ok (srcs, s') ->
  Forall2 yields (locationOrder defining) srcs.
Proof.
  intros Hnd H. unfold resolveLocation in H.
  apply st_bind_Ok in H as (vf & s1 & Hvf%sortDeterministic_ok & H).
  apply st_bind_Ok in H as (cf & s2 & Hcf%sortDeterministic_ok & H).
  apply st_bind_Ok in H as ([vis1 srcs1] & s3 & Hwin & H).
  apply st_bind_Ok in H as ([vis2 srcs2] & s4 & Hside & H).
  apply st_bind_Ok in H as ([vis3 srcs3] & s5 & Hext & H).
  apply st_bind_Ok in H as ([] & s6 & _ & H). unfold st_ret in H. injection H as <- <-.
  apply addSources_ok in Hside as (_ & X2 & -> & H2).
  apply addSources_ok in Hext as (_ & X3 & -> & H3).
  pose proof (locationOrder_NoDup defining Hnd) as Hnd'.
  unfold locationOrder in Hnd'. rewrite app_assoc, map_app in Hnd'.
  apply NoDup_app in Hnd' as [Hnd1 _].
  rewrite <- Hvf, <- Hcf in Hnd1.
  assert (H1 : Forall2 yields (vf ++ cf) srcs1).
  { destruct (head vf) as [w|] eqn:Ev; [|destruct (head cf) as [w|] eqn:Ec].
    - eapply winner_block_ok; [exact Hnd1| |exact Hwin]. by rewrite Ev.
    - eapply winner_block_ok; [exact Hnd1| |exact Hwin]. by rewrite Ev.
    - unfold st_ret in Hwin. injection Hwin as _ <- _.
      destruct vf, cf; simpl in *; try discriminate. constructor. }
  unfold locationOrder. rewrite <- Hvf, <- Hcf, app_assoc, <- !app_assoc.
  rewrite app_assoc. apply Forall2_app; [done|]. by apply Forall2_app.
Qed.

Lemma locationOrder_nil defining : locationOrder defining = [] <-> defining = [].
Proof.
  split; intros H.
  - pose proof (locationOrder_perm defining) as P. rewrite H in P.
    by apply Permutation_nil in P.
  - subst. done.
Qed.

Lemma idsUnique_groups groups :
  idsUnique groups -> Forall (fun g => NoDup (map ifId (definingFiles g))) groups.
Proof.
  unfold idsUnique. induction groups as [|g groups IH]; simpl; intros Hnd; [done|].
  rewrite map_app in Hnd. apply NoDup_app in Hnd as (Hg & _ & Hrest).
  constructor; [by apply NoDup_map_filter|auto].
Qed.

Lemma resolutionOrder_cons g groups :
  resolutionOrder (g :: groups) = locationOrder (definingFiles g) ++ resolutionOrder groups.
Proof. reflexivity. Qed.

Lemma resolveLocations_ok groups acc s r s' :
  Forall (fun g => NoDup (map ifId (definingFiles g))) groups ->
  resolveLocations userRootDir configName configDef groups acc s = Ok (r, s') ->
  exists srcs, Forall2 yields (resolutionOrder groups) srcs /\
    r = match acc, resolutionOrder groups with
        | None, [] => None
        | _, _ => Some (default [] acc ++ srcs)
        end.
Proof.
  revert acc s. induction groups as [|g groups IH]; intros acc s Hnd H; simpl in H.
  - unfold st_ret in H. injection H as <- <-.
    exists []. split; [constructor|]. destruct acc; simpl; by rewrite ?app_nil_r.
  - inversion Hnd as [|? ? Hg Hrest]; subst. rewrite resolutionOrder_cons.
    unfold definingFiles in Hg |- *.
    destruct (List.filter (definesConfig configName) g) as [|f l] eqn:Ed.
    + simpl. exact (IH acc s Hrest H).
    + apply st_bind_Ok in H as (added & s1 & Hloc & H).
      apply resolveLocation_ok in Hloc; [|done].
      destruct (IH _ _ Hrest H) as (srcs & Hsrcs & ->).
      exists (added ++ srcs). split; [by apply Forall2_app|].
      assert (locationOrder (f :: l) <> []) as Hne by (rewrite locationOrder_nil; done).
      destruct (locationOrder (f :: l)); [done|]. destruct acc; simpl; by rewrite ?app_assoc.
Qed.

(** ** Refinement: the code computes the specified order *)

(** C1: [resolveConfigValueSources] refines [resolutionOrder]. *)
Theorem resolveConfigValueSources_refines groups s r s' :
  idsUnique groups ->
  resolveConfigValueSources userRootDir configName configDef groups s = Ok (r, s') ->
  Forall2 yields (resolutionOrder groups) (default [] r) /\
  (r = None <-> resolutionOrder groups = []).
Proof.
  intros Hids H. unfold resolveConfigValueSources in H.
  apply st_bind_Ok in H as (r0 & s1 & Hlocs & H).
  apply st_bind_Ok in H as ([] & s2 & _ & H). unfold st_ret in H. injection H as <- <-.
  destruct (resolveLocations_ok _ _ _ _ _ (idsUnique_groups _ Hids) Hlocs) as (srcs & Hsrcs & ->).
  destruct (resolutionOrder groups); simpl; [inversion Hsrcs; subst; done|].
  split; [done|]. split; discriminate.
Qed.

Lemma elem_of_locationOrder f g :
  f ∈ locationOrder (definingFiles g) <-> f ∈ g /\ definesConfig configName f = true.
Proof.
  rewrite locationOrder_perm. unfold definingFiles.
  rewrite !list_elem_of_In, filter_In. done.
Qed.

Lemma elem_of_sortByPath_filter p f l : f ∈ sortByPath (List.filter p l) <-> f ∈ l /\ p f = true.
Proof. rewrite sortByPath_perm, !list_elem_of_In, filter_In. done. Qed.

Lemma resolutionOrder_app pre post :
  resolutionOrder (pre ++ post) = resolutionOrder pre ++ resolutionOrder post.
Proof. unfold resolutionOrder. by rewrite map_app, concat_app. Qed.

(** An order inside one location carries over to [resolutionOrder]. *)
Lemma precedes_resolutionOrder_local groups g f h :
  g ∈ groups -> precedes f h (locationOrder (definingFiles g)) -> precedes f h (resolutionOrder groups).
Proof.
  intros [pre [post ->]]%list_elem_of_split Hp.
  rewrite resolutionOrder_app, resolutionOrder_cons.
  apply precedes_app_r, precedes_app_weaken_l, Hp.
Qed.

(** Locations earlier in the list come first. *)
Lemma precedes_resolutionOrder_across pre g1 mid g2 post f h :
  f ∈ locationOrder (definingFiles g1) -> h ∈ locationOrder (definingFiles g2) ->
  precedes f h (resolutionOrder (pre ++ g1 :: mid ++ g2 :: post)).
Proof.
  intros Hf Hh. rewrite resolutionOrder_app, resolutionOrder_cons, resolutionOrder_app, resolutionOrder_cons.
  apply precedes_app_r, precedes_app_l; [done|].
  apply list_elem_of_In, in_or_app. right. apply in_or_app. left. by apply list_elem_of_In.
Qed.

(** The sources of two files in a given order are in that order. *)
Lemma sources_in_order groups s srcs s' f h :
  idsUnique groups ->
  resolveConfigValueSources userRootDir configName configDef groups s = Ok (Some srcs, s') ->
  precedes f h (resolutionOrder groups) ->
  exists i j sf sh, i < j /\ srcs !! i = Some sf /\ srcs !! j = Some sh /\ yields f sf /\ yields h sh.
Proof.
  intros Hids H Hp. destruct (resolveConfigValueSources_refines _ _ _ _ Hids H) as [HF _].
  destruct (precedes_Forall2 _ _ _ _ _ HF Hp) as (i & j & sf & sh & ?). eauto 10.
Qed.

Lemma resolutionOrder_undefined pre :
  Forall (fun g => definingFiles g = []) pre -> resolutionOrder pre = [].
Proof.
  induction 1 as [|g pre Hg _ IH]; [done|].
  rewrite resolutionOrder_cons, Hg, IH. reflexivity.
Qed.

(** ** Priority rules of section 4.4 *)

(** C2 (P1, override priority): when the most specific location that
    defines the config has a [+{configName}] value file, the value used
    (the first source) is the one of such a value file, and of the one
    with the shortest path. *)
Theorem value_file_wins groups pre g post v s src srcs s' :
  idsUnique groups -> groups = pre ++ g :: post ->
  Forall (fun g' => definingFiles g' = []) pre ->
  v ∈ g -> definesConfig configName v = true -> isPrimaryValueFile configName v = true ->
  resolveConfigValueSources userRootDir configName configDef groups s = Ok (Some (src :: srcs), s') ->
  exists w, w ∈ g /\ definesConfig configName w = true /\ isPrimaryValueFile configName w = true /\
    yields w src /\
    (forall v', v' ∈ g -> definesConfig configName v' = true -> isPrimaryValueFile configName v' = true ->
                deterministicKey w <= deterministicKey v').
Proof.
  intros Hids -> Hpre Hv Hdv Hpv H.
  destruct (resolveConfigValueSources_refines _ _ _ _ Hids H) as [HF _]. simpl in HF.
  rewrite resolutionOrder_app, (resolutionOrder_undefined pre Hpre), resolutionOrder_cons in HF. simpl in HF.
  unfold locationOrder in HF.
  set (vs := List.filter (isPrimaryValueFile configName) (definingFiles g)) in HF.
  assert (Hvs : v ∈ vs) by (unfold vs, definingFiles; rewrite !elem_of_List_filter; done).
  destruct (sortByPath vs) as [|w r] eqn:Hsort.
  { rewrite <- (elem_of_Permutation _ _ _ (sortByPath_perm vs)) in Hvs.
    rewrite Hsort in Hvs. by apply not_elem_of_nil in Hvs. }
  inversion HF as [|? ? ? ? Hw _]; subst.
  assert (Hwin : w ∈ vs).
  { rewrite <- (elem_of_Permutation _ _ _ (sortByPath_perm vs)), Hsort. by left. }
  unfold vs, definingFiles in Hwin. rewrite !elem_of_List_filter in Hwin.
  destruct Hwin as [[Hwin Hdw] Hpw].
  exists w. do 4 (split; [done|]).
  intros v' Hv' Hdv' Hpv'. eapply JsArray.sort_lowerFirst_head_min; [exact Hsort|].
  unfold vs, definingFiles. by rewrite !elem_of_List_filter.
Qed.

Lemma elem_of_bucket p f g :
  f ∈ sortByPath (List.filter p (definingFiles g)) <->
  f ∈ g /\ definesConfig configName f = true /\ p f = true.
Proof.
  rewrite (elem_of_Permutation _ _ _ (sortByPath_perm _)). unfold definingFiles.
  rewrite !elem_of_List_filter. tauto.
Qed.

Lemma elem_of_filter_defining p f g :
  f ∈ List.filter p (definingFiles g) <-> f ∈ g /\ definesConfig configName f = true /\ p f = true.
Proof. unfold definingFiles. rewrite !elem_of_List_filter. tauto. Qed.

(** C3 (P1, overridden config file): at one location, the source of a
    [+{configName}] value file comes before the source of a (non
    extension) [+config] file that also defines the config. *)
Theorem value_file_overrides_config_file groups g v c s srcs s' :
  idsUnique groups -> g ∈ groups -> v ∈ g -> c ∈ g ->
  definesConfig configName v = true -> definesConfig configName c = true ->
  isPrimaryValueFile configName v = true -> isDirectConfigFile c = true ->
  resolveConfigValueSources userRootDir configName configDef groups s = Ok (Some srcs, s') ->
  exists i j sv sc, i < j /\ srcs !! i = Some sv /\ srcs !! j = Some sc /\ yields v sv /\ yields c sc.
Proof.
  intros Hids Hg Hv Hc Hdv Hdc Hpv Hpc H. eapply sources_in_order; [done|exact H|].
  apply (precedes_resolutionOrder_local _ g); [done|]. apply precedes_app_l.
  - by apply elem_of_bucket.
  - apply elem_of_app. left. by apply elem_of_bucket.
Qed.

(** P2 (inheritance specificity): a file of a location listed earlier
    (more specific) contributes before any file of a location listed
    later, whatever their kinds. *)
Theorem earlier_location_first pre g1 mid g2 post f h s srcs s' :
  idsUnique (pre ++ g1 :: mid ++ g2 :: post) ->
  f ∈ g1 -> definesConfig configName f = true -> h ∈ g2 -> definesConfig configName h = true ->
  resolveConfigValueSources userRootDir configName configDef (pre ++ g1 :: mid ++ g2 :: post) s
    = Ok (Some srcs, s') ->
  exists i j sf sh, i < j /\ srcs !! i = Some sf /\ srcs !! j = Some sh /\ yields f sf /\ yields h sh.
Proof.
  intros Hids Hf Hdf Hh Hdh H. eapply sources_in_order; [done|exact H|].
  apply precedes_resolutionOrder_across; by apply elem_of_locationOrder.
Qed.

(** P3 (extends priority): at one location, the source of a config
    file placed there comes before the source of a config file reached
    through [extends]. *)
Theorem direct_config_before_extends groups g c e s srcs s' :
  idsUnique groups -> g ∈ groups -> c ∈ g -> e ∈ g ->
  definesConfig configName c = true -> definesConfig configName e = true ->
  isDirectConfigFile c = true -> isExtendConfigFile e = true ->
  resolveConfigValueSources userRootDir configName configDef groups s = Ok (Some srcs, s') ->
  exists i j sc se, i < j /\ srcs !! i = Some sc /\ srcs !! j = Some se /\ yields c sc /\ yields e se.
Proof.
  intros Hids Hg Hc He Hdc Hde Hpc Hpe H. eapply sources_in_order; [done|exact H|].
  apply (precedes_resolutionOrder_local _ g); [done|]. apply precedes_app_r, precedes_app_l.
  - by apply elem_of_bucket.
  - apply elem_of_app. right. by apply elem_of_filter_defining.
Qed.
End ResolveOrder.
