(* ===== verification/FilesEnv.v ===== *)
(** * The [filesEnv] table: one file, one environment (section 4.5)

    [assertFileEnv] (getVikeConfig.ts lines 740-760) records, for every
    imported file, the environments of the configs whose values it holds,
    and fails as soon as one file would serve two environments; the entry
    is pushed before the check, so the table of a failed pass keeps it.
    The invariant [filesEnvConsistent] says that every file of the table
    is used in a single environment, and [filesEnvAfterError] what the
    table holds after an error: the two environments of a conflict, or a
    consistent table after any other error.  [FrameInvariant] is the class
    of such pairs kept by the two operations that write the state and by
    every other throw; the resolution engine keeps each of them here, and
    PassFrame.v goes on to the whole pass. *)

From stdpp Require Import base list strings.
From Stdlib Require Import Lia.
From Stdlib Require String.
From S2P Require Import Prelude Js Model Collaborators Resolve.

Definition filesEnvConsistent (s : PassState) : Prop :=
  forall p l, JsObject.get p (filesEnv s) = Some l ->
  forall c1 c2, c1 ∈ l -> c2 ∈ l -> c1.1 = c2.1.

Lemma filter_env_nil (l : list (ConfigEnvInternal * string)) e :
  List.filter (fun c => bool_decide (c.1 <> e)) l = [] -> forall c, c ∈ l -> c.1 = e.
Proof.
  induction l as [|c' l IH]; simpl; intros H c Hc; [by apply not_elem_of_nil in Hc|].
  case_bool_decide as Hne; [discriminate|].
  apply elem_of_cons in Hc as [->|Hc]; [|auto]. destruct (decide (c'.1 = e)); tauto.
Qed.

Lemma initPassState_consistent : filesEnvConsistent initPassState.
Proof. intros p l H. discriminate. Qed.

(** The state after an error: a conflict on [p] leaves [p] recorded with
    both environments; any other error leaves the table consistent. *)
Definition filesEnvAfterError (e : VikeError) (s : PassState) : Prop :=
  match e with
  | Usage (ErrFileEnvConflict p c1 c2) =>
      exists l, JsObject.get p (filesEnv s) = Some l /\ c1 ∈ l /\ c2 ∈ l /\ c1.1 <> c2.1
  | _ => filesEnvConsistent s
  end.

(** The errors only [assertFileEnv] throws. *)
Definition fileEnvConflict (e : VikeError) : bool :=
  match e with Usage (ErrFileEnvConflict _ _ _) => true | _ => false end.

(** A state invariant [P] and an error postcondition [Q] kept by the two
    operations that write the state, and by every other throw. *)
Class FrameInvariant (P : PassState -> Prop) (Q : VikeError -> PassState -> Prop) : Prop := {
  frame_assertFileEnv p e n : st_frame P Q (assertFileEnv p e n);
  frame_assertWarning b w : st_frame P Q (assertWarning b w);
  frame_throw e s : P s -> fileEnvConflict e = false -> Q e s
}.

Section Leaves.
Context `{FI : FrameInvariant P Q}.

Lemma frame_raise_other {A} e : fileEnvConflict e = false -> st_frame P Q (st_raise e : M A).
Proof. intros He. apply frame_raise. intros s Hs. exact (frame_throw e s Hs He). Qed.

Lemma frame_assert b t : st_frame P Q (assert b t).
Proof. unfold assert. destruct b; [apply frame_ret|by apply frame_raise_other]. Qed.

Lemma frame_assertUsage b u : fileEnvConflict (Usage u) = false -> st_frame P Q (assertUsage b u).
Proof. unfold assertUsage. destruct b; [intros; apply frame_ret|apply frame_raise_other]. Qed.
End Leaves.

Create HintDb frame.

(** The leaves of a pass computation, then the lemmas of the [frame]
    database for the operations proved so far. *)
Ltac frame_leaf :=
  first [ apply frame_assertFileEnv | apply frame_assertWarning | apply frame_assert
        | apply frame_assertUsage; reflexivity | apply frame_raise_other; reflexivity
        | solve [eauto with frame]
        | match goal with |- st_frame _ _ ((match ?x with _ => _ end) _) => destruct x; cbv beta end ].
Ltac solve_frame := solve_frame_with frame_leaf.

Lemma filter_env_elem (l : list (ConfigEnvInternal * string)) e c l' :
  List.filter (fun c => bool_decide (c.1 <> e)) l = c :: l' -> c ∈ l /\ c.1 <> e.
Proof.
  intros Hf. assert (Hc : c ∈ List.filter (fun c => bool_decide (c.1 <> e)) l) by (rewrite Hf; left).
  apply elem_of_list_filter_bool in Hc as [Hc He]. split; [exact Hc|by apply bool_decide_eq_true in He].
Qed.

#[export] Instance filesEnvConsistent_frame : FrameInvariant filesEnvConsistent filesEnvAfterError.
Proof.
  split.
  - intros p e n s HP. unfold assertFileEnv, st_bind, st_get, st_put. simpl.
    destruct (List.filter _ _) as [|c l'] eqn:Hf.
    + pose proof (filter_env_nil _ _ Hf) as Hall.
      intros p' l Hl c1 c2 H1 H2. simpl in Hl. destruct (decide (p = p')) as [<-|Hne].
      * rewrite JsObject.get_set_eq in Hl. injection Hl as <-. by rewrite (Hall c1 H1), (Hall c2 H2).
      * rewrite JsObject.get_set_ne in Hl by done. eauto.
    + destruct (filter_env_elem _ _ _ _ Hf) as [Hc Hne]. eexists. simpl. rewrite JsObject.get_set_eq.
      split; [reflexivity|]. split; [exact Hc|]. split; [apply elem_of_app; right; by left|exact Hne].
  - intros b w s HP. destruct (assertWarning b w s) as [[u s']|[e' s']] eqn:Hw.
    + unfold filesEnvConsistent. by rewrite (proj1 (assertWarning_Ok _ _ _ _ _ Hw)).
    + unfold assertWarning, st_modify in Hw. by destruct b.
  - intros [u| |] s HP He; [destruct u|..]; done.
Qed.

Section Engine.
Context `{IR : ImportResolver} (userRootDir : string) `{FI : FrameInvariant P Q}.

Lemma resolveImport_frame v fp e n : st_frame P Q (resolveImport userRootDir v fp e n).
Proof.
  unfold resolveImport, resolveImportPath, assertImportPath, resolveImportPath_relativeToUserRootDir,
    getVitePathFromAbsolutePath.
  solve_frame.
Qed.
#[local] Hint Resolve resolveImport_frame : frame.

Lemma getConfigValueSource_frame name f def : st_frame P Q (getConfigValueSource userRootDir name f def).
Proof. unfold getConfigValueSource. solve_frame. Qed.
#[local] Hint Resolve getConfigValueSource_frame : frame.

Lemma addSources_frame name def acc l : st_frame P Q (addSources userRootDir name def acc l).
Proof.
  revert acc. induction l as [|f l IH]; intros [vis srcs]; simpl; [apply frame_ret|].
  apply frame_bind; [unfold addSource; solve_frame|intros; apply IH].
Qed.
#[local] Hint Resolve addSources_frame : frame.

Lemma resolveLocation_frame name def defining : st_frame P Q (resolveLocation userRootDir name def defining).
Proof. unfold resolveLocation, sortDeterministic, warnOverridenConfigValues. solve_frame. Qed.

Lemma resolveConfigValueSources_frame name def groups :
  st_frame P Q (resolveConfigValueSources userRootDir name def groups).
Proof.
  unfold resolveConfigValueSources. apply frame_bind; [|intros; solve_frame].
  generalize (@None (list ConfigValueSource)).
  induction groups as [|g groups IH]; intros acc; simpl; [apply frame_ret|].
  destruct (List.filter _ _); [apply IH|].
  apply frame_bind; [apply resolveLocation_frame|intros; apply IH].
Qed.
End Engine.

Section Consistent.
Context `{IR : ImportResolver} (userRootDir : string).

(** Resolving the sources of a config keeps every file of [filesEnv] in a
    single environment (the whole pass does: PassFrame.v). *)
Theorem resolveConfigValueSources_filesEnvConsistent name def groups s r s' :
  filesEnvConsistent s ->
  resolveConfigValueSources userRootDir name def groups s = Ok (r, s') ->
  filesEnvConsistent s'.
Proof. apply (frame_Ok _ filesEnvAfterError), resolveConfigValueSources_frame, _. Qed.
End Consistent.

