(* ===== verification/Cumulative.v ===== *)
(** * Final values and cumulative configs (getVikeConfig.ts lines 1421-1561)

    [getConfigValues] turns the ordered sources of every config into its
    final value: the value of the first source for an ordinary config, the
    merge of all sources for a cumulative one ([mergeCumulative]): arrays
    are concatenated in source order, sets are united, and mixing the two
    is a usage error that names the two sources. *)

From stdpp Require Import base list strings.
From Stdlib Require Import Lia.
From Stdlib Require String.
From S2P Require Import Prelude Js Model.

(** [DefinedAtFile] (PageConfig.ts). *)
Record DefinedAtFile : Type := mkDefinedAtFile {
  filePathToShowToUser : option string;
  daf_fileExportPath : list string
}.

(** [DefinedAt]: a file, a computed value, or the files of a cumulative value. *)
Inductive DefinedAt : Type :=
| DefinedAtFileD (file : DefinedAtFile)
| DefinedAtComputed
| DefinedAtCumulative (files : list DefinedAtFile).

(** An entry of [ConfigValues]: [{ value, definedAt }]. *)
Record ConfigValue : Type := mkConfigValue { cv_value : value; cv_definedAt : DefinedAt }.

(** [getDefinedAtFilePathToShowToUser] (lines 1547-1549). *)
Definition getDefinedAtFilePathToShowToUser (definedAtInfo : DefinedAtFileInfo) : option string :=
  match filePathRelativeToUserRootDir (dfi_filePath definedAtInfo) with
  | Some p => Some p
  | None => importPathAbsolute (dfi_filePath definedAtInfo)
  end.

(** [getDefinedAtFile] (lines 1550-1556).  A source without [definedAtInfo]
    is a computed one, which the assertion excludes. *)
Definition getDefinedAtFile (source : ConfigValueSource) : M DefinedAtFile :=
  assert (negb (isComputed source)) "getDefinedAtFile:isComputed" >>
  match definedAtInfo source with
  | Some i => st_ret (mkDefinedAtFile (getDefinedAtFilePathToShowToUser i) (fileExportPath i))
  | None => st_raise (Bug "getDefinedAtFile:definedAtInfo")
  end.

(** [getDefinedAt] (lines 1557-1561). *)
Definition getDefinedAt (source : ConfigValueSource) : M DefinedAt :=
  let* f := getDefinedAtFile source in st_ret (DefinedAtFileD f).

(** [getConfigValueSerialized] (getVirtualFilePageConfigs.ts), as far as
    it can fail: a function cannot be serialized. *)
Fixpoint serializable (v : value) : bool :=
  match v with
  | VFunction _ => false
  | VArray xs | VSet xs => forallb serializable xs
  | VObject fields => forallb (fun kv => serializable kv.2) fields
  | _ => true
  end.

Definition getConfigValueSerialized (v : value) (configName : string) : M unit :=
  if serializable v then st_ret tt else st_raise (Usage (ErrNotSerializable configName)).

(** [new Set(xs)]: the first occurrence of each member, in order. *)
Fixpoint setFromList (acc : list value) (xs : list value) : list value :=
  match xs with
  | [] => acc
  | x :: xs' => if existsb (value_eqb x) acc then setFromList acc xs' else setFromList (acc ++ [x]) xs'
  end.

Definition arrayElems (v : value) : list value := match v with VArray xs | VSet xs => xs | _ => [] end.

(** [mergeCumulativeValues] (utils/mergeCumulativeValues.ts): [flat()] of
    arrays, union of sets, [null] for a mix. *)
Definition mergeCumulativeValues (values : list value) : option value :=
  if forallb isArray values then Some (VArray (concat (map arrayElems values)))
  else if forallb isSet values then Some (VSet (setFromList [] (concat (map arrayElems values))))
  else None.

(** The local state of [mergeCumulative]: [valuesArr], [valuesSet] and
    [configValueSourcePrevious]. *)
Record MergeAcc : Type := mkMergeAcc {
  valuesArr : list value;
  valuesSet : list value;
  configValueSourcePrevious : option ConfigValueSource
}.

(** [assertNoMixing(isSet)] (lines 1473-1493). *)
Definition assertNoMixing (configName : string) (acc : MergeAcc) (source : ConfigValueSource)
    (isSet : bool) : M unit :=
  let vals1 := if isSet then valuesSet acc else valuesArr acc in
  let vals2 := if isSet then valuesArr acc else valuesSet acc in
  assert (bool_decide (0 < length vals1)) "assertNoMixing:vals1" >>
  match vals2 with
  | [] => st_ret tt
  | _ =>
      match configValueSourcePrevious acc with
      | None => st_raise (Bug "assertNoMixing:previous")
      | Some prev =>
          assert (negb (isComputed prev)) "assertNoMixing:previousComputed" >>
          st_raise (Usage (ErrCumulativeMixed configName (definedAtInfo source) (definedAtInfo prev)))
      end
  end.

(** The body of the [forEach] of lines 1457-1507. *)
Definition mergeCumulativeStep (configName : string) (acc : MergeAcc) (source : ConfigValueSource)
    : M MergeAcc :=
  assert (negb (isComputed source)) "mergeCumulative:isComputed" >>
  match cvs_value source with
  | None => st_raise (Usage (ErrCumulativeNotInConfigFile configName))
  | Some v =>
      getConfigValueSerialized v configName >>
      match v with
      | VArray _ =>
          let acc' := mkMergeAcc (valuesArr acc ++ [v]) (valuesSet acc) (configValueSourcePrevious acc) in
          assertNoMixing configName acc' source false >>
          st_ret (mkMergeAcc (valuesArr acc') (valuesSet acc') (Some source))
      | VSet _ =>
          let acc' := mkMergeAcc (valuesArr acc) (valuesSet acc ++ [v]) (configValueSourcePrevious acc) in
          assertNoMixing configName acc' source true >>
          st_ret (mkMergeAcc (valuesArr acc') (valuesSet acc') (Some source))
      | _ => st_raise (Usage (ErrCumulativeNotArrayOrSet configName))
      end
  end.

Fixpoint mergeCumulativeLoop (configName : string) (acc : MergeAcc) (sources : list ConfigValueSource)
    : M MergeAcc :=
  match sources with
  | [] => st_ret acc
  | src :: rest => let* acc' := mergeCumulativeStep configName acc src in
                   mergeCumulativeLoop configName acc' rest
  end.

(** [mergeCumulative] (lines 1453-1522). *)
Definition mergeCumulative (configName : string) (configValueSources : list ConfigValueSource) : M value :=
  let* acc := mergeCumulativeLoop configName (mkMergeAcc [] [] None) configValueSources in
  match valuesArr acc, valuesSet acc with
  | _ :: _, set =>
      assert (bool_decide (length set = 0)) "mergeCumulative:noSet" >>
      match mergeCumulativeValues (valuesArr acc) with
      | Some r => st_ret r
      | None => st_raise (Bug "mergeCumulative:arrays")
      end
  | [], _ :: _ =>
      match mergeCumulativeValues (valuesSet acc) with
      | Some r => st_ret r
      | None => st_raise (Bug "mergeCumulative:sets")
      end
  | [], [] => st_raise (Bug "mergeCumulative:empty")
  end.

(** The value of one config (the body of the [forEach] of lines 1426-1449);
    [None] when the first source holds no value (it is imported at runtime). *)
Definition getConfigValue (configName : string) (sources : list ConfigValueSource)
    (configDef : ConfigDefinitionInternal) : M (option ConfigValue) :=
  if negb (cumulative configDef) then
    match sources with
    | [] => st_raise (Bug "TypeError: sources[0] is undefined")
    | configValueSource :: _ =>
        match cvs_value configValueSource with
        | Some v =>
            let* definedAt := if isComputed configValueSource then st_ret DefinedAtComputed
                              else getDefinedAt configValueSource in
            st_ret (Some (mkConfigValue v definedAt))
        | None => st_ret None
        end
    end
  else
    let* v := mergeCumulative configName sources in
    let* files := st_map getDefinedAtFile sources in
    st_ret (Some (mkConfigValue v (DefinedAtCumulative files))).

(** [getConfigValues] (lines 1421-1451). *)
Definition getConfigValues (configValueSources : JsObject.t (list ConfigValueSource))
    (configDefinitionsRelevant : JsObject.t ConfigDefinitionInternal) : M (JsObject.t ConfigValue) :=
  let fix go (entries : list (string * list ConfigValueSource)) (configValues : JsObject.t ConfigValue) :=
    match entries with
    | [] => st_ret configValues
    | (configName, sources) :: rest =>
        match JsObject.get configName configDefinitionsRelevant with
        | None => st_raise (Bug "getConfigValues:configDef")
        | Some configDef =>
            let* cv := getConfigValue configName sources configDef in
            go rest (match cv with Some c => JsObject.set configName c configValues | None => configValues end)
        end
    end in
  go configValueSources JsObject.empty.

(** ** Merging sources of one kind *)

(** [ofKind true] is a set, [ofKind false] an array. *)
Definition ofKind (isSetKind : bool) (xs : list value) : value :=
  if isSetKind then VSet xs else VArray xs.

(** A source that can take part in a merge: not computed, an inline
    serializable array (or set) value. *)
Definition kindSource (isSetKind : bool) (src : ConfigValueSource) (xs : list value) : Prop :=
  isComputed src = false /\ cvs_value src = Some (ofKind isSetKind xs) /\
  serializable (ofKind isSetKind xs) = true.

Definition accOf (isSetKind : bool) (vals : list value) (prev : option ConfigValueSource) : MergeAcc :=
  if isSetKind then mkMergeAcc [] vals prev else mkMergeAcc vals [] prev.

Definition prevAfter (prev : option ConfigValueSource) (srcs : list ConfigValueSource) :=
  match last srcs with Some x => Some x | None => prev end.

Lemma prevAfter_cons prev x srcs : prevAfter (Some x) srcs = prevAfter prev (x :: srcs).
Proof.
  unfold prevAfter. destruct srcs as [|c srcs]; [done|].
  change (last (x :: c :: srcs)) with (last (c :: srcs)).
  destruct (last (c :: srcs)) eqn:E; [done|]. by apply last_None in E.
Qed.

Lemma mergeCumulativeStep_kind k name vals prev src xs s :
  kindSource k src xs ->
  mergeCumulativeStep name (accOf k vals prev) src s
  = Ok (accOf k (vals ++ [ofKind k xs]) (Some src), s).
Proof.
  intros (Hc & Hv & Hs). unfold mergeCumulativeStep, assert, getConfigValueSerialized.
  rewrite Hc, Hv, Hs. unfold st_bind, st_ret.
  destruct k; simpl; unfold assertNoMixing, assert; simpl;
    rewrite bool_decide_true by (rewrite length_app; simpl; lia); reflexivity.
Qed.

Lemma mergeCumulativeLoop_kind k name srcs xss vals prev s :
  Forall2 (kindSource k) srcs xss ->
  mergeCumulativeLoop name (accOf k vals prev) srcs s
  = Ok (accOf k (vals ++ map (ofKind k) xss) (prevAfter prev srcs), s).
Proof.
  intros HF. revert vals prev. induction HF as [|src xs srcs xss Hk HF IH]; intros vals prev; simpl.
  - by rewrite app_nil_r.
  - unfold st_bind. rewrite (mergeCumulativeStep_kind _ _ _ _ _ _ _ Hk), IH.
    by rewrite <- app_assoc, <- (prevAfter_cons prev).
Qed.

Lemma concat_map_arrayElems (k : bool) (xss : list (list value)) : concat (map arrayElems (map (ofKind k) xss)) = concat xss.
Proof. induction xss as [|xs xss IH]; simpl; [done|]. rewrite IH. by destruct k. Qed.

Lemma forallb_ofKind (k k' : bool) (xss : list (list value)) :
  forallb (if k' then isSet else isArray) (map (ofKind k) xss) = if bool_decide (k = k') then true else bool_decide (xss = []).
Proof.
  destruct xss as [|xs xss]; [by destruct (bool_decide _)|].
  destruct k, k'; simpl; rewrite ?bool_decide_true, ?bool_decide_false by done; try reflexivity.
  all: rewrite forallb_forall; intros ? (? & <- & _)%in_map_iff; reflexivity.
Qed.

Lemma mergeCumulativeLoop_app_Err name acc0 pre src rest s e :
  (exists acc s1, mergeCumulativeLoop name acc0 pre s = Ok (acc, s1) /\
                  mergeCumulativeStep name acc src s1 = Err e) ->
  mergeCumulativeLoop name acc0 (pre ++ src :: rest) s = Err e.
Proof.
  revert acc0 s. induction pre as [|x pre IH]; intros acc0 s (acc & s1 & Hl & Hs); simpl in *.
  - unfold st_ret in Hl. injection Hl as <- <-. unfold st_bind. by rewrite Hs.
  - apply st_bind_Ok in Hl as (acc' & s2 & Hx & Hl). unfold st_bind. rewrite Hx. eauto.
Qed.

Lemma kindSource_notComputed k srcs xss src :
  Forall2 (kindSource k) srcs xss -> src ∈ srcs -> isComputed src = false.
Proof.
  induction 1 as [|x xs srcs xss (Hc & _) _ IH]; intros Hin; [by apply not_elem_of_nil in Hin|].
  apply elem_of_cons in Hin as [->|Hin]; auto.
Qed.

Lemma accOf_empty k : accOf k [] None = mkMergeAcc [] [] None.
Proof. by destruct k. Qed.

Lemma mergeCumulativeValues_cons (k : bool) xs (xss : list (list value)) :
  mergeCumulativeValues (ofKind k xs :: map (ofKind k) xss)
  = Some (if k then VSet (setFromList [] (concat (xs :: xss))) else VArray (concat (xs :: xss))).
Proof.
  unfold mergeCumulativeValues. destruct k; simpl.
  - assert (Hs : forallb isSet (map (ofKind true) xss) = true).
    { rewrite forallb_forall. intros ? (? & <- & _)%in_map_iff. reflexivity. }
    by rewrite Hs, concat_map_arrayElems.
  - assert (Ha : forallb isArray (map (ofKind false) xss) = true).
    { rewrite forallb_forall. intros ? (? & <- & _)%in_map_iff. reflexivity. }
    by rewrite Ha, concat_map_arrayElems.
Qed.

(** C8 (P4, arrays): the arrays of the sources are concatenated in the
    order of the sources, most specific location first. *)
Theorem mergeCumulative_arrays name srcs xss s :
  Forall2 (kindSource false) srcs xss -> srcs <> [] ->
  mergeCumulative name srcs s = Ok (VArray (concat xss), s).
Proof.
  intros HF Hne. unfold mergeCumulative, st_bind.
  rewrite (mergeCumulativeLoop_kind false _ _ _ [] None _ HF).
  destruct xss as [|xs xss]; [by inversion HF; subst|].
  cbn [accOf valuesArr valuesSet app map]. unfold assert. rewrite bool_decide_true by done.
  unfold st_ret. cbn -[mergeCumulativeValues ofKind]. by rewrite mergeCumulativeValues_cons.
Qed.

(** C9 (P4, sets): the sets of the sources are united: the result holds
    each member once, in the order of first occurrence. *)
Theorem mergeCumulative_sets name srcs xss s :
  Forall2 (kindSource true) srcs xss -> srcs <> [] ->
  mergeCumulative name srcs s = Ok (VSet (setFromList [] (concat xss)), s).
Proof.
  intros HF Hne. unfold mergeCumulative, st_bind.
  rewrite (mergeCumulativeLoop_kind true _ _ _ [] None _ HF).
  destruct xss as [|xs xss]; [by inversion HF; subst|].
  cbn [accOf valuesArr valuesSet app map]. by rewrite mergeCumulativeValues_cons.
Qed.

(** C10 (P4, no mixing): when the sources so far all hold arrays (or all
    sets) and the next one holds the other kind, the merge fails with a
    usage error naming that source and the one before it. *)
Theorem mergeCumulative_mixed k name pre xss src ys rest s :
  Forall2 (kindSource k) pre xss -> pre <> [] -> kindSource (negb k) src ys ->
  exists p, last pre = Some p /\
  mergeCumulative name (pre ++ src :: rest) s
  = Err (Usage (ErrCumulativeMixed name (definedAtInfo src) (definedAtInfo p)), s).
Proof.
  intros HF Hne (Hc & Hv & Hs).
  destruct (last pre) as [p|] eqn:Hlast; [|by apply last_None in Hlast].
  exists p. split; [done|].
  assert (Hp : isComputed p = false).
  { destruct (proj1 (last_Some pre p) Hlast) as [pre' ->].
    apply (kindSource_notComputed k _ _ _ HF). apply elem_of_app. right. by left. }
  assert (HL : mergeCumulativeLoop name (mkMergeAcc [] [] None) (pre ++ src :: rest) s
               = Err (Usage (ErrCumulativeMixed name (definedAtInfo src) (definedAtInfo p)), s)).
  { apply mergeCumulativeLoop_app_Err. exists (accOf k (map (ofKind k) xss) (Some p)), s.
    rewrite <- (accOf_empty k), (mergeCumulativeLoop_kind k _ _ _ [] None _ HF).
    unfold prevAfter. rewrite Hlast. split; [done|].
    unfold mergeCumulativeStep, assert, getConfigValueSerialized, st_bind.
    rewrite Hc, Hv. destruct k; simpl in *; rewrite Hs; simpl;
      destruct xss as [|xs xss]; try (by inversion HF; subst);
      unfold assertNoMixing, assert; simpl; rewrite Hp; reflexivity. }
  unfold mergeCumulative, st_bind. by rewrite HL.
Qed.
