(* ===== verification/Registry.v ===== *)
(** * The definition registry and the validation of config names

    [getConfigDefinitions] (getVikeConfig.ts lines 869-891) starts from the
    built-in definitions and spreads, for every interface file of the
    relevant locations in traversal order, each entry of the file's [meta]
    config over the definition known so far; [assertMetaValue] (lines
    893-952) validates a [meta] value first.  [getConfigDefinition] (lines
    245-254) looks a definition up after [assertConfigExists] (lines
    1303-1308), which reports an unknown config through
    [handleUnknownConfig] (lines 1309-1332) with a suggestion.
    [isGlobalConfig] (lines 1294-1301) tells the global configs.

    The built-in tables (configDefinitionsBuiltIn.ts) and [getMostSimilar]
    (utils/getMostSimilar.ts) are not among the sources: they are
    interfaces ([Class BuiltIns], [Class Similarity]), and the theorems hold
    for every instance. *)

From stdpp Require Import base list strings.
From Stdlib Require Import Ascii Lia.
From Stdlib Require String.
From S2P Require Import Prelude Js Model Collaborators.

(** ** Interfaces *)

(** The built-in definitions: [configDefinitionsBuiltIn] and
    [configDefinitionsBuiltInGlobal] (configDefinitionsBuiltIn.ts). *)
Class BuiltIns : Type := {
  configDefinitionsBuiltIn : JsObject.t ConfigDefinitionInternal;
  configDefinitionsBuiltInGlobal : JsObject.t ConfigDefinitionInternal
}.

(** [InterfaceFilesByLocationId] (line 98). *)
Definition InterfaceFilesByLocationId := JsObject.t (list IFile).

(** [ConfigDefinitionsIncludingCustom] (line 106). *)
Definition ConfigDefinitions := JsObject.t ConfigDefinitionInternal.

(** ** Validation of [meta] *)

(** The [envValues] of lines 911-916, with the environment each one names. *)
Definition envValues : JsObject.t ConfigEnvInternal :=
  [("client-only", ClientOnly); ("server-only", ServerOnly);
   ("server-and-client", ServerAndClient); ("config-only", ConfigOnly)].

(** A validated entry of [meta]: the narrowing [asserts metaVal is
    Record<string, ConfigDefinitionInternal>] of [assertMetaValue], i.e.
    its [env] read as an environment, and the entry's own properties,
    which the spread of line 884 copies. *)
Record MetaDefinition : Type := mkMetaDef {
  meta_env : ConfigEnvInternal;
  meta_fields : list (string * value)
}.

Definition isFunction (v : option value) : bool :=
  match v with Some (VFunction _) => true | _ => false end.

(** The body of the [forEach] of lines 901-951, for [meta.configName = def]. *)
Definition assertMetaDefinition (configMetaDefinedAt configName : string) (def : value)
    : M MetaDefinition :=
  assertUsage (isObject def) (ErrMetaDefNotObject configMetaDefinedAt configName) >>
  assertUsage (hasKey "env" def) (ErrMetaEnvMissing configMetaDefinedAt configName) >>
  match getProp "env" def with
  | Some (VString e) =>
      match JsObject.get e envValues with
      | Some configEnv =>
          (if hasKey "effect" def then
             assertUsage (isFunction (getProp "effect" def))
               (ErrMetaEffectType configMetaDefinedAt configName) >>
             assertUsage (String.eqb e "config-only")
               (ErrMetaEffectEnv configMetaDefinedAt configName e)
           else st_ret tt) >>
          st_ret (mkMetaDef configEnv (objectEntries def))
      | None => st_raise (Usage (ErrMetaEnvValue configMetaDefinedAt configName e))
      end
  | _ => st_raise (Usage (ErrMetaEnvType configMetaDefinedAt configName))
  end.

(** [assertMetaValue(metaVal, configMetaDefinedAt)] (lines 893-952). *)
Definition assertMetaValue (metaVal : value) (configMetaDefinedAt : string)
    : M (list (string * MetaDefinition)) :=
  assertUsage (isObject metaVal) (ErrMetaNotObject configMetaDefinedAt) >>
  st_map (fun '(configName, def) =>
            let* d := assertMetaDefinition configMetaDefinedAt configName def in
            st_ret (configName, d))
         (objectEntries metaVal).

(** ** The registry *)

(** [{ ...configDefinitions[configName], ...configDefinition }] (lines
    883-886): a property of the [meta] entry wins over the definition known
    so far; a property absent from both is [undefined]. *)
Definition spreadDefinition (base : option ConfigDefinitionInternal) (d : MetaDefinition)
    : ConfigDefinitionInternal :=
  let field {B} (k : string) (conv : value -> B) (proj : ConfigDefinitionInternal -> B) (undef : B) :=
    match JsObject.get k (meta_fields d) with
    | Some v => conv v
    | None => match base with Some b => proj b | None => undef end
    end in
  mkConfigDef (meta_env d)
    (field "cumulative" truthy cumulative false)
    (field "_computed" Some _computed None)
    (field "effect" Some effect None)
    (field "_valueIsFilePath" truthy _valueIsFilePath false).

(** [objectEntries(meta).forEach(...)] of lines 882-887. *)
Definition spreadMeta (configDefinitions : ConfigDefinitions) (metaDefs : list (string * MetaDefinition))
    : ConfigDefinitions :=
  fold_left (fun defs '(configName, d) =>
               JsObject.set configName (spreadDefinition (JsObject.get configName defs) d) defs)
            metaDefs configDefinitions.

(** The body of [interfaceFiles.forEach] (lines 872-888): a file without
    [meta] leaves the definitions alone; [configMeta.configValue] is
    [undefined] for a value file not loaded yet. *)
Definition addMetaOfFile (configDefinitions : ConfigDefinitions) (interfaceFile : IFile)
    : M ConfigDefinitions :=
  match JsObject.get "meta" (if_configMap (ifData interfaceFile)) with
  | None => st_ret configDefinitions
  | Some configMeta =>
      let meta := default VUndefined configMeta in
      let* metaDefs := assertMetaValue meta (getFilePathToShowToUser (if_filePath (ifData interfaceFile))) in
      st_ret (spreadMeta configDefinitions metaDefs)
  end.

Section Registry.
Context `{BI : BuiltIns}.

(** [getConfigDefinitions(interfaceFilesRelevant)] (lines 869-891). *)
Definition getConfigDefinitions (interfaceFilesRelevant : InterfaceFilesByLocationId) : M ConfigDefinitions :=
  st_fold (fun defs interfaceFiles => st_fold addMetaOfFile defs interfaceFiles)
          configDefinitionsBuiltIn (JsObject.values interfaceFilesRelevant).

(** [getConfigNamesGlobal()] (lines 1299-1301). *)
Definition getConfigNamesGlobal : list string := JsObject.keys configDefinitionsBuiltInGlobal.

(** [isGlobalConfig(configName)] (lines 1294-1298). *)
Definition isGlobalConfig (configName : string) : bool :=
  if String.eqb configName "prerender" then false
  else bool_decide (configName ∈ getConfigNamesGlobal).

(** [getConfigDefinitionOptional] (lines 255-260). *)
Definition getConfigDefinitionOptional (configDefinitions : ConfigDefinitions) (configName : string)
    : option ConfigDefinitionInternal :=
  JsObject.get configName configDefinitions.

Context `{SIM : Similarity}.

(** [handleUnknownConfig(configName, configNames, definedByFile)] (lines
    1309-1332): always throws. *)
Definition handleUnknownConfig (configName : string) (configNames : list string) (definedByFile : string)
    : M unit :=
  let configNameSimilar :=
    if String.eqb configName "page" then Some "Page"%string else getMostSimilar configName configNames in
  (if orb (bool_decide (is_Some configNameSimilar)) (String.eqb configName "page") then
     match configNameSimilar with
     | None => st_raise (Bug "handleUnknownConfig:configNameSimilar")
     | Some similar => assert (negb (String.eqb similar configName)) "handleUnknownConfig:same"
     end
   else st_ret tt) >>
  st_raise (Usage (ErrUnknownConfig configName definedByFile configNameSimilar)).

(** [assertConfigExists(configName, configNamesRelevant, definedByFile)]
    (lines 1303-1308). *)
Definition assertConfigExists (configName : string) (configNamesRelevant : list string)
    (definedByFile : string) : M unit :=
  let configNames := configNamesRelevant ++ getConfigNamesGlobal in
  if bool_decide (configName ∈ configNames) then st_ret tt
  else handleUnknownConfig configName configNames definedByFile >> assert false "assertConfigExists".

(** [getConfigDefinition(configDefinitionsRelevant, configName, definedByFile)]
    (lines 245-254). *)
Definition getConfigDefinition (configDefinitionsRelevant : ConfigDefinitions) (configName : string)
    (definedByFile : string) : M ConfigDefinitionInternal :=
  let configDef := JsObject.get configName configDefinitionsRelevant in
  assertConfigExists configName (JsObject.keys configDefinitionsRelevant) definedByFile >>
  match configDef with
  | Some d => st_ret d
  | None => st_raise (Bug "getConfigDefinition")
  end.
End Registry.

(** [declaresMeta name f]: the [meta] config of [f] has an entry [name]. *)
Definition declaresMeta (configName : string) (f : IFile) : bool :=
  match JsObject.get "meta" (if_configMap (ifData f)) with
  | Some configMeta => bool_decide (is_Some (getProp configName (default VUndefined configMeta)))
  | None => false
  end.

(** The facts [assertMetaValue] establishes of one entry [kv] of [meta]
    and the validated definition [md] it returns. *)
Definition validEntry (kv : string * value) (md : string * MetaDefinition) : Prop :=
  md.1 = kv.1 /\ meta_fields md.2 = objectEntries kv.2 /\
  exists e, getProp "env" kv.2 = Some (VString e) /\ JsObject.get e envValues = Some (meta_env md.2) /\
    (hasKey "effect" kv.2 = true -> isFunction (getProp "effect" kv.2) = true /\ e = "config-only"%string).

(** ** Validation *)

Lemma assertMetaDefinition_ok definedAt name def s d s' :
  assertMetaDefinition definedAt name def s = Ok (d, s') ->
  s' = s /\ validEntry (name, def) (name, d).
Proof.
  unfold assertMetaDefinition, assertUsage, st_bind, st_ret, st_raise. intros H.
  destruct (isObject def), (hasKey "env" def); try discriminate.
  destruct (getProp "env" def) as [[| | | |e| | | |]|] eqn:Henv; try discriminate.
  destruct (JsObject.get e envValues) as [ce|] eqn:He; [|discriminate].
  assert (Heff : hasKey "effect" def = true ->
                 isFunction (getProp "effect" def) = true /\ e = "config-only"%string).
  { intros Hk. rewrite Hk in H.
    destruct (isFunction _); [|discriminate]. by destruct (String.eqb_spec e "config-only"). }
  assert (d = mkMetaDef ce (objectEntries def) /\ s' = s) as [-> ->].
  { destruct (hasKey "effect" def) in H; [destruct (isFunction _), (String.eqb e "config-only") in H|];
      try discriminate; by injection H as <- <-. }
  split; [done|]. split; [done|]. split; [done|]. exists e. auto.
Qed.

Lemma assertMetaValue_ok v definedAt s mds s' :
  assertMetaValue v definedAt s = Ok (mds, s') ->
  s' = s /\ Forall2 validEntry (objectEntries v) mds.
Proof.
  unfold assertMetaValue, assertUsage. destruct (isObject v); [|discriminate].
  simpl. apply st_map_Forall2. intros [k def] s0 [k' d] s1 H.
  apply st_bind_Ok in H as (d' & s2 & Hd & [= <- <- <-]).
  by apply assertMetaDefinition_ok in Hd.
Qed.

Lemma validEntry_keys l mds : Forall2 validEntry l mds -> map fst mds = map fst l.
Proof. induction 1 as [|kv md l mds [Hk _] _ IH]; simpl; [done|by rewrite Hk, IH]. Qed.

(** ** Spreading [meta] over the definitions *)

Lemma spreadMeta_cons defs k d mds :
  spreadMeta defs ((k, d) :: mds)
  = spreadMeta (JsObject.set k (spreadDefinition (JsObject.get k defs) d) defs) mds.
Proof. reflexivity. Qed.

Lemma spreadMeta_get_other defs mds name :
  name ∉ map fst mds -> JsObject.get name (spreadMeta defs mds) = JsObject.get name defs.
Proof.
  revert defs. induction mds as [|[k d] mds IH]; intros defs Hn; [done|].
  apply not_elem_of_cons in Hn as [Hk Hn]. rewrite spreadMeta_cons, IH by done.
  by apply JsObject.get_set_ne.
Qed.

Lemma spreadMeta_get defs mds name d :
  NoDup (map fst mds) -> (name, d) ∈ mds ->
  JsObject.get name (spreadMeta defs mds) = Some (spreadDefinition (JsObject.get name defs) d).
Proof.
  revert defs. induction mds as [|[k d'] mds IH]; intros defs Hnd Hin;
    [by apply not_elem_of_nil in Hin|].
  simpl in Hnd. apply NoDup_cons in Hnd as [Hk Hnd]. rewrite spreadMeta_cons.
  apply elem_of_cons in Hin as [[= -> ->]|Hin].
  - by rewrite (spreadMeta_get_other _ _ _ Hk), JsObject.get_set_eq.
  - rewrite (IH _ Hnd Hin), JsObject.get_set_ne; [done|]. intros ->. apply Hk.
    apply list_elem_of_In, (in_map fst _ (_, d)), list_elem_of_In, Hin.
Qed.

Lemma addMetaOfFile_state defs f : st_readonly (addMetaOfFile defs f).
Proof.
  intros s0 s [] s' <- H; unfold addMetaOfFile in H.
  - destruct (JsObject.get _ _) as [m|]; [|by injection H as _ <-].
    apply st_bind_Ok in H as (mds & s1 & Hm & [= _ <-]). by apply assertMetaValue_ok in Hm as [-> _].
  - destruct (JsObject.get _ _) as [m|]; [|by injection H as _ <-].
    apply st_bind_Ok in H as (mds & s1 & Hm & [= _ <-]). by apply assertMetaValue_ok in Hm as [-> _].
Qed.


Lemma addMetaOfFile_get_other defs f name s defs' s' :
  declaresMeta name f = false -> addMetaOfFile defs f s = Ok (defs', s') ->
  JsObject.get name defs' = JsObject.get name defs.
Proof.
  unfold declaresMeta, addMetaOfFile. destruct (JsObject.get _ _) as [m|].
  - intros Hd H. apply st_bind_Ok in H as (mds & s1 & Hm & [= <- _]).
    apply assertMetaValue_ok in Hm as [_ Hall]. apply spreadMeta_get_other.
    rewrite (validEntry_keys _ _ Hall). apply JsObject.get_None.
    unfold getProp in Hd. destruct (JsObject.get _ _); [discriminate|done].
  - intros _ [= <- _]. done.
Qed.

Lemma fold_addMeta_get_other defs files name s defs' s' :
  (forall f, f ∈ files -> declaresMeta name f = false) ->
  st_fold addMetaOfFile defs files s = Ok (defs', s') ->
  JsObject.get name defs' = JsObject.get name defs.
Proof.
  revert defs s. induction files as [|f files IH]; intros defs s Hall H; simpl in H.
  - by injection H as <- _.
  - apply st_bind_Ok in H as (defs1 & s1 & Hf & H).
    rewrite (IH _ _ (fun g Hg => Hall g ltac:(by right)) H).
    apply (addMetaOfFile_get_other _ _ _ _ _ _ (Hall f ltac:(by left)) Hf).
Qed.

(** The entry [name] of a file's [meta], once validated, is spread over
    the definition known before the file. *)
Lemma addMetaOfFile_entry defs f name mv def s defs' s' :
  JsObject.get "meta" (if_configMap (ifData f)) = Some (Some mv) ->
  NoDup (map fst (objectEntries mv)) -> getProp name mv = Some def ->
  addMetaOfFile defs f s = Ok (defs', s') ->
  exists md, validEntry (name, def) (name, md) /\
    JsObject.get name defs' = Some (spreadDefinition (JsObject.get name defs) md).
Proof.
  intros Hm Hnd Hdef H. unfold addMetaOfFile in H. rewrite Hm in H. simpl in H.
  apply st_bind_Ok in H as (mds & s1 & Hmv & [= <- _]).
  apply assertMetaValue_ok in Hmv as [_ Hall].
  apply JsObject.get_Some_In, list_elem_of_In in Hdef.
  destruct (Forall2_elem_of_l _ _ _ _ Hall Hdef) as ([k md] & Hin & Hv).
  pose proof Hv as [Hk _]. cbn [fst] in Hk. subst k. exists md. split; [exact Hv|].
  apply spreadMeta_get; [by rewrite (validEntry_keys _ _ Hall)|exact Hin].
Qed.

Lemma addMetaOfFile_declared defs f name mv def e s defs' s' :
  JsObject.get "meta" (if_configMap (ifData f)) = Some (Some mv) ->
  NoDup (map fst (objectEntries mv)) ->
  getProp name mv = Some def -> getProp "env" def = Some (VString e) ->
  addMetaOfFile defs f s = Ok (defs', s') ->
  env <$> JsObject.get name defs' = JsObject.get e envValues.
Proof.
  intros Hm Hnd Hdef Henv H.
  destruct (addMetaOfFile_entry _ _ _ _ _ _ _ _ Hm Hnd Hdef H) as (md & (_ & _ & e' & Henv' & He' & _) & ->).
  cbn [fst snd] in *. rewrite Henv in Henv'. injection Henv' as <-. by rewrite He'.
Qed.

Section Theorems.
Context `{BI : BuiltIns}.

Lemma getConfigDefinitions_flat rel s :
  getConfigDefinitions rel s
  = st_fold addMetaOfFile configDefinitionsBuiltIn (concat (JsObject.values rel)) s.
Proof. apply st_fold_concat. Qed.

(** C11: a config that no [meta] of the relevant interface files declares
    keeps its built-in definition (or stays unknown). *)
Theorem getConfigDefinitions_builtin rel name s defs s' :
  (forall f, f ∈ concat (JsObject.values rel) -> declaresMeta name f = false) ->
  getConfigDefinitions rel s = Ok (defs, s') ->
  JsObject.get name defs = JsObject.get name configDefinitionsBuiltIn.
Proof. intros Hall H. rewrite getConfigDefinitions_flat in H. eauto using fold_addMeta_get_other. Qed.

(** C12: the last relevant interface file whose [meta] declares a config
    sets its environment: files are visited in the order of
    [interfaceFilesRelevant] (the most specific location first), so the
    [meta] of the least specific location that declares the config wins. *)
Theorem getConfigDefinitions_last_meta_wins rel pre f post name mv def e s defs s' :
  concat (JsObject.values rel) = pre ++ f :: post ->
  JsObject.get "meta" (if_configMap (ifData f)) = Some (Some mv) ->
  NoDup (map fst (objectEntries mv)) ->
  getProp name mv = Some def -> getProp "env" def = Some (VString e) ->
  (forall g, g ∈ post -> declaresMeta name g = false) ->
  getConfigDefinitions rel s = Ok (defs, s') ->
  env <$> JsObject.get name defs = JsObject.get e envValues.
Proof.
  intros Hfiles Hm Hnd Hdef Henv Hpost H.
  rewrite getConfigDefinitions_flat, Hfiles, st_fold_app in H.
  apply st_bind_Ok in H as (defs1 & s1 & _ & H). simpl in H.
  apply st_bind_Ok in H as (defs2 & s2 & Hf & H).
  rewrite (fold_addMeta_get_other _ _ _ _ _ _ Hpost H).
  exact (addMetaOfFile_declared _ _ _ _ _ _ _ _ _ Hm Hnd Hdef Henv Hf).
Qed.
(** C13: the rule "an [effect] needs [env: 'config-only']" is checked on
    each [meta] entry, not on the merged definition: an interface file
    whose [meta] entry for a config sets [env] and no [effect] keeps the
    [effect] of the definition known before it, whatever environment it
    sets, so the registry can hold a definition with an [effect] and an
    environment other than [config-only]. *)
Theorem meta_effect_survives_env_override defs f name mv def e d0 s defs' s' :
  JsObject.get "meta" (if_configMap (ifData f)) = Some (Some mv) -> NoDup (map fst (objectEntries mv)) ->
  getProp name mv = Some def -> getProp "env" def = Some (VString e) -> hasKey "effect" def = false ->
  JsObject.get name defs = Some d0 -> addMetaOfFile defs f s = Ok (defs', s') ->
  exists d, JsObject.get name defs' = Some d /\ effect d = effect d0 /\ JsObject.get e envValues = Some (env d).
Proof.
  intros Hm Hnd Hdef Henv Hno Hd0 H.
  destruct (addMetaOfFile_entry _ _ _ _ _ _ _ _ Hm Hnd Hdef H) as (md & (_ & Hf & e' & Henv' & He' & _) & ->).
  cbn [fst snd] in *. rewrite Henv in Henv'. injection Henv' as <-.
  eexists; split; [reflexivity|]. rewrite Hd0. unfold spreadDefinition. cbn -[JsObject.get]. rewrite Hf.
  unfold hasKey, getProp in Hno. destruct (JsObject.get "effect" (objectEntries def)) eqn:Hg.
  - rewrite bool_decide_true in Hno by (eexists; reflexivity). discriminate.
  - split; [reflexivity|exact He'].
Qed.

Context `{SIM : Similarity}.

Lemma handleUnknownConfig_usage name names file s :
  name ∉ names ->
  handleUnknownConfig name names file s
  = Err (Usage (ErrUnknownConfig name file
      (if String.eqb name "page" then Some "Page"%string else getMostSimilar name names)), s).
Proof.
  intros Hn. unfold handleUnknownConfig.
  destruct (String.eqb_spec name "page") as [->|Hp]; [reflexivity|].
  destruct (getMostSimilar name names) as [x|] eqn:Hs; [|reflexivity].
  apply getMostSimilar_elem in Hs.
  destruct (String.eqb_spec x name) as [->|]; [done|reflexivity].
Qed.

(** C14: [assertConfigExists] accepts exactly the relevant and the global
    config names; any other name is the usage error "unknown config",
    with [Page] suggested for [page] and otherwise [getMostSimilar]'s
    suggestion, and never an internal assertion failure. *)
Theorem assertConfigExists_spec name relevant file s :
  assertConfigExists name relevant file s =
    if bool_decide (name ∈ relevant ++ getConfigNamesGlobal) then Ok (tt, s)
    else Err (Usage (ErrUnknownConfig name file
           (if String.eqb name "page" then Some "Page"%string
            else getMostSimilar name (relevant ++ getConfigNamesGlobal))), s).
Proof.
  unfold assertConfigExists. case_bool_decide as Hin; [reflexivity|].
  unfold st_bind. by rewrite handleUnknownConfig_usage.
Qed.
End Theorems.
