(* ===== verification/Extends.v ===== *)
(** * The extends resolver (getVikeConfig.ts lines 1127-1256)

    [loadConfigFile] executes a [+config.js] file and, through
    [loadExtendsConfigs], every config it [extends], recursively.  The
    recursion carries the stack [visited] of the absolute paths on the
    current branch; [assertNoInfiniteLoop] rejects a file that is already on
    it, naming the cycle.

    Two collaborators are interfaces:
    - [Class ModuleLoader]: [transpileAndExecuteFile] (transpileAndExecuteFile.ts)
      bundles a file with esbuild and runs it, giving its exports;
    - [Class Completion]: [loadExtendsConfigs] starts the loads of all the
      configs a file extends at once ([Promise.all]) and pushes the result
      of each as it settles, so the order of [extendsConfigs] is the order
      in which the loads complete.  An instance gives that order, which is
      any permutation of the extended files.

    The recursion has no bound in the code; the model takes a fuel
    argument, and [loadConfigFile_enough_fuel] shows that a fuel larger than
    the number of files the resolver can reach is never exhausted. *)

From stdpp Require Import base list strings.
From Stdlib Require Import Ascii Lia.
From Stdlib Require String.
From S2P Require Import Prelude Js Model Collaborators Resolve.

(** [ConfigFile] (lines 1127-1131). *)
Record ConfigFile : Type := mkConfigFile {
  cf_fileExports : JsObject.t value;
  cf_filePath : FilePath;
  cf_extendsFilePaths : list string
}.

Class ModuleLoader : Type := {
  (** [transpileAndExecuteFile(filePath, isValueFile, userRootDir)]: the
      exports of the file, [None] when bundling or executing it throws. *)
  transpileAndExecuteFile : FilePath -> bool -> option (JsObject.t value);
  (** [isTmpFile(filePath)]: the temporary bundles the loader writes. *)
  isTmpFile : string -> bool
}.

Class Completion : Type := {
  (** The order in which the loads of [extendsConfigFiles] settle, on the
      branch [visited]. *)
  completionOrder : list string -> list FilePath -> list FilePath;
  completionOrder_perm visited l : completionOrder visited l ≡ₚ l
}.

(** The loads settle in the order they were started. *)
Definition inOrderCompletion : Completion := {|
  completionOrder _ l := l;
  completionOrder_perm _ l := reflexivity l
|}.

(** The loads settle in the reverse of the order they were started (a
    smaller file is bundled first, say). *)
Definition reverseCompletion : Completion := {|
  completionOrder _ l := rev l;
  completionOrder_perm _ l := symmetry (Permutation_rev l)
|}.

(** [await transpileAndExecuteFile(...)]: an exception of user code aborts
    the pass. *)
Definition executeFile `{ModuleLoader} (filePath : FilePath) (isValueFile : bool) : M (JsObject.t value) :=
  match transpileAndExecuteFile filePath isValueFile with
  | Some fileExports => st_ret fileExports
  | None => st_raise (LoadFailed (getFilePathToShowToUser filePath))
  end.

(** [assertExportsOfConfigFile] (assertExports.ts): the default export of a
    config file is an object. *)
Definition assertExportsOfConfigFile (fileExports : JsObject.t value) (filePathToShowToUser : string) : M unit :=
  assertUsage (match JsObject.get "default" fileExports with Some v => isObject v | None => false end)
    (ErrConfigFileExports filePathToShowToUser).

(** [hasProp(o, k, 'string[]')] *)
Definition asStringList (v : value) : option (list string) :=
  match v with
  | VArray xs => mapM (fun x => match x with VString s => Some s | _ => None end) xs
  | _ => None
  end.

(** [getExtendsImportData(configFileExports, configFilePath)] (lines 1234-1255). *)
Definition getExtendsImportData `{ImportResolver} (configFileExports : JsObject.t value)
    (configFilePath : FilePath) : M (list ImportData) :=
  let filePathToShowToUser := getFilePathToShowToUser configFilePath in
  assertExportsOfConfigFile configFileExports filePathToShowToUser >>
  let defaultExports := default VUndefined (JsObject.get "default" configFileExports) in
  let wrongUsage := ErrExtendsInvalid filePathToShowToUser in
  match getProp "extends" defaultExports with
  | None => st_ret []
  | Some extends =>
      let* extendList :=
        match extends with
        | VString s => st_ret [s]
        | _ => match asStringList extends with
               | Some l => st_ret l
               | None => st_raise (Usage wrongUsage)
               end
        end in
      st_map (fun importDataSerialized =>
                match parseImportData importDataSerialized with
                | Some importData => st_ret importData
                | None => st_raise (Usage wrongUsage)
                end) extendList
  end.

(** [isNpmPackageImport(importPath)] (utils/parseNpmPackage.ts): a bare
    specifier, neither relative nor absolute. *)
Definition isNpmPackageImport (importPath : string) : bool :=
  negb (String.eqb importPath "") && negb (startsWith importPath ".") && negb (startsWith importPath "/").

(** [assertExtendsImportPath(importPath, filePath, configFilePath)] (lines
    1213-1232): warnings only. *)
Definition assertExtendsImportPath (importPath filePath : string) (configFilePath : FilePath) : M unit :=
  if isNpmPackageImport importPath then
    let fileDir := (Path.dirname filePath +:+ "/")%string in
    let fileName := Path.basename filePath in
    let parts := split_on "." fileName in
    let fileNameBase := default "" (head parts) in
    let fileNameCorrect := join "." ("+config" :: tail parts) in
    assertWarning (String.eqb fileNameBase "+config") (WarnExtendsRename fileName fileNameCorrect fileDir)
  else
    assertWarning false (WarnExtendsUserLand (getFilePathToShowToUser configFilePath) importPath).

(** [determineFilePathRelativeToUserDir(filePathAbsolute, userRootDir)]
    (lines 1201-1211). *)
Definition determineFilePathRelativeToUserDir (filePathAbsolute userRootDir : string) : option string :=
  if negb (startsWith filePathAbsolute userRootDir) then None
  else
    let rel := String.substring (String.length userRootDir)
                 (String.length filePathAbsolute - String.length userRootDir) filePathAbsolute in
    Some (if startsWith rel "/" then rel else "/" +:+ rel)%string.

(** [assertNoInfiniteLoop(visited, filePathAbsolute)] (lines 1153-1159). *)
Definition assertNoInfiniteLoop (visited : list string) (filePathAbsolute : string) : M unit :=
  match list_find (fun p => p = filePathAbsolute) visited with
  | None => st_ret tt
  | Some (idx, _) =>
      let loop := drop idx visited in
      assert (bool_decide (head loop = Some filePathAbsolute)) "assertNoInfiniteLoop:loop" >>
      assertUsage false (ErrInfiniteExtendsLoop (loop ++ [filePathAbsolute]))
  end.

Section Extends.
Context `{IR : ImportResolver} `{ML : ModuleLoader} `{CO : Completion}.
Variable userRootDir : string.

(** The [extendsImportData.map(...)] of lines 1169-1185: the path of each
    extended config. *)
Definition extendsConfigFilePath (configFilePath : FilePath) (importData : ImportData) : M FilePath :=
  let* filePathAbsolute := resolveImportPath importData configFilePath in
  let* filePathAbsolute := assertImportPath filePathAbsolute importData configFilePath in
  assertExtendsImportPath (importPath importData) filePathAbsolute configFilePath >>
  let filePathRelativeToUserRootDir := determineFilePathRelativeToUserDir filePathAbsolute userRootDir in
  st_ret (mkFilePath (Some filePathAbsolute) filePathRelativeToUserRootDir (Some (importPath importData))).

(** [loadExtendsConfigs(configFileExports, configFilePath, userRootDir,
    visited)] (lines 1161-1199), given the recursive [loadConfigFile]. *)
Definition loadExtendsConfigs (loadConfigFile : FilePath -> list string -> M (ConfigFile * list ConfigFile))
    (configFileExports : JsObject.t value) (configFilePath : FilePath) (visited : list string)
    : M (list ConfigFile * list string) :=
  let* extendsImportData := getExtendsImportData configFileExports configFilePath in
  let* extendsConfigFiles := st_map (extendsConfigFilePath configFilePath) extendsImportData in
  let* extendsConfigs :=
    st_fold (fun extendsConfigs extendsConfigFile =>
               let* '(configFile, extendsConfigs') := loadConfigFile extendsConfigFile visited in
               st_ret (extendsConfigs ++ configFile :: extendsConfigs'))
            [] (completionOrder visited extendsConfigFiles) in
  st_ret (extendsConfigs, map (fun f => default "" (filePathAbsolute f)) extendsConfigFiles).

(** [loadConfigFile(configFilePath, userRootDir, visited)] (lines 1133-1151),
    with [fuel] bounding the depth of the recursion.  Every config file path
    the code builds carries an absolute path. *)
Fixpoint loadConfigFile (fuel : nat) (configFilePath : FilePath) (visited : list string)
    : M (ConfigFile * list ConfigFile) :=
  match fuel with
  | 0 => st_raise (Bug "loadConfigFile:fuel")
  | S fuel' =>
      match filePathAbsolute configFilePath with
      | None => st_raise (Bug "assertPosixPath")
      | Some filePathAbsolute =>
          assertNoInfiniteLoop visited filePathAbsolute >>
          let* fileExports := executeFile configFilePath false in
          let* '(extendsConfigs, extendsFilePaths) :=
            loadExtendsConfigs (loadConfigFile fuel') fileExports configFilePath
              (visited ++ [filePathAbsolute]) in
          st_ret (mkConfigFile fileExports configFilePath extendsFilePaths, extendsConfigs)
      end
  end.
End Extends.

(** [singleExtends ex importer target]: the default export of [ex] is an
    object whose [extends] is one import string, which [requireResolve]
    resolves from the directory of [importer] to [target]. *)
Definition singleExtends `{ImportResolver} (ex : JsObject.t value) (importer target : string) : Prop :=
  exists fields str d, JsObject.get "default" ex = Some (VObject fields) /\
    JsObject.get "extends" fields = Some (VString str) /\ parseImportData str = Some d /\
    requireResolve (importPath d) (Path.dirname importer) = Some target.

(** ** Cycle detection *)

Lemma assertNoInfiniteLoop_fresh visited p s :
  p ∉ visited -> assertNoInfiniteLoop visited p s = Ok (tt, s).
Proof.
  intros Hn. unfold assertNoInfiniteLoop.
  replace (list_find _ visited) with (@None (nat * string)); [reflexivity|].
  symmetry. apply list_find_None, Forall_forall. intros x Hx ->. contradiction.
Qed.

(** The loop [assertNoInfiniteLoop] reports: the branch from the first
    occurrence of [p] on, and [p] again. *)
Lemma assertNoInfiniteLoop_loop visited p s :
  p ∈ visited -> exists idx,
    visited !! idx = Some p /\ (forall j, j < idx -> visited !! j <> Some p) /\
    assertNoInfiniteLoop visited p s = Err (Usage (ErrInfiniteExtendsLoop (drop idx visited ++ [p])), s).
Proof.
  intros Hin. unfold assertNoInfiniteLoop.
  destruct (list_find (fun q => q = p) visited) as [[idx q]|] eqn:Hf.
  - apply list_find_Some in Hf as (Hidx & -> & Hbefore). exists idx.
    split; [done|]. split; [intros j Hj Hjp; exact (Hbefore j p Hjp Hj eq_refl)|].
    rewrite (drop_S _ _ _ Hidx). simpl. rewrite bool_decide_true by done. reflexivity.
  - apply list_find_None in Hf. rewrite Forall_forall in Hf. by destruct (Hf p Hin).
Qed.

Lemma assertNoInfiniteLoop_post visited p : st_post (fun _ => p ∉ visited) (assertNoInfiniteLoop visited p).
Proof.
  intros s [] s' H Hin. destruct (assertNoInfiniteLoop_loop visited p s Hin) as (? & _ & _ & E).
  congruence.
Qed.

(** ** Termination *)

Definition fuelBug : VikeError := Bug "loadConfigFile:fuel".

Section Fuel.
Context `{IR : ImportResolver} `{ML : ModuleLoader} `{CO : Completion}.
Variable userRootDir : string.
(** The absolute paths [requireResolve] can return. *)
Variable U : list string.
Hypothesis resolve_in_U : forall importPath cwd p, requireResolve importPath cwd = Some p -> p ∈ U.

Ltac solve_fuel := unfold assert, assertUsage, assertWarning; solve_avoids_with fail.

Lemma extendsConfigFilePath_avoids fp d : st_avoids fuelBug (extendsConfigFilePath userRootDir fp d).
Proof.
  unfold extendsConfigFilePath, resolveImportPath, assertImportPath, assertExtendsImportPath. solve_fuel.
Qed.

Lemma extendsConfigFilePath_post fp d :
  st_post (fun f => exists p, filePathAbsolute f = Some p /\ p ∈ U) (extendsConfigFilePath userRootDir fp d).
Proof.
  intros s f s' H. unfold extendsConfigFilePath, resolveImportPath, assertImportPath in H.
  destruct (filePathAbsolute fp); [|discriminate].
  apply st_bind_Ok in H as (r & s1 & [= <- <-] & H).
  destruct (requireResolve _ _) as [p|] eqn:Hr; [|discriminate].
  apply st_bind_Ok in H as (p' & s2 & [= <- <-] & H).
  apply st_bind_Ok in H as (_ & s3 & _ & [= <- _]). eauto.
Qed.

Lemma getExtendsImportData_avoids ex fp : st_avoids fuelBug (getExtendsImportData ex fp).
Proof. unfold getExtendsImportData, assertExportsOfConfigFile. solve_fuel. Qed.

Lemma executeFile_avoids fp b : st_avoids fuelBug (executeFile fp b).
Proof. unfold executeFile. solve_fuel. Qed.

Lemma assertNoInfiniteLoop_avoids visited p : st_avoids fuelBug (assertNoInfiniteLoop visited p).
Proof. unfold assertNoInfiniteLoop. solve_fuel. Qed.

Lemma loadExtendsConfigs_avoids (load : FilePath -> list string -> M (ConfigFile * list ConfigFile))
    ex fp visited :
  (forall f, (exists p, filePathAbsolute f = Some p /\ p ∈ U) -> st_avoids fuelBug (load f visited)) ->
  st_avoids fuelBug (loadExtendsConfigs userRootDir load ex fp visited).
Proof.
  intros Hload. unfold loadExtendsConfigs.
  apply avoids_bind; [apply getExtendsImportData_avoids|intros ds].
  apply (avoids_bind_post _ (Forall (fun f => exists p, filePathAbsolute f = Some p /\ p ∈ U))).
  - apply avoids_map. intros d _. apply extendsConfigFilePath_avoids.
  - apply post_map. intros d. apply extendsConfigFilePath_post.
  - intros fs Hfs. apply avoids_bind; [|intros; apply avoids_ret].
    apply avoids_fold. intros acc f Hf.
    apply avoids_bind; [|intros [? ?]; apply avoids_ret].
    apply Hload. rewrite Forall_forall in Hfs. apply Hfs.
    by rewrite <- (completionOrder_perm visited fs).
Qed.

Lemma visited_length (visited : list string) :
  NoDup visited -> Forall (fun p => p ∈ U) visited -> length visited <= length U.
Proof.
  intros Hnd HU. apply NoDup_incl_length; [by apply NoDup_ListNoDup|].
  intros x Hx. apply list_elem_of_In. rewrite Forall_forall in HU. by apply HU, list_elem_of_In.
Qed.
(** C15: the recursion of [loadConfigFile] is bounded by the cycle check:
    when every path the resolver returns lies in [U], a fuel larger than
    the number of paths of [U] not yet on the branch is never exhausted. *)
Theorem loadConfigFile_enough_fuel fuel fp visited a :
  filePathAbsolute fp = Some a -> a ∈ U ->
  NoDup visited -> Forall (fun p => p ∈ U) visited ->
  length U < fuel + length visited ->
  st_avoids fuelBug (loadConfigFile userRootDir fuel fp visited).
Proof.
  revert fp visited a. induction fuel as [|fuel IH]; intros fp visited a Ha HaU Hnd HU Hlen.
  - pose proof (visited_length visited Hnd HU). lia.
  - simpl. rewrite Ha.
    apply (avoids_bind_post _ (fun _ => a ∉ visited));
      [apply assertNoInfiniteLoop_avoids|apply assertNoInfiniteLoop_post|intros _ Hnotin].
    apply avoids_bind; [apply executeFile_avoids|intros ex].
    apply avoids_bind; [|intros [? ?]; apply avoids_ret].
    apply loadExtendsConfigs_avoids. intros f (p & Hp & HpU).
    apply (IH f _ p Hp HpU).
    + apply NoDup_app. split; [done|]. split; [|apply NoDup_singleton].
      intros x Hx ->%list_elem_of_singleton. contradiction.
    + apply Forall_app. split; [done|]. by constructor.
    + rewrite length_app. simpl. lia.
Qed.
End Fuel.

Section Cycle.
Context `{IR : ImportResolver} `{ML : ModuleLoader} `{CO : Completion}.
Variable userRootDir : string.

Lemma assertExtendsImportPath_Ok i f c s : exists s1, assertExtendsImportPath i f c s = Ok (tt, s1).
Proof.
  unfold assertExtendsImportPath, assertWarning.
  destruct (isNpmPackageImport i); [destruct (String.eqb _ _)|]; eexists; reflexivity.
Qed.

(** A config that extends one file goes on with the load of that file. *)
Lemma loadExtendsConfigs_single load ex fp visited importer target s :
  filePathAbsolute fp = Some importer -> singleExtends ex importer target ->
  exists fpT s1, filePathAbsolute fpT = Some target /\
    forall e, load fpT visited s1 = Err e -> loadExtendsConfigs userRootDir load ex fp visited s = Err e.
Proof.
  intros Hfp (fields & str & d & Hdef & Hext & Hparse & Hres).
  destruct (assertExtendsImportPath_Ok (importPath d) target fp s) as [s1 Hw].
  exists (mkFilePath (Some target) (determineFilePathRelativeToUserDir target userRootDir)
    (Some (importPath d))), s1.
  split; [reflexivity|]. intros e He.
  pose proof (completionOrder_perm visited
    [mkFilePath (Some target) (determineFilePathRelativeToUserDir target userRootDir) (Some (importPath d))])
    as Hperm.
  apply Permutation_singleton_r in Hperm.
  unfold loadExtendsConfigs, getExtendsImportData, assertExportsOfConfigFile, getProp,
    extendsConfigFilePath, resolveImportPath, assertImportPath, st_bind, st_ret.
  rewrite Hdef. simpl. rewrite Hext. simpl. rewrite Hparse. simpl. rewrite Hfp. simpl.
  rewrite Hres. unfold st_bind, st_ret. simpl. rewrite Hw, Hperm. simpl.
  unfold st_bind. by rewrite He.
Qed.

(** The first steps of [loadConfigFile] on a file not on the branch. *)
Lemma loadConfigFile_fresh fuel fp a visited ex s :
  filePathAbsolute fp = Some a -> a ∉ visited -> transpileAndExecuteFile fp false = Some ex ->
  loadConfigFile userRootDir (S fuel) fp visited s
  = st_bind (loadExtendsConfigs userRootDir (loadConfigFile userRootDir fuel) ex fp (visited ++ [a]))
      (fun '(extendsConfigs, extendsFilePaths) =>
         st_ret (mkConfigFile ex fp extendsFilePaths, extendsConfigs)) s.
Proof.
  intros Ha Hn Hex. simpl. rewrite Ha. unfold st_bind at 1.
  rewrite assertNoInfiniteLoop_fresh by done. unfold executeFile. rewrite Hex. reflexivity.
Qed.

(** A successful [loadConfigFile] returns the config of the file it was
    given. *)
Lemma loadConfigFile_filePath fuel fp visited s r s' :
  loadConfigFile userRootDir fuel fp visited s = Ok (r, s') -> cf_filePath r.1 = fp.
Proof.
  destruct fuel as [|fuel]; simpl; [discriminate|]. destruct (filePathAbsolute fp); [|discriminate].
  intros H. apply st_bind_Ok in H as (_ & s1 & _ & H). apply st_bind_Ok in H as (ex & s2 & _ & H).
  apply st_bind_Ok in H as ([ecs eps] & s3 & _ & H). by injection H as <- _.
Qed.

(** The fold of [loadExtendsConfigs] appends each loaded config, then the
    configs it extends, in the order of [files]. *)
Lemma fold_extends_order (load : FilePath -> list string -> M (ConfigFile * list ConfigFile)) visited files acc s r s' :
  (forall f s0 c s1, load f visited s0 = Ok (c, s1) -> cf_filePath c.1 = f) ->
  st_fold (fun extendsConfigs extendsConfigFile =>
             let* '(configFile, extendsConfigs') := load extendsConfigFile visited in
             st_ret (extendsConfigs ++ configFile :: extendsConfigs')) acc files s = Ok (r, s') ->
  exists cfs, r = acc ++ concat (map (fun p => p.1 :: p.2) cfs) /\ map (fun p => cf_filePath p.1) cfs = files.
Proof.
  intros Hload. revert acc s. induction files as [|f files IH]; intros acc s H; simpl in H.
  - injection H as <- _. exists []. by rewrite app_nil_r.
  - apply st_bind_Ok in H as (acc1 & s1 & Hstep & H).
    apply st_bind_Ok in Hstep as ([c ecs] & s2 & Hl & [= <- _]).
    destruct (IH _ _ H) as (cfs & -> & Hfs). exists ((c, ecs) :: cfs). simpl.
    rewrite <- app_assoc. split; [done|]. by rewrite (Hload _ _ _ _ Hl : cf_filePath c = f), Hfs.
Qed.

(** C17: the configs a file extends are listed in the order in which their
    loads complete, not in the order of its [extends]: a successful
    [loadConfigFile] returns the paths of the extended files in the order
    of [extends] ([extendsFilePaths]), and the extended configs, each
    followed by the configs it extends in turn, in the order
    [completionOrder] gives to those files.  The Source Resolution Engine
    gives the earlier extended config the higher priority, so which of two
    extensions wins depends on timing. *)
Theorem extends_order_is_completion_order fuel fp visited s cf exts s' :
  loadConfigFile userRootDir fuel fp visited s = Ok ((cf, exts), s') ->
  exists a files cfs, filePathAbsolute fp = Some a /\
    cf_extendsFilePaths cf = map (fun f => default "" (filePathAbsolute f)) files /\
    exts = concat (map (fun p => p.1 :: p.2) cfs) /\
    map (fun p => cf_filePath p.1) cfs = completionOrder (visited ++ [a]) files.
Proof.
  destruct fuel as [|fuel]; simpl; [discriminate|]. destruct (filePathAbsolute fp) as [a|]; [|discriminate].
  intros H. apply st_bind_Ok in H as (_ & s1 & _ & H). apply st_bind_Ok in H as (ex & s2 & _ & H).
  apply st_bind_Ok in H as ([ecs eps] & s3 & Hl & H). injection H as <- <- _.
  unfold loadExtendsConfigs in Hl.
  apply st_bind_Ok in Hl as (ids & s4 & _ & Hl). apply st_bind_Ok in Hl as (files & s5 & _ & Hl).
  apply st_bind_Ok in Hl as (ecs' & s6 & Hf & [= <- <- _]).
  destruct (fold_extends_order _ _ _ _ _ _ _ (fun f s0 c s1 => loadConfigFile_filePath fuel f _ s0 c s1) Hf)
    as (cfs & -> & Hfs).
  by exists a, files, cfs.
Qed.

(** C16: two config files that extend each other are rejected with the
    infinite-loop error naming the cycle [a > b > a]. *)
Theorem extends_cycle_detected fuel fpA a b exA exB s :
  2 <= fuel -> filePathAbsolute fpA = Some a -> a <> b ->
  transpileAndExecuteFile fpA false = Some exA -> singleExtends exA a b ->
  (forall fp, filePathAbsolute fp = Some b -> transpileAndExecuteFile fp false = Some exB) ->
  singleExtends exB b a ->
  exists s', loadConfigFile userRootDir (S fuel) fpA [] s = Err (Usage (ErrInfiniteExtendsLoop [a; b; a]), s').
Proof.
  intros Hfuel Ha Hab HexA HA HexB HB.
  destruct fuel as [|[|fuel]]; [lia|lia|].
  destruct (loadExtendsConfigs_single (loadConfigFile userRootDir (S (S fuel))) exA fpA [a] a b s Ha HA)
    as (fpB & s1 & Hb & HkA).
  destruct (loadExtendsConfigs_single (loadConfigFile userRootDir (S fuel)) exB fpB [a; b] b a s1 Hb HB)
    as (fpA' & s2 & Ha' & HkB).
  exists s2.
  rewrite (loadConfigFile_fresh _ _ a _ exA) by (done || apply not_elem_of_nil). simpl app.
  unfold st_bind. rewrite (HkA (Usage (ErrInfiniteExtendsLoop [a; b; a]), s2)); [reflexivity|].
  rewrite (loadConfigFile_fresh _ _ b _ exB _ Hb)
    by (auto || (rewrite not_elem_of_cons; split; [congruence|apply not_elem_of_nil])).
  simpl app. unfold st_bind. rewrite (HkB (Usage (ErrInfiniteExtendsLoop [a; b; a]), s2)); [reflexivity|].
  simpl. rewrite Ha'. destruct (assertNoInfiniteLoop_loop [a; b] a s2) as (idx & Hidx & Hfirst & E);
    [left|].
  destruct idx as [|[|idx]]; [|by destruct (Hfirst 0); [lia|]|done].
  unfold st_bind. by rewrite E.
Qed.
End Cycle.
