(* ===== verification/Locations.v ===== *)
(** * Locations: what a page inherits, and the global configs

    - [getInterfaceFilesRelevant] (getVikeConfig.ts lines 425-437) keeps the
      locations a page inherits from and sorts them deepest first, which is
      the order in which [resolveConfigValueSources] reads them.
    - [getInterfaceFileList] (lines 439-445), [isDefiningPage] (lines
      762-773) and [interfacefileIsAlreaydLoaded] (lines 416-423).
    - [getGlobalConfigs] (lines 447-519): the locations that every other
      location inherits from are global; a global config defined anywhere
      else is a usage error naming the global directories; the global
      configs take the first source found in the global locations. *)

From stdpp Require Import base list strings.
From Stdlib Require Import Ascii Lia Sorted.
From Stdlib Require String.
From S2P Require Import Prelude Js Model Collaborators Resolve Cumulative Registry.

(** [getInterfaceFilesRelevant(interfaceFilesByLocationId, locationIdPage)]
    (lines 425-437). *)
Definition getInterfaceFilesRelevant (interfaceFilesByLocationId : InterfaceFilesByLocationId)
    (locationIdPage : string) : InterfaceFilesByLocationId :=
  JsObject.fromEntries
    (JsArray.sort
       (fun e1 e2 : string * list IFile =>
          FilesystemRouting.sortAfterInheritanceOrder locationIdPage e1.1 e2.1)
       (List.filter (fun e => FilesystemRouting.isInherited e.1 locationIdPage) interfaceFilesByLocationId)).

(** [getInterfaceFileList(interfaceFilesByLocationId)] (lines 439-445). *)
Definition getInterfaceFileList (interfaceFilesByLocationId : InterfaceFilesByLocationId) : list IFile :=
  concat (JsObject.values interfaceFilesByLocationId).

(** [isDefiningPageConfig(configName)] (lines 771-773). *)
Definition isDefiningPageConfig (configName : string) : bool :=
  bool_decide (configName ∈ ["Page"; "route"]%string).

(** [isDefiningPage(interfaceFiles)] (lines 762-770). *)
Definition isDefiningPage (interfaceFiles : list IFile) : bool :=
  existsb (fun f => existsb isDefiningPageConfig (JsObject.keys (if_configMap (ifData f)))) interfaceFiles.

(** [interfacefileIsAlreaydLoaded(interfaceFile)] (lines 416-423). *)
Definition interfacefileIsAlreaydLoaded (interfaceFile : IFile) : M bool :=
  let configMapValues := JsObject.values (if_configMap (ifData interfaceFile)) in
  let isAlreadyLoaded := existsb (fun conf => bool_decide (is_Some conf)) configMapValues in
  (if isAlreadyLoaded
   then assert (forallb (fun conf => bool_decide (is_Some conf)) configMapValues) "interfacefileIsAlreaydLoaded"
   else st_ret tt) >>
  st_ret isAlreadyLoaded.

(** [Array.from(new Set(xs))]: the first occurrence of each string. *)
Fixpoint uniqStrings (seen : list string) (xs : list string) : list string :=
  match xs with
  | [] => seen
  | x :: xs' => if bool_decide (x ∈ seen) then uniqStrings seen xs' else uniqStrings (seen ++ [x]) xs'
  end.

(** [PageConfigGlobalBuildTime] (PageConfig.ts). *)
Record PageConfigGlobal : Type := mkPageConfigGlobal {
  global_configValueSources : JsObject.t (list ConfigValueSource)
}.

(** [if (filePathRelativeToUserRootDir)] of line 461: a present, non-empty path. *)
Definition truthyPath (p : option string) : option string :=
  match p with
  | Some q => if String.eqb q "" then None else Some q
  | None => None
  end.

Section Global.
Context `{IR : ImportResolver} `{BI : BuiltIns}.
Variable userRootDir : string.

(** The [interfaceFiles.forEach] of lines 460-464: the paths of the files. *)
Definition filePathsOf (interfaceFiles : list IFile) : list string :=
  omap (fun f => truthyPath (filePathRelativeToUserRootDir (if_filePath (ifData f)))) interfaceFiles.

(** The body of the [forEach] of lines 458-465. *)
Definition addGlobalPaths (locationIds : list string) (acc : list string) (entry : string * list IFile)
    : M (list string) :=
  let '(locationId, interfaceFiles) := entry in
  assert (FilesystemRouting.isGlobalLocation locationId locationIds) "getGlobalConfigs:isGlobalLocation" >>
  st_ret (acc ++ filePathsOf interfaceFiles).

(** Lines 457-466: the directories of the files of the global locations. *)
Definition getGlobalPaths (interfaceFilesGlobal : InterfaceFilesByLocationId) (locationIds : list string)
    : M (list string) :=
  let* interfaceFilesGlobalPaths := st_fold (addGlobalPaths locationIds) [] interfaceFilesGlobal in
  st_ret (uniqStrings [] (map Path.dirname interfaceFilesGlobalPaths)).

(** Lines 467-489: a global config defined in a file of a non-global
    location is a usage error. *)
Definition assertGlobalConfigsPlacement (interfaceFilesByLocationId : InterfaceFilesByLocationId)
    (locationIds globalPaths : list string) : M unit :=
  st_iter (fun '(locationId, interfaceFiles) =>
    st_iter (fun interfaceFile =>
      st_iter (fun configName =>
        if negb (FilesystemRouting.isGlobalLocation locationId locationIds) && isGlobalConfig configName
        then assertUsage false
               (ErrGlobalConfig (getFilePathToShowToUser (if_filePath (ifData interfaceFile))) configName globalPaths)
        else st_ret tt)
        (JsObject.keys (if_configMap (ifData interfaceFile))))
      interfaceFiles)
    interfaceFilesByLocationId.

(** The body of the [forEach] of lines 496-516, for one global config. *)
Definition addGlobalConfig (interfaceFilesGlobal : InterfaceFilesByLocationId)
    (acc : PageConfigGlobal * JsObject.t value) (entry : string * ConfigDefinitionInternal)
    : M (PageConfigGlobal * JsObject.t value) :=
  let '(configName, configDef) := entry in
  let '(pageConfigGlobal, globalVikeConfig) := acc in
  let* sources := resolveConfigValueSources userRootDir configName configDef (JsObject.values interfaceFilesGlobal) in
  match sources with
  | Some (configValueSource :: _) =>
      if String.eqb configName "onBeforeRoute" || String.eqb configName "onPrerenderStart" then
        assert (bool_decide (cvs_value configValueSource = None)) "getGlobalConfigs:noValue" >>
        st_ret (mkPageConfigGlobal
                  (JsObject.set configName [configValueSource] (global_configValueSources pageConfigGlobal)),
                globalVikeConfig)
      else
        match cvs_value configValueSource with
        | None => st_raise (Bug "getGlobalConfigs:value")
        | Some v =>
            if String.eqb configName "prerender" && (match v with VBool _ => true | _ => false end)
            then st_ret acc
            else
              assert (negb (isComputed configValueSource)) "getGlobalConfigs:isComputed" >>
              match definedAtInfo configValueSource with
              | None => st_raise (Bug "TypeError: definedAtInfo is null")
              | Some info =>
                  match truthyPath (getDefinedAtFilePathToShowToUser info) with
                  | None => st_raise (Bug "getGlobalConfigs:sourceFilePath")
                  | Some sourceFilePath =>
                      assertWarning false (WarnGlobalExperimental configName sourceFilePath) >>
                      st_ret (pageConfigGlobal, JsObject.set configName v globalVikeConfig)
                  end
              end
        end
  | _ => st_ret acc
  end.

(** [getGlobalConfigs(interfaceFilesByLocationId, userRootDir)] (lines
    447-519): [{ pageConfigGlobal, globalVikeConfig }]. *)
Definition getGlobalConfigs (interfaceFilesByLocationId : InterfaceFilesByLocationId)
    : M (PageConfigGlobal * JsObject.t value) :=
  let locationIds := JsObject.keys interfaceFilesByLocationId in
  let interfaceFilesGlobal :=
    JsObject.fromEntries
      (List.filter (fun e => FilesystemRouting.isGlobalLocation e.1 locationIds) interfaceFilesByLocationId) in
  let* globalPaths := getGlobalPaths interfaceFilesGlobal locationIds in
  assertGlobalConfigsPlacement interfaceFilesByLocationId locationIds globalPaths >>
  st_fold (addGlobalConfig interfaceFilesGlobal) (mkPageConfigGlobal [], []) configDefinitionsBuiltInGlobal.
End Global.

(** The directories a misplaced global config is told to move to: those
    of the files of the global locations, each once. *)
Definition globalDirs (interfaceFilesByLocationId : InterfaceFilesByLocationId) : list string :=
  let locationIds := JsObject.keys interfaceFilesByLocationId in
  uniqStrings [] (map Path.dirname (concat (map (fun e : string * list IFile => filePathsOf e.2)
    (List.filter (fun e => FilesystemRouting.isGlobalLocation e.1 locationIds) interfaceFilesByLocationId)))).

Lemma keys_filter_NoDup (P : string * list IFile -> bool) l :
  NoDup (JsObject.keys l) -> NoDup (JsObject.keys (List.filter P l)).
Proof. apply NoDup_map_filter. Qed.

(** ** Global configs *)

Lemma uniqStrings_elem seen xs x : x ∈ uniqStrings seen xs <-> x ∈ seen \/ x ∈ xs.
Proof.
  revert seen. induction xs as [|y xs IH]; intros seen; simpl.
  - split; [auto|intros [?|Hx]; [done|by apply not_elem_of_nil in Hx]].
  - case_bool_decide as Hy; rewrite IH, elem_of_cons; [|rewrite elem_of_app, list_elem_of_singleton];
      [split; [tauto|intros [?|[->|?]]; auto]|tauto].
Qed.

Section GlobalTheorems.
Context `{IR : ImportResolver} `{BI : BuiltIns}.
Variable userRootDir : string.

Lemma fold_addGlobalPaths ids acc global s :
  (forall e, e ∈ global -> FilesystemRouting.isGlobalLocation e.1 ids = true) ->
  st_fold (addGlobalPaths ids) acc global s = Ok (acc ++ concat (map (fun e => filePathsOf e.2) global), s).
Proof.
  revert acc. induction global as [|[loc files] global IH]; intros acc Hg; simpl.
  - by rewrite app_nil_r.
  - unfold st_bind, assert. rewrite (Hg (loc, files) ltac:(by left) : FilesystemRouting.isGlobalLocation loc ids = true).
    simpl.
    rewrite IH by (intros e He; apply Hg; by right). by rewrite app_assoc.
Qed.
Lemma getGlobalPaths_globalDirs byLoc s :
  getGlobalPaths (List.filter (fun e => FilesystemRouting.isGlobalLocation e.1 (JsObject.keys byLoc)) byLoc)
    (JsObject.keys byLoc) s = Ok (globalDirs byLoc, s).
Proof.
  unfold getGlobalPaths, st_bind. rewrite fold_addGlobalPaths; [reflexivity|].
  intros e He. apply list_elem_of_In, filter_In in He. tauto.
Qed.

(** C18: a global config defined in a file of a location that is not
    global makes [getGlobalConfigs] fail, with a usage error naming a
    misplaced global config, its file, and the directories of the global
    locations' files (spec P9). *)
Theorem getGlobalConfigs_misplaced byLoc loc files f name s :
  NoDup (JsObject.keys byLoc) ->
  (loc, files) ∈ byLoc -> f ∈ files -> name ∈ JsObject.keys (if_configMap (ifData f)) ->
  FilesystemRouting.isGlobalLocation loc (JsObject.keys byLoc) = false -> isGlobalConfig name = true ->
  exists loc' files' f' name', (loc', files') ∈ byLoc /\ f' ∈ files' /\
    FilesystemRouting.isGlobalLocation loc' (JsObject.keys byLoc) = false /\ isGlobalConfig name' = true /\
    getGlobalConfigs userRootDir byLoc s
      = Err (Usage (ErrGlobalConfig (getFilePathToShowToUser (if_filePath (ifData f'))) name' (globalDirs byLoc)), s).
Proof.
  intros Hnd Hloc Hf Hname Hnl Hg.
  set (ids := JsObject.keys byLoc).
  set (P := fun e => exists loc' files' f' name', (loc', files') ∈ byLoc /\ f' ∈ files' /\
    FilesystemRouting.isGlobalLocation loc' ids = false /\ isGlobalConfig name' = true /\
    e = Usage (ErrGlobalConfig (getFilePathToShowToUser (if_filePath (ifData f'))) name' (globalDirs byLoc))).
  set (body := fun loc' (f' : IFile) configName =>
    if negb (FilesystemRouting.isGlobalLocation loc' ids) && isGlobalConfig configName
    then assertUsage false
           (ErrGlobalConfig (getFilePathToShowToUser (if_filePath (ifData f'))) configName (globalDirs byLoc))
    else st_ret tt).
  assert (Hok : forall loc' files' f' n, (loc', files') ∈ byLoc -> f' ∈ files' -> st_ok_or_fails P (body loc' f' n)).
  { intros loc' files' f' n Hl Hf' s0. unfold body.
    destruct (FilesystemRouting.isGlobalLocation loc' ids) eqn:E1, (isGlobalConfig n) eqn:E2; simpl; auto.
    right. eexists. split; [reflexivity|]. exists loc', files', f', n. auto. }
  assert (Hfails : st_fails P (assertGlobalConfigsPlacement byLoc ids (globalDirs byLoc))).
  { unfold assertGlobalConfigsPlacement.
    apply (iter_fails P _ _ (loc, files)); [|done|].
    - intros [loc' files'] Hl. apply iter_ok_or_fails. intros f' Hf'.
      apply iter_ok_or_fails. intros n _. exact (Hok loc' files' f' n Hl Hf').
    - apply (iter_fails P _ _ f); [|done|].
      + intros f' Hf'. apply iter_ok_or_fails. intros n _. exact (Hok loc files f' n Hloc Hf').
      + apply (iter_fails P _ _ name); [intros n _; exact (Hok loc files f n Hloc Hf)|done|].
        intros s0. cbv beta.
        fold ids in Hnl. rewrite Hnl, Hg. eexists. split; [reflexivity|]. exists loc, files, f, name. auto. }
  unfold getGlobalConfigs. rewrite JsObject.fromEntries_NoDup by (by apply keys_filter_NoDup).
  unfold st_bind at 1. rewrite getGlobalPaths_globalDirs.
  destruct (Hfails s) as (e & He & loc' & files' & f' & name' & Hl' & Hf' & Hn' & Hg' & ->).
  exists loc', files', f', name'. repeat split; auto. unfold st_bind. fold ids. by rewrite He.
Qed.
End GlobalTheorems.
