(* ===== verification/Effects.v ===== *)
(** * Effects and computed configs (getVikeConfig.ts lines 954-1033)

    After the sources of a page are resolved, [applyEffectsAll] calls the
    [effect] of every definition that has one with the value of the
    config's first source; the only change an effect may ask for is
    [{ meta: { <config>: { env } } }], which [applyEffect] applies to every
    source of the named config.  [applyComputed] then appends, for every
    definition with a [_computed] function that returns a value, a computed
    source after all the others.

    The functions are user code, called through [Class Host].  The code
    mutates the source objects in place ([configValueSource.configEnv =
    envOverriden]); each source object belongs to the list of exactly one
    config of one page (getConfigValueSource builds a fresh object per
    config and file), so the model updates that list. *)

From stdpp Require Import base list strings.
From Stdlib Require Import Ascii Lia.
From Stdlib Require String.
From S2P Require Import Prelude Js Model Collaborators Cumulative Registry.

(** [routeFilesystem] of a page: [{ routeString, definedBy }]. *)
Record RouteFilesystem : Type := mkRouteFilesystem {
  routeString : string;
  definedBy : string
}.

(** [PageConfigBuildTime] (PageConfig.ts), as [loadVikeConfig] builds it
    (lines 385-391): [isErrorPage] is [true] or [undefined]. *)
Record PageConfigBuildTime : Type := mkPageConfig {
  pageId : string;
  isErrorPage : option bool;
  routeFilesystem : option RouteFilesystem;
  configValueSources : JsObject.t (list ConfigValueSource);
  configValues : JsObject.t ConfigValue
}.

Definition setConfigValueSources (pc : PageConfigBuildTime) (sources : JsObject.t (list ConfigValueSource))
    : PageConfigBuildTime :=
  mkPageConfig (pageId pc) (isErrorPage pc) (routeFilesystem pc) sources (configValues pc).

Definition setConfigValues (pc : PageConfigBuildTime) (values : JsObject.t ConfigValue) : PageConfigBuildTime :=
  mkPageConfig (pageId pc) (isErrorPage pc) (routeFilesystem pc) (configValueSources pc) values.

Class Host : Type := {
  (** [configDef.effect({ configValue, configDefinedAt })]: the config
      modification it returns, or a falsy value for none. *)
  callEffect : value -> value -> string -> value;
  (** [configDef._computed(pageConfig)]: [VUndefined] for no value. *)
  callComputed : value -> PageConfigBuildTime -> value
}.

(** [getConfigDefinedAtString(configName, { definedAt }, sentenceBegin)]
    (shared/page-configs/utils.ts): "Config <name> defined at <file>". *)
Definition getConfigDefinedAtString (configName : string) (isEffect : bool) (file : DefinedAtFile) : string :=
  ("Config " +:+ configName +:+ " defined " +:+ (if isEffect then "(effect) " else "") +:+ "at " +:+
   default "" (filePathToShowToUser file) +:+ join "" (map (fun p => "#" +:+ p) (daf_fileExportPath file)))%string.

(** [getConfigSourceDefinedAtString(configName, { definedAtInfo }, isEffect)]
    (lines 1526-1545): the source must have a file ([definedAtInfo] of a
    computed source is [null]). *)
Definition getConfigSourceDefinedAtString (configName : string) (source : ConfigValueSource) (isEffect : bool)
    : M string :=
  match definedAtInfo source with
  | Some info =>
      st_ret (getConfigDefinedAtString configName isEffect
                (mkDefinedAtFile (getDefinedAtFilePathToShowToUser info) (fileExportPath info)))
  | None => st_raise (Bug "TypeError: definedAtInfo is null")
  end.

(** [sources?.forEach((s) => { s.configEnv = envOverriden })] *)
Definition overrideEnv (configTargetName : string) (envOverriden : ConfigEnvInternal)
    (configValueSources : JsObject.t (list ConfigValueSource)) : JsObject.t (list ConfigValueSource) :=
  match JsObject.get configTargetName configValueSources with
  | Some sources =>
      JsObject.set configTargetName
        (map (fun s => mkConfigValueSource (cvs_value s) (valueIsFilePath s) envOverriden
                         (valueIsImportedAtRuntime s) (isComputed s) (definedAtInfo s)) sources)
        configValueSources
  | None => configValueSources
  end.

(** The body of [objectEntries(configValue).forEach] of lines 995-1006, for
    one validated [meta] entry. *)
Definition applyMetaEffect (configValueSources : JsObject.t (list ConfigValueSource))
    (entry : string * MetaDefinition) : M (JsObject.t (list ConfigValueSource)) :=
  let '(configTargetName, configTargetDef) := entry in
  let keys := map fst (meta_fields configTargetDef) in
  assertUsage (bool_decide ("env"%string ∈ keys)) ErrEffectUnsupported >>
  assertUsage (Nat.eqb (length keys) 1) ErrEffectUnsupported >>
  st_ret (overrideEnv configTargetName (meta_env configTargetDef) configValueSources).

(** [applyEffect(configModFromEffect, configValueEffectSource,
    configValueSources)] (lines 983-1013). *)
Definition applyEffect (configModFromEffect : value) (configValueEffectSource : ConfigValueSource)
    (configValueSources : JsObject.t (list ConfigValueSource)) : M (JsObject.t (list ConfigValueSource)) :=
  st_fold (fun sources '(configName, configValue) =>
             if String.eqb configName "meta" then
               assert (negb (isComputed configValueEffectSource)) "applyEffect:isComputed" >>
               let* definedAt := getConfigSourceDefinedAtString configName configValueEffectSource true in
               let* metaDefs := assertMetaValue configValue definedAt in
               st_fold applyMetaEffect sources metaDefs
             else st_raise (Usage ErrEffectUnsupported))
          configValueSources (objectEntries configModFromEffect).

Section Engine.
Context `{H : Host}.

(** The body of the [forEach] of lines 955-980, for one definition. *)
Definition applyEffectOf (pageConfig : PageConfigBuildTime) (entry : string * ConfigDefinitionInternal)
    : M PageConfigBuildTime :=
  let '(configName, configDef) := entry in
  match effect configDef with
  | Some effectFn =>
      if negb (truthy effectFn) then st_ret pageConfig else
      assertWarning (bool_decide (env configDef = ConfigOnly)) (WarnEffectNotConfigOnly configName (env configDef)) >>
      match JsObject.get configName (configValueSources pageConfig) with
      | Some (source :: _) =>
          assert (negb (isComputed source)) "applyEffectsAll:isComputed" >>
          let* configDefinedAt := getConfigSourceDefinedAtString configName source false in
          let configModFromEffect := callEffect effectFn (default VUndefined (cvs_value source)) configDefinedAt in
          if negb (truthy configModFromEffect) then st_ret pageConfig else
          assert (bool_decide (is_Some (cvs_value source))) "applyEffectsAll:value" >>
          let* sources := applyEffect configModFromEffect source (configValueSources pageConfig) in
          st_ret (setConfigValueSources pageConfig sources)
      | _ => st_ret pageConfig
      end
  | None => st_ret pageConfig
  end.

(** [applyEffectsAll(pageConfig, configDefinitionsRelevant)] (lines 954-982). *)
Definition applyEffectsAll (pageConfig : PageConfigBuildTime) (configDefinitionsRelevant : ConfigDefinitions)
    : M PageConfigBuildTime :=
  st_fold applyEffectOf pageConfig configDefinitionsRelevant.

(** The source [applyComputed] appends (lines 1020-1026). *)
Definition computedSource (v : value) (configDef : ConfigDefinitionInternal) : ConfigValueSource :=
  mkConfigValueSource (Some v) false (env configDef) false true None.

(** The body of the [forEach] of lines 1016-1031, for one definition. *)
Definition applyComputedOf (pageConfig : PageConfigBuildTime) (entry : string * ConfigDefinitionInternal)
    : PageConfigBuildTime :=
  let '(configName, configDef) := entry in
  match _computed configDef with
  | Some computedFn =>
      if negb (truthy computedFn) then pageConfig else
      match callComputed computedFn pageConfig with
      | VUndefined => pageConfig
      | v =>
          let sources := configValueSources pageConfig in
          setConfigValueSources pageConfig
            (JsObject.set configName (default [] (JsObject.get configName sources) ++ [computedSource v configDef])
               sources)
      end
  | None => pageConfig
  end.

(** [applyComputed(pageConfig, configDefinitionsRelevant)] (lines 1015-1033). *)
Definition applyComputed (pageConfig : PageConfigBuildTime) (configDefinitionsRelevant : ConfigDefinitions)
    : PageConfigBuildTime :=
  fold_left applyComputedOf configDefinitionsRelevant pageConfig.
End Engine.

(** [appendSources before extra]: the list of a config after [extra]
    sources were appended to it ([??= []] then [push]). *)
Definition appendSources (before : option (list ConfigValueSource)) (extra : list ConfigValueSource)
    : option (list ConfigValueSource) :=
  match before, extra with
  | Some l, _ => Some (l ++ extra)
  | None, [] => None
  | None, _ => Some extra
  end.

(** ** Effects *)

Lemma overrideEnv_other target ce sources name :
  name <> target -> JsObject.get name (overrideEnv target ce sources) = JsObject.get name sources.
Proof.
  intros Hne. unfold overrideEnv. destruct (JsObject.get target sources); [|done].
  by apply JsObject.get_set_ne.
Qed.

Lemma overrideEnv_target target ce sources :
  option_Forall2 (Forall2 (fun a b => configEnv b = ce /\ cvs_value b = cvs_value a /\
                                       definedAtInfo b = definedAtInfo a /\ isComputed b = isComputed a))
    (JsObject.get target sources) (JsObject.get target (overrideEnv target ce sources)).
Proof.
  unfold overrideEnv. destruct (JsObject.get target sources) as [l|] eqn:E; [|rewrite E; constructor].
  rewrite JsObject.get_set_eq. constructor. clear E. induction l as [|a l IH]; simpl; constructor; [repeat split|exact IH].
Qed.

Lemma assertMetaDefinition_env_only definedAt name e ce s :
  JsObject.get e envValues = Some ce ->
  assertMetaDefinition definedAt name (VObject [("env", VString e)]) s
  = Ok (mkMetaDef ce [("env", VString e)], s).
Proof.
  intros He. unfold assertMetaDefinition. remember envValues as ev eqn:Hev.
  unfold assertUsage, st_bind, st_ret. simpl. by rewrite He.
Qed.

(** The effect [{ meta: { target: { env } } }] on its own. *)
Lemma applyEffect_env src sources target e ce s :
  isComputed src = false -> is_Some (definedAtInfo src) -> JsObject.get e envValues = Some ce ->
  applyEffect (VObject [("meta", VObject [(target, VObject [("env", VString e)])])]) src sources s
  = Ok (overrideEnv target ce sources, s).
Proof.
  intros Hc [info Hi] He. unfold applyEffect, getConfigSourceDefinedAtString, assertMetaValue, applyMetaEffect.
  rewrite Hi, Hc. unfold st_bind at 1. simpl. unfold st_bind. simpl.
  rewrite (assertMetaDefinition_env_only _ _ _ _ _ He). reflexivity.
Qed.

(** C19: an effect that sets the environment of a config gives every
    source of that config the new environment, keeps their values, files
    and kinds, and leaves the other configs alone (spec P7). *)
Theorem applyEffect_env_override src sources target e ce s :
  isComputed src = false -> is_Some (definedAtInfo src) -> JsObject.get e envValues = Some ce ->
  exists sources',
    applyEffect (VObject [("meta", VObject [(target, VObject [("env", VString e)])])]) src sources s
      = Ok (sources', s) /\
    (forall name, name <> target -> JsObject.get name sources' = JsObject.get name sources) /\
    option_Forall2 (Forall2 (fun a b => configEnv b = ce /\ cvs_value b = cvs_value a /\
                                         definedAtInfo b = definedAtInfo a /\ isComputed b = isComputed a))
      (JsObject.get target sources) (JsObject.get target sources').
Proof.
  intros Hc Hi He. exists (overrideEnv target ce sources). split; [by apply applyEffect_env|].
  split; [intros; by apply overrideEnv_other|apply overrideEnv_target].
Qed.

(** ** Computed configs *)

Section Computed.
Context `{H : Host}.

Lemma appendSources_app before e1 e2 :
  appendSources (appendSources before e1) e2 = appendSources before (e1 ++ e2).
Proof. destruct before, e1, e2; simpl; rewrite ?app_nil_r, <- ?app_assoc; done. Qed.

Lemma applyComputedOf_get pc entry name :
  exists extra, Forall (fun src => isComputed src = true) extra /\
    JsObject.get name (configValueSources (applyComputedOf pc entry))
    = appendSources (JsObject.get name (configValueSources pc)) extra /\
    (entry.1 <> name -> extra = []).
Proof.
  assert (Hnil : forall pc', JsObject.get name (configValueSources pc')
                             = appendSources (JsObject.get name (configValueSources pc')) []).
  { intros pc'. destruct (JsObject.get _ _); simpl; by rewrite ?app_nil_r. }
  destruct entry as [n d]. cbn [fst]. unfold applyComputedOf.
  destruct (_computed d) as [f|]; [|exists []; auto].
  destruct (truthy f); simpl; [|exists []; auto].
  destruct (callComputed f pc) eqn:Ev; [exists []; auto|..].
  all: cbn [configValueSources setConfigValueSources]; destruct (decide (n = name)) as [->|Hne];
    [exists [computedSource (callComputed f pc) d]; rewrite Ev, JsObject.get_set_eq;
     split; [repeat constructor|split; [destruct (JsObject.get name _); reflexivity|done]]
    |exists []; rewrite JsObject.get_set_ne by done; auto].
Qed.

Lemma applyComputed_get pc defs name :
  exists extra, Forall (fun src => isComputed src = true) extra /\
    JsObject.get name (configValueSources (applyComputed pc defs))
    = appendSources (JsObject.get name (configValueSources pc)) extra /\
    (name ∉ JsObject.keys defs -> extra = []).
Proof.
  unfold applyComputed. revert pc. induction defs as [|entry defs IH]; intros pc; simpl.
  - exists []. split; [constructor|]. split; [|done].
    destruct (JsObject.get _ _); simpl; by rewrite ?app_nil_r.
  - destruct (applyComputedOf_get pc entry name) as (e1 & Hc1 & Hg1 & Hn1).
    destruct (IH (applyComputedOf pc entry)) as (e2 & Hc2 & Hg2 & Hn2).
    exists (e1 ++ e2). split; [by apply Forall_app|]. rewrite Hg2, Hg1, appendSources_app.
    split; [done|]. unfold JsObject.keys. simpl. rewrite not_elem_of_cons. intros [Hne Hn].
    by rewrite Hn1, Hn2.
Qed.

(** C20: a computed default never outranks an explicit source: when a
    config has sources before [applyComputed], its first source stays
    first, so its final value is unchanged for an ordinary config (P8). *)
Theorem applyComputed_explicit_first pc defs name x xs :
  JsObject.get name (configValueSources pc) = Some (x :: xs) ->
  exists l, JsObject.get name (configValueSources (applyComputed pc defs)) = Some l /\
    forall configDef s, cumulative configDef = false ->
      getConfigValue name l configDef s = getConfigValue name (x :: xs) configDef s.
Proof.
  intros Hx. destruct (applyComputed_get pc defs name) as (extra & _ & Hg & _).
  rewrite Hx in Hg. simpl in Hg. exists (x :: xs ++ extra). split; [done|].
  intros configDef s Hcum. unfold getConfigValue. by rewrite Hcum.
Qed.
Lemma applyComputed_other pc defs name :
  name ∉ JsObject.keys defs ->
  JsObject.get name (configValueSources (applyComputed pc defs)) = JsObject.get name (configValueSources pc).
Proof.
  intros Hn. destruct (applyComputed_get pc defs name) as (extra & _ & Hg & Hx).
  rewrite Hg, (Hx Hn). destruct (JsObject.get name (configValueSources pc)); simpl; [by rewrite app_nil_r|done].
Qed.

(** C21: a config without any explicit source whose definition computes
    a value gets exactly the computed source, and its final value is the
    computed one, marked as computed (P8). *)
Theorem applyComputed_default pc defs name configDef f v :
  JsObject.get name (configValueSources pc) = None ->
  NoDup (JsObject.keys defs) -> (name, configDef) ∈ defs ->
  _computed configDef = Some f -> truthy f = true ->
  (forall pc', callComputed f pc' = v) -> v <> VUndefined ->
  JsObject.get name (configValueSources (applyComputed pc defs)) = Some [computedSource v configDef] /\
  forall s, cumulative configDef = false ->
    getConfigValue name [computedSource v configDef] configDef s = Ok (Some (mkConfigValue v DefinedAtComputed), s).
Proof.
  intros Hnone Hnd Hin Hf Ht Hv Hund. split; [|intros s Hc; unfold getConfigValue; rewrite Hc; reflexivity].
  apply list_elem_of_split in Hin as (pre & post & ->).
  unfold JsObject.keys in Hnd. rewrite map_app in Hnd. simpl in Hnd.
  apply NoDup_app in Hnd as (_ & Hdisj & Hpost). apply NoDup_cons in Hpost as [Hpost _].
  unfold applyComputed. rewrite fold_left_app. cbn [fold_left].
  change (fold_left applyComputedOf post ?x) with (applyComputed x post).
  change (fold_left applyComputedOf pre pc) with (applyComputed pc pre).
  rewrite applyComputed_other by done.
  assert (Hpre : JsObject.get name (configValueSources (applyComputed pc pre)) = None).
  { rewrite applyComputed_other; [done|]. intros Hk. exact (Hdisj name Hk (list_elem_of_here _ _)). }
  unfold applyComputedOf. rewrite Hf, Ht. simpl. rewrite Hv.
  destruct v; try congruence; cbn [configValueSources setConfigValueSources];
    rewrite JsObject.get_set_eq, Hpre; reflexivity.
Qed.
End Computed.
