(* ===== verification/Route.v ===== *)
(** * The filesystem route of a page (getVikeConfig.ts lines 1334-1385)

    [determineRouteFilesystem] derives a page's route from its location;
    a location with an [_error] segment is the error page and has no route;
    a [filesystemRoutingRoot] config replaces the route prefix of the
    location that defines it ([getFilesystemRoutingRootEffect]).

    The string helpers [getFilesystemRouteString],
    [getFilesystemRouteDefinedBy] and [applyFilesystemRoutingRootEffect]
    live in filesystemRouting.ts, which is not among the sources: they are
    an interface ([Class RouteStrings]). *)

From stdpp Require Import base list strings.
From Stdlib Require Import Ascii Lia.
From Stdlib Require String.
From S2P Require Import Prelude Js Model Collaborators Cumulative Effects.

Class RouteStrings : Type := {
  getFilesystemRouteString : string -> string;
  getFilesystemRouteDefinedBy : string -> string;
  (** [applyFilesystemRoutingRootEffect(routeString, { before, after })] *)
  applyFilesystemRoutingRootEffect : string -> string * string -> string
}.

(** [determineIsErrorPage(routeFilesystem)] (lines 1382-1385). *)
Definition determineIsErrorPage (routeFilesystem : string) : bool :=
  bool_decide ("_error"%string ∈ split_on "/" routeFilesystem).

Section Route.
Context `{RS : RouteStrings}.

(** [getFilesystemRoutingRootEffect(configFilesystemRoutingRoot, configName)]
    (lines 1359-1381): [{ before, after }] and where the config is defined. *)
Definition getFilesystemRoutingRootEffect (configFilesystemRoutingRoot : ConfigValueSource) (configName : string)
    : M ((string * string) * string) :=
  assert (bool_decide (configEnv configFilesystemRoutingRoot = ConfigOnly)) "routingRoot:configOnly" >>
  match cvs_value configFilesystemRoutingRoot with
  | None => st_raise (Bug "routingRoot:value")
  | Some value =>
      assert (negb (isComputed configFilesystemRoutingRoot)) "routingRoot:isComputed" >>
      let* configDefinedAt := getConfigSourceDefinedAtString configName configFilesystemRoutingRoot false in
      match value with
      | VString after =>
          assertUsage (startsWith after "/") (ErrRoutingRootNoLeadingSlash configDefinedAt after) >>
          assert (negb (isComputed configFilesystemRoutingRoot)) "routingRoot:isComputed" >>
          match definedAtInfo configFilesystemRoutingRoot with
          | None => st_raise (Bug "TypeError: definedAtInfo is null")
          | Some info =>
              match filePathRelativeToUserRootDir (dfi_filePath info) with
              | Some rel =>
                  assert (negb (String.eqb rel "")) "routingRoot:filePathRelativeToUserRootDir" >>
                  let before := getFilesystemRouteString (FilesystemRouting.getLocationId rel) in
                  st_ret ((before, after), configDefinedAt)
              | None => st_raise (Bug "routingRoot:filePathRelativeToUserRootDir")
              end
          end
      | _ => st_raise (Usage (ErrRoutingRootNotString configDefinedAt))
      end
  end.

(** [determineRouteFilesystem(locationId, configValueSources)] (lines
    1334-1358): [{ isErrorPage, routeFilesystem }]. *)
Definition determineRouteFilesystem (locationId : string)
    (configValueSources : JsObject.t (list ConfigValueSource))
    : M (option bool * option RouteFilesystem) :=
  let configName := "filesystemRoutingRoot"%string in
  let configFilesystemRoutingRoot :=
    match JsObject.get configName configValueSources with
    | Some (source :: _) => Some source
    | _ => None
    end in
  let filesystemRouteString := getFilesystemRouteString locationId in
  if determineIsErrorPage filesystemRouteString then st_ret (Some true, None) else
  let filesystemRouteDefinedBy := getFilesystemRouteDefinedBy locationId in
  let* '(filesystemRouteString, filesystemRouteDefinedBy) :=
    match configFilesystemRoutingRoot with
    | Some source =>
        let* '((before, after), filesystemRoutingRootDefinedAt) :=
          getFilesystemRoutingRootEffect source configName in
        assert (startsWith filesystemRouteString before) "determineRouteFilesystem:before" >>
        st_ret (applyFilesystemRoutingRootEffect filesystemRouteString (before, after),
                (filesystemRouteDefinedBy +:+ " (with " +:+ filesystemRoutingRootDefinedAt +:+ ")")%string)
    | None => st_ret (filesystemRouteString, filesystemRouteDefinedBy)
    end in
  assert (startsWith filesystemRouteString "/") "determineRouteFilesystem:leadingSlash" >>
  st_ret (None, Some (mkRouteFilesystem filesystemRouteString filesystemRouteDefinedBy)).
End Route.

Section RouteTheorems.
Context `{RS : RouteStrings}.

(** C22: a page whose [filesystemRoutingRoot] (the first source) is a
    [config-only] string [after] set in a file at [rel]: its route is the
    route string of its location with the prefix [before], the route string
    of the directory of [rel], replaced by [after]
    ([applyFilesystemRoutingRootEffect]), defined by its location "with"
    the config's definition; [after] without a leading [/] is a usage
    error, and a page whose route string does not start with [before], or
    whose new route has no leading [/], fails an internal assertion.  The
    state is left unchanged on every branch. *)
Theorem determineRouteFilesystem_routingRoot locationId sources source rest info rel after s :
  JsObject.get "filesystemRoutingRoot" sources = Some (source :: rest) ->
  determineIsErrorPage (getFilesystemRouteString locationId) = false ->
  configEnv source = ConfigOnly -> cvs_value source = Some (VString after) -> isComputed source = false ->
  definedAtInfo source = Some info -> filePathRelativeToUserRootDir (dfi_filePath info) = Some rel ->
  rel <> ""%string ->
  let routeString := getFilesystemRouteString locationId in
  let before := getFilesystemRouteString (FilesystemRouting.getLocationId rel) in
  let routeString' := applyFilesystemRoutingRootEffect routeString (before, after) in
  let definedAt := getConfigDefinedAtString "filesystemRoutingRoot" false
                     (mkDefinedAtFile (getDefinedAtFilePathToShowToUser info) (fileExportPath info)) in
  determineRouteFilesystem locationId sources s =
    if negb (startsWith after "/") then Err (Usage (ErrRoutingRootNoLeadingSlash definedAt after), s)
    else if negb (startsWith routeString before) then Err (Bug "determineRouteFilesystem:before", s)
    else if negb (startsWith routeString' "/") then Err (Bug "determineRouteFilesystem:leadingSlash", s)
    else Ok ((None, Some (mkRouteFilesystem routeString'
               (getFilesystemRouteDefinedBy locationId +:+ " (with " +:+ definedAt +:+ ")")%string)), s).
Proof.
  intros Hsrc Herr Henv Hval Hcomp Hinfo Hrel Hne. cbv zeta.
  unfold determineRouteFilesystem. rewrite Hsrc, Herr.
  unfold getFilesystemRoutingRootEffect, getConfigSourceDefinedAtString, assert, assertUsage, st_bind, st_ret,
    st_raise.
  rewrite Henv, bool_decide_true by reflexivity. rewrite Hval, Hcomp, Hinfo, Hrel.
  apply String.eqb_neq in Hne. rewrite Hne. cbn.
  destruct (startsWith after "/"); [|reflexivity].
  destruct (startsWith (getFilesystemRouteString locationId) _); [|reflexivity].
  destruct (startsWith (applyFilesystemRoutingRootEffect _ _) "/"); reflexivity.
Qed.
End RouteTheorems.
