(* ===== verification/Interface.v ===== *)
(** * Plus files and the interface files of a project

    - [getConfigName] (getVikeConfig.ts lines 1099-1111) reads the config
      name of a [+{configName}.js] file; [assertNoUnexpectedPlusSign]
      (lines 1112-1125) rejects a [+] elsewhere in the path;
      [isVikeConfigFile] (lines 1417-1419).
    - [getInterfaceFileFromConfigFile] (lines 270-286) and [loadValueFile]
      (lines 261-269) build interface files from the exports of a file.
    - [loadInterfaceFiles] (lines 175-243) classifies the plus files found
      by [findPlusFiles] (Discovery.v, an input here), loads each
      [+config.js] with the configs it extends, and each value file (its
      value eagerly when its built-in definition is [config-only]), and
      groups the interface files by location.

    Theorems: the objects created have distinct identities, whatever the
    settle order (C23), every value file has its own config in its map
    (C34), [getConfigName] of
    [+{configName}.js] is [configName] (C33), and a file [+.js] crashes
    the pass (C24).

    The loads run under [Promise.all]: each callback runs up to its
    [await], then the callbacks resume in the order their loads settle, a
    permutation given by a [Class SettleOrder].  A config file's objects
    are created and pushed when its load settles; a value file's object is
    created at once and pushed at once, or, when it is loaded eagerly,
    after its load settles ([startValueInterfaceFile],
    [settleValueInterfaceFile]).  A callback's load runs whole when it
    settles, so the effects of loads that overlap in time are taken in
    settle order.  Each interface file the code creates is a new object:
    the model numbers them in creation order ([IFile.ifId]). *)

From stdpp Require Import base list strings.
From Stdlib Require Import Ascii Lia.
From Stdlib Require String.
From S2P Require Import Prelude Js Model Collaborators Resolve Registry Extends.

(** [s.includes('+')] *)
Definition includesPlus (s : string) : bool := includesChar "+" s.

(** [s.slice(1)] *)
Definition slice1 (s : string) : string :=
  match s with
  | EmptyString => EmptyString
  | String _ rest => rest
  end.

(** [assertNoUnexpectedPlusSign(filePath, fileName)] (lines 1112-1125). *)
Definition assertNoUnexpectedPlusSign (filePath fileName : string) : M unit :=
  let dirs := split_on "/" (Path.dirname filePath) in
  st_iter (fun '(i, dir) =>
             assertUsage (negb (includesPlus dir)) (ErrPlusInDirectory (join "/" (take (S i) dirs))))
          (imap pair dirs) >>
  assertUsage (negb (includesPlus (slice1 fileName))) (ErrPlusInFileName filePath).

(** [UserFilePath] (lines 1257-1260): a file [findPlusFiles] found. *)
Record UserFilePath : Type := mkUserFilePath {
  ufp_filePathAbsolute : string;
  ufp_filePathRelativeToUserRootDir : string
}.

(** [interfaceFilesByLocationId[locationId] ??= []; ...push(interfaceFile)] *)
Definition addInterfaceFile (locationId : string) (interfaceFile : IFile)
    (interfaceFilesByLocationId : InterfaceFilesByLocationId) : InterfaceFilesByLocationId :=
  JsObject.set locationId (default [] (JsObject.get locationId interfaceFilesByLocationId) ++ [interfaceFile])
    interfaceFilesByLocationId.

(** [getInterfaceFileFromConfigFile(configFile, isConfigExtend)] (lines 270-286). *)
Definition getInterfaceFileFromConfigFile (configFile : ConfigFile) (isConfigExtend : bool) : M InterfaceFile :=
  let filePath := cf_filePath configFile in
  assertExportsOfConfigFile (cf_fileExports configFile) (getFilePathToShowToUser filePath) >>
  let defaultExports := default VUndefined (JsObject.get "default" (cf_fileExports configFile)) in
  st_ret (InterfaceConfigFile filePath
            (fold_left (fun configMap '(configName, configValue) => JsObject.set configName (Some configValue) configMap)
               (objectEntries defaultExports) [])
            (cf_extendsFilePaths configFile) isConfigExtend).

(** [assertExportsOfValueFile] (assertExports.ts): a value file exports
    [default] or the config by its name. *)
Definition assertExportsOfValueFile (fileExports : JsObject.t value) (filePathToShowToUser configName : string)
    : M unit :=
  assertUsage (bool_decide (is_Some (JsObject.get "default" fileExports) \/ is_Some (JsObject.get configName fileExports)))
    (ErrValueFileExports filePathToShowToUser configName).

(** The order in which the callbacks of a [Promise.all] resume after
    their [await]: a permutation of the order they were started in. *)
Class SettleOrder : Type := {
  settleOrder {A : Type} : list A -> list A;
  settleOrder_perm {A : Type} (l : list A) : settleOrder l ≡ₚ l
}.

(** The callbacks resume in the order they were started. *)
Definition inOrderSettle : SettleOrder := {|
  settleOrder _ l := l;
  settleOrder_perm _ l := reflexivity l
|}.

(** A value file whose callback awaits [loadValueFile]: its location, the
    identity of its object, its path and its config. *)
Record PendingValueFile : Type := mkPendingValueFile {
  pv_locationId : string;
  pv_id : nat;
  pv_filePath : FilePath;
  pv_configName : string
}.

Section Load.
Context `{IR : ImportResolver} `{ML : ModuleLoader} `{CO : Completion} `{BI : BuiltIns} `{SO : SettleOrder}.
Variable userRootDir : string.
(** The depth bound of the extends recursion (Extends.v). *)
Variable fuel : nat.

(** [getConfigName(filePath)] (lines 1099-1111). *)
Definition getConfigName (filePath : string) : M (option string) :=
  if isTmpFile filePath then st_ret None else
  let fileName := Path.basename filePath in
  assertNoUnexpectedPlusSign filePath fileName >>
  let basename := default "" (head (split_on "." fileName)) in
  if negb (startsWith basename "+") then st_ret None else st_ret (Some (slice1 basename)).

(** [isVikeConfigFile(filePath)] (lines 1417-1419): [!!getConfigName(filePath)]. *)
Definition isVikeConfigFile (filePath : string) : M bool :=
  let* configName := getConfigName filePath in
  st_ret (match configName with Some c => negb (String.eqb c "") | None => false end).

(** [loadValueFile(interfaceValueFile, configName, userRootDir)] (lines
    261-269): the config map after the exports are stored in it. *)
Definition loadValueFile (filePath : FilePath) (configMap : ConfigMap) (configName : string) : M ConfigMap :=
  let* fileExports := executeFile filePath true in
  assertExportsOfValueFile fileExports (getFilePathToShowToUser filePath) configName >>
  st_ret (fold_left (fun configMap '(exportName, configValue) =>
                       let configName_ := if String.eqb exportName "default" then configName else exportName in
                       JsObject.set configName_ (Some configValue) configMap)
            fileExports configMap).

(** The [plusFiles.forEach] of lines 175-181: config files and value files. *)
Definition classifyPlusFile (acc : list UserFilePath * list UserFilePath) (f : UserFilePath)
    : M (list UserFilePath * list UserFilePath) :=
  let '(configFiles, valueFiles) := acc in
  let* configName := getConfigName (ufp_filePathRelativeToUserRootDir f) in
  if bool_decide (configName = Some "config"%string) then st_ret (configFiles ++ [f], valueFiles)
  else st_ret (configFiles, valueFiles ++ [f]).

(** The body of [configFiles.map] (lines 188-204), run when the load of
    the config file settles, with the next object id. *)
Definition loadConfigInterfaceFiles (acc : InterfaceFilesByLocationId * nat) (f : UserFilePath)
    : M (InterfaceFilesByLocationId * nat) :=
  let '(interfaceFilesByLocationId, nextId) := acc in
  let configFilePath :=
    mkFilePath (Some (ufp_filePathAbsolute f)) (Some (ufp_filePathRelativeToUserRootDir f)) None in
  let* '(configFile, extendsConfigs) := loadConfigFile userRootDir fuel configFilePath [] in
  let* interfaceFile := getInterfaceFileFromConfigFile configFile false in
  let locationId := FilesystemRouting.getLocationId (ufp_filePathRelativeToUserRootDir f) in
  st_fold (fun '(interfaceFilesByLocationId, nextId) extendsConfig =>
             let* interfaceFile := getInterfaceFileFromConfigFile extendsConfig true in
             st_ret (addInterfaceFile locationId (mkIFile nextId interfaceFile) interfaceFilesByLocationId, S nextId))
          (addInterfaceFile locationId (mkIFile nextId interfaceFile) interfaceFilesByLocationId, S nextId)
          extendsConfigs.

(** Lines 230-231: the callback awaits [loadValueFile] when the built-in
    definition of the config is [config-only]. *)
Definition isLoadedEagerly (configName : string) : bool :=
  match getConfigDefinitionOptional configDefinitionsBuiltIn configName with
  | Some configDef => bool_decide (env configDef = ConfigOnly)
  | None => false
  end.

(** The body of [valueFiles.map] up to its [await] (lines 210-231 and,
    for a file not loaded eagerly, 235-239): the object is created, then
    pushed at once, or pending until its load settles. *)
Definition startValueInterfaceFile (acc : (InterfaceFilesByLocationId * nat) * list PendingValueFile)
    (f : UserFilePath) : M ((InterfaceFilesByLocationId * nat) * list PendingValueFile) :=
  let '((interfaceFilesByLocationId, nextId), pending) := acc in
  let* configName := getConfigName (ufp_filePathRelativeToUserRootDir f) in
  match configName with
  | Some configName =>
      assert (negb (String.eqb configName "")) "loadInterfaceFiles:configName" >>
      let filePath :=
        mkFilePath (Some (ufp_filePathAbsolute f)) (Some (ufp_filePathRelativeToUserRootDir f)) None in
      let locationId := FilesystemRouting.getLocationId (ufp_filePathRelativeToUserRootDir f) in
      if isLoadedEagerly configName
      then st_ret ((interfaceFilesByLocationId, S nextId),
                   pending ++ [mkPendingValueFile locationId nextId filePath configName])
      else st_ret ((addInterfaceFile locationId (mkIFile nextId (InterfaceValueFile filePath [(configName, None)] configName))
                      interfaceFilesByLocationId, S nextId), pending)
  | None => st_raise (Bug "loadInterfaceFiles:configName")
  end.

(** The rest of the callback once its load settled (lines 232-239): the
    object, with the exports in its config map, is pushed. *)
Definition settleValueInterfaceFile (interfaceFilesByLocationId : InterfaceFilesByLocationId)
    (pending : PendingValueFile) : M InterfaceFilesByLocationId :=
  let* configMap := loadValueFile (pv_filePath pending) [(pv_configName pending, None)] (pv_configName pending) in
  st_ret (addInterfaceFile (pv_locationId pending)
            (mkIFile (pv_id pending) (InterfaceValueFile (pv_filePath pending) configMap (pv_configName pending)))
            interfaceFilesByLocationId).

(** [loadInterfaceFiles(userRootDir, outDirRoot, isDev, extensions)] (lines
    175-243), from the files [findPlusFiles] returned (the crawl of lines
    168-174 is [loadInterfaceFilesFromRoot], Discovery.v); object ids
    start at [firstId]. *)
Definition loadInterfaceFiles (plusFiles : list UserFilePath) (firstId : nat)
    : M (InterfaceFilesByLocationId * nat) :=
  let* '(configFiles, valueFiles) := st_fold classifyPlusFile ([], []) plusFiles in
  let* acc := st_fold loadConfigInterfaceFiles ([], firstId) (settleOrder configFiles) in
  let* '((interfaceFilesByLocationId, nextId), pending) := st_fold startValueInterfaceFile (acc, []) valueFiles in
  let* interfaceFilesByLocationId := st_fold settleValueInterfaceFile interfaceFilesByLocationId (settleOrder pending) in
  st_ret (interfaceFilesByLocationId, nextId).
End Load.

(** ** Config names *)

Lemma assertNoUnexpectedPlusSign_ok filePath fileName s :
  includesPlus (Path.dirname filePath) = false -> includesPlus (slice1 fileName) = false ->
  assertNoUnexpectedPlusSign filePath fileName s = Ok (tt, s).
Proof.
  intros Hdir Hfile. unfold assertNoUnexpectedPlusSign.
  erewrite st_bind_step; [unfold assertUsage; by rewrite Hfile|].
  apply st_iter_ok. intros [i dir] Hx. apply elem_of_lookup_imap_1 in Hx as (j & w & [= -> ->] & Hw).
  unfold assertUsage. unfold includesPlus.
  by rewrite (split_on_includes "/" "+" _ _ Hdir (list_elem_of_lookup_2 _ _ _ Hw)).
Qed.

Section NameTheorems.
Context `{ML : ModuleLoader}.

(** [getConfigName] of [dir/+{configName}.{ext}]. *)
Lemma getConfigName_plus_name dir configName ext s :
  isTmpFile (dir +:+ "/+" +:+ configName +:+ "." +:+ ext)%string = false ->
  includesPlus dir = false -> includesPlus configName = false -> includesPlus ext = false ->
  includesChar "/" configName = false -> includesChar "." configName = false -> includesChar "/" ext = false ->
  getConfigName (dir +:+ "/+" +:+ configName +:+ "." +:+ ext)%string s = Ok (Some configName, s).
Proof.
  intros Htmp Hd Hc He Hcs Hcd Hes. unfold getConfigName. rewrite Htmp.
  set (fileName := String "+" (configName +:+ String "." ext)).
  change (dir +:+ "/+" +:+ configName +:+ "." +:+ ext)%string with (dir +:+ String "/" fileName)%string.
  assert (Hfs : includesChar "/" fileName = false).
  { unfold fileName. change (Ascii.eqb "+" "/" || includesChar "/" (configName +:+ String "." ext) = false).
    rewrite includesChar_app, Hcs. simpl. exact Hes. }
  assert (Hbase : Path.basename (dir +:+ String "/" fileName) = fileName).
  { unfold Path.basename. rewrite segments_app_sep, (segments_file fileName) by (done || exact Hfs).
    by rewrite last_snoc. }
  rewrite Hbase.
  rewrite (st_bind_step _ _ _ tt s); [|apply assertNoUnexpectedPlusSign_ok].
  - unfold fileName. change (String "+" (configName +:+ String "." ext)) with (("+" +:+ configName) +:+ String "." ext)%string.
    rewrite split_on_app_sep, (split_on_no "." ("+" +:+ configName)); [destruct configName; vm_compute; reflexivity|].
    change (Ascii.eqb "+" "." || includesChar "." configName = false). by rewrite Hcd.
  - apply dirname_includes; [reflexivity|reflexivity|exact Hd|done|exact Hfs].
  - unfold includesPlus in *. unfold fileName. cbn [slice1]. rewrite includesChar_app, Hc. simpl. exact He.
Qed.

(** C33: the config name of a plus file is the name the file is given:
    [getConfigName] of [dir/+{configName}.{ext}] is [configName] when the
    directories, the name and the extension have no [+], and the name has
    no [/] or [.] (and the extension no [/]). *)
Theorem getConfigName_roundtrip dir configName ext s :
  isTmpFile (dir +:+ "/+" +:+ configName +:+ "." +:+ ext)%string = false ->
  includesPlus dir = false -> includesPlus configName = false -> includesPlus ext = false ->
  includesChar "/" configName = false -> includesChar "." configName = false -> includesChar "/" ext = false ->
  getConfigName (dir +:+ "/+" +:+ configName +:+ "." +:+ ext)%string s = Ok (Some configName, s).
Proof. apply getConfigName_plus_name. Qed.
End NameTheorems.

(** [idsFrom firstId (byLoc, next)]: the interface files of [byLoc] are
    distinct objects, numbered from [firstId] below [next]. *)
Definition idsFrom (firstId : nat) (acc : InterfaceFilesByLocationId * nat) : Prop :=
  NoDup (map ifId (concat (JsObject.values acc.1))) /\
  Forall (fun f => firstId <= ifId f < acc.2) (concat (JsObject.values acc.1)) /\ firstId <= acc.2.

(** ** Object identities *)

Lemma idsFrom_add firstId loc i byLoc next :
  idsFrom firstId (byLoc, next) -> idsFrom firstId (addInterfaceFile loc (mkIFile next i) byLoc, S next).
Proof.
  unfold idsFrom, addInterfaceFile. simpl. rewrite JsObject.values_set_append.
  intros (Hnd & Hall & Hle). rewrite map_app. simpl. split; [|split; [|lia]].
  - apply NoDup_app. split; [done|]. split; [|apply NoDup_singleton].
    intros x Hx ->%list_elem_of_singleton. apply list_elem_of_In, in_map_iff in Hx as (f & Hf & Hin).
    rewrite Forall_forall in Hall. specialize (Hall f (proj2 (list_elem_of_In _ _) Hin)). lia.
  - apply Forall_app. split; [|constructor; [simpl; lia|constructor]].
    eapply Forall_impl; [exact Hall|]. simpl. intros; lia.
Qed.

(** Appending a fresh identity keeps the identities distinct. *)
Lemma ids_snoc firstId next (l l' : list nat) :
  NoDup l -> Forall (fun i => firstId <= i < next) l -> firstId <= next -> l' ≡ₚ l ++ [next] ->
  NoDup l' /\ Forall (fun i => firstId <= i < S next) l'.
Proof.
  intros Hnd Hall Hle Hp. rewrite Hp. split.
  - apply NoDup_app. split; [done|]. split; [|apply NoDup_singleton].
    intros x Hx ->%list_elem_of_singleton. rewrite Forall_forall in Hall. specialize (Hall _ Hx). lia.
  - apply Forall_app. split; [eapply Forall_impl; [exact Hall|]; intros i Hi; simpl in Hi; lia|constructor; [lia|constructor]].
Qed.

(** The identities of the objects pushed and of those still loading. *)
Definition allIds (acc : (InterfaceFilesByLocationId * nat) * list PendingValueFile) : list nat :=
  map ifId (concat (JsObject.values acc.1.1)) ++ map pv_id acc.2.

Definition startIds (firstId : nat) (acc : (InterfaceFilesByLocationId * nat) * list PendingValueFile) : Prop :=
  NoDup (allIds acc) /\ Forall (fun i => firstId <= i < acc.1.2) (allIds acc) /\ firstId <= acc.1.2.

Lemma settleOrder_nil `{SettleOrder} {A} : settleOrder (@nil A) = [].
Proof. apply Permutation_nil. symmetry. apply settleOrder_perm. Qed.

(** ** Well-formed interface files *)

(** A value file's config map has an entry for its own config. *)
Definition wfInterfaceFile (f : IFile) : Prop :=
  match ifData f with
  | InterfaceValueFile _ configMap configName => configName ∈ JsObject.keys configMap
  | InterfaceConfigFile _ _ _ _ => True
  end.

Lemma addInterfaceFile_wf loc f byLoc :
  Forall wfInterfaceFile (concat (JsObject.values byLoc)) -> wfInterfaceFile f ->
  Forall wfInterfaceFile (concat (JsObject.values (addInterfaceFile loc f byLoc))).
Proof.
  intros Hall Hf. unfold addInterfaceFile. rewrite JsObject.values_set_append.
  apply Forall_app. split; [exact Hall|by constructor].
Qed.

Lemma getInterfaceFileFromConfigFile_wf cf b s d s' n :
  getInterfaceFileFromConfigFile cf b s = Ok (d, s') -> wfInterfaceFile (mkIFile n d).
Proof. unfold getInterfaceFileFromConfigFile. intros H. apply st_bind_Ok in H as (u & s1 & _ & [= <- _]). exact I. Qed.

Lemma fold_set_keys (l : JsObject.t value) configName (cm : ConfigMap) k :
  k ∈ JsObject.keys cm ->
  k ∈ JsObject.keys (fold_left (fun configMap '(exportName, configValue) =>
                       let configName_ := if String.eqb exportName "default" then configName else exportName in
                       JsObject.set configName_ (Some configValue) configMap) l cm).
Proof.
  revert cm. induction l as [|[e v] l IH]; intros cm Hk; simpl; [exact Hk|].
  apply IH. by apply JsObject.keys_set_mono.
Qed.

Lemma loadValueFile_keys `{ModuleLoader} fp cm n s cm' s' k :
  loadValueFile fp cm n s = Ok (cm', s') -> k ∈ JsObject.keys cm -> k ∈ JsObject.keys cm'.
Proof.
  unfold loadValueFile. intros Hl Hk.
  apply st_bind_Ok in Hl as (ex & s1 & _ & Hl). apply st_bind_Ok in Hl as (u & s2 & _ & [= <- _]).
  by apply fold_set_keys.
Qed.


Section Settle.
Context `{ML : ModuleLoader}.

(** The loads that settle push their objects, with the identities they
    were created with, each with its own config in its map. *)
Lemma settleValueInterfaceFiles_files byLoc pend s byLoc' s' :
  st_fold settleValueInterfaceFile byLoc pend s = Ok (byLoc', s') ->
  exists fs, concat (JsObject.values byLoc') ≡ₚ concat (JsObject.values byLoc) ++ fs /\
    map ifId fs = map pv_id pend /\ Forall wfInterfaceFile fs.
Proof.
  revert byLoc s. induction pend as [|p pend IH]; intros byLoc s H; simpl in H.
  - injection H as <- _. exists []. by rewrite app_nil_r.
  - apply st_bind_Ok in H as (b1 & s1 & Hp & H). destruct (IH _ _ H) as (fs & Hfs & Hids & Hwf).
    unfold settleValueInterfaceFile in Hp. apply st_bind_Ok in Hp as (cm & s2 & Hcm & [= <- _]).
    exists (mkIFile (pv_id p) (InterfaceValueFile (pv_filePath p) cm (pv_configName p)) :: fs). split; [|split].
    + rewrite Hfs. unfold addInterfaceFile. rewrite JsObject.values_set_append, <- app_assoc. reflexivity.
    + simpl. by rewrite Hids.
    + constructor; [|exact Hwf]. simpl. apply (loadValueFile_keys _ _ _ _ _ _ _ Hcm). apply list_elem_of_here.
Qed.
End Settle.

(** A plus file whose config name is not [config] is put with the value
    files. *)
Lemma classifyPlusFile_value_file `{ML : ModuleLoader} l acc s cf vf s' x :
  st_fold classifyPlusFile acc l s = Ok ((cf, vf), s') -> x ∈ l ->
  (forall s0, exists c, getConfigName (ufp_filePathRelativeToUserRootDir x) s0 = Ok (c, s0) /\ c <> Some "config"%string) ->
  x ∈ vf.
Proof.
  assert (Hstep : forall acc0 y s0 a s1, x ∈ acc0.2 -> classifyPlusFile acc0 y s0 = Ok (a, s1) -> x ∈ a.2).
  { intros [c0 v0] y s0 a s1 Hx Hc. unfold classifyPlusFile in Hc. apply st_bind_Ok in Hc as (c & s2 & _ & Hc).
    case_bool_decide; injection Hc as <- _; simpl; [exact Hx|apply elem_of_app; by left]. }
  revert acc s. induction l as [|y l IH]; intros acc s Hf Hin Hx; [by apply not_elem_of_nil in Hin|].
  simpl in Hf. apply st_bind_Ok in Hf as (acc1 & s1 & Hy & Hf).
  apply elem_of_cons in Hin as [<-|Hin]; [|exact (IH _ _ Hf Hin Hx)].
  refine (st_fold_inv (fun a => x ∈ a.2) _ _ _ _ _ _ _ _ Hf); [exact Hstep|].
  destruct acc as [c0 v0]. unfold classifyPlusFile in Hy. destruct (Hx s) as (c & Hc & Hne).
  rewrite (st_bind_step _ _ _ _ _ Hc) in Hy. rewrite bool_decide_false in Hy by done.
  injection Hy as <- _. simpl. apply elem_of_app. right. by left.
Qed.

Section LoadTheorems.
Context `{IR : ImportResolver} `{ML : ModuleLoader} `{CO : Completion} `{BI : BuiltIns} `{SO : SettleOrder}.
Variable userRootDir : string.
Variable fuel : nat.

Lemma loadConfigInterfaceFiles_ids firstId acc f s acc' s' :
  idsFrom firstId acc -> loadConfigInterfaceFiles userRootDir fuel acc f s = Ok (acc', s') ->
  idsFrom firstId acc'.
Proof.
  destruct acc as [byLoc next]. intros Hids H. unfold loadConfigInterfaceFiles in H.
  apply st_bind_Ok in H as ([cf ecs] & s1 & _ & H). apply st_bind_Ok in H as (i & s2 & _ & H).
  eapply st_fold_inv; [|apply idsFrom_add, Hids|exact H].
  intros [b n] x s0 a s3 Hb Hx. apply st_bind_Ok in Hx as (j & s4 & _ & [= <- _]).
  by apply idsFrom_add.
Qed.

Lemma startValueInterfaceFile_ids firstId acc f s acc' s' :
  startIds firstId acc -> startValueInterfaceFile acc f s = Ok (acc', s') -> startIds firstId acc'.
Proof.
  destruct acc as [[byLoc next] pending]. intros (Hnd & Hall & Hle) H. simpl in Hle. unfold startValueInterfaceFile in H.
  apply st_bind_Ok in H as ([n|] & s1 & _ & H); [|discriminate].
  apply st_bind_Ok in H as (_ & s2 & _ & H).
  unfold startIds; destruct (isLoadedEagerly n); injection H as <- _; simpl;
    (split; [|split; [|lia]]); apply (ids_snoc firstId next (allIds ((byLoc, next), pending))); try done;
    unfold allIds; simpl.
  1,2: by rewrite map_app, app_assoc.
  all: unfold addInterfaceFile; rewrite JsObject.values_set_append, map_app; simpl;
    rewrite <- !app_assoc; apply Permutation_app_head, Permutation_app_comm.
Qed.

(** C23: the interface files [loadInterfaceFiles] returns are distinct
    objects, which is the hypothesis under which the resolution engine
    refines its specification (ResolveOrder.v), whatever the order in
    which the loads settle. *)
Theorem loadInterfaceFiles_ids_unique plusFiles firstId s byLoc next s' :
  loadInterfaceFiles userRootDir fuel plusFiles firstId s = Ok ((byLoc, next), s') ->
  NoDup (map ifId (concat (JsObject.values byLoc))) /\
  Forall (fun f => firstId <= ifId f < next) (concat (JsObject.values byLoc)).
Proof.
  intros H. unfold loadInterfaceFiles in H.
  apply st_bind_Ok in H as ([cfs vfs] & s1 & _ & H). apply st_bind_Ok in H as (acc & s2 & Hc & H).
  apply st_bind_Ok in H as ([[b n] pend] & s3 & Hv & H). apply st_bind_Ok in H as (b' & s4 & Hs & [= <- <- _]).
  assert (Hids : idsFrom firstId acc).
  { eapply st_fold_inv; [intros; eapply loadConfigInterfaceFiles_ids; eauto| |exact Hc].
    repeat split; simpl; [constructor|constructor|lia]. }
  assert (Hst : startIds firstId ((b, n), pend)).
  { refine (st_fold_inv (startIds firstId) _ _ _ _ _ _ _ _ Hv); [apply startValueInterfaceFile_ids|].
    destruct acc as [b0 n0], Hids as (Hnd & Hall & Hle). unfold startIds, allIds; simpl. rewrite app_nil_r.
    split; [exact Hnd|split; [exact (proj2 (List.Forall_map _ _ _) Hall)|exact Hle]]. }
  destruct (settleValueInterfaceFiles_files _ _ _ _ _ Hs) as (fs & Hfs & Hfids & _).
  destruct Hst as (Hnd & Hall & _). unfold allIds in Hnd, Hall; simpl in Hnd, Hall.
  assert (Hperm : map ifId (concat (JsObject.values b')) ≡ₚ map ifId (concat (JsObject.values b)) ++ map pv_id pend).
  { rewrite Hfs, map_app, Hfids, settleOrder_perm. reflexivity. }
  split; [by rewrite Hperm|]. apply (proj1 (List.Forall_map ifId (fun i => firstId <= i < n) _)). by rewrite Hperm.
Qed.

(** C24: a plus file named [+.{ext}] (which the glob [+*.{ext}] of
    [findPlusFiles] matches), in any directory, has the empty config name:
    it is taken for a value file, and its callback fails the
    [assert(configName)] of line 212, an internal error instead of a usage
    error; so no project with such a file loads its interface files. *)
Theorem plus_only_file_is_internal_error dir ext abs plusFiles firstId s :
  isTmpFile (dir +:+ "/+." +:+ ext)%string = false ->
  includesPlus dir = false -> includesPlus ext = false -> includesChar "/" ext = false ->
  mkUserFilePath abs (dir +:+ "/+." +:+ ext) ∈ plusFiles ->
  (forall acc s0, startValueInterfaceFile acc (mkUserFilePath abs (dir +:+ "/+." +:+ ext)) s0
                  = Err (Bug "loadInterfaceFiles:configName", s0)) /\
  (forall r s', loadInterfaceFiles userRootDir fuel plusFiles firstId s <> Ok (r, s')).
Proof.
  intros Htmp Hd He Hes Hin.
  assert (Hname : forall s0, getConfigName (dir +:+ "/+." +:+ ext) s0 = Ok (Some ""%string, s0))
    by (intros s0; exact (getConfigName_plus_name dir "" ext s0 Htmp Hd eq_refl He eq_refl eq_refl Hes)).
  assert (Hstart : forall acc s0, startValueInterfaceFile acc (mkUserFilePath abs (dir +:+ "/+." +:+ ext)) s0
                                  = Err (Bug "loadInterfaceFiles:configName", s0)).
  { intros [[b n] pend] s0. unfold startValueInterfaceFile. simpl. unfold st_bind at 1. by rewrite Hname. }
  split; [exact Hstart|]. intros r s' Hok. unfold loadInterfaceFiles in Hok.
  apply st_bind_Ok in Hok as ([cf vf] & s1 & Hc & Hok).
  apply st_bind_Ok in Hok as (acc & s2 & _ & Hok).
  apply st_bind_Ok in Hok as ([[b n] pend] & s3 & Hv & _).
  pose proof (classifyPlusFile_value_file _ _ _ _ _ _ _ Hc Hin) as Hvf.
  destruct (st_fold_elem_Ok _ _ _ _ _ _ _ Hv (Hvf ltac:(intros s0; eexists; split; [exact (Hname s0)|discriminate])))
    as (acc0 & s0 & r0 & s4 & Hr0).
  by rewrite Hstart in Hr0.
Qed.
End LoadTheorems.

Section WfTheorems.
Context `{IR : ImportResolver} `{ML : ModuleLoader} `{CO : Completion} `{BI : BuiltIns} `{SO : SettleOrder}.
Variable userRootDir : string.
Variable fuel : nat.

Lemma loadConfigInterfaceFiles_wf acc f s acc' s' :
  Forall wfInterfaceFile (concat (JsObject.values acc.1)) ->
  loadConfigInterfaceFiles userRootDir fuel acc f s = Ok (acc', s') ->
  Forall wfInterfaceFile (concat (JsObject.values acc'.1)).
Proof.
  destruct acc as [b n]. intros Hb Hf. unfold loadConfigInterfaceFiles in Hf.
  apply st_bind_Ok in Hf as ([cf ecs] & s4 & _ & Hf). apply st_bind_Ok in Hf as (d & s5 & Hd & Hf).
  refine (st_fold_inv (fun acc => Forall wfInterfaceFile (concat (JsObject.values acc.1))) _ _ _ _ _ _ _ _ Hf);
    [|apply addInterfaceFile_wf; [exact Hb|exact (getInterfaceFileFromConfigFile_wf _ _ _ _ _ _ Hd)]].
  intros [b' n'] x s6 a' s7 Hb' Hx. apply st_bind_Ok in Hx as (d' & s8 & Hd' & [= <- _]).
  apply addInterfaceFile_wf; [exact Hb'|exact (getInterfaceFileFromConfigFile_wf _ _ _ _ _ _ Hd')].
Qed.

Lemma startValueInterfaceFile_wf acc f s acc' s' :
  Forall wfInterfaceFile (concat (JsObject.values acc.1.1)) ->
  startValueInterfaceFile acc f s = Ok (acc', s') ->
  Forall wfInterfaceFile (concat (JsObject.values acc'.1.1)).
Proof.
  destruct acc as [[b n] pending]. intros Hb H. unfold startValueInterfaceFile in H.
  apply st_bind_Ok in H as ([cn|] & s1 & _ & H); [|discriminate]. apply st_bind_Ok in H as (_ & s2 & _ & H).
  destruct (isLoadedEagerly cn); injection H as <- _; [exact Hb|].
  apply addInterfaceFile_wf; [exact Hb|apply list_elem_of_here].
Qed.

(** C34: every value file [loadInterfaceFiles] creates has its own config
    in its config map (loaded or not), so the [assert(conf)] of
    [getConfigValueSource] (line 656) holds for a value file's own config. *)
Theorem loadInterfaceFiles_wf plusFiles firstId s byLoc next s' :
  loadInterfaceFiles userRootDir fuel plusFiles firstId s = Ok ((byLoc, next), s') ->
  Forall wfInterfaceFile (concat (JsObject.values byLoc)).
Proof.
  intros H. unfold loadInterfaceFiles in H.
  apply st_bind_Ok in H as ([cfs vfs] & s1 & _ & H). apply st_bind_Ok in H as (acc & s2 & Hc & H).
  apply st_bind_Ok in H as ([[b n] pend] & s3 & Hv & H). apply st_bind_Ok in H as (b' & s4 & Hs & [= <- _ _]).
  destruct (settleValueInterfaceFiles_files _ _ _ _ _ Hs) as (fs & -> & _ & Hfs). apply Forall_app. split; [|exact Hfs].
  change (Forall wfInterfaceFile (concat (JsObject.values ((b, n), pend).1.1))).
  refine (st_fold_inv (fun acc => Forall wfInterfaceFile (concat (JsObject.values acc.1.1))) _ _ _ _ _ _ _ _ Hv);
    [apply startValueInterfaceFile_wf|].
  refine (st_fold_inv (fun acc => Forall wfInterfaceFile (concat (JsObject.values acc.1))) _ _ _ _ _ _ _ _ Hc);
    [apply loadConfigInterfaceFiles_wf|by constructor].
Qed.
End WfTheorems.
