(* ===== verification/Discovery.v ===== *)
(** * Finding the plus files: [findPlusFiles] (getVikeConfig.ts lines 1035-1098)

    [loadInterfaceFiles] starts by crawling the user's root directory for
    the files [+*.{js,ts,...}] ([findPlusFiles]), skipping [node_modules],
    Telefunc files and the build output directory, and adds the
    [+config] files that extensions ship pre-built.  The crawl itself is
    fast-glob, an interface here ([Class Crawler]); the rest is modelled:
    the ignore patterns ([path.posix.relative]), the warning on a slow crawl
    in development, the two paths of each crawled file
    ([path.posix.join('/', p)] and [path.posix.join(userRootDir, p)]) and
    the assertions on the extensions' files.  [path.posix.join] and
    [path.posix.normalize] are modelled after Node's lib/path.js
    ([Module PathPosix]).

    Also here: [handleUserFileError] (lines 1263-1293), which the file
    defines but does not call.

    Theorems: on a normalized root, every crawled file's relative path is
    [/] followed by the crawled path and its absolute path is the root
    followed by the same, and [path.posix.relative] recovers the crawled
    path from the absolute one; extension files come after the crawled
    ones (C35).  An extension file with a [+] only in a directory name
    fails an internal assertion. *)

From stdpp Require Import base list strings.
From Stdlib Require Import Ascii Lia.
From Stdlib Require String.
From S2P Require Import Prelude Js Model Collaborators Resolve Registry Extends Interface.

(** ** [path.posix.normalize] and [path.posix.join] *)

Module PathPosix.

(** The last character, [p.charCodeAt(p.length - 1)]. *)
Fixpoint lastChar (s : string) : option ascii :=
  match s with
  | EmptyString => None
  | String a EmptyString => Some a
  | String _ s' => lastChar s'
  end.

(** One segment of [normalizeString]: [res] is the stack of segments kept
    so far, the last one first.  [.] and empty segments are dropped; [..]
    drops the last segment, or is kept when the path may climb above its
    start ([allowAboveRoot], for relative paths). *)
Definition normalizeStep (allowAboveRoot : bool) (res : list string) (segment : string) : list string :=
  if String.eqb segment "" || String.eqb segment "." then res
  else if String.eqb segment ".." then
    match res with
    | last :: res' => if String.eqb last ".." then (if allowAboveRoot then ".." :: res else res) else res'
    | [] => if allowAboveRoot then [".."] else []
    end
  else segment :: res.

(** [normalizeString(path, allowAboveRoot, '/', isPosixPathSeparator)] *)
Definition normalizeString (p : string) (allowAboveRoot : bool) : string :=
  join "/" (rev (foldl (normalizeStep allowAboveRoot) [] (split_on "/" p))).

(** [path.posix.normalize(path)] *)
Definition normalize (p : string) : string :=
  if String.eqb p "" then "." else
  let isAbsolute := startsWith p "/" in
  let trailingSeparator := bool_decide (lastChar p = Some "/"%char) in
  let p' := normalizeString p (negb isAbsolute) in
  if String.eqb p' "" then (if isAbsolute then "/" else if trailingSeparator then "./" else ".")
  else
    let p'' := if trailingSeparator then (p' +:+ "/")%string else p' in
    if isAbsolute then ("/" +:+ p'')%string else p''.

(** [path.posix.join(...args)]: the non-empty arguments joined with [/],
    then normalized. *)
Definition join (args : list string) : string :=
  match List.filter (fun arg => negb (String.eqb arg "")) args with
  | [] => "."
  | joined => normalize (Collaborators.join "/" joined)
  end.

End PathPosix.

(** ** Posix paths (utils/filesystemPathHandling.ts) *)

(** The backslash, [\\]. *)
Definition backslash : ascii := "092"%char.

(** [assertPosixPath(path)]: a non-empty path without [\\]. *)
Definition assertPosixPath (p : string) : M unit :=
  assert (negb (String.eqb p "")) "assertPosixPath" >>
  assert (negb (includesChar backslash p)) "assertPosixPath".

(** [toPosixPath(path)]: [path.split('\\').join('/')], asserted posix. *)
Definition toPosixPath (p : string) : M string :=
  let pathPosix := Collaborators.join "/" (split_on backslash p) in
  assertPosixPath pathPosix >> st_ret pathPosix.

(** ** The crawler and the extensions *)

Class Crawler : Type := {
  (** [scriptFileExtensions] (utils/isScriptFile.ts): the glob of the
      extensions of script files *)
  scriptFileExtensions : string;
  (** [glob(pattern, { ignore, cwd, dot: false })] (fast-glob): the paths,
      relative to [cwd], of the files that match [pattern] and none of
      [ignore] *)
  glob : string -> list string -> string -> list string
}.

(** [pageConfigsDistFiles] entries of [ExtensionResolved]
    (shared/ConfigVike.ts). *)
Record PageConfigDistFile : Type := mkPageConfigDistFile {
  pcdf_importPath : string;
  pcdf_filePath : string
}.

(** [ExtensionResolved] (shared/ConfigVike.ts), the field [findPlusFiles]
    reads. *)
Record ExtensionResolved : Type := mkExtensionResolved {
  pageConfigsDistFiles : option (list PageConfigDistFile)
}.

Section Find.
Context `{CR : Crawler}.

(** The glob of plus files, [**/+*.${scriptFileExtensions}]. *)
Definition plusFilesPattern : string := ("**/+*." +:+ scriptFileExtensions)%string.

(** Lines 1044-1048: [${path.posix.relative(userRootDir, dir)}/**] for
    each directory to ignore. *)
Definition ignorePattern (userRootDir dir : string) : M string :=
  assertPosixPath dir >> st_ret (Path.relative userRootDir dir +:+ "/**")%string.

(** Lines 1075-1080: the two paths of a crawled file. *)
Definition crawledFile (userRootDir p : string) : M UserFilePath :=
  let* p := toPosixPath p in
  let filePathRelativeToUserRootDir := PathPosix.join ["/"; p] in
  let filePathAbsolute := PathPosix.join [userRootDir; p] in
  st_ret (mkUserFilePath filePathAbsolute filePathRelativeToUserRootDir).

(** Lines 1083-1094: a pre-built [+config] file of an extension. *)
Definition addPageConfigDistFile (plusFiles : list UserFilePath) (pageConfigDistFile : PageConfigDistFile)
    : M (list UserFilePath) :=
  let importPath := pcdf_importPath pageConfigDistFile in
  if negb (includesPlus importPath) then st_ret plusFiles else
  assert (includesPlus importPath) "findPlusFiles:includesPlus" >>
  assert (startsWith (Path.basename importPath) "+") "findPlusFiles:basename" >>
  st_ret (plusFiles ++ [mkUserFilePath (pcdf_filePath pageConfigDistFile) importPath]).

Definition addExtension (plusFiles : list UserFilePath) (extension : ExtensionResolved) : M (list UserFilePath) :=
  st_fold addPageConfigDistFile plusFiles (default [] (pageConfigsDistFiles extension)).

(** [findPlusFiles(userRootDir, ignoreDirs, isDev, extensions)]; [time] is
    the duration of the crawl in milliseconds. *)
Definition findPlusFiles (userRootDir : string) (ignoreDirs : list string) (isDev : bool)
    (extensions : list ExtensionResolved) (time : nat) : M (list UserFilePath) :=
  assertPosixPath userRootDir >>
  let* ignorePatterns := st_map (ignorePattern userRootDir) ignoreDirs in
  let result := glob plusFilesPattern (["**/node_modules/**"; "**/*.telefunc.*"] ++ ignorePatterns) userRootDir in
  (if isDev then assertWarning (bool_decide (time < 2000)) (WarnSlowCrawl time) else st_ret tt) >>
  let* plusFiles := st_map (crawledFile userRootDir) result in
  st_fold addExtension plusFiles extensions.
End Find.

Section Compose.
Context `{IR : ImportResolver} `{ML : ModuleLoader} `{CO : Completion} `{BI : BuiltIns} `{SO : SettleOrder} `{CR : Crawler}.

(** [loadInterfaceFiles(userRootDir, outDirRoot, isDev, extensions)]
    (lines 168-174): crawl, skipping the build output, then load the plus
    files found ([loadInterfaceFiles] of Interface.v, lines 175-243). *)
Definition loadInterfaceFilesFromRoot (userRootDir : string) (fuel : nat) (outDirRoot : string) (isDev : bool)
    (extensions : list ExtensionResolved) (time firstId : nat) : M (InterfaceFilesByLocationId * nat) :=
  let* plusFiles := findPlusFiles userRootDir [outDirRoot] isDev extensions time in
  loadInterfaceFiles userRootDir fuel plusFiles firstId.
End Compose.

(** ** [handleUserFileError] *)

Inductive ConsoleOutput (E : Type) : Type :=
| ConsoleLog (msg : string)
| ConsoleError (err : E).
Arguments ConsoleLog {_}.
Arguments ConsoleError {_}.

(** What happens to the process: the error is thrown again, or the
    process prints and exits with a code. *)
Inductive UserFileErrorOutcome (E : Type) : Type :=
| Rethrow (err : E)
| ProcessExit (console : list (ConsoleOutput E)) (code : nat).
Arguments Rethrow {_}.
Arguments ProcessExit {_}.

(** [handleUserFileError(err, isDev)] (lines 1263-1293). *)
Definition handleUserFileError {E} (err : E) (isDev : bool) : UserFileErrorOutcome E :=
  if isDev then Rethrow err
  else ProcessExit [ConsoleLog ""; ConsoleError err] 1.

(** ** Normalized paths *)

(** A segment of a normalized path: not empty, not [.] or [..], without
    [\\]. *)
Definition plainSegment (w : string) : bool :=
  negb (String.eqb w "") && negb (String.eqb w ".") && negb (String.eqb w "..") && negb (includesChar backslash w).

(** A normalized relative path [a/b/c], as fast-glob returns them. *)
Definition isNormalRelative (p : string) : bool := forallb plainSegment (split_on "/" p).

(** A normalized absolute path: [/] or [/a/b]. *)
Definition isNormalAbsolute (p : string) : bool :=
  match p with
  | String c r => Ascii.eqb c "/" && (String.eqb r "" || isNormalRelative r)
  | EmptyString => false
  end.

(** The root as a prefix of the paths below it: [/] contributes nothing. *)
Definition rootPrefix (userRootDir : string) : string :=
  if String.eqb userRootDir "/" then "" else userRootDir.

Definition noDots (w : string) : bool := negb (String.eqb w ".") && negb (String.eqb w "..").

Section PathLemmas.

Lemma filter_all_true {A} (f : A -> bool) (l : list A) : (forall x, In x l -> f x = true) -> List.filter f l = l.
Proof. induction l as [|x l IH]; intros Hl; simpl; [done|]. rewrite Hl by by left. f_equal. auto with datatypes. Qed.

Lemma foldl_normalizeStep_plain b res l :
  Forall (fun w => noDots w = true) l ->
  foldl (PathPosix.normalizeStep b) res l = rev (List.filter (fun w => negb (String.eqb w "")) l) ++ res.
Proof.
  intros Hl. revert res. induction Hl as [|w l Hw Hl IH]; intros res; [done|]. simpl.
  unfold noDots in Hw. apply andb_prop in Hw as [H1 H2]. apply negb_true_iff in H1, H2.
  unfold PathPosix.normalizeStep. rewrite H1, H2, orb_false_r.
  destruct (String.eqb w "") eqn:E; simpl; rewrite IH; [done|]. by rewrite <- app_assoc.
Qed.

Lemma normalizeString_plain p b :
  Forall (fun w => noDots w = true) (split_on "/" p) ->
  PathPosix.normalizeString p b = join "/" (Path.segments p).
Proof.
  intros Hp. unfold PathPosix.normalizeString. by rewrite foldl_normalizeStep_plain, app_nil_r, rev_involutive.
Qed.

Lemma lastChar_cons a s : s <> "" -> PathPosix.lastChar (String a s) = PathPosix.lastChar s.
Proof. by destruct s. Qed.

Lemma lastChar_app (s t : string) : t <> "" -> PathPosix.lastChar (s +:+ t) = PathPosix.lastChar t.
Proof.
  intros Ht. induction s as [|a s IH]; [done|]. rewrite append_cons, lastChar_cons; [exact IH|].
  destruct s, t; done.
Qed.

Lemma lastChar_includes c w : PathPosix.lastChar w = Some c -> includesChar c w = true.
Proof.
  induction w as [|a w IH]; [done|]. destruct w as [|b w].
  - intros [= ->]. simpl. by rewrite Ascii.eqb_refl.
  - intros H. simpl. apply orb_true_iff. right. exact (IH H).
Qed.

Lemma plainSegment_noDots w : plainSegment w = true -> noDots w = true.
Proof. unfold plainSegment, noDots. intros H. repeat (apply andb_prop in H as [H ?]). by apply andb_true_intro. Qed.

Lemma plainSegment_nonempty w : plainSegment w = true -> w <> "".
Proof. unfold plainSegment. intros H ->. discriminate. Qed.

Lemma relative_segments p : isNormalRelative p = true -> Path.segments p = split_on "/" p.
Proof.
  unfold isNormalRelative, Path.segments. intros Hp. apply filter_all_true.
  intros w Hw. apply negb_true_iff, String.eqb_neq, plainSegment_nonempty, (proj1 (forallb_forall _ _) Hp), Hw.
Qed.

Lemma relative_join p : isNormalRelative p = true -> join "/" (Path.segments p) = p.
Proof. intros Hp. rewrite relative_segments by exact Hp. apply join_split. Qed.

Lemma relative_segments_ne p : isNormalRelative p = true -> Path.segments p <> [].
Proof. intros Hp. rewrite relative_segments by exact Hp. apply split_on_nonempty. Qed.

Lemma relative_nonempty p : isNormalRelative p = true -> p <> "".
Proof. by intros Hp ->. Qed.

Lemma relative_noDots p : isNormalRelative p = true -> Forall (fun w => noDots w = true) (split_on "/" p).
Proof.
  unfold isNormalRelative. intros Hp. apply Forall_forall.
  intros w Hw. apply plainSegment_noDots, (proj1 (forallb_forall _ _) Hp), list_elem_of_In, Hw.
Qed.

Lemma relative_no_backslash p : isNormalRelative p = true -> includesChar backslash p = false.
Proof.
  intros Hp. rewrite <- (join_split "/" p). apply join_includes; [done|].
  unfold isNormalRelative in Hp. apply Forall_forall. intros w Hw%list_elem_of_In.
  apply (proj1 (forallb_forall _ _) Hp) in Hw. unfold plainSegment in Hw.
  repeat (apply andb_prop in Hw as [Hw ?]). by apply negb_true_iff.
Qed.

(** A normalized relative path does not end with [/]. *)
Lemma relative_lastChar p : isNormalRelative p = true -> PathPosix.lastChar p <> Some "/"%char.
Proof.
  intros Hp Hl. pose proof (split_on_nonempty "/" p) as Hne.
  destruct (exists_last Hne) as (l & w & Hsplit).
  assert (Hw : plainSegment w = true).
  { unfold isNormalRelative in Hp. rewrite Hsplit in Hp. apply (proj1 (forallb_forall _ _) Hp).
    apply in_or_app. right. by left. }
  rewrite <- (join_split "/" p), Hsplit in Hl.
  assert (Hlw : PathPosix.lastChar (join "/" (l ++ [w])) = PathPosix.lastChar w).
  { destruct l as [|w' l]; [done|]. rewrite join_app by done. change (join "/" [w]) with w.
    rewrite lastChar_app by discriminate. apply (lastChar_app "/"), plainSegment_nonempty, Hw. }
  rewrite Hlw in Hl. apply lastChar_includes in Hl.
  rewrite (split_on_sep_free "/" p w) in Hl; [done|]. rewrite Hsplit. apply elem_of_app. right. by left.
Qed.

Lemma join_nonempty (l : list string) : l <> [] -> Forall (fun w => w <> "") l -> join "/" l <> "".
Proof.
  intros Hl Hw. destruct l as [|w ws]; [done|]. apply Forall_cons in Hw as [Hw _].
  pose proof (join_cons_startsWith w ws) as Hs. intros E. rewrite E in Hs. by destruct w.
Qed.

Lemma segments_nonempty p : Forall (fun w => w <> "") (Path.segments p).
Proof. apply Forall_forall. intros w [_ Hw]%elem_of_list_filter_bool. by apply negb_true_iff, String.eqb_neq in Hw. Qed.

Lemma startsWith_slash y : startsWith (String "/" y) "/" = true.
Proof. unfold startsWith. simpl. by destruct y. Qed.

Lemma segments_slash y : Path.segments (String "/" y) = Path.segments y.
Proof. done. Qed.

(** [path.posix.normalize] of [/y], when [y] has no [.] or [..] segment
    and no trailing [/]: the segments of [y] after a [/]. *)
Lemma normalize_absolute y :
  Forall (fun w => noDots w = true) (split_on "/" y) -> Path.segments y <> [] ->
  PathPosix.lastChar y <> Some "/"%char ->
  PathPosix.normalize (String "/" y) = ("/" +:+ join "/" (Path.segments y))%string.
Proof.
  intros Hd Hs Hl. assert (Hy : y <> "") by (intros ->; done).
  unfold PathPosix.normalize. simpl String.eqb. cbv zeta.
  rewrite startsWith_slash. simpl negb.
  rewrite lastChar_cons, bool_decide_false by done.
  rewrite !normalizeString_plain by (simpl; constructor; [done|exact Hd]).
  rewrite segments_slash. destruct (String.eqb (join "/" (Path.segments y)) "") eqn:E; [|done].
  apply String.eqb_eq in E. by apply join_nonempty in E; [|done|apply segments_nonempty].
Qed.

Lemma absolute_cases root :
  isNormalAbsolute root = true -> root = "/" \/ exists r, root = String "/" r /\ isNormalRelative r = true.
Proof.
  destruct root as [|c r]; [done|]. simpl. intros [Hc Hr]%andb_prop. apply Ascii.eqb_eq in Hc as ->.
  destruct (String.eqb r "") eqn:E; [left; by apply String.eqb_eq in E as ->|right; eauto].
Qed.

Lemma segments_under root p :
  isNormalAbsolute root = true ->
  Path.segments (rootPrefix root +:+ "/" +:+ p) = Path.segments root ++ Path.segments p.
Proof.
  intros [->|(r & -> & Hr)]%absolute_cases; [done|].
  unfold rootPrefix. destruct (String.eqb (String "/" r) "/") eqn:E.
  - apply String.eqb_eq in E. injection E as ->. done.
  - rewrite append_cons, !segments_slash. apply segments_app_sep.
Qed.

(** [path.posix.normalize] of [/q/p], [q] without [.] or [..] and [p]
    normalized. *)
Lemma normalize_below q p :
  Forall (fun w => noDots w = true) (split_on "/" q) -> isNormalRelative p = true ->
  PathPosix.normalize (String "/" (q +:+ String "/" p)) = ("/" +:+ join "/" (Path.segments q ++ Path.segments p))%string.
Proof.
  intros Hq Hp. rewrite normalize_absolute, segments_app_sep; [done| | |].
  - rewrite split_on_app_sep. apply Forall_app. split; [exact Hq|apply relative_noDots, Hp].
  - rewrite segments_app_sep. intros [_ Hp']%app_eq_nil. by apply (relative_segments_ne p).
  - rewrite lastChar_app, lastChar_cons by (discriminate || apply relative_nonempty, Hp). apply relative_lastChar, Hp.
Qed.

Lemma join_crawled root p :
  isNormalAbsolute root = true -> isNormalRelative p = true ->
  PathPosix.join [root; p] = (rootPrefix root +:+ "/" +:+ p)%string.
Proof.
  intros Hroot Hp. assert (Hne : String.eqb p "" = false) by (apply String.eqb_neq, relative_nonempty, Hp).
  unfold PathPosix.join. destruct (absolute_cases root Hroot) as [->|(r & -> & Hr)].
  - simpl List.filter. rewrite Hne. simpl.
    change ("/" +:+ "/" +:+ p)%string with (String "/" ("" +:+ String "/" p)).
    rewrite normalize_below by (repeat constructor || exact Hp). simpl. by rewrite relative_join.
  - simpl List.filter. rewrite Hne. simpl.
    change (String "/" r +:+ "/" +:+ p)%string with (String "/" (r +:+ String "/" p)).
    rewrite normalize_below by (apply relative_noDots, Hr || exact Hp).
    rewrite join_app, !relative_join by (done || by apply relative_segments_ne).
    unfold rootPrefix. rewrite (proj2 (String.eqb_neq (String "/" r) "/")) by (intros [= ->]; discriminate).
    reflexivity.
Qed.

(** [path.posix.relative] recovers the crawled path from the absolute one. *)
Lemma relative_crawled root p :
  isNormalAbsolute root = true -> isNormalRelative p = true ->
  Path.relative root (rootPrefix root +:+ "/" +:+ p) = p.
Proof.
  intros Hroot Hp. unfold Path.relative. rewrite segments_under, common_prefix_length_app by exact Hroot.
  rewrite Nat.sub_diag, drop_app_length. exact (relative_join p Hp).
Qed.

End PathLemmas.

Section FindTheorems.
Context `{CR : Crawler}.

Lemma assertPosixPath_ok p s : p <> "" -> includesChar backslash p = false -> assertPosixPath p s = Ok (tt, s).
Proof. intros Hp Hb. unfold assertPosixPath. by rewrite (proj2 (String.eqb_neq p "") Hp), Hb. Qed.

Lemma toPosixPath_ok p s : isNormalRelative p = true -> toPosixPath p s = Ok (p, s).
Proof.
  intros Hp. unfold toPosixPath. rewrite split_on_no by (apply relative_no_backslash, Hp). simpl.
  erewrite st_bind_step; [reflexivity|].
  apply assertPosixPath_ok; [apply relative_nonempty|apply relative_no_backslash]; exact Hp.
Qed.

(** The two paths of a crawled file below a normalized root. *)
Lemma crawledFile_ok root p s :
  isNormalAbsolute root = true -> isNormalRelative p = true ->
  crawledFile root p s = Ok (mkUserFilePath (rootPrefix root +:+ "/" +:+ p) ("/" +:+ p), s).
Proof.
  intros Hroot Hp. unfold crawledFile. erewrite st_bind_step by (apply toPosixPath_ok, Hp).
  rewrite (join_crawled root p Hroot Hp), (join_crawled "/" p eq_refl Hp). reflexivity.
Qed.

(** A file an extension adds has a [+] and a base name starting with [+]. *)
Definition distFileOk (f : UserFilePath) : Prop :=
  includesPlus (ufp_filePathRelativeToUserRootDir f) = true /\
  startsWith (Path.basename (ufp_filePathRelativeToUserRootDir f)) "+" = true.

Definition extendsWith (base acc : list UserFilePath) : Prop :=
  exists distFiles, acc = base ++ distFiles /\ Forall distFileOk distFiles.

Lemma addPageConfigDistFile_extends base acc d s acc' s' :
  extendsWith base acc -> addPageConfigDistFile acc d s = Ok (acc', s') -> extendsWith base acc'.
Proof.
  intros (ds & -> & Hds). unfold addPageConfigDistFile.
  destruct (includesPlus (pcdf_importPath d)) eqn:Hplus; simpl; [|intros [= <- _]; by exists ds].
  unfold assert.
  destruct (startsWith (Path.basename (pcdf_importPath d)) "+") eqn:Hbase; [|discriminate].
  intros [= <- _]. exists (ds ++ [mkUserFilePath (pcdf_filePath d) (pcdf_importPath d)]).
  split; [by rewrite app_assoc|]. apply Forall_app. split; [exact Hds|]. by repeat constructor.
Qed.

Lemma addExtension_extends base acc e s acc' s' :
  extendsWith base acc -> addExtension acc e s = Ok (acc', s') -> extendsWith base acc'.
Proof. intros H1 H2. refine (st_fold_inv (extendsWith base) _ _ _ _ _ _ _ H1 H2). apply addPageConfigDistFile_extends. Qed.

(** An extension file with a [+] in a directory name but not at the start
    of its base name fails the internal assertion of line 1087. *)
Lemma addPageConfigDistFile_plus_in_directory acc d s :
  includesPlus (pcdf_importPath d) = true -> startsWith (Path.basename (pcdf_importPath d)) "+" = false ->
  addPageConfigDistFile acc d s = Err (Bug "findPlusFiles:basename", s).
Proof. intros Hplus Hbase. unfold addPageConfigDistFile, assert. by rewrite Hplus, Hbase. Qed.

Lemma Forall2_fmap_eq {A B} (g : A -> B) l bs : Forall2 (fun x b => b = g x) l bs -> bs = g <$> l.
Proof. induction 1 as [|x b l bs Hb _ IH]; [done|]. by rewrite Hb, IH. Qed.
End FindTheorems.

Section FindTheorem.
Context `{CR : Crawler}.

(** C35: on a normalized root [userRootDir], and when fast-glob returns
    normalized relative paths, [findPlusFiles] returns first one file per
    crawled path [p], in the crawler's order, with relative path [/p] and
    absolute path [userRootDir/p], then the extensions' files, each with
    a [+] and a base name starting with [+]; the crawl skipped
    [node_modules], Telefunc files and [path.posix.relative(userRootDir,
    dir)/**] for each ignored directory; and [path.posix.relative] from the
    root gives back [p] from the absolute path. *)
Theorem findPlusFiles_paths userRootDir ignoreDirs isDev extensions time s plusFiles s' :
  isNormalAbsolute userRootDir = true ->
  (forall ignore p, p ∈ glob plusFilesPattern ignore userRootDir -> isNormalRelative p = true) ->
  findPlusFiles userRootDir ignoreDirs isDev extensions time s = Ok (plusFiles, s') ->
  let result := glob plusFilesPattern
    (["**/node_modules/**"; "**/*.telefunc.*"] ++ ((fun dir => (Path.relative userRootDir dir +:+ "/**")%string) <$> ignoreDirs))
    userRootDir in
  (exists distFiles,
     plusFiles = ((fun p => mkUserFilePath (rootPrefix userRootDir +:+ "/" +:+ p) ("/" +:+ p)) <$> result) ++ distFiles /\
     Forall distFileOk distFiles) /\
  Forall (fun p => Path.relative userRootDir (rootPrefix userRootDir +:+ "/" +:+ p) = p) result.
Proof.
  intros Hroot Hglob H. unfold findPlusFiles in H.
  apply st_bind_Ok in H as (_ & s1 & _ & H). apply st_bind_Ok in H as (ignorePatterns & s2 & Hign & H).
  apply st_bind_Ok in H as (_ & s3 & _ & H). apply st_bind_Ok in H as (crawled & s4 & Hcr & H).
  assert (Hpat : ignorePatterns = (fun dir => (Path.relative userRootDir dir +:+ "/**")%string) <$> ignoreDirs).
  { apply Forall2_fmap_eq. refine (st_map_rel _ _ _ _ _ _ _ Hign).
    intros dir s0 pat s5 Hp. apply st_bind_Ok in Hp as (_ & _ & _ & [= <- _]). reflexivity. }
  subst ignorePatterns. split.
  - assert (Hc : crawled = (fun p => mkUserFilePath (rootPrefix userRootDir +:+ "/" +:+ p) ("/" +:+ p)) <$>
                   glob plusFilesPattern (["**/node_modules/**"; "**/*.telefunc.*"] ++
                     ((fun dir => (Path.relative userRootDir dir +:+ "/**")%string) <$> ignoreDirs)) userRootDir).
    { apply Forall2_fmap_eq. refine (st_map_rel_elem _ _ _ _ _ _ _ Hcr).
      intros p s0 f s5 Hp Hf. rewrite crawledFile_ok in Hf by (exact Hroot || exact (Hglob _ _ Hp)). congruence. }
    rewrite <- Hc. refine (st_fold_inv (extendsWith crawled) _ _ _ _ _ _ _ _ H); [apply addExtension_extends|].
    exists []. by rewrite app_nil_r.
  - apply Forall_forall. intros p Hp. exact (relative_crawled _ _ Hroot (Hglob _ _ Hp)).
Qed.
End FindTheorem.

(** ** Witnesses *)

(** A crawl of [/app] that finds a config file and a page. *)
Definition exCrawler : Crawler := {|
  scriptFileExtensions := "{js,ts}";
  glob _ _ _ := ["pages/+config.js"; "pages/index/+Page.js"]
|}.

(** An extension with a pre-built [+config] file and a file of the older
    design (no [+]), which [findPlusFiles] skips. *)
Definition exExtension : ExtensionResolved :=
  mkExtensionResolved (Some [mkPageConfigDistFile "vike-react/renderer/+config" "/node_modules/vike-react/dist/renderer/+config.js";
                             mkPageConfigDistFile "vike-react/renderer/_default.page" "/node_modules/vike-react/dist/renderer/_default.page.js"]).

Lemma findPlusFiles_paths_witness :
  exists plusFiles s',
    @findPlusFiles exCrawler "/app" ["/app/dist"] true [exExtension] 150 initPassState = Ok (plusFiles, s') /\
    plusFiles = [mkUserFilePath "/app/pages/+config.js" "/pages/+config.js";
                 mkUserFilePath "/app/pages/index/+Page.js" "/pages/index/+Page.js";
                 mkUserFilePath "/node_modules/vike-react/dist/renderer/+config.js" "vike-react/renderer/+config"] /\
    let result := @glob exCrawler (@plusFilesPattern exCrawler)
      (["**/node_modules/**"; "**/*.telefunc.*"] ++ ((fun dir => (Path.relative "/app" dir +:+ "/**")%string) <$> ["/app/dist"]))
      "/app" in
    (exists distFiles,
       plusFiles = ((fun p => mkUserFilePath (rootPrefix "/app" +:+ "/" +:+ p) ("/" +:+ p)) <$> result) ++ distFiles /\
       Forall distFileOk distFiles) /\
    Forall (fun p => Path.relative "/app" (rootPrefix "/app" +:+ "/" +:+ p) = p) result.
Proof.
  destruct (@findPlusFiles exCrawler "/app" ["/app/dist"] true [exExtension] 150 initPassState) as [[plusFiles s']|e] eqn:E;
    [|vm_compute in E; discriminate].
  exists plusFiles, s'. split; [reflexivity|]. split; [vm_compute in E; congruence|].
  refine (@findPlusFiles_paths exCrawler "/app" ["/app/dist"] true [exExtension] 150 initPassState plusFiles s' _ _ E);
    [reflexivity|].
  intros ignore p Hp. simpl in Hp. apply elem_of_cons in Hp as [->|Hp]; [reflexivity|].
  apply list_elem_of_singleton in Hp as ->. reflexivity.
Defined.
