(* ===== verification/Pass.v ===== *)
(** * One configuration pass: [loadVikeConfig] (getVikeConfig.ts lines 332-414)

    [loadVikeConfig] composes the components: it crawls the plus files and
    loads the interface files ([loadInterfaceFilesFromRoot], Discovery.v),
    collects the global configs ([getGlobalConfigs], Locations.v), then
    builds the config of every location that defines a page, and finally
    rejects unknown config names.

    The pages are built under [Promise.all].  The callback of each page runs
    synchronously up to its first [await]: it computes the relevant files
    and definitions of the page and starts loading the value files of its
    custom [config-only] configs ([preparePage]).  All pages do this before
    any load settles.  Then, in an order the runtime chooses, loads settle
    (each one writes the exports into the [configMap] of the interface
    object, shared by all pages) and pages resume once their own loads have
    settled ([resumePage]: sources, route, values, effects, computed
    values).  The model takes that order as an explicit list of events
    chosen by a [Class PageScheduler]; [runPages] refuses a list that no run
    can produce.  Interface objects live in one store, the
    [InterfaceFilesByLocationId] of the pass: a mutation of an object is
    seen through every list of the store, as [updateIFile] writes it. *)

From stdpp Require Import base list strings.
From Stdlib Require Import Lia.
From Stdlib Require String.
From S2P Require Import Prelude Js Model Collaborators Resolve Cumulative Registry Extends Locations Effects Route Interface Discovery.

(** [VikeConfig] (lines 100-104). *)
Record VikeConfig : Type := mkVikeConfig {
  pageConfigs : list PageConfigBuildTime;
  pageConfigGlobal : PageConfigGlobal;
  globalVikeConfig : JsObject.t value
}.

(** [interfaceFile.configMap = configMap], on the content of an object. *)
Definition setConfigMap (configMap : ConfigMap) (d : InterfaceFile) : InterfaceFile :=
  match d with
  | InterfaceConfigFile fp _ ext isExt => InterfaceConfigFile fp configMap ext isExt
  | InterfaceValueFile fp _ configName => InterfaceValueFile fp configMap configName
  end.

(** A mutation of the object [id], seen through every list that holds it. *)
Definition updateIFile (id : nat) (g : InterfaceFile -> InterfaceFile) (store : InterfaceFilesByLocationId)
    : InterfaceFilesByLocationId :=
  map (fun '(loc, fs) =>
         (loc, map (fun f => if Nat.eqb (ifId f) id then mkIFile id (g (ifData f)) else f) fs)) store.

(** The object [id] of the store, as it is now. *)
Definition lookupIFile (id : nat) (store : InterfaceFilesByLocationId) : option IFile :=
  List.find (fun f => Nat.eqb (ifId f) id) (concat (JsObject.values store)).

(** A page after the synchronous part of its callback (lines 346-368). *)
Record PreparedPage : Type := mkPreparedPage {
  pp_locationId : string;
  pp_configDefinitions : ConfigDefinitions;
  pp_loads : list IFile
}.

(** What settles or resumes next, by the index of the page. *)
Inductive PageEvent : Type :=
| LoadDone (page : nat) (load : nat)
| Resume (page : nat).

(** The order in which the runtime lets loads settle and pages resume. *)
Class PageScheduler : Type := {
  schedule : list PreparedPage -> list PageEvent
}.

(** The loads of page [p] settle in order, then [p] resumes. *)
Definition pageEvents (p : nat) (page : PreparedPage) : list PageEvent :=
  (LoadDone p <$> seq 0 (length (pp_loads page))) ++ [Resume p].

(** [pageEvents] of the pages from index [k] on, page after page. *)
Fixpoint sequentialFrom (k : nat) (prepared : list PreparedPage) : list PageEvent :=
  match prepared with
  | [] => []
  | page :: rest => pageEvents k page ++ sequentialFrom (S k) rest
  end.

Definition sequentialSchedule (prepared : list PreparedPage) : list PageEvent := sequentialFrom 0 prepared.

#[export] Instance sequentialScheduler : PageScheduler := {| schedule := sequentialSchedule |}.

(** The progress of the second half of the pages' callbacks. *)
Record RunState : Type := mkRunState {
  rs_store : InterfaceFilesByLocationId;
  rs_done : list (nat * nat);
  rs_results : list (nat * PageConfigBuildTime)
}.

Section Pass.
Context `{IR : ImportResolver} `{ML : ModuleLoader} `{CO : Completion} `{BI : BuiltIns} `{SIM : Similarity}
  `{H : Host} `{RS : RouteStrings} `{PS : PageScheduler} `{CR : Crawler} `{SO : SettleOrder}.
Variable userRootDir : string.
(** The depth bound of the extends recursion (Extends.v). *)
Variable fuel : nat.

(** The body of [getInterfaceFileList(interfaceFilesRelevant).map] (lines
    352-367) up to [await loadValueFile]: whether the callback loads the
    file. *)
Definition valueFileToLoad (configDefinitionsRelevant : ConfigDefinitions) (interfaceFile : IFile) : M bool :=
  match ifData interfaceFile with
  | InterfaceConfigFile _ _ _ _ => st_ret false
  | InterfaceValueFile filePath _ configName =>
      if isGlobalConfig configName then st_ret false else
      let* configDef := getConfigDefinition configDefinitionsRelevant configName (getFilePathToShowToUser filePath) in
      if negb (bool_decide (env configDef = ConfigOnly)) then st_ret false else
      let* isAlreadyLoaded := interfacefileIsAlreaydLoaded interfaceFile in
      if isAlreadyLoaded then st_ret false else
      assert (negb (bool_decide (is_Some (JsObject.get configName configDefinitionsBuiltIn))))
        "loadVikeConfig:configDefinitionsBuiltIn" >>
      st_ret true
  end.

(** The synchronous part of a page's callback (lines 346-368). *)
Definition preparePage (store : InterfaceFilesByLocationId) (locationId : string) : M PreparedPage :=
  let interfaceFilesRelevant := getInterfaceFilesRelevant store locationId in
  let* configDefinitionsRelevant := getConfigDefinitions interfaceFilesRelevant in
  let* loads := st_fold (fun loads f =>
                           let* b := valueFileToLoad configDefinitionsRelevant f in
                           st_ret (if b then loads ++ [f] else loads))
                        [] (getInterfaceFileList interfaceFilesRelevant) in
  st_ret (mkPreparedPage locationId configDefinitionsRelevant loads).

(** A load settles: [loadValueFile] writes the exports into the object's
    [configMap] as it is at that time (lines 265-268). *)
Definition completeLoad (store : InterfaceFilesByLocationId) (interfaceFile : IFile) : M InterfaceFilesByLocationId :=
  match ifData interfaceFile with
  | InterfaceValueFile filePath _ configName =>
      let current := default interfaceFile (lookupIFile (ifId interfaceFile) store) in
      let* configMap := loadValueFile filePath (if_configMap (ifData current)) configName in
      st_ret (updateIFile (ifId interfaceFile) (setConfigMap configMap) store)
  | InterfaceConfigFile _ _ _ _ => st_raise (Bug "loadValueFile:isValueFile")
  end.

(** Lines 370-377: the sources of every non-global config of the page. *)
Definition resolvePageSources (interfaceFilesRelevant : InterfaceFilesByLocationId)
    (configDefinitionsRelevant : ConfigDefinitions) : M (JsObject.t (list ConfigValueSource)) :=
  st_fold (fun configValueSources '(configName, configDef) =>
             let* sources := resolveConfigValueSources userRootDir configName configDef
                               (JsObject.values interfaceFilesRelevant) in
             match sources with
             | Some sources => st_ret (JsObject.set configName sources configValueSources)
             | None => st_ret configValueSources
             end)
          [] (List.filter (fun e => negb (isGlobalConfig e.1)) configDefinitionsRelevant).

(** The rest of a page's callback (lines 370-395), on the objects as they
    are when it resumes. *)
Definition resumePage (store : InterfaceFilesByLocationId) (page : PreparedPage) : M PageConfigBuildTime :=
  let locationId := pp_locationId page in
  let configDefinitionsRelevant := pp_configDefinitions page in
  let interfaceFilesRelevant := getInterfaceFilesRelevant store locationId in
  (* [configValueSources], the object [pageConfig.configValueSources] aliases *)
  let* sources := resolvePageSources interfaceFilesRelevant configDefinitionsRelevant in
  let* '(isErrorPage, routeFilesystem) := determineRouteFilesystem locationId sources in
  let* configValues := getConfigValues sources configDefinitionsRelevant in
  let pageConfig := mkPageConfig locationId isErrorPage routeFilesystem sources configValues in
  let* pageConfig := applyEffectsAll pageConfig configDefinitionsRelevant in
  let* configValues := getConfigValues (configValueSources pageConfig) configDefinitionsRelevant in
  let pageConfig := applyComputed (setConfigValues pageConfig configValues) configDefinitionsRelevant in
  let* configValues := getConfigValues (configValueSources pageConfig) configDefinitionsRelevant in
  st_ret (setConfigValues pageConfig configValues).

(** One event of the run; an event no run can produce is refused. *)
Definition runEvent (prepared : list PreparedPage) (rs : RunState) (e : PageEvent) : M RunState :=
  match e with
  | LoadDone p i =>
      match prepared !! p with
      | Some page =>
          match pp_loads page !! i with
          | Some f =>
              if bool_decide ((p, i) ∈ rs_done rs) then st_raise (Bug "runPages:schedule") else
              let* store := completeLoad (rs_store rs) f in
              st_ret (mkRunState store ((p, i) :: rs_done rs) (rs_results rs))
          | None => st_raise (Bug "runPages:schedule")
          end
      | None => st_raise (Bug "runPages:schedule")
      end
  | Resume p =>
      match prepared !! p with
      | Some page =>
          if forallb (fun i => bool_decide ((p, i) ∈ rs_done rs)) (seq 0 (length (pp_loads page)))
             && negb (bool_decide (p ∈ map fst (rs_results rs)))
          then let* pageConfig := resumePage (rs_store rs) page in
               st_ret (mkRunState (rs_store rs) (rs_done rs) (rs_results rs ++ [(p, pageConfig)]))
          else st_raise (Bug "runPages:schedule")
      | None => st_raise (Bug "runPages:schedule")
      end
  end.

(** The page config the callback of page [p] returned. *)
Definition resultOf (results : list (nat * PageConfigBuildTime)) (p : nat) : M PageConfigBuildTime :=
  match List.find (fun r => Nat.eqb r.1 p) results with
  | Some r => st_ret r.2
  | None => st_raise (Bug "runPages:schedule")
  end.

(** The pages' callbacks after their first [await], in the order of
    [events]; [Promise.all] lists the page configs in the order of the
    pages. *)
Definition runPages (store : InterfaceFilesByLocationId) (prepared : list PreparedPage) (events : list PageEvent)
    : M (InterfaceFilesByLocationId * list PageConfigBuildTime) :=
  let* rs := st_fold (runEvent prepared) (mkRunState store [] []) events in
  let* pageConfigs := st_map (resultOf (rs_results rs)) (seq 0 (length prepared)) in
  st_ret (rs_store rs, pageConfigs).

(** Lines 399-412: every config name of every interface file must be known
    at its location. *)
Definition checkUnknownConfigs (store : InterfaceFilesByLocationId) : M unit :=
  st_iter (fun '(locationId, interfaceFiles) =>
    let* configDefinitionsRelevant := getConfigDefinitions (getInterfaceFilesRelevant store locationId) in
    st_iter (fun interfaceFile =>
      st_iter (fun configName =>
        assertConfigExists configName (JsObject.keys configDefinitionsRelevant)
          (getFilePathToShowToUser (if_filePath (ifData interfaceFile))))
        (JsObject.keys (if_configMap (ifData interfaceFile))))
      interfaceFiles)
    store.

(** [loadVikeConfig(userRootDir, outDirRoot, isDev, extensions)] (lines
    332-414), from the plus files [findPlusFiles] found. *)
Definition loadVikeConfig (outDirRoot : string) (isDev : bool) (extensions : list ExtensionResolved) (time : nat)
    : M VikeConfig :=
  let* '(interfaceFilesByLocationId, _) := loadInterfaceFilesFromRoot userRootDir fuel outDirRoot isDev extensions time 0 in
  let* '(pageConfigGlobal, globalVikeConfig) := getGlobalConfigs userRootDir interfaceFilesByLocationId in
  let pages := List.filter (fun e => isDefiningPage e.2) interfaceFilesByLocationId in
  let* prepared := st_map (fun e => preparePage interfaceFilesByLocationId e.1) pages in
  let* '(store, pageConfigs) := runPages interfaceFilesByLocationId prepared (schedule prepared) in
  checkUnknownConfigs store >>
  st_ret (mkVikeConfig pageConfigs pageConfigGlobal globalVikeConfig).
End Pass.

(** ** The pages of a pass *)

Section PageIds.
Context `{H : Host}.

Lemma applyEffectsAll_pageId pc defs s pc' s' :
  applyEffectsAll pc defs s = Ok (pc', s') -> pageId pc' = pageId pc.
Proof.
  intros Hrun. refine (st_fold_inv (fun x => pageId x = pageId pc) _ _ _ _ _ _ _ eq_refl Hrun).
  intros pc0 [configName configDef] s0 a s1 Hp Hs. rewrite <- Hp. clear Hp. unfold applyEffectOf in Hs.
  repeat (case_match || inv_bind || match goal with H : st_ret _ _ = Ok _ |- _ => injection H as <- _ end);
    simplify_eq; reflexivity.
Qed.

Lemma applyComputed_pageId pc defs : pageId (applyComputed pc defs) = pageId pc.
Proof.
  unfold applyComputed. revert pc. induction defs as [|[n d] defs IH]; intros pc; [reflexivity|].
  simpl. rewrite IH. unfold applyComputedOf. by repeat case_match.
Qed.
End PageIds.

Section PassTheorems.
Context `{IR : ImportResolver} `{ML : ModuleLoader} `{CO : Completion} `{BI : BuiltIns} `{SIM : Similarity}
  `{H : Host} `{RS : RouteStrings} `{PS : PageScheduler} `{CR : Crawler} `{SO : SettleOrder}.
Variable userRootDir : string.
Variable fuel : nat.

Lemma resumePage_pageId store page s pc s' :
  resumePage userRootDir store page s = Ok (pc, s') -> pageId pc = pp_locationId page.
Proof.
  unfold resumePage. intros Hr.
  apply st_bind_Ok in Hr as (sources & s1 & _ & Hr). apply st_bind_Ok in Hr as ([e r] & s2 & _ & Hr).
  apply st_bind_Ok in Hr as (cv & s3 & _ & Hr). apply st_bind_Ok in Hr as (pc1 & s4 & He & Hr).
  apply st_bind_Ok in Hr as (cv2 & s5 & _ & Hr). apply st_bind_Ok in Hr as (cv3 & s6 & _ & [= <- _]).
  simpl. rewrite applyComputed_pageId. simpl. by rewrite (applyEffectsAll_pageId _ _ _ _ _ He).
Qed.

(** Every page config the run has produced so far is the one of the page
    at its index. *)
Definition resultsOfPages (prepared : list PreparedPage) (rs : RunState) : Prop :=
  Forall (fun r => exists page, prepared !! r.1 = Some page /\ pageId r.2 = pp_locationId page) (rs_results rs).

Lemma runEvent_results prepared rs e s rs' s' :
  resultsOfPages prepared rs -> runEvent userRootDir prepared rs e s = Ok (rs', s') ->
  resultsOfPages prepared rs'.
Proof.
  unfold resultsOfPages. intros Hrs He. destruct e as [p i|p]; simpl in He.
  - repeat case_match; try discriminate.
    apply st_bind_Ok in He as (store & s1 & _ & [= <- _]). exact Hrs.
  - destruct (prepared !! p) as [page|] eqn:Hp; [|discriminate]. destruct (_ && _); [|discriminate].
    apply st_bind_Ok in He as (pc & s1 & Hpc & [= <- _]). simpl.
    apply Forall_app. split; [exact Hrs|]. constructor; [|constructor].
    exists page. split; [exact Hp|]. exact (resumePage_pageId _ _ _ _ _ Hpc).
Qed.

Lemma runPages_pageIds store prepared events s store' pcs s' :
  runPages userRootDir store prepared events s = Ok ((store', pcs), s') ->
  pageId <$> pcs = pp_locationId <$> prepared.
Proof.
  unfold runPages. intros Hr.
  apply st_bind_Ok in Hr as (rs & s1 & Hrs & Hr). apply st_bind_Ok in Hr as (pcs' & s2 & Hm & [= _ <- _]).
  assert (Hinv : resultsOfPages prepared rs).
  { refine (st_fold_inv _ _ _ _ _ _ _ _ _ Hrs); [|constructor].
    intros ? ? ? ? ?. apply runEvent_results. }
  apply Forall2_seq_fmap. eapply st_map_rel; [|exact Hm].
  intros p s0 pc s3 Hf. unfold resultOf in Hf. destruct (List.find _ _) as [r|] eqn:Hfind; [|discriminate].
  injection Hf as <- _. apply find_some in Hfind as [Hin Heq]. apply Nat.eqb_eq in Heq.
  unfold resultsOfPages in Hinv. rewrite Forall_forall in Hinv. destruct (Hinv r (proj2 (list_elem_of_In _ _) Hin)) as (page & Hp & Hid).
  subst p. eauto.
Qed.
(** C26: a value file not loaded yet, of a built-in config (not global)
    whose definition in force at the page is [config-only], fails the
    internal assertion of line 365.  [loadInterfaceFiles] loads eagerly
    only the value files whose built-in definition is [config-only]
    ([isLoadedEagerly], lines 230-231), so a [meta] that makes a built-in
    config [config-only] leaves its value file unloaded and crashes the
    pass: an internal error where the code accepts overriding built-in
    definitions ("User can override an existing config definition", line
    882). *)
Theorem builtin_config_only_override_is_internal_error defs f fp cm configName d s :
  ifData f = InterfaceValueFile fp cm configName -> Forall (fun v => v = None) (JsObject.values cm) ->
  is_Some (JsObject.get configName configDefinitionsBuiltIn) -> isGlobalConfig configName = false ->
  JsObject.get configName defs = Some d -> env d = ConfigOnly ->
  valueFileToLoad defs f s = Err (Bug "loadVikeConfig:configDefinitionsBuiltIn", s).
Proof.
  intros Hd Hun Hb Hg Hget Henv. unfold valueFileToLoad. rewrite Hd, Hg.
  assert (Hex : assertConfigExists configName (JsObject.keys defs) (getFilePathToShowToUser fp) s = Ok (tt, s)).
  { unfold assertConfigExists. rewrite bool_decide_true; [reflexivity|]. apply elem_of_app. left.
    apply list_elem_of_In, (in_map fst _ (configName, d)), JsObject.get_Some_In, Hget. }
  assert (Hloaded : interfacefileIsAlreaydLoaded f s = Ok (false, s)).
  { unfold interfacefileIsAlreaydLoaded. rewrite Hd. simpl.
    replace (existsb _ _) with false; [reflexivity|]. symmetry. apply not_true_iff_false.
    intros (v & Hv & Hs)%existsb_exists. rewrite Forall_forall in Hun.
    rewrite (Hun v (proj2 (list_elem_of_In _ _) Hv)) in Hs. discriminate. }
  unfold getConfigDefinition, st_bind. rewrite Hex, Hget. unfold st_ret.
  rewrite Henv, bool_decide_true by reflexivity. simpl. rewrite Hloaded.
  unfold assert. destruct Hb as [b ->]. reflexivity.
Qed.

Lemma preparePage_locationId store locationId s page s' :
  preparePage store locationId s = Ok (page, s') -> pp_locationId page = locationId.
Proof.
  unfold preparePage. intros Hp.
  apply st_bind_Ok in Hp as (defs & s1 & _ & Hp). apply st_bind_Ok in Hp as (loads & s2 & _ & [= <- _]).
  reflexivity.
Qed.

(** C25: a successful pass returns one page config per location that
    defines a page ([Page] or [route]), in the order of the locations, each
    with the location as its [pageId]. *)
Theorem loadVikeConfig_pageIds outDirRoot isDev extensions time s vc s' :
  loadVikeConfig userRootDir fuel outDirRoot isDev extensions time s = Ok (vc, s') ->
  exists byLoc next s1,
    loadInterfaceFilesFromRoot userRootDir fuel outDirRoot isDev extensions time 0 s = Ok ((byLoc, next), s1) /\
    pageId <$> pageConfigs vc = fst <$> List.filter (fun e => isDefiningPage e.2) byLoc.
Proof.
  unfold loadVikeConfig. intros Hl.
  apply st_bind_Ok in Hl as ([byLoc next] & s1 & Hi & Hl). exists byLoc, next, s1. split; [exact Hi|].
  apply st_bind_Ok in Hl as ([pcg gvc] & s2 & _ & Hl). apply st_bind_Ok in Hl as (prepared & s3 & Hm & Hl).
  apply st_bind_Ok in Hl as ([store pcs] & s4 & Hr & Hl). apply st_bind_Ok in Hl as (u & s5 & _ & [= <- _]).
  simpl. rewrite (runPages_pageIds _ _ _ _ _ _ _ Hr).
  assert (HF : Forall2 (fun e page => pp_locationId page = e.1)
                 (List.filter (fun e => isDefiningPage e.2) byLoc) prepared).
  { eapply st_map_rel; [|exact Hm]. intros e s0 page s6. apply preparePage_locationId. }
  clear -HF. induction HF as [|e page es pages Hep _ IH]; [reflexivity|]. rewrite !fmap_cons, Hep, IH. reflexivity.
Qed.
End PassTheorems.
