(* ===== verification/PassFrame.v ===== *)
(** * The frame of a whole pass

    A pass writes its state only through [assertFileEnv] and
    [assertWarning], and every other throw leaves the state as it is
    ([FilesEnv.FrameInvariant]).  Every operation of the pass, from the
    crawl to the page phase, keeps whatever invariant and error
    postcondition those keep: on success the invariant holds, and on an
    error, whose state outlives it in the module-level table, the
    postcondition does.  For the [filesEnv] table (C7): a pass that
    returns leaves each file in one environment; a pass that fails with an
    environment conflict leaves the file with both environments. *)

From stdpp Require Import base list strings.
From Stdlib Require Import Lia.
From Stdlib Require String.
From S2P Require Import Prelude Js Model Collaborators Resolve FilesEnv Cumulative Registry Extends Locations Effects Route Interface Discovery Pass.

(** ** The operations of a pass *)

Section Components.
Context `{FI : FrameInvariant P Q}.

#[local] Hint Resolve resolveImport_frame getConfigValueSource_frame resolveConfigValueSources_frame : frame.

Lemma getDefinedAtFile_frame src : st_frame P Q (getDefinedAtFile src).
Proof. unfold getDefinedAtFile. solve_frame. Qed.
#[local] Hint Resolve getDefinedAtFile_frame : frame.

Lemma mergeCumulative_frame name srcs : st_frame P Q (mergeCumulative name srcs).
Proof.
  unfold mergeCumulative. apply frame_bind; [|intros; solve_frame].
  generalize (mkMergeAcc [] [] None). induction srcs as [|src srcs IH]; intros acc; simpl; [apply frame_ret|].
  apply frame_bind; [|intros; apply IH].
  unfold mergeCumulativeStep, assertNoMixing, getConfigValueSerialized. solve_frame.
Qed.
#[local] Hint Resolve mergeCumulative_frame : frame.

Lemma getConfigValues_frame srcs defs : st_frame P Q (getConfigValues srcs defs).
Proof.
  unfold getConfigValues. generalize (@JsObject.empty ConfigValue).
  induction srcs as [|[name l] srcs IH]; intros acc; [apply frame_ret|].
  destruct (JsObject.get name defs); [|apply frame_raise_other; reflexivity].
  apply frame_bind; [|intros; apply IH].
  unfold getConfigValue, getDefinedAt. solve_frame.
Qed.

Lemma getConfigDefinitions_frame `{BuiltIns} files : st_frame P Q (getConfigDefinitions files).
Proof. unfold getConfigDefinitions, addMetaOfFile, assertMetaValue, assertMetaDefinition. solve_frame. Qed.

Lemma assertConfigExists_frame `{BuiltIns} `{Similarity} name names file :
  st_frame P Q (assertConfigExists name names file).
Proof. unfold assertConfigExists, handleUnknownConfig. solve_frame. Qed.

Lemma getConfigSourceDefinedAtString_frame name src b :
  st_frame P Q (getConfigSourceDefinedAtString name src b).
Proof. unfold getConfigSourceDefinedAtString. solve_frame. Qed.
#[local] Hint Resolve getConfigSourceDefinedAtString_frame : frame.

Lemma assertMetaValue_frame v d : st_frame P Q (assertMetaValue v d).
Proof. unfold assertMetaValue, assertMetaDefinition. solve_frame. Qed.
#[local] Hint Resolve assertMetaValue_frame : frame.

Lemma applyEffectsAll_frame `{Host} pc defs : st_frame P Q (applyEffectsAll pc defs).
Proof. unfold applyEffectsAll, applyEffectOf, applyEffect, applyMetaEffect. solve_frame. Qed.

Lemma determineRouteFilesystem_frame `{RouteStrings} loc srcs : st_frame P Q (determineRouteFilesystem loc srcs).
Proof. unfold determineRouteFilesystem, getFilesystemRoutingRootEffect. solve_frame. Qed.
Lemma loadConfigFile_frame `{ImportResolver} `{ModuleLoader} `{Completion} root fuel fp visited :
  st_frame P Q (loadConfigFile root fuel fp visited).
Proof.
  revert fp visited. induction fuel as [|fuel IH]; intros fp visited; simpl; [apply frame_raise_other; reflexivity|].
  unfold assertNoInfiniteLoop, executeFile, loadExtendsConfigs, getExtendsImportData, assertExportsOfConfigFile,
    extendsConfigFilePath, resolveImportPath, assertImportPath, assertExtendsImportPath.
  solve_frame_with ltac:(first [frame_leaf | apply IH]).
Qed.
#[local] Hint Resolve loadConfigFile_frame : frame.

Lemma getGlobalConfigs_frame `{ImportResolver} `{BuiltIns} root files :
  st_frame P Q (getGlobalConfigs root files).
Proof. unfold getGlobalConfigs, getGlobalPaths, addGlobalPaths, assertGlobalConfigsPlacement, addGlobalConfig. solve_frame. Qed.

Lemma loadValueFile_frame `{ModuleLoader} fp cm name : st_frame P Q (loadValueFile fp cm name).
Proof. unfold loadValueFile, executeFile, assertExportsOfValueFile. solve_frame. Qed.
#[local] Hint Resolve loadValueFile_frame : frame.

Lemma getConfigName_frame `{ModuleLoader} fp : st_frame P Q (getConfigName fp).
Proof. unfold getConfigName, assertNoUnexpectedPlusSign. solve_frame. Qed.
#[local] Hint Resolve getConfigName_frame : frame.

Lemma loadInterfaceFilesFromRoot_frame `{ImportResolver} `{ModuleLoader} `{Completion} `{BuiltIns} `{SettleOrder}
    `{Crawler} root fuel outDir isDev exts time firstId :
  st_frame P Q (loadInterfaceFilesFromRoot root fuel outDir isDev exts time firstId).
Proof.
  unfold loadInterfaceFilesFromRoot, findPlusFiles, assertPosixPath, ignorePattern, crawledFile, toPosixPath,
    addExtension, addPageConfigDistFile, loadInterfaceFiles, classifyPlusFile, loadConfigInterfaceFiles,
    getInterfaceFileFromConfigFile, assertExportsOfConfigFile, startValueInterfaceFile, settleValueInterfaceFile.
  solve_frame.
Qed.

#[local] Hint Resolve getConfigDefinitions_frame assertConfigExists_frame getConfigValues_frame
  applyEffectsAll_frame determineRouteFilesystem_frame getGlobalConfigs_frame loadInterfaceFilesFromRoot_frame : frame.

Lemma loadVikeConfig_frame `{ImportResolver} `{ModuleLoader} `{Completion} `{BuiltIns} `{Similarity} `{Host}
    `{RouteStrings} `{PageScheduler} `{Crawler} `{SettleOrder} root fuel outDir isDev exts time :
  st_frame P Q (loadVikeConfig root fuel outDir isDev exts time).
Proof.
  unfold loadVikeConfig, preparePage, valueFileToLoad, getConfigDefinition, interfacefileIsAlreaydLoaded,
    runPages, runEvent, completeLoad, resumePage, resolvePageSources, resultOf, checkUnknownConfigs.
  solve_frame.
Qed.
End Components.


(** C7: a whole pass, whatever its collaborators and arguments, run on a
    [filesEnv] table where each file has one environment, either returns
    with each file still in one environment, or fails: with an
    environment conflict on a file [p], the table it leaves records [p]
    with both conflicting environments (the entry is pushed at line 746
    before the throw, and the module-level Map keeps it); with any other
    error, the table it leaves is consistent. *)
Theorem loadVikeConfig_filesEnv `{ImportResolver} `{ModuleLoader} `{Completion} `{BuiltIns} `{Similarity} `{Host}
    `{RouteStrings} `{PageScheduler} `{Crawler} `{SettleOrder} root fuel outDir isDev exts time s :
  filesEnvConsistent s ->
  match loadVikeConfig root fuel outDir isDev exts time s with
  | Ok (_, s') => filesEnvConsistent s'
  | Err (e, s') => filesEnvAfterError e s'
  end.
Proof. apply (loadVikeConfig_frame (P := filesEnvConsistent) (Q := filesEnvAfterError)). Qed.
