(* ===== verification/Lifecycle.v ===== *)
(** * The pass across dev-server reloads (getVikeConfig.ts lines 108-166, 288-331)

    The module keeps [devServerIsCorrupt], [wasConfigInvalid],
    [vikeConfigPromise], [vikeConfigDependencies] and [filesEnv]
    (lines 108-112); the flag [isConfigInvalid] lives in
    isConfigInvalid.ts ([isConfigInvalid_set]), which is not among the
    sources and is modelled as a field.  A pass is a promise: its
    synchronous start is [newPassPromise]; when its [loadVikeConfig] ends
    (an event [Settle], the pass [runPass n] of the Section running on
    the shared module state) the rest of
    [loadVikeConfig_withErrorHandling] runs, then, in the same microtask
    burst, the [handleReloadSideEffects] calls that await that promise.
    Reloads and settlements are separate macrotasks and interleave
    freely: [lstep] is the step function, [reachable] its closure from
    the initial state. *)

From stdpp Require Import base list strings.
From Stdlib Require Import Lia.
From S2P Require Import Prelude Js Model.

Inductive PromiseState : Type :=
| Pending
| Fulfilled (dummyData : bool)  (** [dummyData]: the pass failed in dev *)
| Rejected.

(** A call of [loadVikeConfig_withErrorHandling] and its promise. *)
Record PassPromise : Type := mkPassPromise {
  pr_isDev : bool;
  pr_tolerateInvalidConfig : bool;
  pr_state : PromiseState
}.

(** [logConfigError] and [logConfigErrorRecover]. *)
Inductive LogEntry : Type :=
| LogConfigError
| LogConfigErrorRecover.

Record LState : Type := mkLState {
  devServerIsCorrupt : bool;
  wasConfigInvalid : option bool;
  (** the promise [vikeConfigPromise] holds, by index in [promises] *)
  vikeConfigPromise : option nat;
  isConfigInvalid : option bool;
  promises : list PassPromise;
  (** the [handleReloadSideEffects] calls awaiting, by the promise each saw *)
  handlers : list nat;
  (** calls of [viteDevServer.restart(true)] *)
  restarts : nat;
  logs : list LogEntry;
  (** the set [vikeConfigDependencies] (line 111), in insertion order *)
  vikeConfigDependencies : list string;
  (** the map [filesEnv] (line 112) with the warnings printed so far: the
      state every pass reads and writes *)
  moduleState : PassState
}.

Definition initLState : LState := mkLState false None None None [] [] 0 [] [] initPassState.

(** The events of the dev server.  [AddDependency] is
    [vikeConfigDependencies.add(filePath)] by the module loader, which is
    not among the sources and may run while any pass is in flight. *)
Inductive LEvent : Type :=
| GetVikeConfig (isDev tolerateInvalidConfig : bool)
| Reload
| Settle (promise : nat)
| AddDependency (filePath : string).

(** [loadVikeConfig_withErrorHandling(...)] up to its first [await]: a new
    pending promise. *)
Definition newPassPromise (st : LState) (isDev tolerateInvalidConfig : bool) : nat * LState :=
  (length (promises st),
   mkLState (devServerIsCorrupt st) (wasConfigInvalid st) (vikeConfigPromise st) (isConfigInvalid st)
     (promises st ++ [mkPassPromise isDev tolerateInvalidConfig Pending]) (handlers st) (restarts st) (logs st)
     (vikeConfigDependencies st) (moduleState st)).

Definition setVikeConfigPromise (st : LState) (n : nat) : LState :=
  mkLState (devServerIsCorrupt st) (wasConfigInvalid st) (Some n) (isConfigInvalid st)
    (promises st) (handlers st) (restarts st) (logs st) (vikeConfigDependencies st) (moduleState st).

(** [vikeConfigDependencies.clear()] and [filesEnv.clear()] (lines 114-115). *)
Definition clearModuleState (st : LState) : LState :=
  mkLState (devServerIsCorrupt st) (wasConfigInvalid st) (vikeConfigPromise st) (isConfigInvalid st)
    (promises st) (handlers st) (restarts st) (logs st) []
    (mkPassState JsObject.empty (warnings (moduleState st))).

(** [reloadVikeConfig(...)] (lines 113-118) with the synchronous part of
    [handleReloadSideEffects()] (lines 120-123). *)
Definition reloadVikeConfig (st : LState) : LState :=
  let '(n, st1) := newPassPromise (clearModuleState st) true true in
  mkLState (devServerIsCorrupt st1) (isConfigInvalid st1) (Some n) (isConfigInvalid st1)
    (promises st1) (handlers st1 ++ [n]) (restarts st1) (logs st1) (vikeConfigDependencies st1) (moduleState st1).

(** [getVikeConfig(...)] (lines 149-166): the promise it awaits. *)
Definition getVikeConfig (st : LState) (isDev tolerateInvalidConfig : bool) : nat * LState :=
  match vikeConfigPromise st with
  | Some n => (n, st)
  | None => let '(n, st1) := newPassPromise st isDev tolerateInvalidConfig in (n, setVikeConfigPromise st1 n)
  end.

(** [vikeConfigDependencies.add(filePath)]. *)
Definition addDependency (st : LState) (filePath : string) : LState :=
  mkLState (devServerIsCorrupt st) (wasConfigInvalid st) (vikeConfigPromise st) (isConfigInvalid st)
    (promises st) (handlers st) (restarts st) (logs st)
    (if bool_decide (filePath ∈ vikeConfigDependencies st) then vikeConfigDependencies st
     else vikeConfigDependencies st ++ [filePath])
    (moduleState st).

(** The rest of [loadVikeConfig_withErrorHandling] (lines 304-330) once
    [loadVikeConfig] of promise [n] returned ([succeeded]) or threw,
    leaving the module state [ms]. *)
Definition settlePass (st : LState) (n : nat) (p : PassPromise) (ms : PassState) (succeeded : bool) : LState :=
  let settle := fun (s : PromiseState) => <[n := mkPassPromise (pr_isDev p) (pr_tolerateInvalidConfig p) s]> (promises st) in
  if succeeded then
    mkLState (devServerIsCorrupt st) (wasConfigInvalid st) (vikeConfigPromise st) (Some false)
      (settle (Fulfilled false)) (handlers st) (restarts st) (logs st) (vikeConfigDependencies st) ms
  else if negb (pr_isDev p) then
    mkLState (devServerIsCorrupt st) (wasConfigInvalid st) (vikeConfigPromise st) (Some true)
      (settle Rejected) (handlers st) (restarts st) (logs st) (vikeConfigDependencies st) ms
  else
    mkLState (devServerIsCorrupt st || negb (pr_tolerateInvalidConfig p)) (wasConfigInvalid st)
      (vikeConfigPromise st) (Some true) (settle (Fulfilled true)) (handlers st) (restarts st)
      (logs st ++ [LogConfigError]) (vikeConfigDependencies st) ms.

(** Lines 135-146, for a valid config: log the recovery, restart a
    corrupt server. *)
Definition recoverSideEffects (st : LState) : LState :=
  let recovered := bool_decide (wasConfigInvalid st = Some true) in
  mkLState false (if recovered then Some false else wasConfigInvalid st) (vikeConfigPromise st)
    (isConfigInvalid st) (promises st) (handlers st)
    (if devServerIsCorrupt st then S (restarts st) else restarts st)
    (if recovered then logs st ++ [LogConfigErrorRecover] else logs st)
    (vikeConfigDependencies st) (moduleState st).

(** The rest of a [handleReloadSideEffects()] call (lines 124-147) once
    the promise [n] it saw settled. *)
Definition handleReloadSideEffects_resume (st : LState) (n : nat) : outcome LState VikeError :=
  match promises st !! n with
  | Some (mkPassPromise _ _ Rejected) => Err (Bug "handleReloadSideEffects:rejected")
  | _ =>
      if negb (bool_decide (vikeConfigPromise st = Some n)) then Ok st
      else if bool_decide (isConfigInvalid st = Some true) then Ok st
      else Ok (recoverSideEffects st)
  end.

(** Run the awaiting calls [hs] in order. *)
Fixpoint resumeHandlers (st : LState) (hs : list nat) : outcome LState VikeError :=
  match hs with
  | [] => Ok st
  | n :: hs' =>
      match handleReloadSideEffects_resume st n with
      | Ok st' => resumeHandlers st' hs'
      | Err e => Err e
      end
  end.

Definition dropHandlers (st : LState) (n : nat) : LState :=
  mkLState (devServerIsCorrupt st) (wasConfigInvalid st) (vikeConfigPromise st) (isConfigInvalid st)
    (promises st) (List.filter (fun h => negb (Nat.eqb h n)) (handlers st)) (restarts st) (logs st)
    (vikeConfigDependencies st) (moduleState st).

#[export] Instance PromiseState_eq_dec : EqDecision PromiseState.
Proof. solve_decision. Defined.

(** ** The lifecycle of a given pass

    [runPass n] is [loadVikeConfig] of the [n]-th call of
    [loadVikeConfig_withErrorHandling], the project as it is when that
    call starts (Pass.v; PassWitnesses.v instantiates it).  Its reads and
    writes of the module state are taken together when it settles: it runs
    on the state of that moment.  A pass that throws leaves the state it
    reached at the throw: what it wrote before stays in the module-level
    table. *)
Section Lifecycle.
Context {Config : Type}.
Variable runPass : nat -> M Config.

Definition passOutcome (n : nat) (ms : PassState) : bool * PassState :=
  match runPass n ms with
  | Ok (_, ms') => (true, ms')
  | Err (_, ms') => (false, ms')
  end.

(** One event; [None] when it cannot happen (a promise settles once). *)
Definition lstep (st : LState) (e : LEvent) : option (outcome LState VikeError) :=
  match e with
  | GetVikeConfig isDev tolerateInvalidConfig => Some (Ok (getVikeConfig st isDev tolerateInvalidConfig).2)
  | Reload => Some (Ok (reloadVikeConfig st))
  | AddDependency filePath => Some (Ok (addDependency st filePath))
  | Settle n =>
      match promises st !! n with
      | Some p =>
          match pr_state p with
          | Pending =>
              let '(succeeded, ms) := passOutcome n (moduleState st) in
              let st1 := settlePass st n p ms succeeded in
              Some (resumeHandlers (dropHandlers st1 n) (List.filter (fun h => Nat.eqb h n) (handlers st1)))
          | _ => None
          end
      | None => None
      end
  end.

Inductive reachable : LState -> Prop :=
| reachable_init : reachable initLState
| reachable_step st e st' : reachable st -> lstep st e = Some (Ok st') -> reachable st'.

(** Run events in order. *)
Fixpoint runEvents (st : LState) (es : list LEvent) : option (outcome LState VikeError) :=
  match es with
  | [] => Some (Ok st)
  | e :: es' =>
      match lstep st e with
      | Some (Ok st') => runEvents st' es'
      | r => r
      end
  end.

(** ** Awaiting calls *)

(** Every [handleReloadSideEffects] call still awaiting saw a promise of a
    dev reload that has not settled. *)
Definition handlersPending (st : LState) : Prop :=
  forall h, h ∈ handlers st -> exists p, promises st !! h = Some p /\ pr_isDev p = true /\ pr_state p = Pending.

Lemma resume_cases st n st' :
  handleReloadSideEffects_resume st n = Ok st' -> st' = st \/ st' = recoverSideEffects st.
Proof.
  unfold handleReloadSideEffects_resume.
  destruct (promises st !! n) as [[d t [|b|]]|]; [| |intros [=]|];
    destruct (negb _); try (intros [= <-]; auto); destruct (bool_decide _); intros [= <-]; auto.
Qed.

Lemma resume_keeps st n st' :
  handleReloadSideEffects_resume st n = Ok st' ->
  promises st' = promises st /\ handlers st' = handlers st /\ moduleState st' = moduleState st /\
  vikeConfigDependencies st' = vikeConfigDependencies st /\ vikeConfigPromise st' = vikeConfigPromise st /\
  isConfigInvalid st' = isConfigInvalid st.
Proof. intros [->| ->]%resume_cases; repeat split. Qed.

Lemma resumeHandlers_keeps st hs st' :
  resumeHandlers st hs = Ok st' ->
  promises st' = promises st /\ handlers st' = handlers st /\ moduleState st' = moduleState st /\
  vikeConfigDependencies st' = vikeConfigDependencies st /\ vikeConfigPromise st' = vikeConfigPromise st /\
  isConfigInvalid st' = isConfigInvalid st.
Proof.
  revert st. induction hs as [|h hs IH]; intros st; simpl; [by intros [= <-]|].
  destruct (handleReloadSideEffects_resume st h) as [st1|] eqn:E; [|discriminate].
  intros Hr. destruct (IH _ Hr) as (-> & -> & -> & -> & -> & ->). exact (resume_keeps _ _ _ E).
Qed.

(** A call awaiting a promise that was not rejected returns. *)
Lemma resumeHandlers_ok st hs :
  (forall h, h ∈ hs -> forall p, promises st !! h = Some p -> pr_state p <> Rejected) ->
  exists st', resumeHandlers st hs = Ok st'.
Proof.
  revert st. induction hs as [|h hs IH]; intros st Hh; simpl; [eauto|].
  assert (Hr : exists st1, handleReloadSideEffects_resume st h = Ok st1).
  { unfold handleReloadSideEffects_resume. destruct (promises st !! h) as [[d t []]|] eqn:Hp;
      try (repeat case_match; eauto; fail).
    exfalso. exact (Hh h (list_elem_of_here _ _) _ Hp eq_refl). }
  destruct Hr as [st1 Hr]. rewrite Hr. apply IH. intros h' Hh' p Hp.
  destruct (resume_keeps _ _ _ Hr) as [Hps _]. rewrite Hps in Hp. apply (Hh h'); [by right|exact Hp].
Qed.

Lemma newPassPromise_lookup st isDev tol h p :
  promises st !! h = Some p -> promises (newPassPromise st isDev tol).2 !! h = Some p.
Proof. intros Hp. simpl. by apply lookup_app_l_Some. Qed.

Lemma snoc_lookup {A} (l : list A) x : (l ++ [x]) !! length l = Some x.
Proof. rewrite lookup_app_r, Nat.sub_diag by lia. reflexivity. Qed.

Lemma settle_lookup st n p ms succeeded :
  n < length (promises st) ->
  exists s, promises (settlePass st n p ms succeeded) !! n =
              Some (mkPassPromise (pr_isDev p) (pr_tolerateInvalidConfig p) s) /\
            (pr_isDev p = true -> s <> Rejected).
Proof.
  intros Hn. unfold settlePass.
  destruct succeeded; [|destruct (pr_isDev p) eqn:Hd]; simpl; rewrite ?list_lookup_insert_eq by exact Hn;
    eexists; split; try reflexivity; intros ?; congruence.
Qed.

Lemma settle_lookup_ne st n p ms succeeded h :
  h <> n -> promises (settlePass st n p ms succeeded) !! h = promises st !! h.
Proof. intros Hh. unfold settlePass. repeat case_match; simpl; by rewrite list_lookup_insert_ne by congruence. Qed.

Lemma settle_handlers st n p ms succeeded : handlers (settlePass st n p ms succeeded) = handlers st.
Proof. unfold settlePass. by repeat case_match. Qed.

Lemma lstep_handlersPending st e st' :
  handlersPending st -> lstep st e = Some (Ok st') -> handlersPending st'.
Proof.
  intros Hinv. destruct e as [isDev tol| |n|f]; simpl.
  - intros [= <-]. unfold getVikeConfig. destruct (vikeConfigPromise st); simpl; [exact Hinv|].
    intros h Hh. destruct (Hinv h Hh) as (p & Hp & ?). exists p. split; [by apply lookup_app_l_Some|done].
  - intros [= <-]. intros h [Hh|Hh%list_elem_of_singleton]%elem_of_app; simpl.
    + destruct (Hinv h Hh) as (p & Hp & ?). exists p. split; [by apply lookup_app_l_Some|done].
    + subst h. eexists. split; [apply snoc_lookup|done].
  - destruct (promises st !! n) as [p|] eqn:Hp; [|discriminate]. destruct (pr_state p); try discriminate.
    destruct (passOutcome n (moduleState st)) as [succeeded ms].
    intros [= Hr]. unfold handlersPending. destruct (resumeHandlers_keeps _ _ _ Hr) as (-> & -> & _). simpl.
    intros h [Hh Hne]%elem_of_list_filter_bool. apply negb_true_iff, Nat.eqb_neq in Hne.
    rewrite settle_handlers in Hh. rewrite settle_lookup_ne by exact Hne. exact (Hinv h Hh).
  - intros [= <-]. exact Hinv.
Qed.

Lemma reachable_handlersPending st : reachable st -> handlersPending st.
Proof.
  induction 1 as [|st e st' _ IH Hs]; [by intros ? ?%elem_of_nil|].
  exact (lstep_handlersPending _ _ _ IH Hs).
Qed.

(** The calls awaiting a pass that settles resume and return. *)
Lemma settle_resume_ok st n p ms succeeded :
  handlersPending st -> promises st !! n = Some p ->
  exists st', resumeHandlers (dropHandlers (settlePass st n p ms succeeded) n)
                (List.filter (fun h => Nat.eqb h n) (handlers (settlePass st n p ms succeeded))) = Ok st'.
Proof.
  intros Hinv Hp. apply resumeHandlers_ok. intros h Hh q Hq.
  apply elem_of_list_filter_bool in Hh as [Hh Heq]. apply Nat.eqb_eq in Heq. subst h.
  rewrite settle_handlers in Hh. destruct (Hinv n Hh) as (p' & Hp' & Hdev & _).
  rewrite Hp in Hp'. injection Hp' as <-. simpl in Hq.
  destruct (settle_lookup st n p ms succeeded) as (s & Hs & Hnr); [by eapply lookup_lt_Some|].
  rewrite Hs in Hq. injection Hq as <-. exact (Hnr Hdev).
Qed.

(** A pending pass settles: it runs on the module state, and the calls
    awaiting it resume, keeping what the settlement decided. *)
Lemma settle_step st n p :
  handlersPending st -> promises st !! n = Some p -> pr_state p = Pending ->
  exists st', lstep st (Settle n) = Some (Ok st') /\
    promises st' = promises (settlePass st n p (passOutcome n (moduleState st)).2 (passOutcome n (moduleState st)).1) /\
    moduleState st' = (passOutcome n (moduleState st)).2 /\ vikeConfigPromise st' = vikeConfigPromise st /\
    isConfigInvalid st' = Some (negb (passOutcome n (moduleState st)).1).
Proof.
  intros Hinv Hp Hst. destruct (passOutcome n (moduleState st)) as [b ms] eqn:Ho.
  destruct (settle_resume_ok st n p ms b Hinv Hp) as [st' Hr].
  exists st'. simpl. rewrite Hp, Hst, Ho, Hr. split; [reflexivity|].
  destruct (resumeHandlers_keeps _ _ _ Hr) as (-> & _ & -> & _ & -> & ->). simpl.
  unfold settlePass. by destruct b; [|destruct (negb (pr_isDev p))].
Qed.

Lemma runEvents_cons_Ok st e es st' : lstep st e = Some (Ok st') -> runEvents st (e :: es) = runEvents st' es.
Proof. simpl. by intros ->. Qed.

(** C27: the dev-server lifecycle never fails: from any reachable state,
    every event that can happen returns a state, whatever each pass does;
    in particular the [assert(false)] of [handleReloadSideEffects]
    (line 128) is unreachable, since a reload's pass runs in dev and never
    rejects. *)
Theorem lstep_never_fails st e r :
  reachable st -> lstep st e = Some r -> exists st', r = Ok st'.
Proof.
  intros Hreach. pose proof (reachable_handlersPending _ Hreach) as Hinv.
  destruct e as [isDev tol| |n|f]; simpl; [intros [= <-]; eauto|intros [= <-]; eauto| |intros [= <-]; eauto].
  destruct (promises st !! n) as [p|] eqn:Hp; [|discriminate]. destruct (pr_state p) eqn:Hst; try discriminate.
  destruct (passOutcome n (moduleState st)) as [succeeded ms].
  intros [= <-]. exact (settle_resume_ok _ _ _ _ _ Hinv Hp).
Qed.

(** ** Recovery *)

Lemma filter_eqb_fresh (l : list nat) n :
  (forall h, h ∈ l -> h < n) ->
  List.filter (fun h => Nat.eqb h n) l = [] /\ List.filter (fun h => negb (Nat.eqb h n)) l = l.
Proof.
  induction l as [|h l IH]; intros Hl; [done|]. simpl.
  assert (Hh : Nat.eqb h n = false) by (apply Nat.eqb_neq; specialize (Hl h (list_elem_of_here _ _)); lia).
  rewrite Hh. destruct IH as [-> ->]; [intros x Hx; apply Hl; by right|done].
Qed.

Lemma reachable_handlers_lt st : reachable st -> forall h, h ∈ handlers st -> h < length (promises st).
Proof.
  intros Hreach h Hh. destruct (reachable_handlersPending _ Hreach h Hh) as (p & Hp & _). by eapply lookup_lt_Some.
Qed.

(** C28: a reload whose pass succeeds, with no other event in between,
    runs that pass on an empty [filesEnv] and leaves the server sound:
    the module state is the one the pass left, the dependencies are
    cleared, the config is valid, the corrupt flag is cleared with one
    restart of the Vite server if it was set, and the recovery is logged
    if the config was invalid when the reload started. *)
Theorem reload_recovers st c ms :
  reachable st ->
  runPass (length (promises st)) (mkPassState JsObject.empty (warnings (moduleState st))) = Ok (c, ms) ->
  exists st', runEvents st [Reload; Settle (length (promises st))] = Some (Ok st') /\
    moduleState st' = ms /\ vikeConfigDependencies st' = [] /\
    devServerIsCorrupt st' = false /\ isConfigInvalid st' = Some false /\
    restarts st' = (if devServerIsCorrupt st then S (restarts st) else restarts st) /\
    logs st' = logs st ++ (if bool_decide (isConfigInvalid st = Some true) then [LogConfigErrorRecover] else []).
Proof.
  intros Hreach Hpass.
  destruct (filter_eqb_fresh (handlers st) (length (promises st)) (reachable_handlers_lt _ Hreach)) as [Hf1 Hf2].
  simpl. rewrite snoc_lookup. simpl. unfold passOutcome. simpl. rewrite Hpass.
  rewrite settle_handlers. simpl. rewrite List.filter_app, Hf1. simpl. rewrite Nat.eqb_refl. simpl.
  unfold handleReloadSideEffects_resume. simpl.
  rewrite list_lookup_insert_eq by (rewrite length_app; simpl; lia). simpl.
  rewrite bool_decide_true by reflexivity. simpl. unfold recoverSideEffects. simpl.
  eexists. split; [reflexivity|]. simpl. do 5 (split; [reflexivity|]).
  case_bool_decide; [reflexivity|by rewrite app_nil_r].
Qed.

(** ** Restarts *)

(** The passes that failed in dev without tolerating an invalid config
    (only such a failure sets [devServerIsCorrupt], line 319). *)
Definition strictFailures (st : LState) : nat :=
  length (List.filter (fun p => negb (pr_tolerateInvalidConfig p) && bool_decide (pr_state p = Fulfilled true))
            (promises st)).

Lemma resume_restarts st n st' :
  handleReloadSideEffects_resume st n = Ok st' ->
  restarts st' + (if devServerIsCorrupt st' then 1 else 0) = restarts st + (if devServerIsCorrupt st then 1 else 0).
Proof. intros [->| ->]%resume_cases; [lia|]. unfold recoverSideEffects. simpl. destruct (devServerIsCorrupt st); simpl; lia. Qed.

Lemma resumeHandlers_restarts st hs st' :
  resumeHandlers st hs = Ok st' ->
  restarts st' + (if devServerIsCorrupt st' then 1 else 0) = restarts st + (if devServerIsCorrupt st then 1 else 0).
Proof.
  revert st. induction hs as [|h hs IH]; intros st; simpl; [by intros [= <-]|].
  destruct (handleReloadSideEffects_resume st h) as [st1|] eqn:E; [|discriminate].
  intros Hr. rewrite (IH _ Hr). exact (resume_restarts _ _ _ E).
Qed.

Lemma newPassPromise_strictFailures st isDev tol :
  strictFailures (newPassPromise st isDev tol).2 = strictFailures st.
Proof.
  unfold strictFailures. simpl. rewrite List.filter_app, length_app. simpl.
  rewrite andb_false_r. simpl. lia.
Qed.

(** C30: the Vite server restarts at most once per pass that failed in dev
    without tolerating an invalid config; a corrupt server still waiting
    for its restart counts as one. *)
Theorem restarts_bounded st :
  reachable st -> restarts st + (if devServerIsCorrupt st then 1 else 0) <= strictFailures st.
Proof.
  induction 1 as [|st e st' Hreach IH Hs]; [simpl; lia|].
  destruct e as [isDev tol| |n|f]; simpl in Hs.
  - injection Hs as <-. unfold getVikeConfig. destruct (vikeConfigPromise st); simpl; [exact IH|].
    change (strictFailures (newPassPromise st isDev tol).2 >= restarts st + (if devServerIsCorrupt st then 1 else 0)).
    rewrite newPassPromise_strictFailures. exact IH.
  - injection Hs as <-. unfold reloadVikeConfig.
    change (strictFailures (newPassPromise (clearModuleState st) true true).2 >=
            restarts st + (if devServerIsCorrupt st then 1 else 0)).
    rewrite newPassPromise_strictFailures. exact IH.
  - destruct (promises st !! n) as [p|] eqn:Hp; [|discriminate]. destruct (pr_state p) eqn:Hst; try discriminate.
    destruct (passOutcome n (moduleState st)) as [succeeded ms].
    injection Hs as Hr. rewrite (resumeHandlers_restarts _ _ _ Hr).
    destruct (resumeHandlers_keeps _ _ _ Hr) as [Hps _]. unfold strictFailures in *. rewrite Hps. simpl.
    assert (Hf : negb (pr_tolerateInvalidConfig p) && bool_decide (pr_state p = Fulfilled true) = false)
      by (rewrite Hst, bool_decide_false by discriminate; apply andb_false_r).
    unfold settlePass. destruct succeeded; [|destruct (pr_isDev p)]; simpl;
      rewrite (filter_length_insert _ _ _ _ _ Hp Hf); simpl;
      rewrite ?(bool_decide_false (Fulfilled false = Fulfilled true)), ?(bool_decide_false (Rejected = Fulfilled true)),
        ?(bool_decide_true (Fulfilled true = Fulfilled true)) by (done || discriminate);
      destruct (pr_tolerateInvalidConfig p), (devServerIsCorrupt st); simpl; lia.
  - injection Hs as <-. exact IH.
Qed.

(** ** Overlapping passes *)

(** C29: passes that overlap settle in any order, and a pass that settles
    after a newer reload still sets [isConfigInvalid] and logs its error:
    after two reloads whose newer pass succeeds first and older pass
    fails last, the current promise holds a valid config while the config
    is marked invalid. *)
Theorem stale_pass_marks_config_invalid c ms e :
  runPass 1 initPassState = Ok (c, ms) -> runPass 0 ms = Err e ->
  exists st, runEvents initLState [Reload; Reload; Settle 1; Settle 0] = Some (Ok st) /\
    vikeConfigPromise st = Some 1 /\ (pr_state <$> promises st !! 1) = Some (Fulfilled false) /\
    isConfigInvalid st = Some true /\ logs st = [LogConfigError].
Proof.
  intros H1 H0. destruct e as [e ms0]. simpl. unfold passOutcome. simpl.
  change (mkPassState JsObject.empty []) with initPassState. rewrite H1. simpl. rewrite H0.
  eexists. split; [reflexivity|]. repeat split.
Qed.

Lemma runEvents_reachable st es st' : reachable st -> runEvents st es = Some (Ok st') -> reachable st'.
Proof.
  revert st. induction es as [|e es IH]; intros st Hst; simpl; [by intros [= <-]|].
  destruct (lstep st e) as [[st1|]|] eqn:E; try discriminate. intros Hr.
  exact (IH st1 (reachable_step _ _ _ Hst E) Hr).
Qed.

(** C4: [filesEnv] is shared by overlapping passes.  When a pass still in
    flight at a reload settles after it and before the reload's own pass,
    it runs on the table the reload cleared (line 115), and the reload's
    pass then runs on the table that stale pass left, with its writes,
    also when it threw, instead of a table of its own (the specification
    asks for one per pass); the config is valid exactly when the reload's
    pass succeeds on that table. *)
Theorem stale_pass_shares_files_env st n p :
  reachable st -> promises st !! n = Some p -> pr_state p = Pending ->
  let staleState := (passOutcome n (mkPassState JsObject.empty (warnings (moduleState st)))).2 in
  exists st', runEvents st [Reload; Settle n; Settle (length (promises st))] = Some (Ok st') /\
    vikeConfigPromise st' = Some (length (promises st)) /\
    moduleState st' = (passOutcome (length (promises st)) staleState).2 /\
    isConfigInvalid st' = Some (negb (passOutcome (length (promises st)) staleState).1).
Proof.
  intros Hreach Hp Hst staleState.
  assert (Hr1 : reachable (reloadVikeConfig st)) by exact (reachable_step _ Reload _ Hreach eq_refl).
  assert (Hp1 : promises (reloadVikeConfig st) !! n = Some p) by (simpl; by apply lookup_app_l_Some).
  destruct (settle_step _ n p (reachable_handlersPending _ Hr1) Hp1 Hst) as (st2 & E2 & Hps2 & Hms2 & Hv2 & _).
  assert (Hp2 : promises st2 !! length (promises st) = Some (mkPassPromise true true Pending)).
  { rewrite Hps2, settle_lookup_ne; [apply snoc_lookup|]. intros Heq. apply lookup_lt_Some in Hp. lia. }
  destruct (settle_step _ _ _ (reachable_handlersPending _ (reachable_step _ _ _ Hr1 E2)) Hp2 eq_refl)
    as (st3 & E3 & _ & Hms3 & Hv3 & Hi3).
  exists st3. rewrite (runEvents_cons_Ok st Reload _ (reloadVikeConfig st) eq_refl), (runEvents_cons_Ok _ _ _ _ E2),
    (runEvents_cons_Ok _ _ _ _ E3).
  split; [reflexivity|]. rewrite Hv3, Hv2, Hms3, Hms2, Hi3, Hms2. repeat split.
Qed.
End Lifecycle.

(** ** Witnesses *)

(** A project whose first pass throws and whose later passes succeed
    without touching the module state. *)
Definition exPass (n : nat) : M unit :=
  if Nat.eqb n 0 then st_raise (Bug "loadVikeConfig") else st_ret tt.

(** The first pass of the dev server, which does not tolerate an invalid
    config, failed: the server is corrupt and the config invalid. *)
Definition corruptState : LState :=
  match runEvents exPass initLState [GetVikeConfig true false; Settle 0] with
  | Some (Ok st) => st
  | _ => initLState
  end.

Lemma corruptState_reachable : reachable exPass corruptState.
Proof. apply (runEvents_reachable exPass initLState [GetVikeConfig true false; Settle 0]); [constructor|reflexivity]. Qed.

(** A reload after the failed first pass. *)
Lemma lstep_never_fails_witness :
  reachable exPass (reloadVikeConfig corruptState) /\
  exists st', lstep exPass (reloadVikeConfig corruptState) (Settle 1) = Some (Ok st').
Proof.
  assert (Hr : reachable exPass (reloadVikeConfig corruptState))
    by exact (reachable_step exPass _ Reload _ corruptState_reachable eq_refl).
  split; [exact Hr|].
  destruct (lstep exPass (reloadVikeConfig corruptState) (Settle 1)) as [r|] eqn:E; [|vm_compute in E; discriminate].
  destruct (lstep_never_fails _ _ _ _ Hr E) as [st' ->]. by exists st'.
Defined.

Lemma reload_recovers_witness :
  let ms := mkPassState JsObject.empty (warnings (moduleState corruptState)) in
  reachable exPass corruptState /\
  exPass (length (promises corruptState)) ms = Ok (tt, ms) /\
  exists st', runEvents exPass corruptState [Reload; Settle (length (promises corruptState))] = Some (Ok st') /\
    moduleState st' = ms /\ vikeConfigDependencies st' = [] /\
    devServerIsCorrupt st' = false /\ isConfigInvalid st' = Some false /\
    restarts st' = (if devServerIsCorrupt corruptState then S (restarts corruptState) else restarts corruptState) /\
    logs st' = logs corruptState ++
                 (if bool_decide (isConfigInvalid corruptState = Some true) then [LogConfigErrorRecover] else []).
Proof.
  intros ms. assert (Hp : exPass (length (promises corruptState)) ms = Ok (tt, ms)) by reflexivity.
  split; [exact corruptState_reachable|split; [exact Hp|exact (reload_recovers exPass _ _ _ corruptState_reachable Hp)]].
Defined.

Lemma stale_pass_marks_config_invalid_witness :
  exPass 1 initPassState = Ok (tt, initPassState) /\ exPass 0 initPassState = Err (Bug "loadVikeConfig", initPassState) /\
  exists st, runEvents exPass initLState [Reload; Reload; Settle 1; Settle 0] = Some (Ok st) /\
    vikeConfigPromise st = Some 1 /\ (pr_state <$> promises st !! 1) = Some (Fulfilled false) /\
    isConfigInvalid st = Some true /\ logs st = [LogConfigError].
Proof.
  assert (H1 : exPass 1 initPassState = Ok (tt, initPassState)) by reflexivity.
  assert (H0 : exPass 0 initPassState = Err (Bug "loadVikeConfig", initPassState)) by reflexivity.
  split; [exact H1|split; [exact H0|exact (stale_pass_marks_config_invalid exPass _ _ _ H1 H0)]].
Defined.

Lemma restarts_bounded_witness :
  reachable exPass corruptState /\
  restarts corruptState + (if devServerIsCorrupt corruptState then 1 else 0) <= strictFailures corruptState.
Proof. split; [exact corruptState_reachable|exact (restarts_bounded exPass _ corruptState_reachable)]. Defined.
