(* ===== verification/AnalyzePage.v ===== *)
(** * [analyzePage] (src/vike/node/runtime/renderPage/analyzePage.ts)

    At render time, [analyzePage] tells which client-side code a page
    needs.  For a page of the V1 design (a [pageConfig]) the result is
    built here: the virtual module of the page's client-side config values,
    in development the assets of its server-side one, then the client
    entries (Vike's own entry when the page renders on the client, and the
    user's [client] entry).  For a page of the older design it is
    [analyzePageClientSide].  Everything [analyzePage] calls lives in files
    that are not among the sources, so it is an interface
    ([Class PageAnalysis]); [isProduction] stands for
    [getGlobalContext().isProduction]. *)

From stdpp Require Import base list strings.
From Stdlib Require Import Lia.
From Stdlib Require String.
From S2P Require Import Prelude.

(** [ClientDependency] (ClientDependency.ts). *)
Record ClientDependency : Type := mkClientDependency {
  cd_id : string;
  onlyAssets : bool;
  eagerlyImported : bool
}.

(** [AnalysisResult] (analyzePageClientSide.ts), over the type of page files. *)
Record AnalysisResult (PageFile : Type) : Type := mkAnalysisResult {
  isHtmlOnly : bool;
  isClientRouting : bool;
  clientEntries : list string;
  clientDependencies : list ClientDependency;
  pageFilesClientSide : list PageFile;
  pageFilesServerSide : list PageFile
}.
Arguments mkAnalysisResult {_}.
Arguments isHtmlOnly {_}.
Arguments isClientRouting {_}.
Arguments clientEntries {_}.
Arguments clientDependencies {_}.

Class PageAnalysis : Type := {
  PageFile : Type;
  PageConfigRuntime : Type;
  pageConfigPageId : PageConfigRuntime -> string;
  (** [analyzeClientSide(pageConfig, pageFilesAll, pageId)]:
      [{ isClientSideRenderable, isClientRouting }] *)
  analyzeClientSide : PageConfigRuntime -> list PageFile -> string -> bool * bool;
  (** [getVirtualFileIdPageConfigValuesAll(pageId, isForClientSide)] *)
  getVirtualFileIdPageConfigValuesAll : string -> bool -> string;
  (** [getVikeClientEntry(isClientRouting)] *)
  getVikeClientEntry : bool -> string;
  (** [getClientEntryFilePath(pageConfig)]: [null] or a path *)
  getClientEntryFilePath : PageConfigRuntime -> option string;
  (** [getGlobalContext().isProduction] *)
  isProduction : bool;
  analyzePageClientSide : list PageFile -> string -> AnalysisResult PageFile
}.

Section Analyze.
Context `{PA : PageAnalysis}.

(** A client dependency that is imported for its code, lazily. *)
Definition codeDependency (id : string) : ClientDependency := mkClientDependency id false false.

(** Lines 16-29: the virtual modules of the page's config values. *)
Definition configValuesDependencies (pageConfig : PageConfigRuntime) : list ClientDependency :=
  codeDependency (getVirtualFileIdPageConfigValuesAll (pageConfigPageId pageConfig) true) ::
  (if negb isProduction
   then [mkClientDependency (getVirtualFileIdPageConfigValuesAll (pageConfigPageId pageConfig) false) true false]
   else []).

(** Lines 50-58: Vike's client entry, then the user's ([if
    (clientEntryUser)]: a non-empty path). *)
Definition clientEntriesOf (pageConfig : PageConfigRuntime) (isClientSideRenderable isClientRouting : bool)
    : list string :=
  (if isClientSideRenderable then [getVikeClientEntry isClientRouting] else []) ++
  match getClientEntryFilePath pageConfig with
  | Some clientEntryUser => if String.eqb clientEntryUser "" then [] else [clientEntryUser]
  | None => []
  end.

(** [analyzePage(pageFilesAll, pageConfig, pageId)] (lines 13-81). *)
Definition analyzePage (pageFilesAll : list PageFile) (pageConfig : option PageConfigRuntime) (pageId : string)
    : AnalysisResult PageFile :=
  match pageConfig with
  | Some pageConfig =>
      let '(isClientSideRenderable, isClientRouting) := analyzeClientSide pageConfig pageFilesAll pageId in
      let entries := clientEntriesOf pageConfig isClientSideRenderable isClientRouting in
      mkAnalysisResult (negb isClientSideRenderable) isClientRouting entries
        (configValuesDependencies pageConfig ++ map codeDependency entries) [] []
  | None => analyzePageClientSide pageFilesAll pageId
  end.
End Analyze.

Section AnalyzeTheorems.
Context `{PA : PageAnalysis}.

Lemma filter_onlyAssets_code (entries : list string) :
  List.filter onlyAssets (map codeDependency entries) = [].
Proof. by induction entries. Qed.

(** C31: for a page with a config, the only dependency loaded for its
    assets alone is the server-side config values module, and only in
    development: in production none is (the server module's assets are
    injected through the client module instead, line 22). *)
Theorem analyzePage_assets_only pageFilesAll pageConfig pageId :
  List.filter onlyAssets (clientDependencies (analyzePage pageFilesAll (Some pageConfig) pageId)) =
  if isProduction then []
  else [mkClientDependency (getVirtualFileIdPageConfigValuesAll (pageConfigPageId pageConfig) false) true false].
Proof.
  simpl. destruct (analyzeClientSide pageConfig pageFilesAll pageId) as [r c]. simpl.
  unfold configValuesDependencies. destruct isProduction; simpl; by rewrite filter_onlyAssets_code.
Qed.

(** C32: a page with a config loads Vike's client entry exactly when it is
    not HTML-only, provided the user's client entry is not one of Vike's. *)
Theorem analyzePage_htmlOnly_no_vike_entry pageFilesAll pageConfig pageId :
  (forall b, getClientEntryFilePath pageConfig <> Some (getVikeClientEntry b)) ->
  let r := analyzePage pageFilesAll (Some pageConfig) pageId in
  isHtmlOnly r = false <-> getVikeClientEntry (isClientRouting r) ∈ clientEntries r.
Proof.
  intros Huser. simpl. destruct (analyzeClientSide pageConfig pageFilesAll pageId) as [renderable routing]. simpl.
  unfold clientEntriesOf. destruct renderable; simpl.
  - split; [intros _; apply list_elem_of_here|done].
  - split; [discriminate|]. intros Hin. exfalso.
    destruct (getClientEntryFilePath pageConfig) as [u|] eqn:Hu; [|by apply elem_of_nil in Hin].
    destruct (String.eqb u ""); [by apply elem_of_nil in Hin|].
    apply list_elem_of_singleton in Hin. apply (Huser routing). congruence.
Qed.
End AnalyzeTheorems.

(** ** Witnesses *)

(** A page [/pages/about] rendered on the client with client routing, in
    development, with a user client entry. *)
Definition exPageAnalysis : PageAnalysis := {|
  PageFile := string;
  PageConfigRuntime := string;
  pageConfigPageId p := p;
  analyzeClientSide _ _ _ := (true, true);
  getVirtualFileIdPageConfigValuesAll pageId isForClientSide :=
    ("virtual:vike:pageConfigValuesAll:" +:+ (if isForClientSide then "client:" else "server:") +:+ pageId)%string;
  getVikeClientEntry isClientRouting :=
    if isClientRouting then "@@vike/client/client-routing-runtime/entry.js" else "@@vike/client/server-routing-runtime/entry.js";
  getClientEntryFilePath _ := Some "/pages/about/+client.js";
  isProduction := false;
  analyzePageClientSide _ _ := mkAnalysisResult true false [] [] [] []
|}.

Lemma analyzePage_htmlOnly_no_vike_entry_witness :
  (forall b, @getClientEntryFilePath exPageAnalysis "/pages/about" <> Some (@getVikeClientEntry exPageAnalysis b)) /\
  let r := @analyzePage exPageAnalysis [] (Some "/pages/about"%string) "/pages/about" in
  isHtmlOnly r = false <-> @getVikeClientEntry exPageAnalysis (isClientRouting r) ∈ clientEntries r.
Proof.
  assert (H : forall b, @getClientEntryFilePath exPageAnalysis "/pages/about" <> Some (@getVikeClientEntry exPageAnalysis b))
    by (intros []; discriminate).
  split; [exact H|]. exact (@analyzePage_htmlOnly_no_vike_entry exPageAnalysis [] "/pages/about" "/pages/about" H).
Defined.
