(* ===== verification/Witnesses.v ===== *)
(** * Concrete runs: a project tree on which the theorems apply

    A resolver that treats strings of the form ["import:<path>"] as
    serialized imports, and a two-location tree:
    - [/pages/about]: [+title.js] (a value file), [+config.js] and the
      [+config.js] of the vike-react extension, all defining [title];
    - [/pages]: [+config.js] defining [title] and [onRenderHtml].
    Each witness applies a theorem to this tree, discharging its
    hypotheses by evaluation. *)

From stdpp Require Import base list strings.
From Stdlib Require Import Lia.
From Stdlib Require String.
From S2P Require Import Prelude Js Model Collaborators Resolve ResolveOrder FilesEnv Cumulative Registry Extends.

#[export] Instance exResolver : ImportResolver := {|
  parseImportData s :=
    if startsWith s "import:"
    then Some (mkImportData (String.substring 7 (String.length s - 7) s) "default" true s)
    else None;
  requireResolve p cwd :=
    if startsWith p "./"
    then Some (cwd +:+ "/" +:+ String.substring 2 (String.length p - 2) p)%string
    else if String.eqb p "vike-react/config" then Some "/node_modules/vike-react/+config.js"%string
    else None
|}.

Definition exRoot : string := "/app".

Definition userFile (rel : string) : FilePath :=
  mkFilePath (Some (exRoot +:+ rel)%string) (Some rel) None.

Definition exTitleValueFile : IFile :=
  mkIFile 1 (InterfaceValueFile (userFile "/pages/about/+title.js")
    [("title", Some (VString "About"))] "title").
Definition exAboutConfig : IFile :=
  mkIFile 2 (InterfaceConfigFile (userFile "/pages/about/+config.js")
    [("title", Some (VString "Config"))] [] false).
Definition exVikeReactConfig : IFile :=
  mkIFile 3 (InterfaceConfigFile
    (mkFilePath (Some "/node_modules/vike-react/+config.js") None (Some "vike-react/config"))
    [("title", Some (VString "VR"))] [] true).
Definition exPagesConfig : IFile :=
  mkIFile 4 (InterfaceConfigFile (userFile "/pages/+config.js")
    [("title", Some (VString "Root")); ("onRenderHtml", Some (VString "import:./onRenderHtml.js"))]
    [] false).

Definition exAbout : list IFile := [exAboutConfig; exTitleValueFile; exVikeReactConfig].
Definition exPages : list IFile := [exPagesConfig].
Definition exGroups : list (list IFile) := [exAbout; exPages].

Definition titleDef : ConfigDefinitionInternal := mkConfigDef ServerAndClient false None None false.

(** [idsUnique] of a concrete tree, by evaluation. *)
Ltac decide_ids := apply (bool_decide_unpack _); vm_compute; exact I.
(** Membership in a concrete list. *)
Ltac in_list := apply list_elem_of_In; vm_compute; tauto.

Definition exImportData : ImportData := mkImportData "./../app2/x.js" "default" true "import:./../app2/x.js".

Definition renderDef : ConfigDefinitionInternal := mkConfigDef ServerOnly false None None false.

(** Sources of a cumulative config, defined in [/pages/about/+config.js]
    and [/pages/+config.js]. *)
Definition cumulativeSource (v : value) (rel : string) : ConfigValueSource :=
  mkConfigValueSource (Some v) false ServerOnly false false
    (Some (mkDefinedAtFileInfo (userFile rel) ["default"; "passToClient"])).

(** ** The registry: built-in definitions and [meta] declarations *)

Definition metaDef : ConfigDefinitionInternal := mkConfigDef ConfigOnly false None None false.

#[export] Instance exBuiltIns : BuiltIns := {|
  configDefinitionsBuiltIn :=
    [("title", titleDef); ("onRenderHtml", renderDef); ("Page", renderDef); ("route", renderDef);
     ("meta", metaDef)];
  configDefinitionsBuiltInGlobal := [("onBeforeRoute", renderDef); ("prerender", metaDef)]
|}.

Definition exRelevant : InterfaceFilesByLocationId := [("/pages/about", exAbout); ("/pages", exPages)].

(** [/pages/about/+config.js] and [/pages/+config.js] both declare the
    custom config [myConf] in [meta], with different environments. *)
Definition metaConfig (id : nat) (rel envName : string) : IFile :=
  mkIFile id (InterfaceConfigFile (userFile rel)
    [("meta", Some (VObject [("myConf", VObject [("env", VString envName)])]))] [] false).
Definition exMetaAbout : IFile := metaConfig 5 "/pages/about/+config.js" "client-only".
Definition exMetaRoot : IFile := metaConfig 6 "/pages/+config.js" "server-only".
Definition exMetaRelevant : InterfaceFilesByLocationId :=
  [("/pages/about", [exMetaAbout]); ("/pages", [exMetaRoot])].

(** ** The extends resolver *)

(** The default export [{ extends }] of a config file. *)
Definition extendsExports (extends : value) : JsObject.t value :=
  [("default", VObject [("extends", extends)])].

Definition pagesConfigPath : FilePath := userFile "/pages/+config.js".

(** [/pages/+config.js] extends [./a/+config.js] and [./b/+config.js]. *)
Definition twoExtendsLoader : ModuleLoader := {|
  transpileAndExecuteFile fp _ :=
    match filePathAbsolute fp with
    | Some p =>
        if String.eqb p "/app/pages/+config.js" then
          Some (extendsExports (VArray [VString "import:./a/+config.js"; VString "import:./b/+config.js"]))
        else if String.eqb p "/app/pages/a/+config.js" then Some [("default", VObject [("title", VString "A")])]
        else if String.eqb p "/app/pages/b/+config.js" then Some [("default", VObject [("title", VString "B")])]
        else None
    | None => None
    end;
  isTmpFile _ := false
|}.

(** The paths a project of three config files can resolve to. *)
Definition extendsUniverse : list string :=
  ["/app/pages/+config.js"; "/app/pages/a/+config.js"; "/app/pages/b/+config.js"].

(** A resolver that only resolves relative imports to the files of
    [extendsUniverse]. *)
Definition closedResolver : ImportResolver := {|
  parseImportData := @parseImportData exResolver;
  requireResolve p cwd :=
    match @requireResolve exResolver p cwd with
    | Some r => if bool_decide (r ∈ extendsUniverse) then Some r else None
    | None => None
    end
|}.

(** [/pages/+config.js] extends [./+base.js], which extends [./+config.js]. *)
Definition cycleLoader : ModuleLoader := {|
  transpileAndExecuteFile fp _ :=
    match filePathAbsolute fp with
    | Some p =>
        if String.eqb p "/app/pages/+config.js" then Some (extendsExports (VString "import:./+base.js"))
        else if String.eqb p "/app/pages/+base.js" then Some (extendsExports (VString "import:./+config.js"))
        else None
    | None => None
    end;
  isTmpFile _ := false
|}.

(** The path of each loaded config file. *)
Definition configFilePaths (cfs : list ConfigFile) : list (option string) :=
  map (fun cf => filePathAbsolute (cf_filePath cf)) cfs.

(** Every member of a concrete list satisfies a decidable property. *)
Ltac forall_in_list :=
  let f := fresh "f" in let Hf := fresh "Hf" in
  intros f Hf; repeat (apply elem_of_cons in Hf as [->|Hf]; [reflexivity|]); by apply not_elem_of_nil in Hf.

Lemma resolveConfigValueSources_refines_witness :
  exists r s', resolveConfigValueSources exRoot "title" titleDef exGroups initPassState = Ok (r, s') /\
    Forall2 (yields exRoot "title" titleDef) (resolutionOrder "title" exGroups) (default [] r).
Proof.
  do 2 eexists. split; [reflexivity|].
  eapply (resolveConfigValueSources_refines exRoot "title" titleDef exGroups initPassState);
    [decide_ids|reflexivity].
Defined.

Lemma value_file_wins_witness :
  exists src srcs s',
    resolveConfigValueSources exRoot "title" titleDef exGroups initPassState = Ok (Some (src :: srcs), s') /\
    exists w, w ∈ exAbout /\ definesConfig "title" w = true /\ isPrimaryValueFile "title" w = true /\
      yields exRoot "title" titleDef w src /\
      (forall v', v' ∈ exAbout -> definesConfig "title" v' = true -> isPrimaryValueFile "title" v' = true ->
                  deterministicKey w <= deterministicKey v').
Proof.
  do 3 eexists. split; [reflexivity|].
  eapply (value_file_wins exRoot "title" titleDef exGroups [] exAbout [exPages] exTitleValueFile initPassState);
    [decide_ids|reflexivity|constructor|in_list|reflexivity|reflexivity|reflexivity].
Defined.

Lemma value_file_overrides_config_file_witness :
  exists srcs s',
    resolveConfigValueSources exRoot "title" titleDef exGroups initPassState = Ok (Some srcs, s') /\
    exists i j sv sc, i < j /\ srcs !! i = Some sv /\ srcs !! j = Some sc /\
      yields exRoot "title" titleDef exTitleValueFile sv /\ yields exRoot "title" titleDef exAboutConfig sc.
Proof.
  do 2 eexists. split; [reflexivity|].
  eapply (value_file_overrides_config_file exRoot "title" titleDef exGroups exAbout
    exTitleValueFile exAboutConfig initPassState);
    [decide_ids|in_list|in_list|in_list
    |reflexivity|reflexivity|reflexivity|reflexivity|reflexivity].
Defined.

Lemma earlier_location_first_witness :
  exists srcs s',
    resolveConfigValueSources exRoot "title" titleDef ([] ++ exAbout :: [] ++ exPages :: []) initPassState
      = Ok (Some srcs, s') /\
    exists i j sf sh, i < j /\ srcs !! i = Some sf /\ srcs !! j = Some sh /\
      yields exRoot "title" titleDef exVikeReactConfig sf /\ yields exRoot "title" titleDef exPagesConfig sh.
Proof.
  do 2 eexists. split; [reflexivity|].
  eapply (earlier_location_first exRoot "title" titleDef [] exAbout [] exPages []
    exVikeReactConfig exPagesConfig initPassState);
    [decide_ids|in_list|reflexivity|in_list|reflexivity|reflexivity].
Defined.

Lemma direct_config_before_extends_witness :
  exists srcs s',
    resolveConfigValueSources exRoot "title" titleDef exGroups initPassState = Ok (Some srcs, s') /\
    exists i j sc se, i < j /\ srcs !! i = Some sc /\ srcs !! j = Some se /\
      yields exRoot "title" titleDef exAboutConfig sc /\ yields exRoot "title" titleDef exVikeReactConfig se.
Proof.
  do 2 eexists. split; [reflexivity|].
  eapply (direct_config_before_extends exRoot "title" titleDef exGroups exAbout
    exAboutConfig exVikeReactConfig initPassState);
    [decide_ids|in_list|in_list|in_list
    |reflexivity|reflexivity|reflexivity|reflexivity|reflexivity].
Defined.

Lemma relativeToUserRootDir_sibling_directory_bug_witness :
  startsWith "/home/app2/x.js" "/home/app" = true /\
  resolveImportPath_relativeToUserRootDir "/home/app" "/home/app2/x.js" exImportData
    (userFile "/pages/+config.js") initPassState = Err (Bug "getVitePathFromAbsolutePath:relative", initPassState).
Proof.
  split; [reflexivity|].
  apply relativeToUserRootDir_sibling_directory_bug; [reflexivity|].
  apply (bool_decide_unpack _); vm_compute; exact I.
Defined.

Lemma resolveConfigValueSources_filesEnvConsistent_witness :
  exists r s',
    resolveConfigValueSources exRoot "onRenderHtml" renderDef exGroups initPassState = Ok (r, s') /\
    filesEnvConsistent s'.
Proof.
  do 2 eexists. split; [reflexivity|].
  eapply (resolveConfigValueSources_filesEnvConsistent exRoot "onRenderHtml" renderDef exGroups initPassState);
    [apply initPassState_consistent|reflexivity].
Defined.

Lemma assertFileEnv_conflict_witness :
  (assertFileEnv "/app/pages/shared.js" ServerOnly "onRenderHtml" >>
   assertFileEnv "/app/pages/shared.js" ClientOnly "onRenderClient") initPassState
  = Err (Usage (ErrFileEnvConflict "/app/pages/shared.js" (ServerOnly, "onRenderHtml")
                  (ClientOnly, "onRenderClient")),
         mkPassState (JsObject.set "/app/pages/shared.js" [(ServerOnly, "onRenderHtml"); (ClientOnly, "onRenderClient")]
                        (filesEnv initPassState)) (warnings initPassState)).
Proof. apply assertFileEnv_conflict; [reflexivity|discriminate]. Defined.

Lemma mergeCumulative_arrays_witness :
  mergeCumulative "passToClient"
    [cumulativeSource (VArray [VNumber 1; VNumber 2]) "/pages/about/+config.js";
     cumulativeSource (VArray [VNumber 3]) "/pages/+config.js"] initPassState
  = Ok (VArray [VNumber 1; VNumber 2; VNumber 3], initPassState).
Proof.
  apply (mergeCumulative_arrays "passToClient" _ [[VNumber 1; VNumber 2]; [VNumber 3]]);
    [repeat constructor|discriminate].
Defined.

Lemma mergeCumulative_sets_witness :
  mergeCumulative "passToClient"
    [cumulativeSource (VSet [VString "a"; VString "b"]) "/pages/about/+config.js";
     cumulativeSource (VSet [VString "b"; VString "c"]) "/pages/+config.js"] initPassState
  = Ok (VSet [VString "a"; VString "b"; VString "c"], initPassState).
Proof.
  apply (mergeCumulative_sets "passToClient" _ [[VString "a"; VString "b"]; [VString "b"; VString "c"]]);
    [repeat constructor|discriminate].
Defined.

Lemma mergeCumulative_mixed_witness :
  exists p, last [cumulativeSource (VArray [VNumber 1]) "/pages/about/+config.js"] = Some p /\
  mergeCumulative "passToClient"
    ([cumulativeSource (VArray [VNumber 1]) "/pages/about/+config.js"] ++
     cumulativeSource (VSet [VString "b"]) "/pages/+config.js" :: []) initPassState
  = Err (Usage (ErrCumulativeMixed "passToClient"
                  (definedAtInfo (cumulativeSource (VSet [VString "b"]) "/pages/+config.js"))
                  (definedAtInfo p)), initPassState).
Proof.
  apply (mergeCumulative_mixed false "passToClient" _ [[VNumber 1]] _ [VString "b"] []);
    [repeat constructor|discriminate|repeat constructor].
Defined.

Lemma getConfigDefinitions_builtin_witness :
  exists defs s', getConfigDefinitions exRelevant initPassState = Ok (defs, s') /\
    JsObject.get "title" defs = JsObject.get "title" configDefinitionsBuiltIn.
Proof.
  do 2 eexists. split; [reflexivity|].
  eapply (getConfigDefinitions_builtin exRelevant "title" initPassState); [forall_in_list|reflexivity].
Defined.

Lemma getConfigDefinitions_last_meta_wins_witness :
  exists defs s', getConfigDefinitions exMetaRelevant initPassState = Ok (defs, s') /\
    env <$> JsObject.get "myConf" defs = Some ServerOnly.
Proof.
  do 2 eexists. split; [reflexivity|].
  eapply (getConfigDefinitions_last_meta_wins exMetaRelevant [exMetaAbout] exMetaRoot []
           "myConf" (VObject [("myConf", VObject [("env", VString "server-only")])])
           (VObject [("env", VString "server-only")]) "server-only" initPassState);
    [reflexivity|reflexivity|decide_ids|reflexivity|reflexivity|intros ? Hg; by apply not_elem_of_nil in Hg
    |reflexivity].
Defined.

(** [/pages/+config.js] sets [env] of [myConf] and no [effect] over a
    definition with an [effect]. *)
Definition effectDefs : ConfigDefinitions := [("myConf", mkConfigDef ConfigOnly false None (Some (VFunction 7)) false)].

Lemma meta_effect_survives_env_override_witness :
  exists defs' s', addMetaOfFile effectDefs exMetaRoot initPassState = Ok (defs', s') /\
    exists d, JsObject.get "myConf" defs' = Some d /\ effect d = Some (VFunction 7) /\
      JsObject.get "server-only" envValues = Some (env d) /\ env d = ServerOnly.
Proof.
  destruct (addMetaOfFile effectDefs exMetaRoot initPassState) as [[defs' s']|e] eqn:E;
    [|vm_compute in E; discriminate].
  exists defs', s'. split; [reflexivity|].
  destruct (meta_effect_survives_env_override effectDefs exMetaRoot "myConf"
              (VObject [("myConf", VObject [("env", VString "server-only")])])
              (VObject [("env", VString "server-only")]) "server-only"
              (mkConfigDef ConfigOnly false None (Some (VFunction 7)) false) initPassState defs' s'
              eq_refl ltac:(decide_ids) eq_refl eq_refl eq_refl eq_refl E) as (d & Hd & Heff & Henv).
  exists d. split; [exact Hd|split; [exact Heff|split; [exact Henv|]]].
  simpl in Henv. by injection Henv as <-.
Defined.

Lemma assertConfigExists_spec_witness :
  @assertConfigExists exBuiltIns levenshteinSimilarity "tilte" ["title"; "Page"] "/pages/+config.js"
    initPassState
  = Err (Usage (ErrUnknownConfig "tilte" "/pages/+config.js" (Some "title")), initPassState).
Proof. rewrite assertConfigExists_spec. vm_compute. reflexivity. Defined.

Lemma loadConfigFile_enough_fuel_witness :
  (forall ip cwd p, @requireResolve closedResolver ip cwd = Some p -> p ∈ extendsUniverse) /\
  st_avoids fuelBug (@loadConfigFile closedResolver twoExtendsLoader inOrderCompletion exRoot 4
                       pagesConfigPath []).
Proof.
  assert (HU : forall ip cwd p, @requireResolve closedResolver ip cwd = Some p -> p ∈ extendsUniverse).
  { intros ip cwd p. unfold closedResolver. cbn [requireResolve]. destruct (@requireResolve exResolver ip cwd) as [r|]; [|discriminate].
    destruct (bool_decide _) eqn:Hb; intros H; [|discriminate].
    injection H as <-. by apply bool_decide_eq_true in Hb. }
  split; [exact HU|].
  apply (@loadConfigFile_enough_fuel closedResolver twoExtendsLoader inOrderCompletion exRoot
           extendsUniverse HU 4 pagesConfigPath [] "/app/pages/+config.js");
    [reflexivity|in_list|constructor|constructor|simpl; lia].
Defined.

Lemma extends_cycle_detected_witness :
  exists s', @loadConfigFile exResolver cycleLoader inOrderCompletion exRoot 3 pagesConfigPath [] initPassState
  = Err (Usage (ErrInfiniteExtendsLoop ["/app/pages/+config.js"; "/app/pages/+base.js"; "/app/pages/+config.js"]), s').
Proof.
  apply (@extends_cycle_detected exResolver cycleLoader inOrderCompletion exRoot 2 pagesConfigPath
           "/app/pages/+config.js" "/app/pages/+base.js"
           (extendsExports (VString "import:./+base.js")) (extendsExports (VString "import:./+config.js")));
    [lia|reflexivity|discriminate|reflexivity| |intros fp Hfp; simpl; by rewrite Hfp|];
    do 3 eexists; repeat split; reflexivity.
Defined.

(** The loads of [/pages/a] and [/pages/b], extended in this order,
    settle in reverse: [extendsFilePaths] keeps the order of [extends],
    the extended configs come [b] first. *)
Lemma extends_order_is_completion_order_witness :
  exists cf exts s',
    @loadConfigFile exResolver twoExtendsLoader reverseCompletion exRoot 3 pagesConfigPath [] initPassState
      = Ok ((cf, exts), s') /\
    cf_extendsFilePaths cf = ["/app/pages/a/+config.js"; "/app/pages/b/+config.js"]%string /\
    configFilePaths exts = [Some "/app/pages/b/+config.js"; Some "/app/pages/a/+config.js"]%string /\
    exists a files cfs, filePathAbsolute pagesConfigPath = Some a /\
      cf_extendsFilePaths cf = map (fun f => default "" (filePathAbsolute f)) files /\
      exts = concat (map (fun p => p.1 :: p.2) cfs) /\
      map (fun p => cf_filePath p.1) cfs = @completionOrder reverseCompletion ([] ++ [a]) files.
Proof.
  destruct (@loadConfigFile exResolver twoExtendsLoader reverseCompletion exRoot 3 pagesConfigPath [] initPassState)
    as [[[cf exts] s']|e] eqn:E; [|vm_compute in E; discriminate].
  exists cf, exts, s'. split; [reflexivity|].
  pose proof E as E'. vm_compute in E'. injection E' as <- <- _.
  split; [reflexivity|split; [reflexivity|]].
  exact (@extends_order_is_completion_order exResolver twoExtendsLoader reverseCompletion exRoot 3 _ _ _ _ _ _ E).
Defined.
