(* ===== verification/PageWitnesses.v ===== *)
(** * Witnesses of the page-assembly theorems

    Concrete inputs at which the theorems of Locations.v, Effects.v,
    Route.v and Interface.v apply, their hypotheses discharged by
    evaluation.  The project of Witnesses.v is reused: its built-in
    definitions, resolver and module loaders. *)

From stdpp Require Import base list strings.
From Stdlib Require Import Ascii Lia Sorting.
From Stdlib Require String.
From S2P Require Import Prelude Js Model Collaborators Resolve Cumulative Registry Extends Locations Effects Route Interface Witnesses.

(** ** Data *)

(** [/pages/about/+config.js] sets the global config [onBeforeRoute]. *)
Definition exGlobalConfig : IFile :=
  mkIFile 7 (InterfaceConfigFile (userFile "/pages/about/+config.js")
    [("onBeforeRoute", Some (VString "import:./onBeforeRoute.js"))] [] false).
Definition exMisplaced : InterfaceFilesByLocationId :=
  [("/pages/about", [exGlobalConfig]); ("/pages", exPages)].

(** A source of [/pages/+config.js] with the given value and environment. *)
Definition configSource (v : value) (e : ConfigEnvInternal) : ConfigValueSource :=
  mkConfigValueSource (Some v) false e false false
    (Some (mkDefinedAtFileInfo (userFile "/pages/+config.js") ["default"])).

(** User functions: no effect returns a modification; every [_computed]
    function returns the string [computed]. *)
#[export] Instance exHost : Host := {|
  callEffect _ _ _ := VUndefined;
  callComputed _ _ := VString "computed"
|}.

Definition computedDef : ConfigDefinitionInternal := mkConfigDef ServerOnly false (Some (VFunction 1)) None false.

Definition exPageConfig : PageConfigBuildTime :=
  mkPageConfig "/pages/about" None None [("title", [configSource (VString "About") ServerAndClient])] [].

(** Route strings: the location itself, with [before] replaced by [after]. *)
#[export] Instance exRouteStrings : RouteStrings := {|
  getFilesystemRouteString l := l;
  getFilesystemRouteDefinedBy l := l;
  applyFilesystemRoutingRootEffect r '(before, after) :=
    (after +:+ String.substring (String.length before) (String.length r) r)%string
|}.

(** [/pages/+config.js] sets [filesystemRoutingRoot: '/docs']. *)
Definition exRoutingRoot : JsObject.t (list ConfigValueSource) :=
  [("filesystemRoutingRoot", [configSource (VString "/docs") ConfigOnly])].

(** The plus files of a project: a config file and two value files. *)
Definition exPlusFiles : list UserFilePath :=
  [mkUserFilePath "/app/pages/+config.js" "/pages/+config.js";
   mkUserFilePath "/app/pages/+title.js" "/pages/+title.js";
   mkUserFilePath "/app/pages/about/+title.js" "/pages/about/+title.js"].

(** ** Witnesses *)

Lemma getGlobalConfigs_misplaced_witness :
  exists loc' files' f' name', (loc', files') ∈ exMisplaced /\ f' ∈ files' /\
    FilesystemRouting.isGlobalLocation loc' (JsObject.keys exMisplaced) = false /\ isGlobalConfig name' = true /\
    getGlobalConfigs exRoot exMisplaced initPassState
      = Err (Usage (ErrGlobalConfig (getFilePathToShowToUser (if_filePath (ifData f'))) name' (globalDirs exMisplaced)),
             initPassState).
Proof.
  apply (getGlobalConfigs_misplaced exRoot exMisplaced "/pages/about" [exGlobalConfig] exGlobalConfig
           "onBeforeRoute" initPassState); [decide_ids|in_list|in_list|in_list|reflexivity|reflexivity].
Defined.

Lemma applyEffect_env_override_witness :
  exists sources',
    applyEffect (VObject [("meta", VObject [("title", VObject [("env", VString "client-only")])])])
      (configSource (VString "fn") ConfigOnly) (configValueSources exPageConfig) initPassState
      = Ok (sources', initPassState) /\
    (forall name, name <> "title"%string ->
       JsObject.get name sources' = JsObject.get name (configValueSources exPageConfig)) /\
    option_Forall2 (Forall2 (fun a b => configEnv b = ClientOnly /\ cvs_value b = cvs_value a /\
                                         definedAtInfo b = definedAtInfo a /\ isComputed b = isComputed a))
      (JsObject.get "title" (configValueSources exPageConfig)) (JsObject.get "title" sources').
Proof.
  apply applyEffect_env_override; [reflexivity|eexists; reflexivity|reflexivity].
Defined.

Lemma applyComputed_explicit_first_witness :
  exists l, JsObject.get "title" (configValueSources (applyComputed exPageConfig [("title", computedDef)])) = Some l /\
    forall configDef s, cumulative configDef = false ->
      getConfigValue "title" l configDef s
      = getConfigValue "title" [configSource (VString "About") ServerAndClient] configDef s.
Proof. apply applyComputed_explicit_first. reflexivity. Defined.

Lemma applyComputed_default_witness :
  JsObject.get "myComputed" (configValueSources (applyComputed exPageConfig [("myComputed", computedDef)]))
    = Some [computedSource (VString "computed") computedDef] /\
  forall s, cumulative computedDef = false ->
    getConfigValue "myComputed" [computedSource (VString "computed") computedDef] computedDef s
    = Ok (Some (mkConfigValue (VString "computed") DefinedAtComputed), s).
Proof.
  apply (applyComputed_default exPageConfig [("myComputed", computedDef)] "myComputed" computedDef (VFunction 1));
    [reflexivity|decide_ids|in_list|reflexivity|reflexivity|reflexivity|discriminate].
Defined.

(** With [filesystemRoutingRoot: '/docs'] set in [/pages/+config.js], the
    route of [/pages/about] is [/docs/about]. *)
Definition exRoute : option bool * option RouteFilesystem :=
  (None, Some (mkRouteFilesystem "/docs/about"
                 "/pages/about (with Config filesystemRoutingRoot defined at /pages/+config.js#default)")).

(** The route of [/pages/about] under [filesystemRoutingRoot: '/docs'],
    and the usage error of the value [docs]. *)
Lemma determineRouteFilesystem_routingRoot_witness :
  determineRouteFilesystem "/pages/about" exRoutingRoot initPassState = Ok (exRoute, initPassState) /\
  determineRouteFilesystem "/pages/about"
    [("filesystemRoutingRoot", [configSource (VString "docs") ConfigOnly])] initPassState
  = Err (Usage (ErrRoutingRootNoLeadingSlash
                  "Config filesystemRoutingRoot defined at /pages/+config.js#default" "docs"), initPassState).
Proof.
  split.
  - rewrite (determineRouteFilesystem_routingRoot "/pages/about" exRoutingRoot _ []
               (mkDefinedAtFileInfo (userFile "/pages/+config.js") ["default"]) "/pages/+config.js" "/docs")
      by (reflexivity || discriminate).
    vm_compute. reflexivity.
  - rewrite (determineRouteFilesystem_routingRoot "/pages/about" _ (configSource (VString "docs") ConfigOnly) []
               (mkDefinedAtFileInfo (userFile "/pages/+config.js") ["default"]) "/pages/+config.js" "docs")
      by (reflexivity || discriminate).
    vm_compute. reflexivity.
Defined.

Lemma loadInterfaceFiles_ids_unique_witness :
  exists byLoc next s',
    @loadInterfaceFiles exResolver twoExtendsLoader inOrderCompletion exBuiltIns inOrderSettle exRoot 3 exPlusFiles 10 initPassState
      = Ok ((byLoc, next), s') /\
    NoDup (map ifId (concat (JsObject.values byLoc))) /\
    Forall (fun f => 10 <= ifId f < next) (concat (JsObject.values byLoc)).
Proof.
  destruct (@loadInterfaceFiles exResolver twoExtendsLoader inOrderCompletion exBuiltIns inOrderSettle exRoot 3 exPlusFiles 10
              initPassState) as [[[byLoc next] s']|e] eqn:E; [|vm_compute in E; discriminate].
  exists byLoc, next, s'. split; [reflexivity|]. exact (loadInterfaceFiles_ids_unique exRoot 3 _ _ _ _ _ _ E).
Defined.

(** The project of [exPlusFiles] with a file [/pages/+.js] besides. *)
Definition plusOnlyFile : UserFilePath := mkUserFilePath "/app/pages/+.js" ("/pages" +:+ "/+." +:+ "js").

Lemma plus_only_file_is_internal_error_witness :
  @isTmpFile twoExtendsLoader ("/pages" +:+ "/+." +:+ "js") = false /\
  includesPlus "/pages" = false /\ includesPlus "js" = false /\ includesChar "/"%char "js" = false /\
  plusOnlyFile ∈ exPlusFiles ++ [plusOnlyFile] /\
  (forall acc s0, @startValueInterfaceFile twoExtendsLoader exBuiltIns acc plusOnlyFile s0
                  = Err (Bug "loadInterfaceFiles:configName", s0)) /\
  (forall r s', @loadInterfaceFiles exResolver twoExtendsLoader inOrderCompletion exBuiltIns inOrderSettle exRoot 3
                  (exPlusFiles ++ [plusOnlyFile]) 10 initPassState <> Ok (r, s')).
Proof.
  assert (Hin : plusOnlyFile ∈ exPlusFiles ++ [plusOnlyFile]) by (apply elem_of_app; right; left).
  do 4 (split; [reflexivity|]). split; [exact Hin|].
  exact (@plus_only_file_is_internal_error exResolver twoExtendsLoader inOrderCompletion exBuiltIns inOrderSettle
           exRoot 3 "/pages" "js" "/app/pages/+.js" _ 10 initPassState eq_refl eq_refl eq_refl eq_refl Hin).
Defined.

Lemma getConfigName_roundtrip_witness :
  @isTmpFile twoExtendsLoader ("/pages/about" +:+ "/+" +:+ "title" +:+ "." +:+ "js")%string = false /\
  @getConfigName twoExtendsLoader ("/pages/about" +:+ "/+" +:+ "title" +:+ "." +:+ "js")%string initPassState
  = Ok (Some "title"%string, initPassState).
Proof.
  split; [reflexivity|].
  apply (@getConfigName_roundtrip twoExtendsLoader "/pages/about" "title" "js" initPassState);
    reflexivity.
Defined.

Lemma loadInterfaceFiles_wf_witness :
  exists byLoc next s',
    @loadInterfaceFiles exResolver twoExtendsLoader inOrderCompletion exBuiltIns inOrderSettle exRoot 3 exPlusFiles 10 initPassState
      = Ok ((byLoc, next), s') /\
    Forall wfInterfaceFile (concat (JsObject.values byLoc)).
Proof.
  destruct (@loadInterfaceFiles exResolver twoExtendsLoader inOrderCompletion exBuiltIns inOrderSettle exRoot 3 exPlusFiles 10
              initPassState) as [[[byLoc next] s']|e] eqn:E; [|vm_compute in E; discriminate].
  exists byLoc, next, s'. split; [reflexivity|]. exact (loadInterfaceFiles_wf exRoot 3 _ _ _ _ _ _ E).
Defined.
