(* ===== verification/PassWitnesses.v ===== *)
(** * A whole pass on concrete projects

    [loadVikeConfig] (Pass.v) run on small projects: the resolver, built-in
    definitions, host and route strings of Witnesses.v and PageWitnesses.v,
    a crawl and a module loader for the files of each project, the
    Levenshtein suggestions and the sequential schedule.  The
    witnesses apply the theorems of Pass.v, PassFrame.v and Lifecycle.v
    to these projects: a built-in config made [config-only] by [meta],
    and a dev server whose config is edited while a pass is in flight. *)

From stdpp Require Import base list strings.
From Stdlib Require Import Lia.
From Stdlib Require String.
From S2P Require Import Prelude Js Model Collaborators Resolve FilesEnv Cumulative Registry Extends Locations Effects Route Interface Discovery Pass Lifecycle PassFrame Witnesses PageWitnesses.

#[local] Existing Instance levenshteinSimilarity.

(** A module loader serving fixed exports per absolute path. *)
Definition mapLoader (files : list (string * JsObject.t value)) : ModuleLoader := {|
  transpileAndExecuteFile fp _ :=
    match filePathAbsolute fp with
    | Some p => JsObject.get p files
    | None => None
    end;
  isTmpFile _ := false
|}.

(** A crawl that finds the plus files of a project, below the root. *)
Definition crawlerOf (plusFiles : list UserFilePath) : Crawler := {|
  scriptFileExtensions := "{js,ts}";
  glob _ _ _ := (fun f => slice1 (ufp_filePathRelativeToUserRootDir f)) <$> plusFiles
|}.

(** Two pages: [/pages] and [/pages/about], which also has a [+title.js]. *)
Definition twoPagesFiles : list (string * JsObject.t value) :=
  [("/app/pages/+config.js", [("default", VObject [("Page", VString "Root"); ("title", VString "Home")])]);
   ("/app/pages/about/+config.js", [("default", VObject [("Page", VString "About")])]);
   ("/app/pages/about/+title.js", [("default", VString "About us")])].

Definition twoPagesPlusFiles : list UserFilePath :=
  [mkUserFilePath "/app/pages/+config.js" "/pages/+config.js";
   mkUserFilePath "/app/pages/about/+config.js" "/pages/about/+config.js";
   mkUserFilePath "/app/pages/about/+title.js" "/pages/about/+title.js"].

(** [/pages/+config.js] makes the built-in config [title] [config-only]
    through [meta], and [/pages/+title.js] sets it. *)
Definition metaOverrideFiles : list (string * JsObject.t value) :=
  [("/app/pages/+config.js",
    [("default", VObject [("Page", VString "Root");
                          ("meta", VObject [("title", VObject [("env", VString "config-only")])])])]);
   ("/app/pages/+title.js", [("default", VString "Home")])].

Definition metaOverridePlusFiles : list UserFilePath :=
  [mkUserFilePath "/app/pages/+config.js" "/pages/+config.js";
   mkUserFilePath "/app/pages/+title.js" "/pages/+title.js"].

(** A build ([isDev] false) of a project whose crawl finds [plusFiles],
    with the output directory [/app/dist] and no extension. *)
Definition passM (files : list (string * JsObject.t value)) (plusFiles : list UserFilePath) : M VikeConfig :=
  @loadVikeConfig exResolver (mapLoader files) inOrderCompletion exBuiltIns levenshteinSimilarity exHost
    exRouteStrings sequentialScheduler (crawlerOf plusFiles) inOrderSettle exRoot 3 "/app/dist" false [] 0.

Definition passOf (files : list (string * JsObject.t value)) (plusFiles : list UserFilePath) :=
  passM files plusFiles initPassState.

(** [/pages/+config.js] declares the custom config [myConf] as
    [config-only]; [/pages/+myConf.js] sets it, and is loaded by the page. *)
Definition customFiles : list (string * JsObject.t value) :=
  [("/app/pages/+config.js",
    [("default", VObject [("Page", VString "Root");
                          ("meta", VObject [("myConf", VObject [("env", VString "config-only")])])])]);
   ("/app/pages/+myConf.js", [("default", VNumber 42)])].

Definition customPlusFiles : list UserFilePath :=
  [mkUserFilePath "/app/pages/+config.js" "/pages/+config.js";
   mkUserFilePath "/app/pages/+myConf.js" "/pages/+myConf.js"].

(** ** Witnesses *)

Lemma loadVikeConfig_pageIds_witness :
  exists vc s', passOf customFiles customPlusFiles = Ok (vc, s') /\
  exists byLoc next s1,
    @loadInterfaceFilesFromRoot exResolver (mapLoader customFiles) inOrderCompletion exBuiltIns inOrderSettle (crawlerOf customPlusFiles)
      exRoot 3 "/app/dist" false [] 0 0 initPassState = Ok ((byLoc, next), s1) /\
    pageId <$> pageConfigs vc = fst <$> List.filter (fun e => isDefiningPage e.2) byLoc.
Proof.
  destruct (passOf customFiles customPlusFiles) as [[vc s']|e] eqn:E; [|vm_compute in E; discriminate].
  exists vc, s'. split; [reflexivity|]. exact (loadVikeConfig_pageIds exRoot 3 _ _ _ _ _ _ _ E).
Defined.

(** ** A built-in config made [config-only] by [meta] *)

(** The value file [/pages/+title.js] as [loadInterfaceFiles] leaves it
    (not loaded: [title] is not [config-only] among the built-in
    definitions), and the definitions in force at [/pages], where [meta]
    made [title] [config-only]. *)
Definition titleValueFile : IFile :=
  mkIFile 1 (InterfaceValueFile (mkFilePath (Some "/app/pages/+title.js") (Some "/pages/+title.js") None)
    [("title", None)] "title").

Definition titleConfigOnly : ConfigDefinitions := [("title", mkConfigDef ConfigOnly false None None false)].

Lemma builtin_config_only_override_is_internal_error_witness :
  (exists s, passOf metaOverrideFiles metaOverridePlusFiles = Err (Bug "loadVikeConfig:configDefinitionsBuiltIn", s)) /\
  @valueFileToLoad exBuiltIns levenshteinSimilarity titleConfigOnly titleValueFile initPassState
  = Err (Bug "loadVikeConfig:configDefinitionsBuiltIn", initPassState).
Proof.
  split; [eexists; vm_compute; reflexivity|].
  apply (builtin_config_only_override_is_internal_error (BI := exBuiltIns) titleConfigOnly titleValueFile
           (mkFilePath (Some "/app/pages/+title.js") (Some "/pages/+title.js") None) [("title", None)] "title"
           (mkConfigDef ConfigOnly false None None false));
    [reflexivity|repeat constructor|eexists; reflexivity|reflexivity|reflexivity|reflexivity].
Defined.

(** ** A dev server whose config is edited while a pass is in flight *)

(** A project whose [+config.js] imports [./shared.js] for [title]
    ([server-and-client]), and the same project after an edit that imports
    it for [onRenderHtml] ([server-only]) instead. *)
Definition sharedImportFiles (configName : string) : list (string * JsObject.t value) :=
  [("/app/pages/+config.js",
    [("default", VObject [("Page", VString "Root"); (configName, VString "import:./shared.js")])])].

Definition sharedImportPlusFiles : list UserFilePath := [mkUserFilePath "/app/pages/+config.js" "/pages/+config.js"].

(** The dev server's pass of the [n]-th call of
    [loadVikeConfig_withErrorHandling]: the first loads the project
    before the edit, the later ones the project after it. *)
Definition editPass (n : nat) : M VikeConfig :=
  @loadVikeConfig exResolver (mapLoader (sharedImportFiles (if Nat.eqb n 0 then "title" else "onRenderHtml")))
    inOrderCompletion exBuiltIns levenshteinSimilarity exHost exRouteStrings sequentialScheduler
    (crawlerOf sharedImportPlusFiles) inOrderSettle exRoot 3 "/app/dist" true [] 0.

Definition editConflict : VikeError :=
  Usage (ErrFileEnvConflict "/app/pages/shared.js" (ServerAndClient, "title") (ServerOnly, "onRenderHtml")).

(** The table the first pass leaves. *)
Definition editState1 : PassState :=
  match editPass 0 initPassState with Ok (_, s) | Err (_, s) => s end.

Lemma initPassState_filesEnvConsistent : filesEnvConsistent initPassState.
Proof. intros p l Hl. discriminate. Qed.

(** The pass before the edit leaves a consistent table; the pass after
    it, run on that table, fails with the conflict on [./shared.js], and
    the table it leaves records both environments. *)
Lemma loadVikeConfig_filesEnv_witness :
  filesEnvConsistent editState1 /\
  exists s2, editPass 1 editState1 = Err (editConflict, s2) /\ filesEnvAfterError editConflict s2.
Proof.
  assert (H0 : match editPass 0 initPassState with
               | Ok (_, s') => filesEnvConsistent s' | Err (e, s') => filesEnvAfterError e s' end)
    by exact (@loadVikeConfig_filesEnv exResolver (mapLoader (sharedImportFiles "title")) inOrderCompletion
                exBuiltIns levenshteinSimilarity exHost exRouteStrings sequentialScheduler
                (crawlerOf sharedImportPlusFiles) inOrderSettle exRoot 3 "/app/dist" true [] 0 initPassState
                initPassState_filesEnvConsistent).
  assert (Hc : filesEnvConsistent editState1).
  { unfold editState1. destruct (editPass 0 initPassState) as [[vc s1]|[e s1]] eqn:E;
      [exact H0|vm_compute in E; discriminate]. }
  assert (H1 : match editPass 1 editState1 with
               | Ok (_, s') => filesEnvConsistent s' | Err (e, s') => filesEnvAfterError e s' end)
    by exact (@loadVikeConfig_filesEnv exResolver (mapLoader (sharedImportFiles "onRenderHtml")) inOrderCompletion
                exBuiltIns levenshteinSimilarity exHost exRouteStrings sequentialScheduler
                (crawlerOf sharedImportPlusFiles) inOrderSettle exRoot 3 "/app/dist" true [] 0 editState1 Hc).
  split; [exact Hc|].
  destruct (editPass 1 editState1) as [[vc s2]|[e s2]] eqn:E; [vm_compute in E; discriminate|].
  pose proof E as E'. vm_compute in E'. injection E' as He _. subst e.
  exists s2. split; [reflexivity|exact H1].
Defined.

(** The dev server after the first call of [getVikeConfig], its pass
    still in flight. *)
Definition editStart : LState :=
  match runEvents editPass initLState [GetVikeConfig true false] with
  | Some (Ok st) => st
  | _ => initLState
  end.

(** The edit reloads the config before the first pass settles: the stale
    pass records [./shared.js] as [server-and-client] in the cleared
    table, the reload's pass fails on it, and the config is marked
    invalid although the project it loads is valid. *)
Lemma stale_pass_shares_files_env_witness :
  reachable editPass editStart /\ promises editStart !! 0 = Some (mkPassPromise true false Pending) /\
  exists st', runEvents editPass editStart [Reload; Settle 0; Settle 1] = Some (Ok st') /\
    vikeConfigPromise st' = Some 1 /\ isConfigInvalid st' = Some true.
Proof.
  assert (Hr : reachable editPass editStart)
    by (apply (runEvents_reachable editPass initLState [GetVikeConfig true false]); [constructor|vm_compute; reflexivity]).
  assert (Hp : promises editStart !! 0 = Some (mkPassPromise true false Pending)) by (vm_compute; reflexivity).
  assert (Hl : length (promises editStart) = 1) by (vm_compute; reflexivity).
  split; [exact Hr|split; [exact Hp|]].
  destruct (stale_pass_shares_files_env editPass editStart 0 _ Hr Hp eq_refl) as (st' & E & Hv & _ & Hi).
  rewrite Hl in E, Hv, Hi. exists st'. split; [exact E|split; [exact Hv|]].
  rewrite Hi. vm_compute. reflexivity.
Defined.
